(** * Scene interaction and history engine of the fabric editor

    A shallow embedding of [HistoryManager] and of the parts of
    [ToolsManager] that build, synchronise and delete bound pairs, handle
    the placeholder of a text and switch tools, with the properties the
    specification states about them; then the rest of the editor around
    them (the history under any sequence of events, image filters, drawing
    gestures, tool switching, cropping, zoom and canvas size, image import,
    aligning and distributing), with the properties the code itself shows.

    Conventions shared by all modules:
    - a JS array is a [list] in array order (index 0 first); [push] appends
      at the end, [pop] takes from the end, [shift] drops index 0;
    - a JS string is a [string];
    - a JS number holding a coordinate or a size is an exact rational [Q];
      the distances the relink compares are computed from them in binary64,
      as the code computes them ([Binary64]);
    - a JS object reference is an [ObjId], an index into a store of objects,
      so that two references to one object alias. *)

From Stdlib Require Import QArith Qabs Qround Lqa Ascii String.
From Stdlib Require PrimFloat FloatAxioms FloatOps SpecFloat.
From stdpp Require Import base option list strings gmap.

Open Scope nat_scope.

(** ** Snapshot history manager (HistoryManager.js) *)

Module History.

(** [this.maxStates], [this.undoStack], [this.redoStack], [this.isRestoring],
    [this.isSaving] are the fields of the class.  [debounceTimer] records
    whether a debounced callback is outstanding.  Two observation fields
    stand for the canvas side of a restore: [loading] is the snapshot handed
    to [canvas.loadFromJSON] whose promise has not settled yet, and
    [canvasDoc] the last snapshot whose load resolved. *)
Record HistoryManager := mkHistory {
  maxStates : nat;
  undoStack : list string;
  redoStack : list string;
  isRestoring : bool;
  isSaving : bool;
  debounceTimer : bool;
  loading : option string;
  canvasDoc : option string
}.

Definition set_undoStack (u : list string) (hm : HistoryManager) :=
  mkHistory (maxStates hm) u (redoStack hm) (isRestoring hm) (isSaving hm)
            (debounceTimer hm) (loading hm) (canvasDoc hm).
Definition set_redoStack (r : list string) (hm : HistoryManager) :=
  mkHistory (maxStates hm) (undoStack hm) r (isRestoring hm) (isSaving hm)
            (debounceTimer hm) (loading hm) (canvasDoc hm).
Definition set_isRestoring (b : bool) (hm : HistoryManager) :=
  mkHistory (maxStates hm) (undoStack hm) (redoStack hm) b (isSaving hm)
            (debounceTimer hm) (loading hm) (canvasDoc hm).
Definition set_isSaving (b : bool) (hm : HistoryManager) :=
  mkHistory (maxStates hm) (undoStack hm) (redoStack hm) (isRestoring hm) b
            (debounceTimer hm) (loading hm) (canvasDoc hm).
Definition set_debounceTimer (b : bool) (hm : HistoryManager) :=
  mkHistory (maxStates hm) (undoStack hm) (redoStack hm) (isRestoring hm)
            (isSaving hm) b (loading hm) (canvasDoc hm).
Definition set_loading (l : option string) (hm : HistoryManager) :=
  mkHistory (maxStates hm) (undoStack hm) (redoStack hm) (isRestoring hm)
            (isSaving hm) (debounceTimer hm) l (canvasDoc hm).
Definition set_canvasDoc (d : option string) (hm : HistoryManager) :=
  mkHistory (maxStates hm) (undoStack hm) (redoStack hm) (isRestoring hm)
            (isSaving hm) (debounceTimer hm) (loading hm) d.

(** [constructor(editor, maxStates = 50)] *)
Definition new (maxStates : nat) : HistoryManager :=
  mkHistory maxStates [] [] false false false None None.

Definition defaultMaxStates : nat := 50.

(** [arr[arr.length - 1] === s], false on the empty array. *)
Definition top_is (s : string) (l : list string) : bool :=
  match last l with
  | Some t => String.eqb t s
  | None => false
  end.

(** [arr.shift()]: drops index 0. *)
Definition shift (l : list string) : list string := tail l.

(** [_doSaveState()].  [stateStr] is the result of
    [JSON.stringify(canvas.toJSON([...]))]; [None] stands for an exception
    thrown inside the [try], which the [catch] logs. *)
Definition _doSaveState (stateStr : option string) (hm : HistoryManager)
  : HistoryManager :=
  if isRestoring hm || isSaving hm then hm
  else
    let hm1 := set_isSaving true hm in
    match stateStr with
    | None => set_isSaving false hm1
    | Some s =>
        if (0 <? length (undoStack hm1)) && top_is s (undoStack hm1)
        then set_isSaving false hm1
        else
          let hm2 := set_undoStack (undoStack hm1 ++ [s]) hm1 in
          let hm3 := set_redoStack [] hm2 in
          let hm4 :=
            if maxStates hm3 <? length (undoStack hm3)
            then set_undoStack (shift (undoStack hm3)) hm3
            else hm3 in
          set_isSaving false hm4
    end.

(** [saveState()]: the debounced request; the commit itself happens when
    the timer fires ([timerFires]). *)
Definition saveState (hm : HistoryManager) : HistoryManager :=
  if isRestoring hm || isSaving hm then hm
  else set_debounceTimer true hm.

Definition timerFires (stateStr : option string) (hm : HistoryManager)
  : HistoryManager :=
  if debounceTimer hm
  then _doSaveState stateStr (set_debounceTimer false hm)
  else hm.

(** [saveStateImmediate()] *)
Definition saveStateImmediate (stateStr : option string) (hm : HistoryManager)
  : HistoryManager :=
  if isRestoring hm || isSaving hm then hm
  else _doSaveState stateStr (set_debounceTimer false hm).

Section Restore.

(** Whether [JSON.parse(stateJson)] returns (true) or throws (false). *)
Variable JSON_parse_ok : string -> bool.

(** [restoreState(stateJson)] up to the point where it returns: the flag is
    raised, the string parsed; a parse error is caught at once and lowers
    the flag, otherwise [loadFromJSON] is pending. *)
Definition restoreState (stateJson : string) (hm : HistoryManager)
  : HistoryManager :=
  let hm1 := set_isRestoring true hm in
  if JSON_parse_ok stateJson
  then set_loading (Some stateJson) hm1
  else set_isRestoring false hm1.

(** The promise of [loadFromJSON] settles: [.then] (resolved) or [.catch]
    (rejected).  Both lower [isRestoring]; what [.then] does to the canvas
    is [Restore.afterLoad] below. *)
Definition loadSettled (resolved : bool) (hm : HistoryManager)
  : HistoryManager :=
  match loading hm with
  | None => hm
  | Some s =>
      let hm1 := set_loading None (set_isRestoring false hm) in
      if resolved then set_canvasDoc (Some s) hm1 else hm1
  end.

(** The restore of [stateJson] fails with a serialization error: the
    string does not parse, or the load is rejected. *)
Definition restoreFails (stateJson : string) (resolved : bool) : Prop :=
  JSON_parse_ok stateJson = false \/ resolved = false.

(** [undo()] *)
Definition undo (hm : HistoryManager) : HistoryManager :=
  if (length (undoStack hm) <=? 1) || isRestoring hm then hm
  else
    let hm1 := set_debounceTimer false hm in
    match last (undoStack hm1) with
    | None => hm1
    | Some currentState =>
        let hm2 := set_undoStack (removelast (undoStack hm1)) hm1 in
        let hm3 := set_redoStack (redoStack hm2 ++ [currentState]) hm2 in
        match last (undoStack hm3) with
        | None => hm3
        | Some previousState => restoreState previousState hm3
        end
    end.

(** [redo()] *)
Definition redo (hm : HistoryManager) : HistoryManager :=
  if (length (redoStack hm) =? 0) || isRestoring hm then hm
  else
    let hm1 := set_debounceTimer false hm in
    match last (redoStack hm1) with
    | None => hm1
    | Some nextState =>
        let hm2 := set_redoStack (removelast (redoStack hm1)) hm1 in
        let hm3 := set_undoStack (undoStack hm2 ++ [nextState]) hm2 in
        restoreState nextState hm3
    end.

(** [clear()]: both stacks emptied, then [saveStateImmediate()]. *)
Definition clear (stateStr : option string) (hm : HistoryManager)
  : HistoryManager :=
  let hm1 := set_debounceTimer false hm in
  saveStateImmediate stateStr (set_redoStack [] (set_undoStack [] hm1)).

(** The snapshot the manager designates as current: the top of
    [undoStack], which is what [undo] and [redo] hand to [restoreState]. *)
Definition current (hm : HistoryManager) : option string :=
  last (undoStack hm).

(** N commits in a row, each with the serialisation of the canvas at that
    moment. *)
Definition commits (snaps : list string) (hm : HistoryManager)
  : HistoryManager :=
  fold_left (fun h s => _doSaveState (Some s) h) snaps hm.

(** One [undo()] whose restore has settled before anything else happens. *)
Definition undoSettled (resolved : bool) (hm : HistoryManager)
  : HistoryManager :=
  loadSettled resolved (undo hm).

Definition redoSettled (resolved : bool) (hm : HistoryManager)
  : HistoryManager :=
  loadSettled resolved (redo hm).

Definition undos (outcomes : list bool) (hm : HistoryManager)
  : HistoryManager :=
  fold_left (fun h r => undoSettled r h) outcomes hm.

(** N calls of [undo()] made back to back, none of the restores settled. *)
Fixpoint undosUnsettled (n : nat) (hm : HistoryManager) : HistoryManager :=
  match n with
  | O => hm
  | S k => undosUnsettled k (undo hm)
  end.

End Restore.

(** Each snapshot of the sequence differs from the one before it, the first
    from [top]: every commit of the sequence pushes. *)
Fixpoint distinctChain (top : string) (snaps : list string) : Prop :=
  match snaps with
  | [] => True
  | s :: rest => s <> top /\ distinctChain s rest
  end.

(** The manager is idle: neither restoring nor saving, no load pending. *)
Definition idle (hm : HistoryManager) : Prop :=
  isRestoring hm = false /\ isSaving hm = false /\ loading hm = None.

(** A family of pairwise distinct snapshots for examples. *)
Definition snap (n : nat) : string :=
  String.append "doc" (String.string_of_list_ascii (repeat "x"%char n)).

End History.

(** ** JS numbers as exact rationals *)

Module Num.

(** [a < b] *)
Definition Qltb (a b : Q) : bool := negb (Qle_bool b a).

(** [Math.max] and [Math.min] *)
Definition max (a b : Q) : Q := if Qle_bool a b then b else a.
Definition min (a b : Q) : Q := if Qle_bool a b then a else b.

(** [x || d] on a property that holds a number or is undefined: zero and
    undefined are falsy. *)
Definition orDefault (x : option Q) (d : Q) : Q :=
  match x with
  | Some q => if Qeq_bool q 0 then d else q
  | None => d
  end.

End Num.

(** ** JS numbers as binary64 *)

Module Binary64.

(** The binary64 number nearest to an integer, and the one a rational
    stands for: the quotient of numerator and denominator, rounded to
    nearest (exact for every rational that is a binary64 number with
    numerator and denominator below 2^53 in size). *)
Definition ofZ (z : Z) : PrimFloat.float :=
  FloatOps.SF2Prim
    (SpecFloat.binary_normalize FloatOps.prec FloatOps.emax z 0 false).
Definition ofQ (q : Q) : PrimFloat.float :=
  PrimFloat.div (ofZ (Qnum q)) (ofZ (Zpos (Qden q))).

(** [Math.pow(d, 2)], the square of [d] rounded to nearest. *)
Definition pow2 (d : PrimFloat.float) : PrimFloat.float := PrimFloat.mul d d.

End Binary64.

(** ** The canvas and its objects (the fabric collaborator) *)

Module Scene.

Abbreviation ObjId := nat (only parsing).

Record Point := mkPoint { x : Q; y : Q }.

(** The geometric attributes of a fabric object. *)
Record Geometry := mkGeometry {
  left : Q; top : Q;
  width : Q; height : Q;
  rx : Q; ry : Q;
  scaleX : Q; scaleY : Q;
  angle : Q;
  originX : string; originY : string
}.

(** The attributes of a text object that the edit handlers touch. *)
Record TextProps := mkTextProps {
  text : string;
  fill : string;
  fontStyle : string;
  stroke : option string;
  strokeWidth : Q;
  _isPlaceholder : bool
}.

(** The interaction switches of a fabric object. *)
Record Controls := mkControls {
  hasControls : bool; hasBorders : bool;
  lockMovementX : bool; lockMovementY : bool;
  selectable : bool; evented : bool
}.

(** One command of a parsed SVG path ([fabric.util.parsePath]). *)
Inductive PathCmd :=
| PathM (x y : Q)
| PathL (x y : Q)
| PathQ (x1 y1 x y : Q)
| PathZ.

(** The custom attributes of a bubble. *)
Record BubbleProps := mkBubbleProps {
  path : list PathCmd;
  _bubbleWidth : option Q;
  _bubbleHeight : option Q;
  _tailSize : option Q
}.

(** The in-memory back-references of a bound pair; they are not part of a
    snapshot. *)
Record Links := mkLinks {
  _boundText : option ObjId;
  _boundShape : option ObjId;
  _boundBubble : option ObjId
}.

(** Event handlers are closures; each constructor is one arrow function of
    the source, with the variables it captures. *)

(** Handlers of ['moving'], ['scaling'], ['rotating'] and ['modified']. *)
Inductive TransformHandler :=
| syncShapeText (shape textbox : ObjId)     (* bindShapeTextEvents *)
| syncBubbleText (bubble textbox : ObjId).  (* bindBubbleTextEvents *)

(** Handlers of ['removed']. *)
Inductive RemovedHandler :=
| removeText (textbox : ObjId)              (* bind{Shape,Bubble}TextEvents *)
| removeBoundShape (textbox : ObjId)        (* setupShapeTextEvents *)
| removeBoundBubble (textbox : ObjId).      (* setupBubbleTextEvents *)

(** Handlers of ['editing:entered']. *)
Inductive EnteredHandler :=
| textBoxEntered (textbox : ObjId)          (* setupTextBoxEvents *)
| bubbleTextEntered (textbox : ObjId)       (* setupBubbleTextEvents *)
| restoredEntered (textbox : ObjId).        (* setupRestoredTextBox *)

(** Handlers of ['editing:exited']. *)
Inductive ExitedHandler :=
| textBoxExited (textbox : ObjId)           (* setupTextBoxEvents *)
| shapeTextExited (textbox : ObjId)         (* setupShapeTextEvents *)
| bubbleTextExited (textbox : ObjId)        (* setupBubbleTextEvents *)
| restoredExited (textbox : ObjId).         (* setupRestoredTextBox *)

(** [__eventListeners] of an object, per event name, in registration
    order.  The handlers of ['selected'], ['deselected'] and
    ['mousedblclick'] only restyle the border or start editing and are not
    part of the model. *)
Record Listeners := mkListeners {
  onTransform : list TransformHandler;
  onRemoved : list RemovedHandler;
  onEntered : list EnteredHandler;
  onExited : list ExitedHandler
}.

Record Obj := mkObj {
  type : string;                 (* 'rect', 'ellipse', 'textbox', 'path', ... *)
  _shapeType : option string;
  name : option string;
  geom : Geometry;
  props : TextProps;
  controls : Controls;
  bubble : BubbleProps;
  links : Links;
  listeners : Listeners
}.

Definition set_geom (g : Geometry) (o : Obj) : Obj :=
  mkObj (type o) (_shapeType o) (name o) g (props o) (controls o) (bubble o)
        (links o) (listeners o).
Definition set_props (t : TextProps) (o : Obj) : Obj :=
  mkObj (type o) (_shapeType o) (name o) (geom o) t (controls o) (bubble o)
        (links o) (listeners o).
Definition set_controls (c : Controls) (o : Obj) : Obj :=
  mkObj (type o) (_shapeType o) (name o) (geom o) (props o) c (bubble o)
        (links o) (listeners o).
Definition set_bubble (b : BubbleProps) (o : Obj) : Obj :=
  mkObj (type o) (_shapeType o) (name o) (geom o) (props o) (controls o) b
        (links o) (listeners o).
Definition set_links (l : Links) (o : Obj) : Obj :=
  mkObj (type o) (_shapeType o) (name o) (geom o) (props o) (controls o)
        (bubble o) l (listeners o).
Definition set_listeners (l : Listeners) (o : Obj) : Obj :=
  mkObj (type o) (_shapeType o) (name o) (geom o) (props o) (controls o)
        (bubble o) (links o) l.

(** What is selected: nothing, one object, or an active selection of
    several. *)
Inductive Active :=
| single (o : ObjId)
| activeselection (members : list ObjId).

(** Callbacks handed to [setTimeout]. *)
Inductive Timeout :=
| editLater (textbox : ObjId)               (* finalizeTextBox *)
| selectAndEditLater (textbox : ObjId)      (* createBoundTextForBubble *)
| selectBoundShapeLater (textbox : ObjId)   (* setupShapeTextEvents *)
| selectBoundBubbleLater (textbox : ObjId). (* setupBubbleTextEvents *)

(** The canvas ([fabric.Canvas]) with the store its references point
    into. *)
Record Canvas := mkCanvas {
  heap : gmap nat Obj;              (* every object allocated so far *)
  nextId : nat;                     (* the next fresh reference *)
  objects : list ObjId;             (* canvas._objects *)
  activeObject : option Active;
  isDrawingMode : bool;
  selection : bool;
  defaultCursor : string;
  hoverCursor : string;
  removedLog : list ObjId;          (* 'object:removed' events fired *)
  saveRequests : nat;               (* calls of editor.history.saveState() *)
  timeouts : list Timeout
}.

Definition set_heap (h : gmap nat Obj) (c : Canvas) : Canvas :=
  mkCanvas h (nextId c) (objects c) (activeObject c) (isDrawingMode c)
           (selection c) (defaultCursor c) (hoverCursor c) (removedLog c)
           (saveRequests c) (timeouts c).
Definition set_nextId (n : nat) (c : Canvas) : Canvas :=
  mkCanvas (heap c) n (objects c) (activeObject c) (isDrawingMode c)
           (selection c) (defaultCursor c) (hoverCursor c) (removedLog c)
           (saveRequests c) (timeouts c).
Definition set_objects (l : list ObjId) (c : Canvas) : Canvas :=
  mkCanvas (heap c) (nextId c) l (activeObject c) (isDrawingMode c)
           (selection c) (defaultCursor c) (hoverCursor c) (removedLog c)
           (saveRequests c) (timeouts c).
Definition set_activeObject (a : option Active) (c : Canvas) : Canvas :=
  mkCanvas (heap c) (nextId c) (objects c) a (isDrawingMode c)
           (selection c) (defaultCursor c) (hoverCursor c) (removedLog c)
           (saveRequests c) (timeouts c).
Definition set_isDrawingMode (b : bool) (c : Canvas) : Canvas :=
  mkCanvas (heap c) (nextId c) (objects c) (activeObject c) b
           (selection c) (defaultCursor c) (hoverCursor c) (removedLog c)
           (saveRequests c) (timeouts c).
Definition set_selection (b : bool) (c : Canvas) : Canvas :=
  mkCanvas (heap c) (nextId c) (objects c) (activeObject c) (isDrawingMode c)
           b (defaultCursor c) (hoverCursor c) (removedLog c)
           (saveRequests c) (timeouts c).
Definition set_defaultCursor (s : string) (c : Canvas) : Canvas :=
  mkCanvas (heap c) (nextId c) (objects c) (activeObject c) (isDrawingMode c)
           (selection c) s (hoverCursor c) (removedLog c)
           (saveRequests c) (timeouts c).
Definition set_hoverCursor (s : string) (c : Canvas) : Canvas :=
  mkCanvas (heap c) (nextId c) (objects c) (activeObject c) (isDrawingMode c)
           (selection c) (defaultCursor c) s (removedLog c)
           (saveRequests c) (timeouts c).
Definition set_removedLog (l : list ObjId) (c : Canvas) : Canvas :=
  mkCanvas (heap c) (nextId c) (objects c) (activeObject c) (isDrawingMode c)
           (selection c) (defaultCursor c) (hoverCursor c) l
           (saveRequests c) (timeouts c).
Definition set_saveRequests (n : nat) (c : Canvas) : Canvas :=
  mkCanvas (heap c) (nextId c) (objects c) (activeObject c) (isDrawingMode c)
           (selection c) (defaultCursor c) (hoverCursor c) (removedLog c)
           n (timeouts c).
Definition set_timeouts (l : list Timeout) (c : Canvas) : Canvas :=
  mkCanvas (heap c) (nextId c) (objects c) (activeObject c) (isDrawingMode c)
           (selection c) (defaultCursor c) (hoverCursor c) (removedLog c)
           (saveRequests c) l.

(** Mutation of the object a reference points to; a dangling reference
    changes nothing. *)
Definition update (o : ObjId) (f : Obj -> Obj) (c : Canvas) : Canvas :=
  match heap c !! o with
  | Some obj => set_heap (<[o := f obj]> (heap c)) c
  | None => c
  end.

(** [canvas.contains(obj)] *)
Definition contains (c : Canvas) (o : ObjId) : bool :=
  bool_decide (o ∈ objects c).

(** [array.splice(array.indexOf(obj), 1)]: drops the first occurrence. *)
Fixpoint spliceOut (o : ObjId) (l : list ObjId) : list ObjId :=
  match l with
  | [] => []
  | a :: rest => if Nat.eqb a o then rest else a :: spliceOut o rest
  end.

(** [canvas.add(obj)] *)
Definition add (o : ObjId) (c : Canvas) : Canvas :=
  set_objects (objects c ++ [o]) c.

(** [new fabric.X(...)]: a fresh reference to the given object. *)
Definition alloc (obj : Obj) (c : Canvas) : ObjId * Canvas :=
  (nextId c, set_nextId (S (nextId c)) (set_heap (<[nextId c := obj]> (heap c)) c)).

(** [canvas.setActiveObject(obj)] and [canvas.discardActiveObject()] *)
Definition setActiveObject (o : ObjId) (c : Canvas) : Canvas :=
  set_activeObject (Some (single o)) c.
Definition discardActiveObject (c : Canvas) : Canvas :=
  set_activeObject None c.

(** [editor.history.saveState()] and [setTimeout(f, ms)] *)
Definition requestSave (c : Canvas) : Canvas :=
  set_saveRequests (S (saveRequests c)) c.
Definition setTimeout (t : Timeout) (c : Canvas) : Canvas :=
  set_timeouts (timeouts c ++ [t]) c.

End Scene.

(** ** Tools manager: bound pairs, edit handlers, finalisation *)

Module Tools.
Import Scene.

(** [this.textShapeDefaults.textColor]; nothing in the editor reassigns
    it. *)
Definition textColor : string := "#000000".
Definition placeholderText : string := "点击输入文本".
Definition placeholderFill : string := "#999999".

Section WithFabric.

(** What fabric computes from an object's geometry:
    [getCenterPoint()] and the width and height of [getBoundingRect()];
    and [String.prototype.trim]. *)
Variable centerOf : Geometry -> Point.
Variable boundsOf : Geometry -> Q * Q.
Variable trim : string -> string.

Definition getCenterPoint (o : Obj) : Point := centerOf (geom o).

(** [obj.set({ left, top, scaleX, scaleY, angle })] *)
Definition setTransform (l t sx sy a : Q) (g : Geometry) : Geometry :=
  mkGeometry l t (width g) (height g) (rx g) (ry g) sx sy a
             (originX g) (originY g).

(** [updateTextPositionForShape(shape, textbox)] on the two objects. *)
Definition syncToShape (shape textbox : Obj) : Obj :=
  let shapeCenter := getCenterPoint shape in
  set_geom (setTransform (x shapeCenter) (y shapeCenter)
              (scaleX (geom shape)) (scaleY (geom shape)) (angle (geom shape))
              (geom textbox)) textbox.

(** [updateTextPositionForBubble(bubble, textbox)] on the two objects. *)
Definition syncToBubble (bubble textbox : Obj) : Obj :=
  let bubbleCenter := getCenterPoint bubble in
  let tailSize := Num.orDefault (_tailSize (Scene.bubble bubble)) 15 in
  set_geom (setTransform (x bubbleCenter)
              (y bubbleCenter - (tailSize / 2) * scaleY (geom bubble))%Q
              (scaleX (geom bubble)) (scaleY (geom bubble)) (angle (geom bubble))
              (geom textbox)) textbox.

(** The same through references into the canvas store. *)
Definition updateTextPositionForShape (shape textbox : ObjId) (c : Canvas)
  : Canvas :=
  match heap c !! shape with
  | Some s => update textbox (syncToShape s) c
  | None => c
  end.

Definition updateTextPositionForBubble (bubble textbox : ObjId) (c : Canvas)
  : Canvas :=
  match heap c !! bubble with
  | Some b => update textbox (syncToBubble b) c
  | None => c
  end.

(** *** Event handlers *)

(** [textbox.set({ text: '', fill: textColor, fontStyle: 'normal',
    _isPlaceholder: false })] *)
Definition clearPlaceholder (fillColor : string) (t : TextProps) : TextProps :=
  mkTextProps "" fillColor "normal" (stroke t) (strokeWidth t) false.

(** [textbox.set({ text: '点击输入文本', fill: '#999999', fontStyle: 'italic',
    _isPlaceholder: true })] *)
Definition showPlaceholder (t : TextProps) : TextProps :=
  mkTextProps placeholderText placeholderFill "italic" (stroke t)
              (strokeWidth t) true.

(** [textbox.set({ stroke, strokeWidth })] *)
Definition setStroke (s : option string) (w : Q) (t : TextProps) : TextProps :=
  mkTextProps (text t) (fill t) (fontStyle t) s w (_isPlaceholder t).

(** [!textbox.text || textbox.text.trim() === ''] *)
Definition isBlank (s : string) : bool :=
  String.eqb s "" || String.eqb (trim s) "".

Definition onProps (f : TextProps -> TextProps) (o : Obj) : Obj :=
  set_props (f (props o)) o.

(** The body shared by the ['editing:entered'] handlers. *)
Definition enterBody (fillColor : string) (o : Obj) : Obj :=
  if _isPlaceholder (props o) then onProps (clearPlaceholder fillColor) o else o.

(** The placeholder part shared by the ['editing:exited'] handlers. *)
Definition exitBody (o : Obj) : Obj :=
  if isBlank (text (props o)) then onProps showPlaceholder o else o.

Definition runTransform (h : TransformHandler) (c : Canvas) : Canvas :=
  match h with
  | syncShapeText shape textbox => updateTextPositionForShape shape textbox c
  | syncBubbleText bubble textbox => updateTextPositionForBubble bubble textbox c
  end.

Definition isActive (o : ObjId) (c : Canvas) : bool :=
  match activeObject c with
  | Some (single a) => Nat.eqb a o
  | _ => false
  end.

Definition runEntered (h : EnteredHandler) (c : Canvas) : Canvas :=
  match h with
  | textBoxEntered t => update t (enterBody textColor) c
  | bubbleTextEntered t => update t (enterBody textColor) c
  | restoredEntered t =>
      update t (onProps (setStroke (Some "#4f46e5") 1))
        (update t (enterBody "#000000") c)
  end.

Definition boundShapeOf (t : ObjId) (c : Canvas) : option ObjId :=
  heap c !! t ≫= fun o => _boundShape (links o).
Definition boundBubbleOf (t : ObjId) (c : Canvas) : option ObjId :=
  heap c !! t ≫= fun o => _boundBubble (links o).

Definition runExited (h : ExitedHandler) (c : Canvas) : Canvas :=
  match h with
  | textBoxExited t => requestSave (update t exitBody c)
  | shapeTextExited t =>
      let c1 := requestSave c in
      if boundShapeOf t c1 is Some _
      then setTimeout (selectBoundShapeLater t) c1 else c1
  | bubbleTextExited t =>
      let c1 := requestSave (update t exitBody c) in
      if boundBubbleOf t c1 is Some _
      then setTimeout (selectBoundBubbleLater t) c1 else c1
  | restoredExited t =>
      let c1 := update t exitBody c in
      if isActive t c1 then c1
      else update t (onProps (setStroke (Some "transparent") 0)) c1
  end.

(** [obj.fire(name)]: the listeners registered at that moment, in
    registration order. *)
Definition listenersOf (o : ObjId) (c : Canvas) : Listeners :=
  match heap c !! o with
  | Some obj => listeners obj
  | None => mkListeners [] [] [] []
  end.

Definition fireTransform (o : ObjId) (c : Canvas) : Canvas :=
  fold_left (fun c h => runTransform h c) (onTransform (listenersOf o c)) c.

(** [textbox.enterEditing()] and [textbox.exitEditing()], as far as the
    handlers see them: the events they fire. *)
Definition enterEditing (o : ObjId) (c : Canvas) : Canvas :=
  fold_left (fun c h => runEntered h c) (onEntered (listenersOf o c)) c.
Definition exitEditing (o : ObjId) (c : Canvas) : Canvas :=
  fold_left (fun c h => runExited h c) (onExited (listenersOf o c)) c.

(** The user's typing while the text is being edited. *)
Definition typeText (o : ObjId) (s : string) (c : Canvas) : Canvas :=
  update o (onProps (fun t => mkTextProps s (fill t) (fontStyle t) (stroke t)
                                 (strokeWidth t) (_isPlaceholder t))) c.

(** *** Removal and its cascade *)

(** One ['removed'] handler; [rm] is [canvas.remove]. *)
Definition runRemoved (rm : ObjId -> Canvas -> option Canvas)
    (h : RemovedHandler) (c : Canvas) : option Canvas :=
  match h with
  | removeText textbox =>
      if contains c textbox then rm textbox c else Some c
  | removeBoundShape textbox =>
      match boundShapeOf textbox c with
      | Some shape => if contains c shape then rm shape c else Some c
      | None => Some c
      end
  | removeBoundBubble textbox =>
      match boundBubbleOf textbox c with
      | Some bubble => if contains c bubble then rm bubble c else Some c
      | None => Some c
      end
  end.

Fixpoint fireRemoved (rm : ObjId -> Canvas -> option Canvas)
    (hs : list RemovedHandler) (c : Canvas) : option Canvas :=
  match hs with
  | [] => Some c
  | h :: rest =>
      match runRemoved rm h c with
      | Some c' => fireRemoved rm rest c'
      | None => None
      end
  end.

(** [canvas.remove(obj)] as fabric does it: when the object is in
    [_objects] it is spliced out, the selection is dropped if it was the
    active object, ['object:removed'] is fired, and then the object's own
    ['removed'] listeners run.  The handlers call [remove] again, so the
    recursion is bounded by [fuel]; [None] means the fuel ran out. *)
Fixpoint removeFuel (fuel : nat) (o : ObjId) (c : Canvas) : option Canvas :=
  match fuel with
  | O => None
  | S f =>
      if contains c o then
        let c1 := set_objects (spliceOut o (objects c)) c in
        let c2 := if isActive o c1 then discardActiveObject c1 else c1 in
        let c3 := set_removedLog (removedLog c2 ++ [o]) c2 in
        fireRemoved (removeFuel f) (onRemoved (listenersOf o c3)) c3
      else Some c
  end.

(** Every nested call works on a strictly shorter [_objects], so this
    much fuel is always enough (see [remove_total]). *)
Definition remove (o : ObjId) (c : Canvas) : option Canvas :=
  removeFuel (S (length (objects c))) o c.

(** [deleteSelected()] of the properties panel. *)
Definition deleteSelected (c : Canvas) : option Canvas :=
  match activeObject c with
  | None => Some c
  | Some active =>
      let removed :=
        match active with
        | activeselection members =>
            fold_left (fun r o => r ≫= remove o) members (Some c)
        | single o => remove o c
        end in
      (fun c' => requestSave (discardActiveObject c')) <$> removed
  end.

(** *** Binding a text to its container *)

Definition addTransform (h : TransformHandler) (l : Listeners) : Listeners :=
  mkListeners (onTransform l ++ [h]) (onRemoved l) (onEntered l) (onExited l).
Definition addRemoved (h : RemovedHandler) (l : Listeners) : Listeners :=
  mkListeners (onTransform l) (onRemoved l ++ [h]) (onEntered l) (onExited l).
Definition addEntered (h : EnteredHandler) (l : Listeners) : Listeners :=
  mkListeners (onTransform l) (onRemoved l) (onEntered l ++ [h]) (onExited l).
Definition addExited (h : ExitedHandler) (l : Listeners) : Listeners :=
  mkListeners (onTransform l) (onRemoved l) (onEntered l) (onExited l ++ [h]).

Definition on (f : Listeners -> Listeners) (o : Obj) : Obj :=
  set_listeners (f (listeners o)) o.

(** [bindShapeTextEvents(shape, textbox)]: the four transform events share
    one handler body. *)
Definition bindShapeTextEvents (shape textbox : ObjId) (c : Canvas) : Canvas :=
  update shape (on (addRemoved (removeText textbox)))
    (update shape (on (addTransform (syncShapeText shape textbox))) c).

(** [setupShapeTextEvents(textbox)] *)
Definition setupShapeTextEvents (textbox : ObjId) (c : Canvas) : Canvas :=
  update textbox (on (addRemoved (removeBoundShape textbox)))
    (update textbox (on (addExited (shapeTextExited textbox))) c).

(** [bindBubbleTextEvents(bubble, textbox)] *)
Definition bindBubbleTextEvents (bubble textbox : ObjId) (c : Canvas) : Canvas :=
  update bubble (on (addRemoved (removeText textbox)))
    (update bubble (on (addTransform (syncBubbleText bubble textbox))) c).

(** [setupBubbleTextEvents(textbox)] *)
Definition setupBubbleTextEvents (textbox : ObjId) (c : Canvas) : Canvas :=
  update textbox (on (addRemoved (removeBoundBubble textbox)))
    (update textbox (on (addExited (bubbleTextExited textbox)))
       (update textbox (on (addEntered (bubbleTextEntered textbox))) c)).

(** [setupTextBoxEvents(textbox)] *)
Definition setupTextBoxEvents (textbox : ObjId) (c : Canvas) : Canvas :=
  update textbox (on (addExited (textBoxExited textbox)))
    (update textbox (on (addEntered (textBoxEntered textbox))) c).

Definition setBoundText (t : option ObjId) (o : Obj) : Obj :=
  set_links (mkLinks t (_boundShape (links o)) (_boundBubble (links o))) o.
Definition setBoundShape (s : option ObjId) (o : Obj) : Obj :=
  set_links (mkLinks (_boundText (links o)) s (_boundBubble (links o))) o.
Definition setBoundBubble (b : option ObjId) (o : Obj) : Obj :=
  set_links (mkLinks (_boundText (links o)) (_boundShape (links o)) b) o.

(** *** Finalising a dragged primitive *)

Definition setWidth (w : Q) (g : Geometry) : Geometry :=
  mkGeometry (left g) (top g) w (height g) (rx g) (ry g) (scaleX g) (scaleY g)
             (angle g) (originX g) (originY g).
Definition setHeight (h : Q) (g : Geometry) : Geometry :=
  mkGeometry (left g) (top g) (width g) h (rx g) (ry g) (scaleX g) (scaleY g)
             (angle g) (originX g) (originY g).
Definition setRx (r : Q) (g : Geometry) : Geometry :=
  mkGeometry (left g) (top g) (width g) (height g) r (ry g) (scaleX g) (scaleY g)
             (angle g) (originX g) (originY g).
Definition setRy (r : Q) (g : Geometry) : Geometry :=
  mkGeometry (left g) (top g) (width g) (height g) (rx g) r (scaleX g) (scaleY g)
             (angle g) (originX g) (originY g).
Definition onGeom (f : Geometry -> Geometry) (o : Obj) : Obj :=
  set_geom (f (geom o)) o.

Definition noListeners : Listeners := mkListeners [] [] [] [].
Definition noLinks : Links := mkLinks None None None.
Definition noBubble : BubbleProps := mkBubbleProps [] None None None.

(** The text box of [createBoundTextForShape]: empty, not a placeholder,
    positioned by its centre, without controls of its own.  Its height is
    laid out by fabric and plays no role here. *)
Definition newShapeText (w : Q) : Obj :=
  mkObj "textbox" (Some "shapeText") None
        (mkGeometry 0 0 w 0 0 0 1 1 0 "center" "center")
        (mkTextProps "" textColor "normal" None 0 false)
        (mkControls false false true true true true)
        noBubble noLinks noListeners.

(** The text box of [createBoundTextForBubble]: created showing the
    placeholder. *)
Definition newBubbleText (w : Q) : Obj :=
  mkObj "textbox" (Some "bubbleText") None
        (mkGeometry 0 0 w 0 0 0 1 1 0 "center" "center")
        (mkTextProps placeholderText placeholderFill "italic" None 0 true)
        (mkControls false false true true true true)
        noBubble noLinks noListeners.

(** [createBoundTextForShape(shape)] *)
Definition createBoundTextForShape (shape : ObjId) (c : Canvas) : Canvas :=
  match heap c !! shape with
  | None => c
  | Some s =>
      let bounds := boundsOf (geom s) in
      let w := (fst bounds / Num.orDefault (Some (scaleX (geom s))) 1)%Q in
      let '(textbox, c1) :=
        alloc (newShapeText (Num.max (w * (8 # 10)) 50)) c in
      let c2 := updateTextPositionForShape shape textbox c1 in
      let c3 := add textbox c2 in
      let c4 := update shape (setBoundText (Some textbox)) c3 in
      let c5 := update textbox (setBoundShape (Some shape)) c4 in
      let c6 := bindShapeTextEvents shape textbox c5 in
      let c7 := setupShapeTextEvents textbox c6 in
      setActiveObject shape c7
  end.

(** [createBoundTextForBubble(bubble)] *)
Definition createBoundTextForBubble (bubble : ObjId) (c : Canvas) : Canvas :=
  match heap c !! bubble with
  | None => c
  | Some b =>
      let w := Num.orDefault (_bubbleWidth (Scene.bubble b)) 150 in
      let '(textbox, c1) := alloc (newBubbleText (w - 30)%Q) c in
      let c2 := updateTextPositionForBubble bubble textbox c1 in
      let c3 := add textbox c2 in
      let c4 := update bubble (setBoundText (Some textbox)) c3 in
      let c5 := update textbox (setBoundBubble (Some bubble)) c4 in
      let c6 := bindBubbleTextEvents bubble textbox c5 in
      let c7 := setupBubbleTextEvents textbox c6 in
      setTimeout (selectAndEditLater textbox) (setActiveObject bubble c7)
  end.

(** [finalizeShapeWithText()]: each dimension has its own test and its own
    default. *)
Definition snapShape (s : Obj) : Obj :=
  if String.eqb (type s) "ellipse" then
    let w := (rx (geom s) * 2)%Q in
    let h := (ry (geom s) * 2)%Q in
    let s1 := if Num.Qltb w 60 then onGeom (setRx 50) s else s in
    if Num.Qltb h 40 then onGeom (setRy 40) s1 else s1
  else
    let w := width (geom s) in
    let h := height (geom s) in
    let s1 := if Num.Qltb w 60 then onGeom (setWidth 100) s else s in
    if Num.Qltb h 40 then onGeom (setHeight 80) s1 else s1.

Definition finalizeShapeWithText (currentShape : option ObjId) (c : Canvas)
  : Canvas :=
  match currentShape with
  | None => c
  | Some shape => createBoundTextForShape shape (update shape snapShape c)
  end.

(** [finalizeTextBox()] *)
Definition snapTextBox (t : Obj) : Obj :=
  let t1 := if Num.Qltb (width (geom t)) 80 then onGeom (setWidth 150) t else t in
  onProps showPlaceholder t1.

Definition finalizeTextBox (currentShape : option ObjId) (c : Canvas) : Canvas :=
  match currentShape with
  | None => c
  | Some textbox =>
      match heap c !! textbox with
      | None => c
      | Some t =>
          if String.eqb (type t) "textbox" then
            let c1 := update textbox snapTextBox c in
            let c2 := setActiveObject textbox c1 in
            let c3 := setupTextBoxEvents textbox c2 in
            setTimeout (editLater textbox) c3
          else c
      end
  end.

(** [createBubblePath(x, y, width, height, radius, tailSize)], as the
    commands [fabric.util.parsePath] reads from the string. *)
Definition createBubblePath (x0 y0 w h radius tailSize : Q) : list PathCmd :=
  let r := Num.min (Num.min radius (w / 2)) (h / 2) in
  let tailWidth := (tailSize * (15 # 10))%Q in
  let tailHeight := tailSize in
  [ PathM (x0 + r) y0;
    PathL (x0 + w - r) y0;
    PathQ (x0 + w) y0 (x0 + w) (y0 + r);
    PathL (x0 + w) (y0 + h - r);
    PathQ (x0 + w) (y0 + h) (x0 + w - r) (y0 + h);
    PathL (x0 + w / 2 + tailWidth / 2) (y0 + h);
    PathL (x0 + w / 2) (y0 + h + tailHeight);
    PathL (x0 + w / 2 - tailWidth / 2) (y0 + h);
    PathL (x0 + r) (y0 + h);
    PathQ x0 (y0 + h) x0 (y0 + h - r);
    PathL x0 (y0 + r);
    PathQ x0 y0 (x0 + r) y0;
    PathZ ]%Q.

(** [finalizeBubble()] *)
Definition snapBubble (b : Obj) : Obj :=
  let w := Num.orDefault (_bubbleWidth (Scene.bubble b)) 150 in
  let h := Num.orDefault (_bubbleHeight (Scene.bubble b)) 80 in
  let w := if Num.Qltb w 100 then 150%Q else w in
  let h := if Num.Qltb h 60 then 80%Q else h in
  let tailSize := Num.orDefault (_tailSize (Scene.bubble b)) 15 in
  set_bubble (mkBubbleProps (createBubblePath 0 0 w h 10 tailSize)
                            (Some w) (Some h) (_tailSize (Scene.bubble b))) b.

Definition finalizeBubble (currentShape : option ObjId) (c : Canvas) : Canvas :=
  match currentShape with
  | None => c
  | Some bubble =>
      match heap c !! bubble with
      | None => c
      | Some b =>
          if bool_decide (_shapeType b = Some "bubble") then
            createBoundTextForBubble bubble (update bubble snapBubble c)
          else c
      end
  end.

(** *** The tool state and pointer-up *)

Record ToolsManager := mkTools {
  currentTool : string;
  isDrawingShape : bool;
  startPoint : option Point;
  currentShape : option ObjId
}.

(** [onMouseUp(opt)]; [isPanning] belongs to the editor and is returned
    beside the canvas and the tool state. *)
Definition onMouseUp (t : ToolsManager) (isPanning : bool) (c : Canvas)
  : ToolsManager * bool * Canvas :=
  let '(t1, c1) :=
    if isDrawingShape t && bool_decide (is_Some (currentShape t)) then
      let tool := currentTool t in
      let c' :=
        if String.eqb tool "text" then finalizeTextBox (currentShape t) c
        else if String.eqb tool "bubble" then finalizeBubble (currentShape t) c
        else if bool_decide (tool ∈ ["rect"; "circle"; "triangle"])
        then finalizeShapeWithText (currentShape t) c
        else c in
      (mkTools tool false None None, requestSave c')
    else (t, c) in
  if String.eqb (currentTool t1) "hand"
  then (t1, false, set_defaultCursor "grab" c1)
  else (t1, isPanning, c1).

End WithFabric.

End Tools.

(** ** Rebuilding the bound pairs after a restore (HistoryManager.js) *)

Module Restore.
Import Scene Tools.

Section WithFabric.

Variable centerOf : Geometry -> Point.

(** [['bubble', 'rect', 'circle', 'triangle'].includes(obj._shapeType)] *)
Definition isBindableShape (o : Obj) : bool :=
  match _shapeType o with
  | Some s => bool_decide (s ∈ ["bubble"; "rect"; "circle"; "triangle"])
  | None => false
  end.

(** [['bubbleText', 'shapeText'].includes(obj._shapeType)] *)
Definition isShapeText (o : Obj) : bool :=
  match _shapeType o with
  | Some s => bool_decide (s ∈ ["bubbleText"; "shapeText"])
  | None => false
  end.

(** The first loop: [bindableShapes] and [shapeTexts], in canvas order. *)
Definition classify (c : Canvas) : list ObjId * list ObjId :=
  fold_left
    (fun acc id =>
       match heap c !! id with
       | Some obj =>
           if isBindableShape obj then (fst acc ++ [id], snd acc)
           else if isShapeText obj then (fst acc, snd acc ++ [id])
           else acc
       | None => acc
       end)
    (objects c) ([], []).

(** [Math.sqrt(Math.pow(shapeCenter.x - textCenter.x, 2) +
              Math.pow(shapeCenter.y - textCenter.y, 2))], in binary64 as
    the code computes it. *)
Definition distance (shapeCenter textCenter : Point) : PrimFloat.float :=
  PrimFloat.sqrt
    (PrimFloat.add
       (Binary64.pow2 (PrimFloat.sub (Binary64.ofQ (x shapeCenter))
                                     (Binary64.ofQ (x textCenter))))
       (Binary64.pow2 (PrimFloat.sub (Binary64.ofQ (y shapeCenter))
                                     (Binary64.ofQ (y textCenter))))).

(** [distance < minDistance] *)
Definition closer (distance minDistance : PrimFloat.float) : bool :=
  PrimFloat.ltb distance minDistance.

(** [text._boundBubble || text._boundShape] *)
Definition isClaimed (o : Obj) : bool :=
  bool_decide (is_Some (_boundBubble (links o))) ||
  bool_decide (is_Some (_boundShape (links o))).

(** One round of the inner loop; [acc] is [(closestText, minDistance)]. *)
Definition scanText (c : Canvas) (shapeCenter : Point)
    (acc : option ObjId * PrimFloat.float) (text : ObjId)
  : option ObjId * PrimFloat.float :=
  match heap c !! text with
  | None => acc
  | Some t =>
      if isClaimed t then acc
      else
        let d := distance shapeCenter (getCenterPoint centerOf t) in
        if closer d (snd acc) then (Some text, d) else acc
  end.

(** The inner loop, from [closestText = null] and [minDistance =
    Infinity]. *)
Definition closestText (c : Canvas) (shapeTexts : list ObjId)
    (shapeCenter : Point) : option ObjId :=
  fst (fold_left (scanText c shapeCenter) shapeTexts (None, PrimFloat.infinity)).

(** [closestText.set({ hasControls: false, hasBorders: false,
    lockMovementX: true, lockMovementY: true })] *)
Definition lockText (o : Obj) : Obj :=
  set_controls (mkControls false false true true
                           (selectable (controls o)) (evented (controls o))) o.

(** One round of the outer loop. *)
Definition bindClosest (shapeTexts : list ObjId) (c : Canvas) (shape : ObjId)
  : Canvas :=
  match heap c !! shape with
  | None => c
  | Some s =>
      match closestText c shapeTexts (getCenterPoint centerOf s) with
      | None => c
      | Some closest =>
          let c1 := update closest lockText c in
          if bool_decide (_shapeType s = Some "bubble") then
            let c2 := update shape (setBoundText (Some closest)) c1 in
            let c3 := update closest (setBoundBubble (Some shape)) c2 in
            setupBubbleTextEvents closest (bindBubbleTextEvents shape closest c3)
          else
            let c2 := update shape (setBoundText (Some closest)) c1 in
            let c3 := update closest (setBoundShape (Some shape)) c2 in
            setupShapeTextEvents closest (bindShapeTextEvents shape closest c3)
      end
  end.

(** [restoreBubbleTextBindings()] *)
Definition restoreBubbleTextBindings (c : Canvas) : Canvas :=
  let '(bindableShapes, shapeTexts) := classify c in
  fold_left (bindClosest shapeTexts) bindableShapes c.

(** [setupRestoredTextBox(textbox)] *)
Definition setupRestoredTextBox (textbox : ObjId) (c : Canvas) : Canvas :=
  let c1 := if isActive textbox c then c
            else update textbox (onProps (setStroke (Some "transparent") 0)) c in
  update textbox (on (addExited (restoredExited textbox)))
    (update textbox (on (addEntered (restoredEntered textbox))) c1).

Definition setInteractive (o : Obj) : Obj :=
  set_controls (mkControls (hasControls (controls o)) (hasBorders (controls o))
                           (lockMovementX (controls o)) (lockMovementY (controls o))
                           true true) o.

(** The body of [canvas.forEachObject] in the [.then] of [restoreState]. *)
Definition reviveObject (c : Canvas) (id : ObjId) : Canvas :=
  match heap c !! id with
  | None => c
  | Some obj =>
      let c1 := if bool_decide (name obj = Some "cropRect") then c
                else update id setInteractive c in
      if String.eqb (type obj) "textbox" &&
         negb (bool_decide (_shapeType obj = Some "bubbleText"))
      then setupRestoredTextBox id c1 else c1
  end.

(** What runs when [loadFromJSON] has resolved. *)
Definition afterLoad (c : Canvas) : Canvas :=
  restoreBubbleTextBindings (fold_left reviveObject (objects c) c).

(** The roles of the specification, in its words: a container is an
    object tagged bubble, rect, circle or triangle, a bound text one
    tagged bubbleText or shapeText. *)
Inductive Role := boundContainer | boundText.
Definition roleOf (o : Obj) : option Role :=
  match _shapeType o with
  | Some tag =>
      if String.eqb tag "bubble" || String.eqb tag "rect" ||
         String.eqb tag "circle" || String.eqb tag "triangle"
      then Some boundContainer
      else if String.eqb tag "bubbleText" || String.eqb tag "shapeText"
           then Some boundText
           else None
  | None => None
  end.
Definition hasRole (role : Role) (c : Canvas) (id : ObjId) : bool :=
  match heap c !! id ≫= roleOf, role with
  | Some boundContainer, boundContainer | Some boundText, boundText => true
  | _, _ => false
  end.

(** The containers and the bound texts of a collection, in encounter
    order. *)
Definition containers (c : Canvas) : list ObjId :=
  filter (fun id => hasRole boundContainer c id = true) (objects c).
Definition boundTexts (c : Canvas) : list ObjId :=
  filter (fun id => hasRole boundText c id = true) (objects c).

(** The text a container is bound to, and the container a text is bound
    to, in a given state. *)
Definition boundTextOf (c : Canvas) (shape : ObjId) : option ObjId :=
  heap c !! shape ≫= fun o => _boundText (links o).
Definition boundContainerOf (c : Canvas) (textbox : ObjId) : option ObjId :=
  heap c !! textbox ≫= fun o =>
    match _boundBubble (links o) with
    | Some b => Some b
    | None => _boundShape (links o)
    end.

(** The centre of the object behind a reference (a dangling reference
    counts as the origin; there is none on a loaded canvas). *)
Definition centerOfRef (c : Canvas) (id : ObjId) : Point :=
  match heap c !! id with
  | Some obj => getCenterPoint centerOf obj
  | None => mkPoint 0 0
  end.

(** The Euclidean distance between two points, in the specification's
    words: the root of the sum of the squared differences; [euclidean] is
    that formula evaluated in binary64, [euclid2] the square of the
    distance as an exact rational. *)
Definition euclidean (a b : Point) : PrimFloat.float :=
  let dx := PrimFloat.sub (Binary64.ofQ (x a)) (Binary64.ofQ (x b)) in
  let dy := PrimFloat.sub (Binary64.ofQ (y a)) (Binary64.ofQ (y b)) in
  PrimFloat.sqrt (PrimFloat.add (PrimFloat.mul dx dx) (PrimFloat.mul dy dy)).
Definition euclid2 (a b : Point) : Q :=
  ((x a - x b) * (x a - x b) + (y a - y b) * (y a - y b))%Q.

(** The distance between the centres of two objects of the canvas. *)
Definition distanceBetween (c : Canvas) (a b : ObjId) : PrimFloat.float :=
  euclidean (centerOfRef c a) (centerOfRef c b).

(** A collection as a restore produces it: every reference on the canvas
    is live and occurs once, and the objects are new instances, without a
    back-reference (they are not serialised) and without a ['removed']
    listener. *)
Definition freshlyLoaded (c : Canvas) : Prop :=
  NoDup (objects c) /\
  forall id, id ∈ objects c ->
    exists obj, heap c !! id = Some obj /\ links obj = noLinks /\
                onRemoved (listeners obj) = [].

End WithFabric.

End Restore.

(** ** Tool selection (ToolsManager.setTool) *)

Module Editor.
Import Scene Tools.

Inductive BrushKind := PencilBrush | EraserBrush.

Record Brush := mkBrush {
  kind : BrushKind;
  color : option string;
  brushWidth : Q
}.

Record Editor := mkEditor {
  canvas : Canvas;
  tools : ToolsManager;
  brushSettings : string * Q;          (* color, width *)
  freeDrawingBrush : option Brush;     (* canvas.freeDrawingBrush *)
  brushSettingsHidden : bool;          (* #brush-settings has class hidden *)
  cropPanelHidden : bool;              (* #crop-panel has class hidden *)
  toasts : list (string * string);     (* showToast(message, type) *)
  imageInputClicks : nat               (* clicks sent to #image-input *)
}.

Definition set_canvas (c : Canvas) (e : Editor) : Editor :=
  mkEditor c (tools e) (brushSettings e) (freeDrawingBrush e)
           (brushSettingsHidden e) (cropPanelHidden e) (toasts e)
           (imageInputClicks e).
Definition set_tools (t : ToolsManager) (e : Editor) : Editor :=
  mkEditor (canvas e) t (brushSettings e) (freeDrawingBrush e)
           (brushSettingsHidden e) (cropPanelHidden e) (toasts e)
           (imageInputClicks e).
Definition set_freeDrawingBrush (b : option Brush) (e : Editor) : Editor :=
  mkEditor (canvas e) (tools e) (brushSettings e) b
           (brushSettingsHidden e) (cropPanelHidden e) (toasts e)
           (imageInputClicks e).
Definition set_brushSettingsHidden (b : bool) (e : Editor) : Editor :=
  mkEditor (canvas e) (tools e) (brushSettings e) (freeDrawingBrush e)
           b (cropPanelHidden e) (toasts e) (imageInputClicks e).
Definition set_cropPanelHidden (b : bool) (e : Editor) : Editor :=
  mkEditor (canvas e) (tools e) (brushSettings e) (freeDrawingBrush e)
           (brushSettingsHidden e) b (toasts e) (imageInputClicks e).
Definition set_toasts (l : list (string * string)) (e : Editor) : Editor :=
  mkEditor (canvas e) (tools e) (brushSettings e) (freeDrawingBrush e)
           (brushSettingsHidden e) (cropPanelHidden e) l (imageInputClicks e).
Definition set_imageInputClicks (n : nat) (e : Editor) : Editor :=
  mkEditor (canvas e) (tools e) (brushSettings e) (freeDrawingBrush e)
           (brushSettingsHidden e) (cropPanelHidden e) (toasts e) n.

Definition onCanvas (f : Canvas -> Canvas) (e : Editor) : Editor :=
  set_canvas (f (canvas e)) e.

Definition set_currentTool (toolName : string) (e : Editor) : Editor :=
  set_tools (mkTools toolName (isDrawingShape (tools e))
                     (startPoint (tools e)) (currentShape (tools e))) e.

(** The names [setTool] has a case for. *)
Definition acceptedTools : list string :=
  ["select"; "hand"; "pencil"; "eraser"; "rect"; "circle"; "triangle";
   "line"; "arrow"; "text"; "bubble"; "image"; "crop"].

Section WithCollaborators.

(** Whether this build of fabric has [EraserBrush], and what
    [cropManager.enableCropMode()] does to the editor. *)
Variable hasEraserBrush : bool.
Variable enableCropMode : Editor -> Editor.

(** [canvas.forEachObject(obj => { obj.selectable = b; obj.evented = b })] *)
Definition setSelectable (b : bool) (o : Obj) : Obj :=
  set_controls (mkControls (hasControls (controls o)) (hasBorders (controls o))
                           (lockMovementX (controls o)) (lockMovementY (controls o))
                           b b) o.
Definition forEachSelectable (b : bool) (c : Canvas) : Canvas :=
  fold_left (fun c id => update id (setSelectable b) c) (objects c) c.

(** [enableDrawingMode(mode)] *)
Definition enableDrawingMode (mode : string) (e : Editor) : Editor :=
  let e1 := onCanvas (set_isDrawingMode true) e in
  let '(col, w) := brushSettings e1 in
  if String.eqb mode "pencil" then
    set_freeDrawingBrush (Some (mkBrush PencilBrush (Some col) w)) e1
  else if String.eqb mode "eraser" then
    if hasEraserBrush
    then set_freeDrawingBrush (Some (mkBrush EraserBrush None w)) e1
    else set_freeDrawingBrush (Some (mkBrush PencilBrush (Some "#ffffff") w)) e1
  else e1.

(** [hideAllPanels()] and [showPanel(id)] *)
Definition hideAllPanels (e : Editor) : Editor :=
  set_cropPanelHidden true (set_brushSettingsHidden true e).

(** [cropManager.isImageObject(obj)] on the active object. *)
Definition activeIsImage (e : Editor) : bool :=
  match activeObject (canvas e) with
  | Some (single o) =>
      match heap (canvas e) !! o with
      | Some obj => String.eqb (type obj) "image"
      | None => false
      end
  | _ => false
  end.

(** The body of [setTool(toolName)]; [self] is the method itself, which
    the cases ['image'] and ['crop'] call with ['select']. *)
Definition setToolBody (self : string -> Editor -> Editor)
    (toolName : string) (e : Editor) : Editor :=
  let e1 := set_currentTool toolName e in
  let e2 := onCanvas (fun c => set_hoverCursor "move"
                        (set_defaultCursor "default"
                           (set_selection true (set_isDrawingMode false c)))) e1 in
  let e3 := hideAllPanels e2 in
  let crosshair c := set_defaultCursor "crosshair" (set_selection false c) in
  let finish e' :=
    if String.eqb toolName "select" then e'
    else onCanvas discardActiveObject e' in
  if String.eqb toolName "select" then
    finish (onCanvas (forEachSelectable true) e3)
  else if String.eqb toolName "hand" then
    finish (onCanvas (fun c => forEachSelectable false
                        (set_defaultCursor "grab" (set_selection false c))) e3)
  else if String.eqb toolName "pencil" then
    finish (set_brushSettingsHidden false (enableDrawingMode "pencil" e3))
  else if String.eqb toolName "eraser" then
    finish (set_brushSettingsHidden false (enableDrawingMode "eraser" e3))
  else if bool_decide (toolName ∈ ["rect"; "circle"; "triangle"; "line"; "arrow"])
  then finish (onCanvas crosshair e3)
  else if bool_decide (toolName ∈ ["text"; "bubble"])
  then finish (onCanvas crosshair e3)
  else if String.eqb toolName "image" then
    finish (self "select" (set_imageInputClicks (S (imageInputClicks e3)) e3))
  else if String.eqb toolName "crop" then
    if activeIsImage e3
    then enableCropMode (set_cropPanelHidden false e3)
    else self "select"
           (set_toasts (toasts e3 ++ [("请先选择一张图片再进行裁剪", "error")]) e3)
  else finish e3.

(** [setTool('select')] never calls the method again, so one unfolding of
    [self] closes the recursion. *)
Definition setTool (toolName : string) (e : Editor) : Editor :=
  setToolBody (setToolBody (fun _ e' => e')) toolName e.

End WithCollaborators.

End Editor.

(** ** A concrete scene *)

Module Examples.
Import Scene Tools.

(** Centre and bounding box of an unrotated object, placed by its
    top-left corner or by its centre. *)
Definition centerOf (g : Geometry) : Point :=
  mkPoint (if String.eqb (originX g) "center" then left g
           else left g + width g * scaleX g / 2)
          (if String.eqb (originY g) "center" then top g
           else top g + height g * scaleY g / 2).
Definition boundsOf (g : Geometry) : Q * Q :=
  ((width g * scaleX g)%Q, (height g * scaleY g)%Q).

(** [trim] for blanks. *)
Fixpoint trimStart (s : string) : string :=
  match s with
  | String " " rest => trimStart rest
  | _ => s
  end.
Definition trim (s : string) : string :=
  String.rev (trimStart (String.rev (trimStart s))).

(** The canvas of an editor that has just started. *)
Definition emptyCanvas : Canvas :=
  mkCanvas ∅ 0 [] None false true "default" "move" [] 0 [].

Definition defaultControls : Controls := mkControls true true false false true true.

(** What [createShape] makes for the rect and circle tools, and
    [createTextBox] and [createBubble], once the drag has given them a
    size. *)
Definition draggedRect (l t w h : Q) : Obj :=
  mkObj "rect" (Some "rect") None
        (mkGeometry l t w h 0 0 1 1 0 "left" "top")
        (mkTextProps "" "#ffffff" "normal" (Some "#333333") 2 false)
        defaultControls noBubble noLinks noListeners.
Definition draggedEllipse (l t r1 r2 : Q) : Obj :=
  mkObj "ellipse" (Some "circle") None
        (mkGeometry l t (r1 * 2) (r2 * 2) r1 r2 1 1 0 "left" "top")
        (mkTextProps "" "#ffffff" "normal" (Some "#333333") 2 false)
        defaultControls noBubble noLinks noListeners.
Definition draggedTextBox (l t w : Q) : Obj :=
  mkObj "textbox" (Some "textbox") None
        (mkGeometry l t w 0 0 0 1 1 0 "left" "top")
        (mkTextProps "" textColor "normal" (Some "#333333") 2 true)
        defaultControls noBubble noLinks noListeners.
Definition draggedBubble (l t w h : Q) : Obj :=
  mkObj "path" (Some "bubble") None
        (mkGeometry l t w (h + 15) 0 0 1 1 0 "left" "top")
        (mkTextProps "" "#ffffff" "normal" (Some "#333333") 2 false)
        defaultControls
        (mkBubbleProps (createBubblePath 0 0 w h 10 15) (Some w) (Some h) (Some 15%Q))
        noLinks noListeners.

(** [new fabric.X(...)] followed by [canvas.add]. *)
Definition place (obj : Obj) (c : Canvas) : Canvas :=
  add (nextId c) (alloc obj c).2.

(** A rect dragged 30 wide and 200 high, before pointer-up. *)
Definition thinRect : Canvas := place (draggedRect 10 10 30 200) emptyCanvas.

(** The same after pointer-up: object 0 is the rect, object 1 its text. *)
Definition rectWithText : Canvas :=
  finalizeShapeWithText centerOf boundsOf (Some 0) thinRect.

(** A free text box on the canvas, as [createTextBox] leaves it. *)
Definition freeText : Canvas := place (draggedTextBox 50 50 150) emptyCanvas.

(** A bubble with its text. *)
Definition bubbleWithText : Canvas :=
  finalizeBubble centerOf (Some 0) (place (draggedBubble 20 20 90 70) emptyCanvas).

(** What [loadFromJSON] rebuilds from a snapshot of two rects with their
    texts: the tags and the geometry, neither back-references nor
    handlers.  Objects 0 and 2 are the rects, with centres (60, 50) and
    (310, 140); objects 1 and 3 are the texts, the first of them next to
    the second rect and the second next to the first rect. *)
Definition loadedText (l t : Q) : Obj :=
  mkObj "textbox" (Some "shapeText") None
        (mkGeometry l t 80 20 0 0 1 1 0 "center" "center")
        (mkTextProps "" textColor "normal" None 0 false)
        (mkControls false false true true true true)
        noBubble noLinks noListeners.
Definition loadedScene : Canvas :=
  place (loadedText 70 60)
    (place (draggedRect 260 100 100 80)
       (place (loadedText 300 150)
          (place (draggedRect 10 10 100 80) emptyCanvas))).

(** One rect with centre (60, 50) and two texts: object 1 at
    (65, 50 + 2^-30), object 2 at (63, 54).  All coordinates are binary64
    numbers. *)
Definition tiedScene : Canvas :=
  place (loadedText 63 54)
    (place (loadedText 65 (50 + (1 # 1073741824)))
       (place (draggedRect 10 10 100 80) emptyCanvas)).

(** One rect and one text at 2^600 to its right. *)
Definition remoteScene : Canvas :=
  place (loadedText (inject_Z (2 ^ 600)) 50)
    (place (draggedRect 10 10 100 80) emptyCanvas).

End Examples.

(** ** The history manager under any order of its events *)

Module HistoryEvents.
Import History.

(** [getInfo()].  [undoCount] is [undoStack.length - 1], which is [-1] on
    an empty stack. *)
Record Info := mkInfo {
  undoCount : Z;
  redoCount : nat;
  canUndo : bool;
  canRedo : bool
}.

Definition getInfo (hm : HistoryManager) : Info :=
  mkInfo (Z.of_nat (length (undoStack hm)) - 1)%Z
         (length (redoStack hm))
         (1 <? length (undoStack hm))
         (0 <? length (redoStack hm)).

(** What can happen to the manager: a call of one of its methods, the
    debounce timer firing, or the promise of a pending load settling.  The
    snapshot carried by a committing event is what serialising the canvas
    gives at that moment ([None]: it throws). *)
Inductive Event :=
| callSaveState
| debounceFires (stateStr : option string)
| callSaveStateImmediate (stateStr : option string)
| callUndo
| callRedo
| loadSettles (resolved : bool)
| callClear (stateStr : option string).

Section Run.

Variable JSON_parse_ok : string -> bool.

Definition handle (hm : HistoryManager) (e : Event) : HistoryManager :=
  match e with
  | callSaveState => saveState hm
  | debounceFires stateStr => timerFires stateStr hm
  | callSaveStateImmediate stateStr => saveStateImmediate stateStr hm
  | callUndo => undo JSON_parse_ok hm
  | callRedo => redo JSON_parse_ok hm
  | loadSettles resolved => loadSettled resolved hm
  | callClear stateStr => clear stateStr hm
  end.

Definition run (events : list Event) (hm : HistoryManager) : HistoryManager :=
  fold_left handle events hm.

End Run.

(** The events that move through the history without committing. *)
Definition isNavigation (e : Event) : bool :=
  match e with
  | callUndo | callRedo | loadSettles _ | callSaveState => true
  | _ => false
  end.

End HistoryEvents.

(** ** Image filters (FilterManager) *)

Module Filters.

(** [this.filters]: the five slider values. *)
Record Settings := mkSettings {
  brightness : Q;
  contrast : Q;
  saturation : Q;
  blur : Q;
  noise : Q
}.

(** The constructor's and [resetFilters]'s literal. *)
Definition neutral : Settings := mkSettings 0 0 0 0 0.

(** A fabric filter object: its [type] and the property that carries its
    strength ([brightness] for a [Brightness] filter, and so on), which a
    filter that did not come from this manager may lack. *)
Record Filter := mkFilter {
  filterType : string;
  amount : option Q
}.

(** The active object as the manager sees it: its [type] and its
    [filters], which may be undefined. *)
Record Target := mkTarget {
  targetType : string;
  filters : option (list Filter)
}.

Record FilterManager := mkFilterManager {
  settings : Settings;
  activeObject : option Target;     (* canvas.getActiveObject() *)
  saveRequests : nat                (* calls of editor.history.saveState() *)
}.

(** [value !== 0] and [value > 0] on a slider value. *)
Definition nonZero (q : Q) : bool := negb (Qeq_bool q 0).
Definition positive (q : Q) : bool := Num.Qltb 0 q.

(** The pushes of [applyFilters()], in the order of the source. *)
Definition filtersFor (s : Settings) : list Filter :=
  (if nonZero (brightness s) then [mkFilter "Brightness" (Some (brightness s))] else []) ++
  (if nonZero (contrast s) then [mkFilter "Contrast" (Some (contrast s))] else []) ++
  (if nonZero (saturation s) then [mkFilter "Saturation" (Some (saturation s))] else []) ++
  (if positive (blur s) then [mkFilter "Blur" (Some (blur s))] else []) ++
  (if positive (noise s) then [mkFilter "Noise" (Some (noise s))] else []).

Definition isImage (t : Target) : bool := String.eqb (targetType t) "image".

(** [applyFilters()] *)
Definition applyFilters (fm : FilterManager) : FilterManager :=
  match activeObject fm with
  | None => fm
  | Some obj =>
      if isImage obj
      then mkFilterManager (settings fm)
             (Some (mkTarget (targetType obj) (Some (filtersFor (settings fm)))))
             (saveRequests fm)
      else fm
  end.

(** Assignment to [this.filters[property]]; a name that is not one of the
    five adds a property the manager never reads. *)
Definition setProperty (property : string) (v : Q) (s : Settings) : Settings :=
  if String.eqb property "brightness"
  then mkSettings v (contrast s) (saturation s) (blur s) (noise s)
  else if String.eqb property "contrast"
  then mkSettings (brightness s) v (saturation s) (blur s) (noise s)
  else if String.eqb property "saturation"
  then mkSettings (brightness s) (contrast s) v (blur s) (noise s)
  else if String.eqb property "blur"
  then mkSettings (brightness s) (contrast s) (saturation s) v (noise s)
  else if String.eqb property "noise"
  then mkSettings (brightness s) (contrast s) (saturation s) (blur s) v
  else s.

(** The ['input'] listener of one slider: the parsed value is stored, then
    [applyFilters()]. *)
Definition onSliderInput (property : string) (v : Q) (fm : FilterManager)
  : FilterManager :=
  applyFilters (mkFilterManager (setProperty property v (settings fm))
                                (activeObject fm) (saveRequests fm)).

(** One round of the loop of [updateFilterUI(obj)]: [filter.x || 0] is
    stored under the name that goes with the filter's type. *)
Definition readFilter (s : Settings) (f : Filter) : Settings :=
  let v := Num.orDefault (amount f) 0 in
  if String.eqb (filterType f) "Brightness" then setProperty "brightness" v s
  else if String.eqb (filterType f) "Contrast" then setProperty "contrast" v s
  else if String.eqb (filterType f) "Saturation" then setProperty "saturation" v s
  else if String.eqb (filterType f) "Blur" then setProperty "blur" v s
  else if String.eqb (filterType f) "Noise" then setProperty "noise" v s
  else s.

(** [updateFilterUI(obj)], as far as [this.filters] goes. *)
Definition updateFilterUI (obj : Target) (fm : FilterManager) : FilterManager :=
  let read :=
    match filters obj with
    | Some fs => fold_left readFilter fs neutral
    | None => neutral
    end in
  mkFilterManager read (activeObject fm) (saveRequests fm).

(** [resetFilters()] *)
Definition resetFilters (fm : FilterManager) : FilterManager :=
  match activeObject fm with
  | Some obj =>
      if isImage obj
      then mkFilterManager neutral (Some (mkTarget (targetType obj) (Some [])))
                           (S (saveRequests fm))
      else mkFilterManager neutral (activeObject fm) (saveRequests fm)
  | None => mkFilterManager neutral None (saveRequests fm)
  end.

(** Two settings hold the same numbers. *)
Definition sameSettings (a b : Settings) : Prop :=
  (brightness a == brightness b)%Q /\ (contrast a == contrast b)%Q /\
  (saturation a == saturation b)%Q /\ (blur a == blur b)%Q /\
  (noise a == noise b)%Q.

End Filters.

(** ** Drawing by dragging (ToolsManager: pointer handlers) *)

Module Drawing.
Import Scene Tools.

(** [this.textShapeDefaults]: [fillColor], [borderColor], [borderWidth]. *)
Definition fillColor : string := "#ffffff".
Definition borderColor : string := "#333333".
Definition borderWidth : Q := 2.

(** The switches a new fabric object starts with. *)
Definition fabricControls : Controls := mkControls true true false false true true.

(** [commonProps] of [createShape]: the position, and the style; a shape
    has no text of its own. *)
Definition commonGeom (pointer : Point) : Geometry :=
  mkGeometry (x pointer) (y pointer) 0 0 0 0 1 1 0 "left" "top".
Definition commonStyle : TextProps :=
  mkTextProps "" fillColor "normal" (Some borderColor) borderWidth false.

Definition newShape (type shapeType : string) (pointer : Point) : Obj :=
  mkObj type (Some shapeType) None (commonGeom pointer) commonStyle
        fabricControls noBubble noLinks noListeners.

Definition setLeft (l : Q) (g : Geometry) : Geometry :=
  mkGeometry l (top g) (width g) (height g) (rx g) (ry g) (scaleX g) (scaleY g)
             (angle g) (originX g) (originY g).
Definition setTop (t : Q) (g : Geometry) : Geometry :=
  mkGeometry (left g) t (width g) (height g) (rx g) (ry g) (scaleX g) (scaleY g)
             (angle g) (originX g) (originY g).

Definition withDrawing (b : bool) (start : option Point) (t : ToolsManager)
  : ToolsManager :=
  mkTools (currentTool t) b start (currentShape t).
Definition withShape (shape : option ObjId) (t : ToolsManager) : ToolsManager :=
  mkTools (currentTool t) (isDrawingShape t) (startPoint t) shape.

(** [['rect', 'circle', 'triangle', 'line', 'arrow', 'text', 'bubble']]
    and the five of them that [createShape] serves. *)
Definition drawingTools : list string :=
  ["rect"; "circle"; "triangle"; "line"; "arrow"; "text"; "bubble"].
Definition shapeTools : list string :=
  ["rect"; "circle"; "triangle"; "line"; "arrow"].

Section WithFabric.

(** What fabric computes: centre and bounding box of an object (as
    before), the box of a line from its end points and after its second
    end point is moved, the box of the group an arrow is, and the width and
    height of a path. *)
Variable centerOf : Geometry -> Point.
Variable boundsOf : Geometry -> Q * Q.
Variable lineBox : Q -> Q -> Q -> Q -> Geometry.
Variable moveLineEnd : Q -> Q -> Geometry -> Geometry.
Variable arrowBox : Q -> Q -> Q -> Q -> Geometry.
Variable pathSize : list PathCmd -> Q * Q.

(** [new fabric.Line([x1, y1, x2, y2], { stroke: '#000000',
    strokeWidth: 2, selectable: true })]; the fill is fabric's default. *)
Definition newLine (x1 y1 x2 y2 : Q) : Obj :=
  mkObj "line" None None (lineBox x1 y1 x2 y2)
        (mkTextProps "" "rgb(0,0,0)" "normal" (Some "#000000") 2 false)
        fabricControls noBubble noLinks noListeners.

(** [createArrow(x1, y1, x2, y2)]: a group named ['arrow'] of a line and
    a triangular head turned by [atan2]; the two parts belong to the group,
    not to the canvas. *)
Definition createArrow (x1 y1 x2 y2 : Q) : Obj :=
  mkObj "group" None (Some "arrow") (arrowBox x1 y1 x2 y2)
        (mkTextProps "" "rgb(0,0,0)" "normal" None 0 false)
        fabricControls noBubble noLinks noListeners.

(** [createShape(pointer)].  [canvas.add] is the plain insertion here and
    below: the editor's ['object:added'] listener requests a history save
    only while the canvas is in drawing mode, which [setTool] switches off
    for the tools that draw by dragging. *)
Definition createShape (pointer : Point) (t : ToolsManager) (c : Canvas)
  : ToolsManager * Canvas :=
  let tool := currentTool t in
  let shape :=
    if String.eqb tool "rect" then Some (newShape "rect" "rect" pointer)
    else if String.eqb tool "circle" then Some (newShape "ellipse" "circle" pointer)
    else if String.eqb tool "triangle"
    then Some (newShape "triangle" "triangle" pointer)
    else if String.eqb tool "line"
    then Some (newLine (x pointer) (y pointer) (x pointer) (y pointer))
    else if String.eqb tool "arrow"
    then Some (createArrow (x pointer) (y pointer) (x pointer) (y pointer))
    else None in
  match shape with
  | Some obj =>
      let '(id, c1) := alloc obj c in
      (withShape (Some id) t, add id c1)
  | None => (t, c)
  end.

(** [createTextBox(pointer)]: an empty text box 150 wide, flagged as a
    placeholder. *)
Definition newTextBox (pointer : Point) : Obj :=
  mkObj "textbox" (Some "textbox") None
        (mkGeometry (x pointer) (y pointer) 150 0 0 0 1 1 0 "left" "top")
        (mkTextProps "" textColor "normal" (Some borderColor) borderWidth true)
        fabricControls noBubble noLinks noListeners.

Definition createTextBox (pointer : Point) (t : ToolsManager) (c : Canvas)
  : ToolsManager * Canvas :=
  let '(id, c1) := alloc (newTextBox pointer) c in
  (withShape (Some id) t, add id c1).

(** [createBubble(pointer)] *)
Definition newBubble (pointer : Point) : Obj :=
  let bubblePath := createBubblePath 0 0 150 80 10 15 in
  mkObj "path" (Some "bubble") None
        (mkGeometry (x pointer) (y pointer) (fst (pathSize bubblePath))
                    (snd (pathSize bubblePath)) 0 0 1 1 0 "left" "top")
        commonStyle fabricControls
        (mkBubbleProps bubblePath (Some 150%Q) (Some 80%Q) (Some 15%Q))
        noLinks noListeners.

Definition createBubble (pointer : Point) (t : ToolsManager) (c : Canvas)
  : ToolsManager * Canvas :=
  let '(id, c1) := alloc (newBubble pointer) c in
  (withShape (Some id) t, add id c1).

(** [onMouseDown(opt)]: [target] is [opt.target], [pointer] is
    [canvas.getPointer(opt.e)]. *)
Definition onMouseDown (target : option ObjId) (pointer : Point)
    (st : ToolsManager * bool * Canvas) : ToolsManager * bool * Canvas :=
  let '(t, isPanning, c) := st in
  let tool := currentTool t in
  let start :=
    if bool_decide (tool ∈ shapeTools) then
      let '(t1, c1) := createShape pointer (withDrawing true (Some pointer) t) c in
      (t1, isPanning, c1)
    else if String.eqb tool "text" then
      let '(t1, c1) := createTextBox pointer (withDrawing true (Some pointer) t) c in
      (t1, isPanning, c1)
    else if String.eqb tool "bubble" then
      let '(t1, c1) := createBubble pointer (withDrawing true (Some pointer) t) c in
      (t1, isPanning, c1)
    else if String.eqb tool "hand" then
      (t, true, set_defaultCursor "grabbing" c)
    else (t, isPanning, c) in
  match target with
  | Some o =>
      if bool_decide (tool ∈ drawingTools)
      then (t, isPanning, setActiveObject o c)
      else start
  | None => start
  end.

(** The two tests and assignments [updateShape] makes for a rect or a
    triangle. *)
Definition dragBox (pointer : Point) (w h : Q) (g : Geometry) : Geometry :=
  let g1 := if Num.Qltb w 0
            then setWidth (Qabs w) (setLeft (x pointer) g)
            else setWidth w g in
  if Num.Qltb h 0
  then setHeight (Qabs h) (setTop (y pointer) g1)
  else setHeight h g1.

(** [set({ left: Math.min(startX, pointer.x),
           top: Math.min(startY, pointer.y) })] *)
Definition anchor (start pointer : Point) (g : Geometry) : Geometry :=
  setTop (Num.min (y start) (y pointer))
    (setLeft (Num.min (x start) (x pointer)) g).

(** [updateBubbleSize(pointer)] on the bubble. *)
Definition resizeBubble (start pointer : Point) (b : Obj) : Obj :=
  let w := Num.max (Qabs (x pointer - x start)) 80 in
  let h := Num.max (Qabs (y pointer - y start)) 50 in
  let tailSize := Num.orDefault (_tailSize (Scene.bubble b)) 15 in
  set_bubble (mkBubbleProps (createBubblePath 0 0 w h 10 tailSize)
                            (Some w) (Some h) (_tailSize (Scene.bubble b)))
    (onGeom (anchor start pointer) b).

(** [updateShape(pointer)].  Its first statement takes [startPoint] apart
    and every case but ['arrow'] begins with a call on [currentShape]:
    without either the method throws before it has changed anything. *)
Definition updateShape (pointer : Point) (t : ToolsManager) (c : Canvas)
  : ToolsManager * Canvas :=
  match startPoint t, currentShape t with
  | Some start, Some shape =>
      let w := (x pointer - x start)%Q in
      let h := (y pointer - y start)%Q in
      let tool := currentTool t in
      if String.eqb tool "rect" || String.eqb tool "triangle" then
        (t, update shape (onGeom (dragBox pointer w h)) c)
      else if String.eqb tool "circle" then
        (t, update shape
              (onGeom (fun g => setRy (Qabs h / 2) (setRx (Qabs w / 2)
                                   (anchor start pointer g)))) c)
      else if String.eqb tool "line" then
        (t, update shape (onGeom (moveLineEnd (x pointer) (y pointer))) c)
      else if String.eqb tool "arrow" then
        let c1 := default c (remove shape c) in
        let '(id, c2) :=
          alloc (createArrow (x start) (y start) (x pointer) (y pointer)) c1 in
        (withShape (Some id) t, add id c2)
      else if String.eqb tool "text" then
        (t, update shape
              (onGeom (fun g => setWidth (Num.max (Qabs w) 50)
                                   (anchor start pointer g))) c)
      else if String.eqb tool "bubble" then
        (t, update shape (resizeBubble start pointer) c)
      else (t, c)
  | _, _ => (t, c)
  end.

(** [onMouseMove(opt)] *)
Definition onMouseMove (pointer : Point) (st : ToolsManager * bool * Canvas)
  : ToolsManager * bool * Canvas :=
  let '(t, isPanning, c) := st in
  if negb (isDrawingShape t) || negb (bool_decide (is_Some (currentShape t)))
  then st
  else let '(t1, c1) := updateShape pointer t c in (t1, isPanning, c1).

(** [onMouseUp(opt)] on the same triple. *)
Definition mouseUp (st : ToolsManager * bool * Canvas)
  : ToolsManager * bool * Canvas :=
  let '(t, isPanning, c) := st in onMouseUp centerOf boundsOf t isPanning c.

(** The handlers of ToolsManager over a whole gesture: the button goes
    down at [p0] over [target], the pointer visits [moves], the button is
    released.  With no object under the pointer nothing else listens to
    the gesture; what fabric does when the press hits a selectable object
    (it moves the object and fires ['object:modified']) is not part of
    these handlers. *)
Definition drag (target : option ObjId) (p0 : Point) (moves : list Point)
    (st : ToolsManager * bool * Canvas) : ToolsManager * bool * Canvas :=
  mouseUp (fold_left (fun s p => onMouseMove p s) moves (onMouseDown target p0 st)).

End WithFabric.

(** The points a path goes through or is pulled towards. *)
Definition pathPoints (cmd : PathCmd) : list Point :=
  match cmd with
  | PathM px py => [mkPoint px py]
  | PathL px py => [mkPoint px py]
  | PathQ cx cy px py => [mkPoint cx cy; mkPoint px py]
  | PathZ => []
  end.

(** Where the pen is after a command that draws, and the positions it
    takes along a path. *)
Definition endPoint (cmd : PathCmd) : option Point :=
  match cmd with
  | PathM px py => Some (mkPoint px py)
  | PathL px py => Some (mkPoint px py)
  | PathQ _ _ px py => Some (mkPoint px py)
  | PathZ => None
  end.
Definition penPositions (p : list PathCmd) : list Point := omap endPoint p.

End Drawing.

(** ** Cropping an image (CropManager) *)

Module Crop.
Import Scene Tools Editor.
#[local] Open Scope Q_scope.

(** What [getBoundingRect()] returns. *)
Record Bounds := mkBounds { bLeft : Q; bTop : Q; bWidth : Q; bHeight : Q }.

(** [originalImageState] *)
Record ImageState := mkImageState {
  sLeft : Q; sTop : Q; sScaleX : Q; sScaleY : Q; sAngle : Q
}.

Record CropManager := mkCropManager {
  cropRect : option ObjId;
  targetImage : option ObjId;
  isCropping : bool;
  overlay : option ObjId;
  originalImageState : option ImageState
}.

(** The manager as the constructor and as [cleanup()] leave it. *)
Definition idle : CropManager := mkCropManager None None false None None.

(** The editor with its crop manager, and the calls of
    [editor.history.saveStateImmediate()] counted. *)
Record Session := mkSession {
  editor : Editor;
  manager : CropManager;
  immediateSaves : nat
}.

Definition onEditor (f : Editor -> Editor) (s : Session) : Session :=
  mkSession (f (editor s)) (manager s) (immediateSaves s).

(** [editor.showToast(message, type)] *)
Definition showToast (message type' : string) (e : Editor) : Editor :=
  set_toasts (toasts e ++ [(message, type')]) e.

(** [Math.round]: to the nearest integer, a half goes up. *)
Definition round (q : Q) : Z := Qfloor (q + (1 # 2)).

(** [isImageObject(obj)]; the type of a fabric image is ['image'], and
    the other three tests hold of images only. *)
Definition isImageObject (o : option Obj) : bool :=
  match o with
  | Some obj => String.eqb (type obj) "image"
  | None => false
  end.

(** [canvas.getActiveObject()] with the object it refers to; an active
    selection of several objects is an object of its own, which is not an
    image. *)
Definition getActiveObject (c : Canvas) : option (ObjId * Obj) :=
  match activeObject c with
  | Some (single o) => (fun obj => (o, obj)) <$> heap c !! o
  | _ => None
  end.

(** [obj.selectable = b; obj.evented = b; obj.hasControls = b] *)
Definition setInteractive (b : bool) (o : Obj) : Obj :=
  set_controls (mkControls b (hasBorders (controls o))
                           (lockMovementX (controls o)) (lockMovementY (controls o))
                           b b) o.

Definition stateOf (img : Obj) : ImageState :=
  mkImageState (left (geom img)) (top (geom img)) (scaleX (geom img))
               (scaleY (geom img)) (angle (geom img)).

(** [obj.set(originalImageState)] *)
Definition restoreState (st : ImageState) (g : Geometry) : Geometry :=
  mkGeometry (sLeft st) (sTop st) (width g) (height g) (rx g) (ry g)
             (sScaleX st) (sScaleY st) (sAngle st) (originX g) (originY g).

(** The rectangle of [createOverlay(imgBounds)]; stroke and stroke width
    are fabric's defaults. *)
Definition overlayRect (imgBounds : Bounds) : Obj :=
  mkObj "rect" None (Some "cropOverlay")
        (mkGeometry (bLeft imgBounds - 2000) (bTop imgBounds - 2000)
                    (bWidth imgBounds + 4000) (bHeight imgBounds + 4000)
                    0 0 1 1 0 "left" "top")
        (mkTextProps "" "rgba(0, 0, 0, 0.5)" "normal" None 1 false)
        (mkControls true true false false false false)
        noBubble noLinks noListeners.

(** The crop rectangle of [enableCropMode()].  Its ['moving'] and
    ['scaling'] listeners both call [constrainCropRect()]; they are run by
    [transformCropRect] below. *)
Definition newCropRect (imgBounds : Bounds) : Obj :=
  mkObj "rect" None (Some "cropRect")
        (mkGeometry (bLeft imgBounds) (bTop imgBounds)
                    (bWidth imgBounds) (bHeight imgBounds)
                    0 0 1 1 0 "left" "top")
        (mkTextProps "" "transparent" "normal" (Some "#4f46e5") 2 false)
        (mkControls true true false false true true)
        noBubble noLinks noListeners.

Definition quote : string := String (Ascii.ascii_of_nat 34) EmptyString.

Definition noImageMessage : string := "请先选择一张图片再进行裁剪".
Definition adjustMessage : string :=
  ("调整裁剪框大小和位置，然后点击" ++ quote ++ "应用裁剪" ++ quote)%string.

(** [editor.tools.setTool('select')]: this case of [setTool] reaches
    neither [enableDrawingMode] nor the crop manager. *)
Definition selectTool (e : Editor) : Editor :=
  setTool false (fun e' => e') "select" e.

(** [cleanup()] *)
Definition cleanup (s : Session) : Session :=
  mkSession (set_cropPanelHidden true (editor s)) idle (immediateSaves s).

(** [canvas.remove(obj)] for a field that may be [null]: fabric looks the
    argument up in [_objects] and does nothing when it is not there. *)
Definition removeIfSet (o : option ObjId) (c : Canvas) : option Canvas :=
  match o with
  | Some id => remove id c
  | None => Some c
  end.

(** [canvas.add(obj)] with the editor's ['object:added'] listener, which
    calls [history.saveState()] when the canvas is in drawing mode. *)
Definition addObject (o : ObjId) (c : Canvas) : Canvas :=
  let c1 := add o c in
  if isDrawingMode c1 then requestSave c1 else c1.

(** The pixel region of the image that [applyCrop()] cuts out. *)
Record Region := mkRegion {
  cropLeft : Q; cropTop : Q; cropWidth : Q; cropHeight : Q
}.

Definition cropRegion (cropBounds imgBounds : Bounds) (img : Obj) : Region :=
  let scaleX := Num.orDefault (Some (scaleX (geom img))) 1 in
  let scaleY := Num.orDefault (Some (scaleY (geom img))) 1 in
  let cropLeft := Num.max 0 ((bLeft cropBounds - bLeft imgBounds) / scaleX) in
  let cropTop := Num.max 0 ((bTop cropBounds - bTop imgBounds) / scaleY) in
  let cropWidth :=
    Num.min (bWidth cropBounds / scaleX) (width (geom img) - cropLeft) in
  let cropHeight :=
    Num.min (bHeight cropBounds / scaleY) (height (geom img) - cropTop) in
  mkRegion cropLeft cropTop cropWidth cropHeight.

(** The source rectangle handed to [drawImage]: left, top, width and
    height, each rounded. *)
Definition sourceRect (r : Region) : Z * Z * Z * Z :=
  (round (cropLeft r), round (cropTop r), round (cropWidth r), round (cropHeight r)).

(** The image [FabricImage.fromURL] makes of the temporary canvas, after
    [newImg.set(...)]. *)
Definition croppedImage (cropBounds : Bounds) (img : Obj) (r : Region) : Obj :=
  mkObj "image" None None
        (mkGeometry (bLeft cropBounds) (bTop cropBounds)
                    (inject_Z (round (cropWidth r))) (inject_Z (round (cropHeight r)))
                    0 0
                    (Num.orDefault (Some (scaleX (geom img))) 1)
                    (Num.orDefault (Some (scaleY (geom img))) 1)
                    0 "left" "top")
        (mkTextProps "" "rgb(0,0,0)" "normal" None 0 false)
        (mkControls true true false false true true)
        noBubble noLinks noListeners.

(** The limits [constrainCropRect()] puts on [left] and [top]; the later
    test overrides the earlier one. *)
Definition constrain (imgBounds cropBounds : Bounds) (left top : Q) : Q * Q :=
  let left1 :=
    if Num.Qltb (bLeft cropBounds) (bLeft imgBounds) then bLeft imgBounds else left in
  let left2 :=
    if Num.Qltb (bLeft imgBounds + bWidth imgBounds)
                (bLeft cropBounds + bWidth cropBounds)
    then bLeft imgBounds + bWidth imgBounds - bWidth cropBounds else left1 in
  let top1 :=
    if Num.Qltb (bTop cropBounds) (bTop imgBounds) then bTop imgBounds else top in
  let top2 :=
    if Num.Qltb (bTop imgBounds + bHeight imgBounds)
                (bTop cropBounds + bHeight cropBounds)
    then bTop imgBounds + bHeight imgBounds - bHeight cropBounds else top1 in
  (left2, top2).

(** What happens to the drawing and loading that [applyCrop()] starts. *)
Inductive Outcome :=
| drawThrows (message : string)   (* an exception inside the [try] block *)
| loadRejects                     (* [fromURL] rejects *)
| loadResolves.                   (* [fromURL] resolves with the new image *)

(** What the user does to the crop rectangle.  While it is moved or
    scaled, fabric writes the new position (and the new scale) and fires
    ['moving'] or ['scaling']; when the mouse button is released after
    that, fabric fires ['object:modified'], on which the editor calls
    [history.saveState()]. *)
Inductive Gesture :=
| moving (left top : Q)
| scaling (scaleX scaleY left top : Q)
| released.

Definition applyGesture (g : Gesture) (geo : Geometry) : Geometry :=
  match g with
  | moving l t => Drawing.setLeft l (Drawing.setTop t geo)
  | scaling sx sy l t =>
      mkGeometry l t (width geo) (height geo) (rx geo) (ry geo) sx sy
                 (angle geo) (originX geo) (originY geo)
  | released => geo
  end.

Section WithFabric.

(** [getBoundingRect()] of an object. *)
Variable getBoundingRect : Obj -> Bounds.

(** [createOverlay(imgBounds)] *)
Definition createOverlay (imgBounds : Bounds) (s : Session) : Session :=
  let '(ov, c1) := alloc (overlayRect imgBounds) (canvas (editor s)) in
  let m := manager s in
  mkSession (set_canvas (addObject ov c1) (editor s))
            (mkCropManager (cropRect m) (targetImage m) (isCropping m) (Some ov)
                           (originalImageState m))
            (immediateSaves s).

(** [enableCropMode()] *)
Definition enableCropMode (s : Session) : Session :=
  let refuse := onEditor (fun e => selectTool (showToast noImageMessage "error" e)) s in
  match getActiveObject (canvas (editor s)) with
  | Some (target, obj) =>
      if isImageObject (Some obj) then
        let m := manager s in
        let s1 :=
          mkSession
            (onCanvas (update target (setInteractive false)) (editor s))
            (mkCropManager (cropRect m) (Some target) true (overlay m)
                           (Some (stateOf obj)))
            (immediateSaves s) in
        let imgBounds := getBoundingRect (setInteractive false obj) in
        let s2 := createOverlay imgBounds s1 in
        let '(cr, c3) := alloc (newCropRect imgBounds) (canvas (editor s2)) in
        let m2 := manager s2 in
        mkSession
          (showToast adjustMessage "info"
             (set_canvas (setActiveObject cr (addObject cr c3)) (editor s2)))
          (mkCropManager (Some cr) (targetImage m2) (isCropping m2) (overlay m2)
                         (originalImageState m2))
          (immediateSaves s2)
      else refuse
  | None => refuse
  end.

(** [constrainCropRect()] *)
Definition constrainCropRect (s : Session) : Session :=
  match cropRect (manager s), targetImage (manager s) with
  | Some cr, Some target =>
      let c := canvas (editor s) in
      match heap c !! cr, heap c !! target with
      | Some rect, Some img =>
          let '(l, t) := constrain (getBoundingRect img) (getBoundingRect rect)
                                   (left (geom rect)) (top (geom rect)) in
          onEditor (onCanvas (update cr
            (onGeom (fun g => Drawing.setLeft l (Drawing.setTop t g))))) s
      | _, _ => s
      end
  | _, _ => s
  end.

(** The user moves, scales or lets go of the crop rectangle, and the
    listener of the event runs. *)
Definition transformCropRect (g : Gesture) (s : Session) : Session :=
  match g with
  | released => onEditor (onCanvas requestSave) s
  | _ =>
      match cropRect (manager s) with
      | Some cr =>
          constrainCropRect
            (onEditor (onCanvas (update cr (onGeom (applyGesture g)))) s)
      | None => s
      end
  end.

(** [cancelCrop()] *)
Definition cancelCrop (s : Session) : option Session :=
  let m := manager s in
  c1 ← removeIfSet (overlay m) (canvas (editor s));
  c2 ← removeIfSet (cropRect m) c1;
  let c3 :=
    match targetImage m with
    | Some target =>
        let restore g :=
          match originalImageState m with
          | Some st => restoreState st g
          | None => g
          end in
        setActiveObject target
          (update target (fun o => onGeom restore (setInteractive true o)) c2)
    | None => c2
    end in
  let s1 := cleanup (mkSession (set_canvas c3 (editor s)) m (immediateSaves s)) in
  Some (onEditor (fun e => showToast "已取消裁剪" "info" (selectTool e)) s1).

(** The callback of [fromURL(...).then]: [cropBounds] and the image with
    its crop region are what [applyCrop()] computed before. *)
Definition cropLoaded (cropBounds : Bounds) (img : Obj) (r : Region) (s : Session)
  : option Session :=
  let m := manager s in
  let '(newImg, c0) := alloc (croppedImage cropBounds img r) (canvas (editor s)) in
  c1 ← removeIfSet (overlay m) c0;
  c2 ← removeIfSet (targetImage m) c1;
  c3 ← removeIfSet (cropRect m) c2;
  let c4 := setActiveObject newImg (addObject newImg c3) in
  let s1 := mkSession (showToast "裁剪成功" "success" (set_canvas c4 (editor s)))
                      m (S (immediateSaves s)) in
  Some (onEditor selectTool (cleanup s1)).

(** [applyCrop()] with what becomes of the load it starts; the callbacks
    find the state as [applyCrop()] left it. *)
Definition applyCrop (outcome : Outcome) (s : Session) : option Session :=
  match cropRect (manager s), targetImage (manager s) with
  | Some cr, Some target =>
      let c := canvas (editor s) in
      match heap c !! cr, heap c !! target with
      | Some rect, Some img =>
          let cropBounds := getBoundingRect rect in
          let r := cropRegion cropBounds (getBoundingRect img) img in
          if Qle_bool (cropWidth r) 0 || Qle_bool (cropHeight r) 0
          then Some (onEditor (showToast "裁剪区域无效" "error") s)
          else
            match outcome with
            | drawThrows message =>
                cancelCrop (onEditor (showToast ("裁剪失败: " ++ message) "error") s)
            | loadRejects =>
                cancelCrop (onEditor (showToast "裁剪失败，请重试" "error") s)
            | loadResolves => cropLoaded cropBounds img r s
            end
      | _, _ => Some s
      end
  | _, _ => Some (onEditor (showToast "没有可裁剪的内容" "error") s)
  end.

End WithFabric.

End Crop.

(** ** The workspace: zoom, canvas size, image import (FabricEditor, IOManager) *)

Module Workspace.
Import Scene Tools Editor.
#[local] Open Scope Q_scope.

(** The editor with the fields of [FabricEditor] that the tools manager
    does not use: the canvas size, the zoom and the viewport transform of
    the canvas ([[a, b, c, d, e, f]]). *)
Record Workspace := mkWorkspace {
  editor : Editor;
  canvasWidth : Q;
  canvasHeight : Q;
  zoom : Q;
  viewportTransform : list Q
}.

Definition identity : list Q := [1; 0; 0; 1; 0; 0].

Definition onEditor (f : Editor -> Editor) (w : Workspace) : Workspace :=
  mkWorkspace (f (editor w)) (canvasWidth w) (canvasHeight w) (zoom w)
              (viewportTransform w).
Definition set_viewportTransform (t : list Q) (w : Workspace) : Workspace :=
  mkWorkspace (editor w) (canvasWidth w) (canvasHeight w) (zoom w) t.

(** [Math.min(Math.max(0.1, newZoom), 5)] *)
Definition clampZoom (newZoom : Q) : Q := Num.min (Num.max (1 # 10) newZoom) 5.

(** [canvas.getCenter()] *)
Definition getCenter (w : Workspace) : Point :=
  mkPoint (canvasWidth w / 2) (canvasHeight w / 2).

(** The text of [updateZoomDisplay()], without the percent sign. *)
Definition zoomPercent (w : Workspace) : Z := Crop.round (zoom w * 100).

(** What the user does to the viewport and the canvas size. *)
Inductive ViewEvent :=
| wheel (deltaY offsetX offsetY : Q)            (* 'mouse:wheel' *)
| zoomInClicked                                 (* #zoom-in-btn *)
| zoomOutClicked                                (* #zoom-out-btn *)
| zoomResetClicked                              (* #zoom-reset-btn *)
| zoomFitClicked (clientWidth clientHeight : Q) (* #zoom-fit-btn; the size of #canvas-wrapper *)
| applySizeClicked (width height : option Z).   (* #apply-size-btn; [parseInt] of the two inputs, [None] for [NaN] *)

(** [parseInt(value) || d] *)
Definition parsedOr (value : option Z) (d : Z) : Q :=
  match value with
  | Some z => if Z.eqb z 0 then inject_Z d else inject_Z z
  | None => inject_Z d
  end.

Section WithFabric.

(** [canvas.zoomToPoint(point, value)] on the viewport transform, and the
    text a number is shown as in a template literal. *)
Variable zoomToPoint : Point -> Q -> list Q -> list Q.
Variable show : Q -> string.

(** [setZoom(newZoom, centerX, centerY)]; the two coordinates are given
    together or not at all. *)
Definition setZoom (newZoom : Q) (center : option Point) (w : Workspace)
  : Workspace :=
  let newZoom := clampZoom newZoom in
  let point := match center with
               | Some p => p
               | None => getCenter w
               end in
  mkWorkspace (editor w) (canvasWidth w) (canvasHeight w) newZoom
              (zoomToPoint point newZoom (viewportTransform w)).

(** [fitToScreen()] *)
Definition fitToScreen (clientWidth clientHeight : Q) (w : Workspace) : Workspace :=
  let containerWidth := clientWidth - 40 in
  let containerHeight := clientHeight - 40 in
  let scaleX := containerWidth / canvasWidth w in
  let scaleY := containerHeight / canvasHeight w in
  let newZoom := Num.min (Num.min scaleX scaleY) 1 in
  setZoom newZoom None (set_viewportTransform identity w).

(** [resizeCanvas(width, height)] *)
Definition resizeCanvas (width height : Q) (w : Workspace) : Workspace :=
  let canvasWidth := Num.max 100 (Num.min 4000 width) in
  let canvasHeight := Num.max 100 (Num.min 4000 height) in
  let message := ("画布尺寸已调整为 " ++ show canvasWidth ++ " × "
                  ++ show canvasHeight)%string in
  mkWorkspace
    (Crop.showToast message "success" (onCanvas requestSave (editor w)))
    canvasWidth canvasHeight (zoom w) (viewportTransform w).

(** The listeners of [setupZoomControls()] and
    [setupCanvasSizeControls()]. *)
Definition handle (w : Workspace) (e : ViewEvent) : Workspace :=
  match e with
  | wheel deltaY offsetX offsetY =>
      let newZoom := zoom w * (if Num.Qltb 0 deltaY then 9 # 10 else 11 # 10) in
      let newZoom := clampZoom newZoom in
      setZoom newZoom (Some (mkPoint offsetX offsetY)) w
  | zoomInClicked => setZoom (zoom w * (12 # 10)) None w
  | zoomOutClicked => setZoom (zoom w / (12 # 10)) None w
  | zoomResetClicked => set_viewportTransform identity (setZoom 1 None w)
  | zoomFitClicked clientWidth clientHeight => fitToScreen clientWidth clientHeight w
  | applySizeClicked width height =>
      resizeCanvas (parsedOr width 1200) (parsedOr height 800) w
  end.

Definition run (events : list ViewEvent) (w : Workspace) : Workspace :=
  fold_left handle events w.

End WithFabric.

(** [new FabricEditor()], for the fields above. *)
Definition opened (e : Editor) : Workspace := mkWorkspace e 1200 800 1 identity.

(** *** Importing an image (IOManager) *)

(** Scale and position [loadImageFile] gives an image of [width] by
    [height] pixels on a canvas of [canvasWidth] by [canvasHeight]. *)
Record Placement := mkPlacement { scale : Q; pLeft : Q; pTop : Q }.

Definition place (canvasWidth canvasHeight width height : Q) : Placement :=
  let maxWidth := canvasWidth * (8 # 10) in
  let maxHeight := canvasHeight * (8 # 10) in
  let scale := Num.min (Num.min (maxWidth / width) (maxHeight / height)) 1 in
  mkPlacement scale ((canvasWidth - width * scale) / 2)
              ((canvasHeight - height * scale) / 2).

(** The image [FabricImage.fromURL] resolves with, after [img.set(...)];
    [width] and [height] are the pixel size of the file's picture, which
    is not 0. *)
Definition importedImage (w : Workspace) (width height : Q) : Obj :=
  let p := place (canvasWidth w) (canvasHeight w) width height in
  mkObj "image" None None
        (mkGeometry (pLeft p) (pTop p) width height 0 0 (scale p) (scale p) 0
                    "left" "top")
        (mkTextProps "" "rgb(0,0,0)" "normal" None 0 false)
        (mkControls true true false false true true)
        noBubble noLinks noListeners.

(** The callback of [fromURL(...).then] in [loadImageFile]. *)
Definition imageLoaded (width height : Q) (w : Workspace) : Workspace :=
  let '(img, c1) := alloc (importedImage w width height) (canvas (editor w)) in
  let c2 := requestSave (setActiveObject img (Crop.addObject img c1)) in
  onEditor (fun e => Crop.showToast "图片已添加" "success" (set_canvas c2 e)) w.

(** [loadImageFile(file)]: [fileType] is [file.type]; [loaded] is the
    pixel size of the picture when the file is read and decodes, [None]
    when the reader or the decoder fails (no callback runs then). *)
Definition loadImageFile (fileType : string) (loaded : option (Q * Q))
    (w : Workspace) : Workspace :=
  if negb (String.prefix "image/" fileType)
  then onEditor (Crop.showToast "请选择图片文件" "error") w
  else
    match loaded with
    | Some (width, height) => imageLoaded width height w
    | None => w
    end.

End Workspace.

(** ** Aligning and distributing (PropertiesManager) *)

Module Arrange.
Import Scene Tools.
#[local] Open Scope Q_scope.

(** [o.width * o.scaleX] and [o.height * o.scaleY] *)
Definition spanX (o : Obj) : Q := width (geom o) * scaleX (geom o).
Definition spanY (o : Obj) : Q := height (geom o) * scaleY (geom o).

(** [Math.min(...values)] and [Math.max(...values)] of a list that is not
    empty. *)
Definition minOf (values : list Q) : Q :=
  match values with
  | [] => 0
  | v :: rest => fold_left Num.min rest v
  end.
Definition maxOf (values : list Q) : Q :=
  match values with
  | [] => 0
  | v :: rest => fold_left Num.max rest v
  end.

(** [activeObject.getObjects()]: the members of the selection, each with
    the object it refers to. *)
Definition getObjects (c : Canvas) (members : list ObjId) : list (ObjId * Obj) :=
  omap (fun id => (fun o => (id, o)) <$> heap c !! id) members.

Definition setLeft := Drawing.setLeft.
Definition setTop := Drawing.setTop.

(** [objects.forEach(obj => obj.set(...))], the new value computed from
    the object as it is. *)
Definition forEachSet (objects : list (ObjId * Obj))
    (change : Obj -> Geometry -> Geometry) (c : Canvas) : Canvas :=
  fold_left (fun c obj => update obj.1 (onGeom (change obj.2)) c) objects c.

(** [alignObjects(alignment)]; [groupLeft] and [groupTop] are [left] and
    [top] of the active selection itself, [canvasWidth] and [canvasHeight]
    the size of the canvas. *)
Definition alignObjects (alignment : string)
    (groupLeft groupTop canvasWidth canvasHeight : Q) (c : Canvas) : Canvas :=
  match activeObject c with
  | None => c
  | Some (activeselection members) =>
      let objects := getObjects c members in
      if Nat.ltb (length objects) 2 then c
      else
        let boundsLeft := minOf (map (fun o => groupLeft + left (geom o.2)) objects) in
        let boundsRight :=
          maxOf (map (fun o => groupLeft + left (geom o.2) + spanX o.2) objects) in
        let boundsTop := minOf (map (fun o => groupTop + top (geom o.2)) objects) in
        let boundsBottom :=
          maxOf (map (fun o => groupTop + top (geom o.2) + spanY o.2) objects) in
        let change (obj : Obj) : Geometry -> Geometry :=
          if String.eqb alignment "left" then setLeft (boundsLeft - groupLeft)
          else if String.eqb alignment "right"
          then setLeft (boundsRight - groupLeft - spanX obj)
          else if String.eqb alignment "center-h"
          then setLeft ((boundsLeft + boundsRight) / 2 - groupLeft - spanX obj / 2)
          else if String.eqb alignment "top" then setTop (boundsTop - groupTop)
          else if String.eqb alignment "bottom"
          then setTop (boundsBottom - groupTop - spanY obj)
          else if String.eqb alignment "center-v"
          then setTop ((boundsTop + boundsBottom) / 2 - groupTop - spanY obj / 2)
          else fun g => g in
        requestSave (forEachSet objects change c)
  | Some (single o) =>
      let change (obj : Obj) : Geometry -> Geometry :=
        let objWidth := spanX obj in
        let objHeight := spanY obj in
        if String.eqb alignment "left" then setLeft 0
        else if String.eqb alignment "right" then setLeft (canvasWidth - objWidth)
        else if String.eqb alignment "center-h"
        then setLeft ((canvasWidth - objWidth) / 2)
        else if String.eqb alignment "top" then setTop 0
        else if String.eqb alignment "bottom" then setTop (canvasHeight - objHeight)
        else if String.eqb alignment "center-v"
        then setTop ((canvasHeight - objHeight) / 2)
        else fun g => g in
      requestSave (update o (fun obj => onGeom (change obj) obj) c)
  end.

(** [objects.sort((a, b) => key(a) - key(b))]: the sort is stable. *)
Fixpoint insertBy (key : Obj -> Q) (x : ObjId * Obj) (l : list (ObjId * Obj))
  : list (ObjId * Obj) :=
  match l with
  | [] => [x]
  | y :: rest =>
      if Qle_bool (key x.2) (key y.2) then x :: l else y :: insertBy key x rest
  end.
Definition sortBy (key : Obj -> Q) (l : list (ObjId * Obj)) : list (ObjId * Obj) :=
  foldr (insertBy key) [] l.

(** The loop of [distributeObjects]: [objects[i].set(..., current)] and
    [current += span + gap] for the objects between the first and the
    last. *)
Definition spread (span : Obj -> Q) (put : Q -> Geometry -> Geometry) (gap : Q)
    (middle : list (ObjId * Obj)) (start : Q) (c : Canvas) : Canvas * Q :=
  fold_left (fun '(c, current) obj =>
               (update obj.1 (onGeom (put current)) c, current + (span obj.2 + gap)))
            middle (c, start).

(** One direction of [distributeObjects]: [key] is [left] or [top],
    [span] the width or the height shown. *)
Definition distributeAlong (key span : Obj -> Q) (put : Q -> Geometry -> Geometry)
    (objects : list (ObjId * Obj)) (c : Canvas) : Canvas :=
  match sortBy key objects with
  | [] => c
  | first :: rest =>
      let sorted := first :: rest in
      let last := List.last rest first in
      let total := fold_left (fun sum obj => sum + span obj.2) sorted 0 in
      let availableSpace := (key last.2 + span last.2) - key first.2 - total in
      let gap := availableSpace / (inject_Z (Z.of_nat (length sorted)) - 1) in
      let current := key first.2 + span first.2 + gap in
      (spread span put gap (removelast rest) current c).1
  end.

(** [distributeObjects(direction)] *)
Definition distributeObjects (direction : string) (c : Canvas) : Canvas :=
  match activeObject c with
  | Some (activeselection members) =>
      let objects := getObjects c members in
      if Nat.ltb (length objects) 3 then c
      else
        requestSave
          (if String.eqb direction "horizontal"
           then distributeAlong (fun o => left (geom o)) spanX setLeft objects c
           else distributeAlong (fun o => top (geom o)) spanY setTop objects c)
  | _ => c
  end.

End Arrange.

(** * Theorems *)

Module HistoryFacts.
Import History.

Lemma top_is_true s l : top_is s l = true <-> last l = Some s.
Proof.
  unfold top_is. destruct (last l) as [t|]; [|split; discriminate].
  rewrite String.eqb_eq. split; [intros ->; reflexivity | intros [= ->]; reflexivity].
Qed.

Lemma top_is_false s l : top_is s l = false <-> last l <> Some s.
Proof.
  rewrite <- top_is_true. destruct (top_is s l); split; congruence.
Qed.

Lemma shift_length l : length (shift l) = length l - 1.
Proof. destruct l; simpl; lia. Qed.

(** What a commit that is neither suppressed nor a duplicate does. *)
Lemma doSaveState_pushes s hm :
  isRestoring hm = false -> isSaving hm = false ->
  last (undoStack hm) <> Some s ->
  _doSaveState (Some s) hm =
    set_isSaving false
      (let hm3 := set_redoStack [] (set_undoStack (undoStack hm ++ [s])
                                     (set_isSaving true hm)) in
       if maxStates hm <? length (undoStack hm ++ [s])
       then set_undoStack (shift (undoStack hm ++ [s])) hm3 else hm3).
Proof.
  intros Hr Hs Htop. unfold _doSaveState. rewrite Hr, Hs. simpl.
  apply top_is_false in Htop. rewrite Htop, andb_false_r. reflexivity.
Qed.

Lemma doSaveState_undoStack s hm :
  isRestoring hm = false -> isSaving hm = false ->
  last (undoStack hm) <> Some s ->
  undoStack (_doSaveState (Some s) hm) =
    if maxStates hm <? length (undoStack hm ++ [s])
    then shift (undoStack hm ++ [s]) else undoStack hm ++ [s].
Proof.
  intros Hr Hs Htop. rewrite doSaveState_pushes by assumption. simpl.
  destruct (maxStates hm <? length (undoStack hm ++ [s])); reflexivity.
Qed.

(** A commit changes nothing but the two stacks. *)
Lemma doSaveState_frame o hm :
  let hm' := _doSaveState o hm in
  maxStates hm' = maxStates hm /\ isRestoring hm' = isRestoring hm /\
  isSaving hm' = isSaving hm /\ loading hm' = loading hm /\
  canvasDoc hm' = canvasDoc hm /\ debounceTimer hm' = debounceTimer hm.
Proof.
  unfold _doSaveState.
  destruct (isRestoring hm) eqn:Hr, (isSaving hm) eqn:Hs; simpl; auto 10.
  destruct o as [s|]; simpl; auto 10.
  destruct ((0 <? length (undoStack hm)) && top_is s (undoStack hm)); simpl; auto 10.
  destruct (maxStates hm <? length (undoStack hm ++ [s])); simpl; auto 10.
Qed.

Lemma doSaveState_idle o hm : idle hm -> idle (_doSaveState o hm).
Proof.
  intros (Hr & Hs & Hl). destruct (doSaveState_frame o hm) as (_ & Hr' & Hs' & Hl' & _).
  unfold idle. rewrite Hr', Hs', Hl'. auto.
Qed.

(** The bound on [undoStack] is kept by every commit. *)
Lemma doSaveState_bounded o hm :
  length (undoStack hm) <= maxStates hm ->
  length (undoStack (_doSaveState o hm)) <= maxStates (_doSaveState o hm).
Proof.
  intros Hb. unfold _doSaveState.
  destruct (isRestoring hm || isSaving hm); [exact Hb|].
  destruct o as [s|]; simpl; [|exact Hb].
  destruct ((0 <? length (undoStack hm)) && top_is s (undoStack hm)); simpl; [exact Hb|].
  destruct (maxStates hm <? length (undoStack hm ++ [s])) eqn:E; simpl.
  - rewrite shift_length, length_app. simpl. lia.
  - apply Nat.ltb_ge in E. exact E.
Qed.

Lemma commits_bounded snaps : forall hm,
  length (undoStack hm) <= maxStates hm ->
  length (undoStack (commits snaps hm)) <= maxStates (commits snaps hm).
Proof.
  unfold commits. induction snaps as [|s rest IH]; intros hm Hb; simpl; [exact Hb|].
  apply IH. apply doSaveState_bounded. exact Hb.
Qed.

Lemma commits_maxStates snaps : forall hm,
  maxStates (commits snaps hm) = maxStates hm.
Proof.
  unfold commits. induction snaps as [|s rest IH]; intros hm; simpl; [reflexivity|].
  rewrite IH. apply (doSaveState_frame (Some s) hm).
Qed.

(** Below capacity, a run of pushing commits appends its snapshots. *)
Lemma commits_within_capacity snaps : forall hm top,
  idle hm -> last (undoStack hm) = Some top -> distinctChain top snaps ->
  length (undoStack hm) + length snaps <= maxStates hm ->
  undoStack (commits snaps hm) = undoStack hm ++ snaps /\
  redoStack (commits snaps hm) = (if snaps is [] then redoStack hm else []) /\
  idle (commits snaps hm).
Proof.
  unfold commits. induction snaps as [|s rest IH]; intros hm top Hidle Htop Hch Hcap; simpl.
  - rewrite app_nil_r. auto.
  - destruct Hch as [Hne Hch]. destruct Hidle as (Hr & Hs & Hl). simpl in Hcap.
    assert (Hpush : last (undoStack hm) <> Some s) by (rewrite Htop; congruence).
    pose proof (doSaveState_undoStack s hm Hr Hs Hpush) as Hu.
    assert (Hlen : length (undoStack hm ++ [s]) = S (length (undoStack hm)))
      by (rewrite length_app; simpl; lia).
    rewrite Hlen in Hu.
    destruct (maxStates hm <? S (length (undoStack hm))) eqn:E;
      [apply Nat.ltb_lt in E; lia|].
    destruct (doSaveState_frame (Some s) hm) as (Hm & _).
    destruct (IH (_doSaveState (Some s) hm) s) as (IHu & IHr & IHi).
    + apply doSaveState_idle. unfold idle; auto.
    + rewrite Hu. apply last_snoc.
    + exact Hch.
    + rewrite Hu, Hm, Hlen. lia.
    + rewrite IHu, Hu, <- app_assoc. simpl. split; [reflexivity|]. split; [|exact IHi].
      rewrite IHr. destruct rest; [|reflexivity].
      rewrite doSaveState_pushes by assumption. simpl.
      rewrite Hlen, E. reflexivity.
Qed.

Section RestoreFacts.
Variable JSON_parse_ok : string -> bool.

Lemma restoreState_stacks s hm :
  undoStack (restoreState JSON_parse_ok s hm) = undoStack hm /\
  redoStack (restoreState JSON_parse_ok s hm) = redoStack hm /\
  maxStates (restoreState JSON_parse_ok s hm) = maxStates hm /\
  isSaving (restoreState JSON_parse_ok s hm) = isSaving hm.
Proof.
  unfold restoreState. destruct (JSON_parse_ok s); simpl; auto.
Qed.

Lemma loadSettled_stacks r hm :
  undoStack (loadSettled r hm) = undoStack hm /\
  redoStack (loadSettled r hm) = redoStack hm /\
  maxStates (loadSettled r hm) = maxStates hm /\
  isSaving (loadSettled r hm) = isSaving hm.
Proof.
  unfold loadSettled. destruct (loading hm); [destruct r|]; simpl; auto.
Qed.

(** A restore that has settled, whatever its outcome, leaves the manager
    idle again. *)
Lemma restore_settled_idle s r hm :
  isSaving hm = false -> loading hm = None ->
  idle (loadSettled r (restoreState JSON_parse_ok s hm)).
Proof.
  intros Hs Hl. unfold restoreState, loadSettled, idle.
  destruct (JSON_parse_ok s); simpl; [destruct r; simpl; auto|].
  rewrite Hl. simpl. auto.
Qed.

(** An effective [undo()] moves the top of [undoStack] to [redoStack]. *)
Lemma undo_moves u a b hm :
  isRestoring hm = false -> undoStack hm = u ++ [a; b] ->
  undo JSON_parse_ok hm =
    restoreState JSON_parse_ok a
      (set_redoStack (redoStack hm ++ [b])
         (set_undoStack (u ++ [a]) (set_debounceTimer false hm))).
Proof.
  intros Hr Hu. unfold undo.
  assert (Hlen : length (u ++ [a; b]) = S (S (length u)))
    by (rewrite length_app; simpl; lia).
  simpl. rewrite Hr, !Hu, Hlen. simpl.
  replace (u ++ [a; b]) with ((u ++ [a]) ++ [b]) by (rewrite <- app_assoc; reflexivity).
  rewrite last_snoc, removelast_last. simpl. rewrite last_snoc. reflexivity.
Qed.

(** An effective [redo()] moves the top of [redoStack] to [undoStack]. *)
Lemma redo_moves r b hm :
  isRestoring hm = false -> redoStack hm = r ++ [b] ->
  redo JSON_parse_ok hm =
    restoreState JSON_parse_ok b
      (set_undoStack (undoStack hm ++ [b])
         (set_redoStack r (set_debounceTimer false hm))).
Proof.
  intros Hr Hu. unfold redo.
  assert (Hlen : length (r ++ [b]) = S (length r))
    by (rewrite length_app; simpl; lia).
  simpl. rewrite Hr, !Hu, Hlen. simpl. rewrite last_snoc, removelast_last. reflexivity.
Qed.

Lemma undoSettled_pops u a b r hm :
  idle hm -> undoStack hm = u ++ [a; b] ->
  let hm' := undoSettled JSON_parse_ok r hm in
  undoStack hm' = u ++ [a] /\ redoStack hm' = redoStack hm ++ [b] /\
  maxStates hm' = maxStates hm /\ idle hm' /\
  (JSON_parse_ok a = true -> r = true -> canvasDoc hm' = Some a).
Proof.
  intros (Hr & Hs & Hl) Hu. unfold undoSettled.
  rewrite (undo_moves u a b) by assumption.
  set (hm1 := set_redoStack _ _).
  destruct (loadSettled_stacks r (restoreState JSON_parse_ok a hm1)) as (E1 & E2 & E3 & _).
  destruct (restoreState_stacks a hm1) as (F1 & F2 & F3 & _).
  simpl. rewrite E1, E2, E3, F1, F2, F3. simpl.
  repeat split; try reflexivity;
    try (apply (restore_settled_idle a r hm1); assumption).
  intros Hp ->. unfold restoreState, loadSettled. rewrite Hp. reflexivity.
Qed.

(** Undoing as many times as was pushed on top of [u ++ [a]] gives
    [u ++ [a]] back, whatever the outcomes of the restores; when the last
    restore succeeds the canvas holds [a]. *)
Lemma undos_pop_all outcomes : forall snaps u a hm,
  length outcomes = length snaps ->
  idle hm -> undoStack hm = (u ++ [a]) ++ snaps ->
  undoStack (undos JSON_parse_ok outcomes hm) = u ++ [a] /\
  idle (undos JSON_parse_ok outcomes hm) /\
  (JSON_parse_ok a = true -> last outcomes = Some true ->
   canvasDoc (undos JSON_parse_ok outcomes hm) = Some a).
Proof.
  unfold undos.
  induction outcomes as [|r rest IH]; intros snaps u a hm Hlen Hidle Hu.
  - destruct snaps; [|discriminate]. rewrite app_nil_r in Hu. simpl.
    split; [exact Hu|]. split; [exact Hidle|]. discriminate.
  - destruct snaps as [|s0 snaps0] using rev_ind; [discriminate|].
    rewrite length_app in Hlen. simpl in Hlen.
    assert (Hlen' : length rest = length snaps0) by lia.
    simpl.
    destruct snaps0 as [|y snaps1] using rev_ind.
    + destruct rest; [|discriminate]. simpl.
      simpl in Hu. rewrite <- app_assoc in Hu. simpl in Hu.
      destruct (undoSettled_pops u a s0 r hm Hidle Hu) as (E & _ & _ & Hi & Hc).
      split; [exact E|]. split; [exact Hi|].
      intros Hp [= ->]. apply Hc; [exact Hp | reflexivity].
    + clear IHsnaps0 IHsnaps1.
      assert (Hu' : undoStack hm = ((u ++ [a]) ++ snaps1) ++ [y; s0]).
      { rewrite Hu. rewrite <- !app_assoc. reflexivity. }
      destruct (undoSettled_pops _ y s0 r hm Hidle Hu') as (E & _ & _ & Hi & _).
      destruct (IH (snaps1 ++ [y]) u a (undoSettled JSON_parse_ok r hm))
        as (IH1 & IH2 & IH3); [exact Hlen'| exact Hi| |].
      { rewrite E. rewrite <- !app_assoc. reflexivity. }
      split; [exact IH1|]. split; [exact IH2|].
      intros Hp Hlast. apply IH3; [exact Hp|].
      destruct rest as [|r' rest']; [rewrite length_app in Hlen'; simpl in Hlen'; lia|].
      exact Hlast.
Qed.

(** C2 (amended): for every N and every sequence of N commits, each pushing
    a snapshot distinct from the one before it, that fits the capacity
    (the length of [undoStack] plus N is at most [maxStates]), followed by
    N calls of [undo()] each of whose restores has settled before the next
    call, the snapshot designated as current equals the initial current
    snapshot: [undoStack] is again what it was before the commits, and when
    the last restore succeeds the canvas holds that snapshot. *)
Theorem undo_roundtrip_within_capacity hm top snaps outcomes :
  idle hm -> current hm = Some top -> distinctChain top snaps ->
  length (undoStack hm) + length snaps <= maxStates hm ->
  length outcomes = length snaps ->
  let hm' := undos JSON_parse_ok outcomes (commits snaps hm) in
  undoStack hm' = undoStack hm /\ current hm' = Some top /\ idle hm' /\
  (JSON_parse_ok top = true -> last outcomes = Some true ->
   canvasDoc hm' = Some top).
Proof.
  intros Hidle Hcur Hch Hcap Hlen hm'. unfold current in *.
  destruct (commits_within_capacity snaps hm top Hidle Hcur Hch Hcap)
    as (Hu & _ & Hi).
  apply last_Some in Hcur as [u Hcur].
  rewrite Hcur in Hu.
  destruct (undos_pop_all outcomes snaps u top (commits snaps hm) Hlen Hi Hu)
    as (E & Hi' & Hc).
  subst hm'. rewrite E, Hcur, last_snoc. auto.
Qed.

(** C3 (amended): an [undo()] or [redo()] that takes effect and whose restore
    fails with a serialization error (the snapshot does not parse, or
    [loadFromJSON] rejects) leaves [isRestoring] false once the failure is
    handled; the stacks are not rolled back: they keep the move the
    operation made before it called [restoreState]. *)
Theorem failed_restore_keeps_move hm resolved :
  idle hm ->
  (forall u a b, undoStack hm = u ++ [a; b] ->
     restoreFails JSON_parse_ok a resolved ->
     let hm' := undoSettled JSON_parse_ok resolved hm in
     isRestoring hm' = false /\
     undoStack hm' = u ++ [a] /\ redoStack hm' = redoStack hm ++ [b]) /\
  (forall r b, redoStack hm = r ++ [b] ->
     restoreFails JSON_parse_ok b resolved ->
     let hm' := redoSettled JSON_parse_ok resolved hm in
     isRestoring hm' = false /\
     undoStack hm' = undoStack hm ++ [b] /\ redoStack hm' = r).
Proof.
  intros Hidle. split.
  - intros u a b Hu _.
    destruct (undoSettled_pops u a b resolved hm Hidle Hu)
      as (E1 & E2 & _ & (Hr & _) & _).
    auto.
  - intros r b Hr _. destruct Hidle as (Hres & Hs & Hl). unfold redoSettled.
    rewrite (redo_moves r b) by assumption.
    set (hm1 := set_undoStack _ _).
    destruct (loadSettled_stacks resolved (restoreState JSON_parse_ok b hm1))
      as (E1 & E2 & _).
    destruct (restoreState_stacks b hm1) as (F1 & F2 & _).
    destruct (restore_settled_idle b resolved hm1 Hs Hl) as (Hi & _).
    simpl. rewrite E1, E2, F1, F2. auto.
Qed.

End RestoreFacts.

(** C5 (amended): for every sequence of commits the length of [undoStack]
    never exceeds [maxStates]; a commit that pushes onto a full stack evicts
    the oldest entry, which is the floor entry at index 0: the entry that
    was at index 1 becomes the new floor. *)
Theorem undoStack_bounded_oldest_evicted hm snaps :
  length (undoStack hm) <= maxStates hm ->
  length (undoStack (commits snaps hm)) <= maxStates hm /\
  (forall s, isRestoring hm = false -> isSaving hm = false ->
     last (undoStack hm) <> Some s ->
     undoStack (_doSaveState (Some s) hm) =
       if length (undoStack hm) <? maxStates hm
       then undoStack hm ++ [s]
       else tail (undoStack hm) ++ (if maxStates hm is O then [] else [s])).
Proof.
  intros Hb. split.
  - rewrite <- (commits_maxStates snaps hm). apply commits_bounded, Hb.
  - intros s Hr Hs Htop. rewrite doSaveState_undoStack by assumption.
    rewrite length_app. simpl.
    destruct (length (undoStack hm) <? maxStates hm) eqn:E.
    + apply Nat.ltb_lt in E.
      destruct (maxStates hm <? length (undoStack hm) + 1) eqn:E';
        [apply Nat.ltb_lt in E'; lia | reflexivity].
    + apply Nat.ltb_ge in E.
      destruct (maxStates hm <? length (undoStack hm) + 1) eqn:E';
        [|apply Nat.ltb_ge in E'; lia].
      unfold shift. destruct (undoStack hm) as [|x l] eqn:Eu; simpl.
      * simpl in E. assert (maxStates hm = 0) as -> by lia. reflexivity.
      * destruct (maxStates hm); [simpl in Hb; lia | reflexivity].
Qed.

(** ** Concrete histories *)

Definition parsesAll : string -> bool := fun _ => true.

(** The history of a fresh editor: the constructor, then the initial
    [saveStateImmediate()] of [init]. *)
Definition fresh : HistoryManager :=
  saveStateImmediate (Some (snap 0)) (new defaultMaxStates).

Lemma undo_roundtrip_within_capacity_witness :
  let hm' := undos parsesAll [true; false; true]
               (commits [snap 1; snap 2; snap 3] fresh) in
  undoStack hm' = undoStack fresh /\ current hm' = Some (snap 0) /\ idle hm' /\
  (parsesAll (snap 0) = true -> last [true; false; true] = Some true ->
   canvasDoc hm' = Some (snap 0)).
Proof.
  apply (undo_roundtrip_within_capacity parsesAll fresh (snap 0)
           [snap 1; snap 2; snap 3] [true; false; true]).
  - repeat split.
  - reflexivity.
  - simpl. repeat split; discriminate.
  - vm_compute. lia.
  - reflexivity.
Defined.

(** C2 as stated fails: with the default capacity of 50, fifty pushing
    commits on top of the initial snapshot evict it, and fifty settled
    undos end on the first committed snapshot, not on the initial one. *)
Lemma undo_roundtrip_fails_past_capacity :
  let snaps := map snap (seq 1 50) in
  let hm' := undos parsesAll (repeat true 50) (commits snaps fresh) in
  distinctChain (snap 0) snaps /\
  current fresh = Some (snap 0) /\
  current hm' = Some (snap 1) /\
  current hm' <> current fresh.
Proof.
  split; [|split; [|split]].
  - vm_compute. repeat split; discriminate.
  - reflexivity.
  - vm_compute. reflexivity.
  - vm_compute. discriminate.
Qed.

(** Calls of [undo()] made back to back, before the first restore has
    settled, are blocked by [isRestoring]: only the first one acts. *)
Lemma undo_blocked_while_restoring :
  let hm := commits [snap 1; snap 2; snap 3] fresh in
  undoStack (undosUnsettled parsesAll 3 hm) = [snap 0; snap 1; snap 2].
Proof. vm_compute. reflexivity. Qed.

Lemma failed_restore_keeps_move_witness :
  let hm := undoSettled parsesAll true (commits [snap 1; snap 2] fresh) in
  (let hm' := undoSettled parsesAll false hm in
   isRestoring hm' = false /\
   undoStack hm' = [snap 0] /\ redoStack hm' = [snap 2; snap 1]) /\
  (let hm' := redoSettled parsesAll false hm in
   isRestoring hm' = false /\
   undoStack hm' = [snap 0; snap 1; snap 2] /\ redoStack hm' = []).
Proof.
  pose proof (failed_restore_keeps_move parsesAll
                (undoSettled parsesAll true (commits [snap 1; snap 2] fresh))
                false) as H.
  destruct H as [Hundo Hredo]; [repeat split|].
  split.
  - apply (Hundo [] (snap 0) (snap 1)); [reflexivity | right; reflexivity].
  - apply (Hredo [] (snap 2)); [reflexivity | right; reflexivity].
Defined.

(** C3 as stated fails: an [undo()] whose load is rejected has already
    moved the top of [undoStack] to [redoStack]; a [redo()] likewise. *)
Lemma failed_restore_changes_stacks :
  let hm := undoSettled parsesAll true (commits [snap 1; snap 2] fresh) in
  restoreFails parsesAll (snap 0) false /\
  undoStack (undoSettled parsesAll false hm) <> undoStack hm /\
  redoStack (undoSettled parsesAll false hm) <> redoStack hm /\
  undoStack (redoSettled parsesAll false hm) <> undoStack hm /\
  redoStack (redoSettled parsesAll false hm) <> redoStack hm.
Proof.
  split; [right; reflexivity|].
  repeat split; vm_compute; discriminate.
Qed.

Lemma undoStack_bounded_oldest_evicted_witness :
  let hm := commits (map snap (seq 1 49)) fresh in
  length (undoStack hm) <= maxStates hm /\
  length (undoStack (commits [snap 50; snap 51] hm)) <= maxStates hm /\
  undoStack (_doSaveState (Some (snap 50)) hm) =
    if length (undoStack hm) <? maxStates hm
    then undoStack hm ++ [snap 50]
    else tail (undoStack hm) ++ (if maxStates hm is O then [] else [snap 50]).
Proof.
  intros hm.
  assert (Hb : length (undoStack hm) <= maxStates hm) by (vm_compute; lia).
  split; [exact Hb|].
  destruct (undoStack_bounded_oldest_evicted hm [snap 50; snap 51] Hb)
    as [Hlen Hevict].
  split; [exact Hlen|].
  apply (Hevict (snap 50)).
  - vm_compute. reflexivity.
  - vm_compute. reflexivity.
  - vm_compute. discriminate.
Defined.

(** C5 as stated fails: the floor entry is the one that is evicted.  With
    the default capacity and fifty entries, one more commit drops the
    initial snapshot from index 0. *)
Lemma floor_entry_evicted :
  let hm := commits (map snap (seq 1 49)) fresh in
  let hm' := _doSaveState (Some (snap 50)) hm in
  length (undoStack hm) = defaultMaxStates /\
  head (undoStack hm) = Some (snap 0) /\
  head (undoStack hm') = Some (snap 1) /\
  ~ In (snap 0) (undoStack hm').
Proof.
  intros hm hm'.
  split; [vm_compute; reflexivity|].
  split; [vm_compute; reflexivity|].
  split; [vm_compute; reflexivity|].
  intros Hin.
  assert (He : existsb (String.eqb (snap 0)) (undoStack hm') = true).
  { apply existsb_exists. exists (snap 0). split; [exact Hin | apply String.eqb_refl]. }
  vm_compute in He. discriminate.
Qed.

End HistoryFacts.

(** ** Facts about the canvas store *)

Module SceneFacts.
Import Scene.

(** Membership in and inclusion between lists that are written out. *)
Ltac in_list := apply list_elem_of_In; simpl; tauto.
Ltac sub_list :=
  let x := fresh in let Hx := fresh in
  intros x Hx; apply list_elem_of_In in Hx; apply list_elem_of_In;
  simpl in *; tauto.

Lemma update_lookup_eq o f c obj :
  heap c !! o = Some obj -> heap (update o f c) !! o = Some (f obj).
Proof. intros H. unfold update. rewrite H. simpl. apply lookup_insert_eq. Qed.

Lemma update_lookup_ne o o' f c :
  o <> o' -> heap (update o f c) !! o' = heap c !! o'.
Proof.
  intros H. unfold update. destruct (heap c !! o); [|reflexivity].
  simpl. apply lookup_insert_ne, H.
Qed.

Lemma update_lookup o o' f c :
  heap (update o f c) !! o' =
    if decide (o = o') then f <$> heap c !! o' else heap c !! o'.
Proof.
  destruct (decide (o = o')) as [<-|Hne].
  - unfold update. destruct (heap c !! o) eqn:E; simpl.
    + apply lookup_insert_eq.
    + rewrite E. reflexivity.
  - apply update_lookup_ne, Hne.
Qed.

Lemma update_dangling o f c : heap c !! o = None -> update o f c = c.
Proof. intros H. unfold update. rewrite H. reflexivity. Qed.

(** [update] touches nothing but the store. *)
Lemma update_frame o f c :
  objects (update o f c) = objects c /\
  nextId (update o f c) = nextId c /\
  activeObject (update o f c) = activeObject c /\
  removedLog (update o f c) = removedLog c /\
  saveRequests (update o f c) = saveRequests c /\
  timeouts (update o f c) = timeouts c.
Proof. unfold update. destruct (heap c !! o); simpl; auto 10. Qed.

Lemma update_objects o f c : objects (update o f c) = objects c.
Proof. apply update_frame. Qed.

Lemma update_nextId o f c : nextId (update o f c) = nextId c.
Proof. apply update_frame. Qed.

Lemma heap_setActiveObject o c : heap (setActiveObject o c) = heap c.
Proof. reflexivity. Qed.
Lemma heap_setTimeout k c : heap (setTimeout k c) = heap c.
Proof. reflexivity. Qed.
Lemma heap_requestSave c : heap (requestSave c) = heap c.
Proof. reflexivity. Qed.
Lemma heap_add o c : heap (add o c) = heap c.
Proof. reflexivity. Qed.
Lemma heap_alloc obj c : heap (alloc obj c).2 = <[nextId c := obj]> (heap c).
Proof. reflexivity. Qed.
Lemma objects_setActiveObject o c : objects (setActiveObject o c) = objects c.
Proof. reflexivity. Qed.
Lemma objects_setTimeout k c : objects (setTimeout k c) = objects c.
Proof. reflexivity. Qed.
Lemma objects_requestSave c : objects (requestSave c) = objects c.
Proof. reflexivity. Qed.
Lemma objects_add o c : objects (add o c) = objects c ++ [o].
Proof. reflexivity. Qed.
Lemma objects_alloc obj c : objects (alloc obj c).2 = objects c.
Proof. reflexivity. Qed.

(** Writing the same attributes twice is writing them once. *)
Lemma update_idempotent o f c :
  (forall obj, f (f obj) = f obj) -> update o f (update o f c) = update o f c.
Proof.
  intros Hf. unfold update at 2 3. destruct (heap c !! o) as [obj|] eqn:E.
  - unfold update. simpl. rewrite lookup_insert_eq. simpl.
    rewrite insert_insert_eq, Hf. reflexivity.
  - unfold update. rewrite E. reflexivity.
Qed.

End SceneFacts.

(** ** Facts about the tools manager *)

Module ToolsFacts.
Import Scene Tools SceneFacts.

Section WithFabric.
Variable centerOf : Geometry -> Point.
Variable boundsOf : Geometry -> Q * Q.
Variable trim : string -> string.

Lemma syncToShape_idempotent s t :
  syncToShape centerOf s (syncToShape centerOf s t) = syncToShape centerOf s t.
Proof. reflexivity. Qed.

Lemma syncToBubble_idempotent b t :
  syncToBubble centerOf b (syncToBubble centerOf b t) = syncToBubble centerOf b t.
Proof. reflexivity. Qed.

(** The half tail height of a bubble, [tailSize / 2] with
    [tailSize = bubble._tailSize || 15] (the tail of [createBubblePath] is
    [tailSize] high). *)
Definition halfTail (b : Obj) : Q :=
  (Num.orDefault (_tailSize (Scene.bubble b)) 15 / 2)%Q.

(** C6: the sync sets the text's centre (its [left]/[top]; a bound text
    has [originX]/[originY] at ['center'], which the sync keeps) to the
    container's geometric centre, for a bubble moved up by half the tail
    height times the bubble's vertical scale, and copies the container's
    scale and rotation; the container and every other attribute of the text
    stay as they are, and a second sync with the container unchanged gives
    the same state as the first. *)
Theorem sync_centers_text_and_is_idempotent c container textbox s t :
  heap c !! container = Some s -> heap c !! textbox = Some t ->
  container <> textbox ->
  let c1 := updateTextPositionForShape centerOf container textbox c in
  let c2 := updateTextPositionForBubble centerOf container textbox c in
  (exists t',
     heap c1 !! textbox = Some t' /\
     left (geom t') = x (centerOf (geom s)) /\
     top (geom t') = y (centerOf (geom s)) /\
     scaleX (geom t') = scaleX (geom s) /\
     scaleY (geom t') = scaleY (geom s) /\
     angle (geom t') = angle (geom s) /\
     originX (geom t') = originX (geom t) /\
     originY (geom t') = originY (geom t) /\
     set_geom (geom t) t' = t) /\
  (exists t',
     heap c2 !! textbox = Some t' /\
     left (geom t') = x (centerOf (geom s)) /\
     top (geom t') = (y (centerOf (geom s)) - halfTail s * scaleY (geom s))%Q /\
     scaleX (geom t') = scaleX (geom s) /\
     scaleY (geom t') = scaleY (geom s) /\
     angle (geom t') = angle (geom s) /\
     originX (geom t') = originX (geom t) /\
     originY (geom t') = originY (geom t) /\
     set_geom (geom t) t' = t) /\
  heap c1 !! container = Some s /\ heap c2 !! container = Some s /\
  updateTextPositionForShape centerOf container textbox c1 = c1 /\
  updateTextPositionForBubble centerOf container textbox c2 = c2.
Proof.
  intros Hs Ht Hne c1 c2. subst c1 c2.
  unfold updateTextPositionForShape, updateTextPositionForBubble.
  rewrite !Hs.
  assert (Hs1 : forall f, heap (update textbox f c) !! container = Some s).
  { intros f. rewrite update_lookup_ne by congruence. exact Hs. }
  split; [|split].
  - exists (syncToShape centerOf s t). split; [apply update_lookup_eq, Ht|].
    destruct t. simpl. auto 10.
  - exists (syncToBubble centerOf s t). split; [apply update_lookup_eq, Ht|].
    destruct t. simpl. auto 10.
  - split; [apply Hs1|]. split; [apply Hs1|].
    rewrite !Hs1. split; apply update_idempotent; reflexivity.
Qed.

(** *** The placeholder life cycle *)

Definition propsOf (t : ObjId) (c : Canvas) : option TextProps :=
  props <$> heap c !! t.

(** Normal style with the content cleared. *)
Definition shownCleared (p : TextProps) : Prop :=
  text p = "" /\ fill p = textColor /\ fontStyle p = "normal" /\
  _isPlaceholder p = false.

(** Placeholder content in the muted style, flag set. *)
Definition shownPlaceholder (p : TextProps) : Prop :=
  text p = placeholderText /\ fill p = placeholderFill /\
  fontStyle p = "italic" /\ _isPlaceholder p = true.

Lemma listenersOf_update t f c o :
  heap c !! t = Some o -> listenersOf t (update t f c) = listeners (f o).
Proof.
  intros H. unfold listenersOf. rewrite (update_lookup_eq _ _ _ _ H). reflexivity.
Qed.

Lemma propsOf_update t f c o :
  heap c !! t = Some o -> propsOf t (update t f c) = Some (props (f o)).
Proof.
  intros H. unfold propsOf. rewrite (update_lookup_eq _ _ _ _ H). reflexivity.
Qed.

Lemma update_update t f g c :
  update t f (update t g c) = update t (fun o => f (g o)) c.
Proof.
  unfold update at 2 3. destruct (heap c !! t) as [o|] eqn:E.
  - unfold update. simpl. rewrite lookup_insert_eq. simpl.
    rewrite insert_insert_eq. reflexivity.
  - unfold update. rewrite E. reflexivity.
Qed.

Lemma propsOf_requestSave t c : propsOf t (requestSave c) = propsOf t c.
Proof. reflexivity. Qed.

Lemma propsOf_setTimeout t k c : propsOf t (setTimeout k c) = propsOf t c.
Proof. reflexivity. Qed.

Lemma isBlank_empty : isBlank trim "" = true.
Proof. reflexivity. Qed.

(** C8 (amended): for a free text and for a bubble-bound text, with the
    handlers the tools manager registers on a new text box (and, for a free
    text, those a restore registers), entering edit mode while the
    placeholder flag is true clears the content and switches to the normal
    style, and leaving edit mode with empty content restores the
    placeholder content, the muted style and the flag.  A shape-bound text
    is created empty with the flag false, and the handlers registered at
    its creation leave its content, style and flag as they are, on entering
    and on leaving with empty content alike. *)
Theorem placeholder_lifecycle c t o :
  heap c !! t = Some o -> listeners o = noListeners ->
  let entered (setup : ObjId -> Canvas -> Canvas) :=
    propsOf t (enterEditing t (setup t c)) in
  let exited (setup : ObjId -> Canvas -> Canvas) :=
    propsOf t (exitEditing trim t (setup t c)) in
  (_isPlaceholder (props o) = true ->
     (exists p, entered setupTextBoxEvents = Some p /\ shownCleared p) /\
     (exists p, entered setupBubbleTextEvents = Some p /\ shownCleared p) /\
     (exists p, entered Restore.setupRestoredTextBox = Some p /\ shownCleared p)) /\
  (text (props o) = "" ->
     (exists p, exited setupTextBoxEvents = Some p /\ shownPlaceholder p) /\
     (exists p, exited setupBubbleTextEvents = Some p /\ shownPlaceholder p) /\
     (exists p, exited Restore.setupRestoredTextBox = Some p /\ shownPlaceholder p)) /\
  entered setupShapeTextEvents = Some (props o) /\
  exited setupShapeTextEvents = Some (props o).
Proof.
  intros Ho Hl entered exited. subst entered exited.
  unfold setupTextBoxEvents, setupBubbleTextEvents, setupShapeTextEvents,
    Restore.setupRestoredTextBox.
  split; [|split; [|split]].
  - intros Hp. split; [|split].
    + rewrite update_update. unfold enterEditing.
      rewrite (listenersOf_update _ _ _ _ Ho). simpl. rewrite Hl. simpl.
      rewrite update_update, (propsOf_update _ _ _ _ Ho).
      unfold enterBody. simpl. rewrite Hp. eexists; split; [reflexivity|].
      repeat split.
    + rewrite !update_update. unfold enterEditing.
      rewrite (listenersOf_update _ _ _ _ Ho). simpl. rewrite Hl. simpl.
      rewrite update_update, (propsOf_update _ _ _ _ Ho).
      unfold enterBody. simpl. rewrite Hp. eexists; split; [reflexivity|].
      repeat split.
    + destruct (isActive t c); rewrite !update_update; unfold enterEditing;
        rewrite (listenersOf_update _ _ _ _ Ho); simpl; rewrite Hl; simpl;
        rewrite !update_update, (propsOf_update _ _ _ _ Ho);
        unfold enterBody; simpl; rewrite Hp; (eexists; split; [reflexivity|]);
        repeat split.
  - intros Hp. split; [|split].
    + rewrite update_update. unfold exitEditing.
      rewrite (listenersOf_update _ _ _ _ Ho). simpl. rewrite Hl. simpl.
      rewrite ?propsOf_setTimeout, ?propsOf_requestSave.
      rewrite update_update, (propsOf_update _ _ _ _ Ho).
      unfold exitBody. simpl. rewrite Hp. eexists; split; [reflexivity|].
      repeat split.
    + rewrite !update_update. unfold exitEditing.
      rewrite (listenersOf_update _ _ _ _ Ho). simpl. rewrite Hl. simpl.
      match goal with |- context [boundBubbleOf t ?c1] =>
        destruct (boundBubbleOf t c1) end;
        rewrite ?propsOf_setTimeout, ?propsOf_requestSave;
        rewrite update_update, (propsOf_update _ _ _ _ Ho);
        unfold exitBody; simpl; rewrite Hp; (eexists; split; [reflexivity|]);
        repeat split.
    + destruct (isActive t c) eqn:Ha; rewrite !update_update; unfold exitEditing;
        rewrite (listenersOf_update _ _ _ _ Ho); simpl; rewrite Hl; simpl;
        rewrite !update_update;
        match goal with |- context [isActive t ?c1] =>
          replace (isActive t c1) with (isActive t c)
            by (unfold isActive; rewrite (proj1 (proj2 (proj2 (update_frame _ _ _)))); reflexivity)
        end; rewrite Ha; rewrite ?update_update, (propsOf_update _ _ _ _ Ho);
        unfold exitBody; simpl; rewrite Hp; (eexists; split; [reflexivity|]);
        repeat split.
  - rewrite update_update. unfold enterEditing.
    rewrite (listenersOf_update _ _ _ _ Ho). simpl. rewrite Hl. simpl.
    rewrite (propsOf_update _ _ _ _ Ho). reflexivity.
  - rewrite update_update. unfold exitEditing.
    rewrite (listenersOf_update _ _ _ _ Ho). simpl. rewrite Hl. simpl.
    match goal with |- context [boundShapeOf t ?c1] =>
      destruct (boundShapeOf t c1) end;
      rewrite ?propsOf_setTimeout, ?propsOf_requestSave;
      rewrite (propsOf_update _ _ _ _ Ho); reflexivity.
Qed.

(** *** Finalisation *)

Definition geomOf (c : Canvas) (id : ObjId) : option Geometry :=
  geom <$> heap c !! id.
Definition bubbleOf (c : Canvas) (id : ObjId) : option BubbleProps :=
  Scene.bubble <$> heap c !! id.

(** [result] is [default] when [measure] is below [minimum], and
    [original] otherwise. *)
Definition snapped (measure minimum default original result : Q) : Prop :=
  ((measure < minimum)%Q -> result = default) /\
  (~ (measure < minimum)%Q -> result = original).

Lemma Qltb_lt a b : Num.Qltb a b = true <-> (a < b)%Q.
Proof.
  unfold Num.Qltb. rewrite negb_true_iff. split.
  - intros H. apply Qnot_le_lt. intros Hle. apply Qle_bool_iff in Hle. congruence.
  - intros H. destruct (Qle_bool b a) eqn:E; [|reflexivity].
    apply Qle_bool_iff in E. exfalso. exact (Qlt_not_le _ _ H E).
Qed.

Lemma snapped_below m min d o : Num.Qltb m min = true -> snapped m min d o d.
Proof.
  intros E. split; [reflexivity|]. intros H. exfalso. apply H, Qltb_lt, E.
Qed.

Lemma snapped_kept m min d o : Num.Qltb m min = false -> snapped m min d o o.
Proof.
  intros E. split; [|reflexivity]. intros H. apply Qltb_lt in H. congruence.
Qed.

Lemma snapped_if m min d o :
  snapped m min d o (if Num.Qltb m min then d else o).
Proof.
  destruct (Num.Qltb m min) eqn:E; [apply snapped_below | apply snapped_kept]; exact E.
Qed.

(** An update that keeps the geometry and the bubble attributes. *)
Lemma update_keeps (A : Type) (proj : Obj -> A) o f c id :
  (forall obj, proj (f obj) = proj obj) ->
  proj <$> heap (update o f c) !! id = proj <$> heap c !! id.
Proof.
  intros Hf. rewrite update_lookup. destruct (decide (o = id)); [|reflexivity].
  destruct (heap c !! id); simpl; [rewrite Hf|]; reflexivity.
Qed.

Lemma updateTextPositionForShape_other shape textbox c id :
  textbox <> id ->
  heap (updateTextPositionForShape centerOf shape textbox c) !! id = heap c !! id.
Proof.
  intros H. unfold updateTextPositionForShape.
  destruct (heap c !! shape); [apply update_lookup_ne, H | reflexivity].
Qed.

Lemma updateTextPositionForBubble_other bubble textbox c id :
  textbox <> id ->
  heap (updateTextPositionForBubble centerOf bubble textbox c) !! id = heap c !! id.
Proof.
  intros H. unfold updateTextPositionForBubble.
  destruct (heap c !! bubble); [apply update_lookup_ne, H | reflexivity].
Qed.

Lemma updateTextPositionForShape_objects shape textbox c :
  objects (updateTextPositionForShape centerOf shape textbox c) = objects c.
Proof.
  unfold updateTextPositionForShape.
  destruct (heap c !! shape); [apply update_objects | reflexivity].
Qed.

Lemma updateTextPositionForBubble_objects bubble textbox c :
  objects (updateTextPositionForBubble centerOf bubble textbox c) = objects c.
Proof.
  unfold updateTextPositionForBubble.
  destruct (heap c !! bubble); [apply update_objects | reflexivity].
Qed.

(** Creating the bound text leaves the container's geometry and bubble
    attributes alone and keeps it on the canvas. *)
Lemma createBoundTextForShape_eq shape c s :
  heap c !! shape = Some s ->
  createBoundTextForShape centerOf boundsOf shape c =
  setActiveObject shape
    (setupShapeTextEvents (nextId c)
       (bindShapeTextEvents shape (nextId c)
          (update (nextId c) (setBoundShape (Some shape))
             (update shape (setBoundText (Some (nextId c)))
                (add (nextId c)
                   (updateTextPositionForShape centerOf shape (nextId c)
                      (alloc (newShapeText
                                (Num.max
                                   ((boundsOf (geom s)).1 /
                                    Num.orDefault (Some (scaleX (geom s))) 1 *
                                    (8 # 10)) 50)) c).2)))))).
Proof. intros Hs. unfold createBoundTextForShape. rewrite Hs. reflexivity. Qed.

Lemma createBoundTextForBubble_eq bubble c b :
  heap c !! bubble = Some b ->
  createBoundTextForBubble centerOf bubble c =
  setTimeout (selectAndEditLater (nextId c))
    (setActiveObject bubble
       (setupBubbleTextEvents (nextId c)
          (bindBubbleTextEvents bubble (nextId c)
             (update (nextId c) (setBoundBubble (Some bubble))
                (update bubble (setBoundText (Some (nextId c)))
                   (add (nextId c)
                      (updateTextPositionForBubble centerOf bubble (nextId c)
                         (alloc (newBubbleText
                                   (Num.orDefault (_bubbleWidth (Scene.bubble b)) 150
                                    - 30)) c).2))))))).
Proof. intros Hs. unfold createBoundTextForBubble. rewrite Hs. reflexivity. Qed.

Lemma createBoundTextForShape_keeps (A : Type) (proj : Obj -> A) shape c s :
  heap c !! shape = Some s -> shape < nextId c ->
  (forall l obj, proj (set_links l obj) = proj obj) ->
  (forall l obj, proj (set_listeners l obj) = proj obj) ->
  let c' := createBoundTextForShape centerOf boundsOf shape c in
  proj <$> heap c' !! shape = Some (proj s) /\
  objects c' = objects c ++ [nextId c].
Proof.
  intros Hs Hlt Hlinks Hlist c'. subst c'.
  rewrite (createBoundTextForShape_eq _ _ _ Hs).
  unfold bindShapeTextEvents, setupShapeTextEvents. split.
  - rewrite heap_setActiveObject.
    rewrite !(update_keeps A proj)
      by (intros; unfold on, setBoundText, setBoundShape; auto).
    rewrite heap_add, updateTextPositionForShape_other by lia.
    rewrite heap_alloc, lookup_insert_ne by lia. rewrite Hs. reflexivity.
  - rewrite objects_setActiveObject, !update_objects, objects_add.
    rewrite updateTextPositionForShape_objects, objects_alloc. reflexivity.
Qed.

Lemma createBoundTextForBubble_keeps (A : Type) (proj : Obj -> A) shape c s :
  heap c !! shape = Some s -> shape < nextId c ->
  (forall l obj, proj (set_links l obj) = proj obj) ->
  (forall l obj, proj (set_listeners l obj) = proj obj) ->
  let c' := createBoundTextForBubble centerOf shape c in
  proj <$> heap c' !! shape = Some (proj s) /\
  objects c' = objects c ++ [nextId c].
Proof.
  intros Hs Hlt Hlinks Hlist c'. subst c'.
  rewrite (createBoundTextForBubble_eq _ _ _ Hs).
  unfold bindBubbleTextEvents, setupBubbleTextEvents. split.
  - rewrite heap_setTimeout, heap_setActiveObject.
    rewrite !(update_keeps A proj)
      by (intros; unfold on, setBoundText, setBoundBubble; auto).
    rewrite heap_add, updateTextPositionForBubble_other by lia.
    rewrite heap_alloc, lookup_insert_ne by lia. rewrite Hs. reflexivity.
  - rewrite objects_setTimeout, objects_setActiveObject, !update_objects, objects_add.
    rewrite updateTextPositionForBubble_objects, objects_alloc. reflexivity.
Qed.

(** C7 (amended): a drag-created primitive finalised on pointer-up stays
    on the canvas, and each of its dimensions is snapped on its own: for a
    rect or a triangle a width below 60 becomes 100 and a height below 40
    becomes 80; for an ellipse a width [2 rx] below 60 gives [rx = 50] and
    a height [2 ry] below 40 gives [ry = 40]; for a text box a width below
    80 becomes 150; for a bubble a width below 100 becomes 150 and a height
    below 60 becomes 80.  A dimension at or above its minimum keeps its
    dragged value, whatever the other dimension is. *)
Theorem finalize_snaps_each_dimension c id s :
  heap c !! id = Some s -> id < nextId c -> id ∈ objects c ->
  (let c' := finalizeShapeWithText centerOf boundsOf (Some id) c in
   id ∈ objects c' /\
   exists g, geomOf c' id = Some g /\
     if String.eqb (type s) "ellipse" then
       snapped (rx (geom s) * 2) 60 50 (rx (geom s)) (rx g) /\
       snapped (ry (geom s) * 2) 40 40 (ry (geom s)) (ry g)
     else
       snapped (width (geom s)) 60 100 (width (geom s)) (width g) /\
       snapped (height (geom s)) 40 80 (height (geom s)) (height g)) /\
  (type s = "textbox" ->
   let c' := finalizeTextBox (Some id) c in
   id ∈ objects c' /\
   exists g, geomOf c' id = Some g /\
     snapped (width (geom s)) 80 150 (width (geom s)) (width g)) /\
  (_shapeType s = Some "bubble" ->
   let c' := finalizeBubble centerOf (Some id) c in
   let w0 := Num.orDefault (_bubbleWidth (Scene.bubble s)) 150 in
   let h0 := Num.orDefault (_bubbleHeight (Scene.bubble s)) 80 in
   id ∈ objects c' /\
   exists b w h, bubbleOf c' id = Some b /\
     _bubbleWidth b = Some w /\ _bubbleHeight b = Some h /\
     snapped w0 100 150 w0 w /\ snapped h0 60 80 h0 h).
Proof.
  intros Hs Hlt Hin. split; [|split].
  - unfold finalizeShapeWithText.
    pose proof (update_lookup_eq id (snapShape) c s Hs) as Hs'.
    destruct (createBoundTextForShape_keeps Geometry geom id
                (update id snapShape c) (snapShape s) Hs')
      as [Hg Hobj]; [rewrite update_nextId; exact Hlt| reflexivity | reflexivity |].
    cbv zeta. split.
    + rewrite Hobj, update_objects. apply elem_of_app. left. exact Hin.
    + exists (geom (snapShape s)). split; [exact Hg|].
      unfold snapShape. destruct (String.eqb (type s) "ellipse").
      * destruct (Num.Qltb (rx (geom s) * 2) 60) eqn:E1,
                 (Num.Qltb (ry (geom s) * 2) 40) eqn:E2;
          cbn [geom rx ry onGeom set_geom setRx setRy];
          split; first [apply snapped_below | apply snapped_kept]; assumption.
      * destruct (Num.Qltb (width (geom s)) 60) eqn:E1,
                 (Num.Qltb (height (geom s)) 40) eqn:E2;
          cbn [geom width height onGeom set_geom setWidth setHeight];
          split; first [apply snapped_below | apply snapped_kept]; assumption.
  - intros Hty. unfold finalizeTextBox. rewrite Hs, Hty.
    change (String.eqb "textbox" "textbox") with true. cbv beta iota zeta.
    unfold setupTextBoxEvents. split.
    + rewrite objects_setTimeout, !update_objects, objects_setActiveObject.
      rewrite update_objects. exact Hin.
    + unfold geomOf. rewrite heap_setTimeout.
      rewrite !(update_keeps _ geom) by reflexivity.
      rewrite heap_setActiveObject.
      rewrite (update_lookup_eq _ _ _ _ Hs).
      exists (geom (snapTextBox s)). split; [reflexivity|].
      unfold snapTextBox.
      destruct (Num.Qltb (width (geom s)) 80) eqn:E;
        cbn [geom width onGeom onProps set_props set_geom setWidth];
        first [apply snapped_below | apply snapped_kept]; assumption.
  - intros Hty. unfold finalizeBubble. rewrite Hs, Hty.
    rewrite bool_decide_eq_true_2 by reflexivity.
    pose proof (update_lookup_eq id snapBubble c s Hs) as Hs'.
    destruct (createBoundTextForBubble_keeps BubbleProps Scene.bubble id
                (update id snapBubble c) (snapBubble s) Hs')
      as [Hg Hobj]; [rewrite update_nextId; exact Hlt| reflexivity | reflexivity |].
    cbv zeta. split.
    + rewrite Hobj, update_objects. apply elem_of_app. left. exact Hin.
    + eexists _, _, _. split; [exact Hg|].
      unfold snapBubble. cbn [Scene.bubble set_bubble _bubbleWidth _bubbleHeight].
      split; [reflexivity|]. split; [reflexivity|].
      split; apply snapped_if.
Qed.

End WithFabric.

End ToolsFacts.

(** ** Facts about tool selection *)

Module EditorFacts.
Import Scene Tools Editor SceneFacts.

Section WithCollaborators.
Variable hasEraserBrush : bool.
Variable enableCropMode : Editor -> Editor.

Lemma eqb_not_accepted toolName known :
  toolName ∉ acceptedTools -> known ∈ acceptedTools ->
  String.eqb toolName known = false.
Proof.
  intros Hnot Hin. apply String.eqb_neq. intros ->. exact (Hnot Hin).
Qed.

Lemma not_in_sublist toolName (l : list string) :
  toolName ∉ acceptedTools -> l ⊆ acceptedTools ->
  bool_decide (toolName ∈ l) = false.
Proof.
  intros Hnot Hsub. apply bool_decide_eq_false. intros Hin. exact (Hnot (Hsub _ Hin)).
Qed.

(** What [setTool] does with a name it has no case for. *)
Lemma setTool_unknown toolName e :
  toolName ∉ acceptedTools ->
  setTool hasEraserBrush enableCropMode toolName e =
    onCanvas discardActiveObject
      (hideAllPanels
         (onCanvas (fun c => set_hoverCursor "move"
                      (set_defaultCursor "default"
                         (set_selection true (set_isDrawingMode false c))))
            (set_currentTool toolName e))).
Proof.
  intros Hnot. unfold setTool, setToolBody.
  assert (Hk : forall known, known ∈ acceptedTools ->
                 String.eqb toolName known = false)
    by (intros; apply eqb_not_accepted; assumption).
  rewrite !Hk by in_list.
  rewrite !not_in_sublist by (assumption || sub_list).
  reflexivity.
Qed.

(** C9 (amended): [setTool] does not reject a string that is not one of
    the accepted tool names.  The string becomes the current tool, the
    canvas interaction mode is reset to its defaults (drawing mode off,
    selection on, default and move cursors), both tool panels are hidden
    and the active selection is discarded; the objects stay as they are and
    no error is surfaced (no toast is added). *)
Theorem setTool_unknown_name_is_stored toolName e :
  toolName ∉ acceptedTools ->
  let e' := setTool hasEraserBrush enableCropMode toolName e in
  currentTool (tools e') = toolName /\
  isDrawingMode (canvas e') = false /\
  selection (canvas e') = true /\
  defaultCursor (canvas e') = "default" /\
  hoverCursor (canvas e') = "move" /\
  activeObject (canvas e') = None /\
  brushSettingsHidden e' = true /\ cropPanelHidden e' = true /\
  toasts e' = toasts e /\
  heap (canvas e') = heap (canvas e) /\ objects (canvas e') = objects (canvas e).
Proof.
  intros Hnot e'. subst e'. rewrite setTool_unknown by assumption.
  repeat split.
Qed.

End WithCollaborators.

End EditorFacts.

(** ** The cascade of removals *)

Module CascadeFacts.
Import Scene Tools SceneFacts.

(** The object a ['removed'] handler would remove, read in a given
    store. *)
Definition targetOf (c : Canvas) (h : RemovedHandler) : option ObjId :=
  match h with
  | removeText textbox => Some textbox
  | removeBoundShape textbox => boundShapeOf textbox c
  | removeBoundBubble textbox => boundBubbleOf textbox c
  end.

(** A bound pair as the binding code leaves it: the two back-references
    and, on each member, the ['removed'] handler that takes the other one
    along. *)
Definition boundPair (c : Canvas) (container textbox : ObjId) : Prop :=
  exists oc ot,
    heap c !! container = Some oc /\ heap c !! textbox = Some ot /\
    _boundText (links oc) = Some textbox /\
    removeText textbox ∈ onRemoved (listeners oc) /\
    ((_boundShape (links ot) = Some container /\
      removeBoundShape textbox ∈ onRemoved (listeners ot)) \/
     (_boundBubble (links ot) = Some container /\
      removeBoundBubble textbox ∈ onRemoved (listeners ot))).

(** The same with nothing else listening for ['removed'], which is how a
    pair is right after it was bound. *)
Definition freshPair (c : Canvas) (container textbox : ObjId) : Prop :=
  exists oc ot,
    heap c !! container = Some oc /\ heap c !! textbox = Some ot /\
    _boundText (links oc) = Some textbox /\
    onRemoved (listeners oc) = [removeText textbox] /\
    ((_boundShape (links ot) = Some container /\
      onRemoved (listeners ot) = [removeBoundShape textbox]) \/
     (_boundBubble (links ot) = Some container /\
      onRemoved (listeners ot) = [removeBoundBubble textbox])).

(** What a run of removals may do to the canvas: the store is untouched,
    objects only leave, and whatever left took the targets of its
    ['removed'] handlers along. *)
Definition cascade (c c' : Canvas) : Prop :=
  heap c' = heap c /\
  (forall x, x ∈ objects c' -> x ∈ objects c) /\
  NoDup (objects c') /\
  (forall x h y, x ∈ objects c -> x ∉ objects c' ->
     h ∈ onRemoved (listenersOf x c) -> targetOf c h = Some y ->
     y ∉ objects c').

Lemma spliceOut_subset o l x : x ∈ spliceOut o l -> x ∈ l.
Proof.
  induction l as [|a l IH]; simpl; [tauto|].
  destruct (Nat.eqb a o).
  - intros H. apply elem_of_cons. auto.
  - rewrite !elem_of_cons. intros [->|H]; auto.
Qed.

Lemma spliceOut_elem_of o l x :
  NoDup l -> x ∈ spliceOut o l <-> x ∈ l /\ x <> o.
Proof.
  induction l as [|a l IH]; simpl; intros Hnd.
  - split; [intros H; inversion H | intros [H _]; inversion H].
  - apply NoDup_cons in Hnd as [Ha Hnd]. specialize (IH Hnd).
    destruct (Nat.eqb a o) eqn:E.
    + apply Nat.eqb_eq in E. subst a. rewrite elem_of_cons. split.
      * intros H. split; [auto|]. intros ->. exact (Ha H).
      * intros [[->|H] Hne]; [congruence | exact H].
    + apply Nat.eqb_neq in E. rewrite !elem_of_cons, IH. split.
      * intros [->|[H Hne]]; auto.
      * intros [[->|H] Hne]; auto.
Qed.

Lemma spliceOut_NoDup o l : NoDup l -> NoDup (spliceOut o l).
Proof.
  induction l as [|a l IH]; simpl; intros Hnd; [exact Hnd|].
  apply NoDup_cons in Hnd as [Ha Hnd].
  destruct (Nat.eqb a o); [exact Hnd|].
  apply NoDup_cons. split; [|apply IH, Hnd].
  intros H. apply Ha. exact (spliceOut_subset _ _ _ H).
Qed.

Lemma spliceOut_length o l : o ∈ l -> S (length (spliceOut o l)) = length l.
Proof.
  induction l as [|a l IH]; simpl; intros H; [inversion H|].
  destruct (Nat.eqb a o) eqn:E; [reflexivity|].
  apply Nat.eqb_neq in E. apply elem_of_cons in H as [->|H]; [congruence|].
  simpl. rewrite IH by exact H. reflexivity.
Qed.

Lemma contains_true c o : contains c o = true <-> o ∈ objects c.
Proof. unfold contains. apply bool_decide_eq_true. Qed.

Lemma contains_false c o : contains c o = false <-> o ∉ objects c.
Proof. unfold contains. apply bool_decide_eq_false. Qed.

Lemma cascade_refl c : NoDup (objects c) -> cascade c c.
Proof. intros H. unfold cascade. split; [reflexivity|]. split; [auto|]. split; [exact H|]. tauto. Qed.

Lemma listenersOf_heap x c c' : heap c' = heap c -> listenersOf x c' = listenersOf x c.
Proof. intros H. unfold listenersOf. rewrite H. reflexivity. Qed.

Lemma targetOf_heap h c c' : heap c' = heap c -> targetOf c' h = targetOf c h.
Proof.
  intros H. destruct h; simpl; unfold boundShapeOf, boundBubbleOf; rewrite ?H; reflexivity.
Qed.

Lemma cascade_trans c1 c2 c3 : cascade c1 c2 -> cascade c2 c3 -> cascade c1 c3.
Proof.
  intros (Hh1 & Hs1 & Hn1 & Hc1) (Hh2 & Hs2 & Hn2 & Hc2).
  split; [congruence|]. split; [auto|]. split; [exact Hn2|].
  intros x h y Hx Hx3 Hh Ht.
  destruct (decide (x ∈ objects c2)) as [Hx2|Hx2].
  - apply (Hc2 x h y Hx2 Hx3).
    + rewrite (listenersOf_heap _ _ _ Hh1). exact Hh.
    + rewrite (targetOf_heap _ _ _ Hh1). exact Ht.
  - intros Hy. apply (Hc1 x h y Hx Hx2 Hh Ht). auto.
Qed.

(** The state in which the ['removed'] listeners of [o] start. *)
Definition detached (o : ObjId) (c : Canvas) : Canvas :=
  let c1 := set_objects (spliceOut o (objects c)) c in
  let c2 := if isActive o c1 then discardActiveObject c1 else c1 in
  set_removedLog (removedLog c2 ++ [o]) c2.

Lemma removeFuel_unfold f o c :
  removeFuel (S f) o c =
    if contains c o
    then fireRemoved (removeFuel f) (onRemoved (listenersOf o (detached o c)))
           (detached o c)
    else Some c.
Proof. reflexivity. Qed.

Lemma detached_heap o c : heap (detached o c) = heap c.
Proof. unfold detached. destruct (isActive o _); reflexivity. Qed.

Lemma detached_objects o c : objects (detached o c) = spliceOut o (objects c).
Proof. unfold detached. destruct (isActive o _); reflexivity. Qed.

Lemma detached_removedLog o c : removedLog (detached o c) = removedLog c ++ [o].
Proof. unfold detached. destruct (isActive o _); reflexivity. Qed.

Section Fire.
(** [rm] behaves like a removal that cascades. *)
Variable rm : ObjId -> Canvas -> option Canvas.
Hypothesis rm_cascade : forall o c c',
  NoDup (objects c) -> rm o c = Some c' -> cascade c c' /\ o ∉ objects c'.

Lemma runRemoved_cascade h c c' :
  NoDup (objects c) -> runRemoved rm h c = Some c' ->
  cascade c c' /\ forall y, targetOf c h = Some y -> y ∉ objects c'.
Proof.
  intros Hnd Hrun.
  assert (Hgen : forall t, targetOf c h = t ->
            match t with
            | Some y => if contains c y then rm y c else Some c
            | None => Some c
            end = Some c' ->
            cascade c c' /\ forall y, t = Some y -> y ∉ objects c').
  { intros [y|] _ H.
    - destruct (contains c y) eqn:E.
      + destruct (rm_cascade _ _ _ Hnd H) as [Hc Hy].
        split; [exact Hc|]. intros ? [= <-]. exact Hy.
      + injection H as <-. split; [apply cascade_refl, Hnd|].
        intros ? [= <-]. apply contains_false, E.
    - injection H as <-. split; [apply cascade_refl, Hnd|]. discriminate. }
  destruct (Hgen (targetOf c h) eq_refl) as [Hc Ht]; [|split; [exact Hc | exact Ht]].
  destruct h; simpl in *; exact Hrun.
Qed.

Lemma fireRemoved_cascade hs : forall c c',
  NoDup (objects c) -> fireRemoved rm hs c = Some c' ->
  cascade c c' /\
  forall h y, h ∈ hs -> targetOf c h = Some y -> y ∉ objects c'.
Proof.
  induction hs as [|h hs IH]; intros c c' Hnd Hfire; simpl in Hfire.
  - injection Hfire as <-. split; [apply cascade_refl, Hnd|].
    intros h y Hin. inversion Hin.
  - destruct (runRemoved rm h c) as [c1|] eqn:Hrun; [|discriminate].
    destruct (runRemoved_cascade _ _ _ Hnd Hrun) as [Hc1 Ht1].
    destruct (IH c1 c' (proj1 (proj2 (proj2 Hc1))) Hfire) as [Hc2 Ht2].
    split; [exact (cascade_trans _ _ _ Hc1 Hc2)|].
    intros h' y Hin Ht. apply elem_of_cons in Hin as [->|Hin].
    + intros Hy. apply (Ht1 y Ht). apply (proj1 (proj2 Hc2)), Hy.
    + apply (Ht2 h' y Hin). rewrite (targetOf_heap _ _ _ (proj1 Hc1)). exact Ht.
Qed.

End Fire.

(** A removal cascades, and the removed object is gone afterwards. *)
Lemma removeFuel_cascade fuel : forall o c c',
  NoDup (objects c) -> removeFuel fuel o c = Some c' ->
  cascade c c' /\ o ∉ objects c'.
Proof.
  induction fuel as [|f IH]; intros o c c' Hnd Hrm; [discriminate|].
  rewrite removeFuel_unfold in Hrm.
  destruct (contains c o) eqn:Hcon.
  - apply contains_true in Hcon.
    assert (Hnd' : NoDup (objects (detached o c)))
      by (rewrite detached_objects; apply spliceOut_NoDup, Hnd).
    destruct (fireRemoved_cascade (removeFuel f) IH _ _ _ Hnd' Hrm)
      as [(Hh & Hsub & Hnd'' & Hclo) Htargets].
    assert (Ho : o ∉ objects c').
    { intros H. apply Hsub in H. rewrite detached_objects in H.
      apply spliceOut_elem_of in H; [|exact Hnd]. tauto. }
    split; [|exact Ho].
    split; [rewrite Hh; apply detached_heap|].
    split; [intros x Hx; apply Hsub in Hx; rewrite detached_objects in Hx;
            exact (spliceOut_subset _ _ _ Hx)|].
    split; [exact Hnd''|].
    intros x h y Hx Hx' Hin Ht.
    destruct (decide (x = o)) as [->|Hne].
    + apply (Htargets h y).
      * rewrite (listenersOf_heap _ _ _ (detached_heap o c)). exact Hin.
      * rewrite (targetOf_heap _ _ _ (detached_heap o c)). exact Ht.
    + apply (Hclo x h y).
      * rewrite detached_objects. apply spliceOut_elem_of; [exact Hnd|]. auto.
      * exact Hx'.
      * rewrite (listenersOf_heap _ _ _ (detached_heap o c)). exact Hin.
      * rewrite (targetOf_heap _ _ _ (detached_heap o c)). exact Ht.
  - injection Hrm as <-. split; [apply cascade_refl, Hnd|].
    apply contains_false, Hcon.
Qed.

(** With more fuel than there are objects the removal returns. *)
Lemma removeFuel_total fuel : forall o c,
  length (objects c) < fuel ->
  exists c', removeFuel fuel o c = Some c' /\
             length (objects c') <= length (objects c).
Proof.
  induction fuel as [|f IH]; intros o c Hlen; [lia|].
  rewrite removeFuel_unfold. destruct (contains c o) eqn:Hcon.
  - apply contains_true in Hcon.
    pose proof (spliceOut_length o (objects c) Hcon) as Hl.
    assert (Hfire : forall hs c1, length (objects c1) < f ->
              exists c', fireRemoved (removeFuel f) hs c1 = Some c' /\
                         length (objects c') <= length (objects c1)).
    { induction hs as [|h hs IHhs]; intros c1 Hc1; simpl; [eauto|].
      assert (Hrun : exists c2, runRemoved (removeFuel f) h c1 = Some c2 /\
                                length (objects c2) <= length (objects c1)).
      { assert (Hgo : forall y, exists c2,
                  (if contains c1 y then removeFuel f y c1 else Some c1) = Some c2 /\
                  length (objects c2) <= length (objects c1)).
        { intros y. destruct (contains c1 y); [apply IH, Hc1 | eauto]. }
        destruct h; simpl; [apply Hgo| |].
        - destruct (boundShapeOf textbox c1); [apply Hgo | eauto].
        - destruct (boundBubbleOf textbox c1); [apply Hgo | eauto]. }
      destruct Hrun as (c2 & -> & Hc2).
      destruct (IHhs c2) as (c3 & -> & Hc3); [lia|].
      exists c3. split; [reflexivity | lia]. }
    destruct (Hfire (onRemoved (listenersOf o (detached o c))) (detached o c))
      as (c' & -> & Hc'); [rewrite detached_objects; lia|].
    exists c'. split; [reflexivity|]. rewrite detached_objects in Hc'. lia.
  - eauto.
Qed.

(** [canvas.remove] always returns. *)
Lemma remove_total o c : exists c', remove o c = Some c'.
Proof.
  destruct (removeFuel_total (S (length (objects c))) o c) as (c' & H & _); [lia|].
  exists c'. exact H.
Qed.

Lemma remove_cascade o c c' :
  NoDup (objects c) -> remove o c = Some c' -> cascade c c' /\ o ∉ objects c'.
Proof. apply removeFuel_cascade. Qed.

Lemma boundPair_heap c c' container textbox :
  heap c' = heap c -> boundPair c container textbox -> boundPair c' container textbox.
Proof. intros H. unfold boundPair. rewrite H. auto. Qed.

(** Across a cascade a bound pair stays whole: both members on the canvas
    or neither. *)
Lemma cascade_keeps_pair_whole c c' container textbox :
  cascade c c' -> boundPair c container textbox ->
  (container ∈ objects c <-> textbox ∈ objects c) ->
  (container ∈ objects c' <-> textbox ∈ objects c').
Proof.
  intros (Hh & Hsub & Hnd & Hclo) (oc & ot & Hoc & Hot & _ & Hrt & Hback) Hiff.
  split; intros Hin.
  - destruct (decide (textbox ∈ objects c')) as [|Hout]; [assumption|exfalso].
    assert (Ht : textbox ∈ objects c) by (apply Hiff, Hsub, Hin).
    assert (Hl : listenersOf textbox c = listeners ot)
      by (unfold listenersOf; rewrite Hot; reflexivity).
    destruct Hback as [[Hb Hh'] | [Hb Hh']].
    + apply (Hclo textbox (removeBoundShape textbox) container Ht Hout);
        [rewrite Hl; exact Hh' | | exact Hin].
      simpl. unfold boundShapeOf. rewrite Hot. exact Hb.
    + apply (Hclo textbox (removeBoundBubble textbox) container Ht Hout);
        [rewrite Hl; exact Hh' | | exact Hin].
      simpl. unfold boundBubbleOf. rewrite Hot. exact Hb.
  - destruct (decide (container ∈ objects c')) as [|Hout]; [assumption|exfalso].
    assert (Hc : container ∈ objects c) by (apply Hiff, Hsub, Hin).
    apply (Hclo container (removeText textbox) textbox Hc Hout); [| reflexivity | exact Hin].
    unfold listenersOf. rewrite Hoc. exact Hrt.
Qed.

(** The members of an active selection removed one after the other. *)
Lemma removeAll_cascade members : forall c,
  NoDup (objects c) ->
  exists c', fold_left (fun r o => r ≫= remove o) members (Some c) = Some c' /\
             cascade c c'.
Proof.
  induction members as [|o members IH]; intros c Hnd; simpl.
  - exists c. split; [reflexivity | apply cascade_refl, Hnd].
  - destruct (remove_total o c) as (c1 & Hrm). rewrite Hrm.
    destruct (remove_cascade _ _ _ Hnd Hrm) as [Hc1 _].
    destruct (IH c1 (proj1 (proj2 (proj2 Hc1)))) as (c' & Hfold & Hc').
    exists c'. split; [exact Hfold | exact (cascade_trans _ _ _ Hc1 Hc')].
Qed.

Lemma deleteSelected_cascade c :
  NoDup (objects c) ->
  exists c', deleteSelected c = Some c' /\
    exists c0, cascade c c0 /\ objects c' = objects c0.
Proof.
  intros Hnd. unfold deleteSelected. destruct (activeObject c) as [[o|members]|].
  - destruct (remove_total o c) as (c0 & Hrm). rewrite Hrm.
    eexists. split; [reflexivity|]. exists c0.
    split; [apply (remove_cascade _ _ _ Hnd Hrm) | reflexivity].
  - destruct (removeAll_cascade members c Hnd) as (c0 & -> & Hc).
    eexists. split; [reflexivity|]. exists c0. split; [exact Hc | reflexivity].
  - exists c. split; [reflexivity|]. exists c. split; [apply cascade_refl, Hnd | reflexivity].
Qed.

(** C4: for a bound pair on the canvas, removing either member removes the
    other within the same call of [canvas.remove], and after any removal
    and after [deleteSelected] the canvas holds both members of the pair or
    neither. *)
Theorem cascade_delete_leaves_no_orphan c container textbox :
  NoDup (objects c) -> boundPair c container textbox ->
  container ∈ objects c -> textbox ∈ objects c ->
  (exists c', remove container c = Some c' /\
     (container ∉ objects c') /\ (textbox ∉ objects c')) /\
  (exists c', remove textbox c = Some c' /\
     (container ∉ objects c') /\ (textbox ∉ objects c')) /\
  (forall o, exists c', remove o c = Some c' /\
     (container ∈ objects c' <-> textbox ∈ objects c')) /\
  (exists c', deleteSelected c = Some c' /\
     (container ∈ objects c' <-> textbox ∈ objects c')).
Proof.
  intros Hnd Hpair Hc Ht.
  assert (Hiff : container ∈ objects c <-> textbox ∈ objects c) by tauto.
  assert (Hany : forall o, exists c', remove o c = Some c' /\ (o ∉ objects c') /\
            (container ∈ objects c' <-> textbox ∈ objects c')).
  { intros o. destruct (remove_total o c) as (c' & Hrm). exists c'.
    destruct (remove_cascade _ _ _ Hnd Hrm) as [Hcas Ho].
    split; [exact Hrm|]. split; [exact Ho|].
    exact (cascade_keeps_pair_whole _ _ _ _ Hcas Hpair Hiff). }
  split; [|split; [|split]].
  - destruct (Hany container) as (c' & Hrm & Ho & Hw). exists c'. tauto.
  - destruct (Hany textbox) as (c' & Hrm & Ho & Hw). exists c'. tauto.
  - intros o. destruct (Hany o) as (c' & Hrm & _ & Hw). eauto.
  - destruct (deleteSelected_cascade c Hnd) as (c' & Hdel & c0 & Hcas & Hobj).
    exists c'. split; [exact Hdel|]. rewrite Hobj.
    exact (cascade_keeps_pair_whole _ _ _ _ Hcas Hpair Hiff).
Qed.

Lemma runRemoved_targetOf rm h c :
  runRemoved rm h c =
    match targetOf c h with
    | Some y => if contains c y then rm y c else Some c
    | None => Some c
    end.
Proof. destruct h; reflexivity. Qed.

(** Two objects whose only ['removed'] handlers point at each other: the
    removal of one detaches it, then the other, and stops. *)
Lemma remove_two a b ha hb c :
  NoDup (objects c) -> a ∈ objects c -> b ∈ objects c -> a <> b ->
  onRemoved (listenersOf a c) = [ha] -> onRemoved (listenersOf b c) = [hb] ->
  targetOf c ha = Some b -> targetOf c hb = Some a ->
  remove a c = Some (detached b (detached a c)).
Proof.
  intros Hnd Ha Hb Hne Hla Hlb Hta Htb. unfold remove.
  assert (Hn : exists n, length (objects c) = S n).
  { destruct (objects c); [inversion Ha | simpl; eauto]. }
  destruct Hn as [n ->].
  rewrite removeFuel_unfold.
  rewrite (proj2 (contains_true c a) Ha).
  rewrite (listenersOf_heap _ _ _ (detached_heap a c)), Hla.
  cbn [fireRemoved]. rewrite runRemoved_targetOf.
  rewrite (targetOf_heap _ _ _ (detached_heap a c)), Hta.
  assert (Hb' : b ∈ objects (detached a c)).
  { rewrite detached_objects. apply spliceOut_elem_of; [exact Hnd|]. auto. }
  rewrite (proj2 (contains_true _ b) Hb').
  rewrite removeFuel_unfold.
  rewrite (proj2 (contains_true _ b) Hb').
  rewrite (listenersOf_heap _ (detached a c) _ (detached_heap b _)).
  rewrite (listenersOf_heap _ _ _ (detached_heap a c)), Hlb.
  cbn [fireRemoved]. rewrite runRemoved_targetOf.
  rewrite (targetOf_heap _ (detached a c) _ (detached_heap b _)).
  rewrite (targetOf_heap _ _ _ (detached_heap a c)), Htb.
  assert (Ha' : a ∉ objects (detached b (detached a c))).
  { rewrite !detached_objects. intros H.
    apply spliceOut_subset in H.
    apply spliceOut_elem_of in H; [|exact Hnd]. tauto. }
  rewrite (proj2 (contains_false _ a) Ha'). reflexivity.
Qed.

(** C10: the removal of one member of a bound pair runs the ['removed']
    handlers of both members and ends after exactly two removals, first
    the member asked for and then its partner, because the handler of the
    partner finds the first member gone; and [canvas.remove] returns on
    every canvas, whatever handlers are registered. *)
Theorem cascade_ends_after_two_removals c container textbox :
  NoDup (objects c) -> freshPair c container textbox ->
  container <> textbox ->
  container ∈ objects c -> textbox ∈ objects c ->
  (exists c', remove container c = Some c' /\
     removedLog c' = removedLog c ++ [container; textbox] /\
     length (objects c') + 2 = length (objects c) /\
     forall x, x ∈ objects c' <-> x ∈ objects c /\ x <> container /\ x <> textbox) /\
  (exists c', remove textbox c = Some c' /\
     removedLog c' = removedLog c ++ [textbox; container] /\
     length (objects c') + 2 = length (objects c) /\
     forall x, x ∈ objects c' <-> x ∈ objects c /\ x <> container /\ x <> textbox) /\
  (forall o c0, exists c', remove o c0 = Some c').
Proof.
  intros Hnd (oc & ot & Hoc & Hot & _ & Hlc & Hback) Hne Hc Ht.
  assert (Hlistc : onRemoved (listenersOf container c) = [removeText textbox])
    by (unfold listenersOf; rewrite Hoc; exact Hlc).
  assert (Hshape : forall a b,
            a ∈ objects c -> b ∈ objects c -> a <> b ->
            let c' := detached b (detached a c) in
            removedLog c' = removedLog c ++ [a; b] /\
            length (objects c') + 2 = length (objects c) /\
            forall x, x ∈ objects c' <-> x ∈ objects c /\ x <> a /\ x <> b).
  { intros a b Ha Hb Hab c'. subst c'. split; [|split].
    - rewrite !detached_removedLog, <- app_assoc. reflexivity.
    - rewrite !detached_objects.
      assert (Hb' : b ∈ spliceOut a (objects c))
        by (apply spliceOut_elem_of; [exact Hnd | auto]).
      pose proof (spliceOut_length a (objects c) Ha).
      pose proof (spliceOut_length b _ Hb'). lia.
    - intros x. rewrite !detached_objects.
      rewrite spliceOut_elem_of by (apply spliceOut_NoDup, Hnd).
      rewrite spliceOut_elem_of by exact Hnd. tauto. }
  assert (Hlt : exists hb, onRemoved (listenersOf textbox c) = [hb] /\
                           targetOf c hb = Some container).
  { destruct Hback as [[Hb Hl] | [Hb Hl]].
    - exists (removeBoundShape textbox). split.
      + unfold listenersOf. rewrite Hot. exact Hl.
      + simpl. unfold boundShapeOf. rewrite Hot. exact Hb.
    - exists (removeBoundBubble textbox). split.
      + unfold listenersOf. rewrite Hot. exact Hl.
      + simpl. unfold boundBubbleOf. rewrite Hot. exact Hb. }
  destruct Hlt as (hb & Hlistt & Htb).
  split; [|split].
  - exists (detached textbox (detached container c)). split.
    + apply (remove_two container textbox (removeText textbox) hb); auto.
    + apply Hshape; auto.
  - exists (detached container (detached textbox c)). split.
    + apply (remove_two textbox container hb (removeText textbox)); auto.
    + destruct (Hshape textbox container Ht Hc (not_eq_sym Hne)) as (H1 & H2 & H3).
      split; [exact H1|]. split; [exact H2|]. intros x. rewrite H3. tauto.
  - intros o c0. apply remove_total.
Qed.

(** *** The pairs the tools manager creates *)

Section Created.
Variable centerOf : Geometry -> Point.
Variable boundsOf : Geometry -> Q * Q.

Ltac decide_refs :=
  repeat first [ rewrite decide_True by reflexivity
               | rewrite decide_False by lia ].

(** The pair made by [createBoundTextForShape] is a bound pair with
    nothing else listening, when the shape had no ['removed'] listener
    before. *)
Lemma createBoundTextForShape_freshPair shape c s :
  heap c !! shape = Some s -> shape < nextId c ->
  onRemoved (listeners s) = [] ->
  freshPair (createBoundTextForShape centerOf boundsOf shape c) shape (nextId c).
Proof.
  intros Hs Hlt Hnone.
  rewrite (ToolsFacts.createBoundTextForShape_eq _ _ _ _ _ Hs).
  unfold bindShapeTextEvents, setupShapeTextEvents, updateTextPositionForShape.
  rewrite heap_alloc, lookup_insert_ne by lia. rewrite Hs.
  unfold freshPair.
  rewrite heap_setActiveObject, !update_lookup, heap_add, !update_lookup, heap_alloc.
  decide_refs. rewrite lookup_insert_eq, lookup_insert_ne by lia. rewrite Hs.
  eexists _, _. split; [reflexivity|]. split; [reflexivity|].
  split; [reflexivity|]. split; [simpl; rewrite Hnone; reflexivity|].
  left. split; reflexivity.
Qed.

(** Likewise for [createBoundTextForBubble]. *)
Lemma createBoundTextForBubble_freshPair bubble c b :
  heap c !! bubble = Some b -> bubble < nextId c ->
  onRemoved (listeners b) = [] ->
  freshPair (createBoundTextForBubble centerOf bubble c) bubble (nextId c).
Proof.
  intros Hs Hlt Hnone.
  rewrite (ToolsFacts.createBoundTextForBubble_eq _ _ _ _ Hs).
  unfold bindBubbleTextEvents, setupBubbleTextEvents, updateTextPositionForBubble.
  rewrite heap_alloc, lookup_insert_ne by lia. rewrite Hs.
  unfold freshPair.
  rewrite heap_setTimeout, heap_setActiveObject, !update_lookup, heap_add,
    !update_lookup, heap_alloc.
  decide_refs. rewrite lookup_insert_eq, lookup_insert_ne by lia. rewrite Hs.
  eexists _, _. split; [reflexivity|]. split; [reflexivity|].
  split; [reflexivity|]. split; [simpl; rewrite Hnone; reflexivity|].
  right. split; reflexivity.
Qed.

Lemma freshPair_boundPair c container textbox :
  freshPair c container textbox -> boundPair c container textbox.
Proof.
  intros (oc & ot & Hoc & Hot & Hbt & Hlc & Hback).
  exists oc, ot. split; [exact Hoc|]. split; [exact Hot|]. split; [exact Hbt|].
  split; [rewrite Hlc; apply list_elem_of_singleton; reflexivity|].
  destruct Hback as [[Hb Hl]|[Hb Hl]]; [left | right]; (split; [exact Hb|]);
    rewrite Hl; apply list_elem_of_singleton; reflexivity.
Qed.

End Created.

End CascadeFacts.

(** ** Rebuilding the pairs: the greedy nearest match *)

(** ** The order of binary64 numbers *)

Module Binary64Facts.
Import SpecFloat.

Lemma SFcompare_refl x : SFcompare x x = None \/ SFcompare x x = Some Eq.
Proof.
  destruct x as [s| [|] | | [|] m e]; cbn; auto;
    rewrite Z.compare_refl; change (Pos.compare_cont Eq m m) with (Pos.compare m m);
    rewrite Pos.compare_refl; auto.
Qed.

Lemma SFltb_irrefl x : SFltb x x = false.
Proof. unfold SFltb. destruct (SFcompare_refl x) as [-> | ->]; reflexivity. Qed.

(** Case analysis on the comparisons of exponents and mantissas. *)
Ltac order :=
  repeat match goal with
  | H : context [Z.compare ?a ?b] |- _ => destruct (Z.compare_spec a b)
  | H : context [Pos.compare_cont Eq ?a ?b] |- _ =>
      change (Pos.compare_cont Eq a b) with (Pos.compare a b) in H
  | H : context [Pos.compare ?a ?b] |- _ => destruct (Pos.compare_spec a b)
  | |- context [Z.compare ?a ?b] => destruct (Z.compare_spec a b)
  | |- context [Pos.compare_cont Eq ?a ?b] =>
      change (Pos.compare_cont Eq a b) with (Pos.compare a b)
  | |- context [Pos.compare ?a ?b] => destruct (Pos.compare_spec a b)
  end; cbn in *; try reflexivity; try discriminate; try lia.

Lemma SFltb_trans x y z : SFltb x y = true -> SFltb y z = true -> SFltb x z = true.
Proof.
  unfold SFltb.
  destruct x as [[|]| [|] | | [|] m1 e1]; destruct y as [[|]| [|] | | [|] m2 e2];
    destruct z as [[|]| [|] | | [|] m3 e3]; cbn; try discriminate; try reflexivity;
    intros H1 H2; order.
Qed.

Lemma SFleb_ltb_trans x y z :
  SFleb x y = true -> SFltb y z = true -> SFltb x z = true.
Proof.
  unfold SFltb, SFleb.
  destruct x as [[|]| [|] | | [|] m1 e1]; destruct y as [[|]| [|] | | [|] m2 e2];
    destruct z as [[|]| [|] | | [|] m3 e3]; cbn; try discriminate; try reflexivity;
    intros H1 H2; order.
Qed.

Lemma SFltb_leb x y : SFltb x y = true -> SFleb x y = true.
Proof.
  unfold SFltb, SFleb.
  destruct (SFcompare x y) as [[| |]|]; try discriminate; reflexivity.
Qed.

(** [<] on binary64 numbers is irreflexive and transitive, also along
    [<=]; a comparison with NaN is false. *)
Lemma ltb_irrefl x : PrimFloat.ltb x x = false.
Proof. rewrite FloatAxioms.ltb_spec. apply SFltb_irrefl. Qed.

Lemma ltb_trans x y z :
  PrimFloat.ltb x y = true -> PrimFloat.ltb y z = true -> PrimFloat.ltb x z = true.
Proof. rewrite !FloatAxioms.ltb_spec. apply SFltb_trans. Qed.

Lemma leb_ltb_trans x y z :
  PrimFloat.leb x y = true -> PrimFloat.ltb y z = true -> PrimFloat.ltb x z = true.
Proof.
  rewrite !FloatAxioms.ltb_spec, FloatAxioms.leb_spec. apply SFleb_ltb_trans.
Qed.

Lemma ltb_leb x y : PrimFloat.ltb x y = true -> PrimFloat.leb x y = true.
Proof. rewrite FloatAxioms.ltb_spec, FloatAxioms.leb_spec. apply SFltb_leb. Qed.

End Binary64Facts.

(** ** Relinking after a restore *)

Module RelinkFacts.
Import Scene Tools Restore SceneFacts ToolsFacts CascadeFacts Binary64Facts.

Section WithFabric.
Variable centerOf : Geometry -> Point.

(** The tests of the code pick the roles of the specification. *)
Lemma roleOf_container o :
  isBindableShape o = true <-> roleOf o = Some boundContainer.
Proof.
  unfold isBindableShape, roleOf. destruct (_shapeType o) as [tag|];
    [|split; discriminate].
  rewrite bool_decide_eq_true.
  destruct (String.eqb_spec tag "bubble") as [->|H1]; [split; [reflexivity|intros _; left]|].
  destruct (String.eqb_spec tag "rect") as [->|H2];
    [split; [reflexivity|intros _; right; left]|].
  destruct (String.eqb_spec tag "circle") as [->|H3];
    [split; [reflexivity|intros _; do 2 right; left]|].
  destruct (String.eqb_spec tag "triangle") as [->|H4];
    [split; [reflexivity|intros _; do 3 right; left]|].
  cbn [orb]. split.
  - intros H. apply list_elem_of_In in H. cbn [In] in H.
    destruct H as [H|[H|[H|[H|[]]]]]; congruence.
  - destruct (_ || _); discriminate.
Qed.

Lemma roleOf_text o : isShapeText o = true <-> roleOf o = Some boundText.
Proof.
  unfold isShapeText, roleOf. destruct (_shapeType o) as [tag|];
    [|split; discriminate].
  rewrite bool_decide_eq_true.
  destruct (String.eqb_spec tag "bubbleText") as [->|H1];
    [split; [reflexivity|intros _; left]|].
  destruct (String.eqb_spec tag "shapeText") as [->|H2];
    [split; [reflexivity|intros _; right; left]|].
  split.
  - intros H. apply list_elem_of_In in H. cbn [In] in H.
    destruct H as [H|[H|[]]]; congruence.
  - destruct (_ || _); [discriminate|]. cbn [orb]. discriminate.
Qed.

Lemma hasRole_container c id o :
  heap c !! id = Some o -> hasRole boundContainer c id = isBindableShape o.
Proof.
  intros E. unfold hasRole. rewrite E. cbn [mbind option_bind].
  destruct (isBindableShape o) eqn:Eb.
  - apply roleOf_container in Eb. rewrite Eb. reflexivity.
  - destruct (roleOf o) as [[|]|] eqn:Er; try reflexivity.
    apply roleOf_container in Er. congruence.
Qed.

Lemma hasRole_text c id o :
  heap c !! id = Some o -> hasRole boundText c id = isShapeText o.
Proof.
  intros E. unfold hasRole. rewrite E. cbn [mbind option_bind].
  destruct (isShapeText o) eqn:Eb.
  - apply roleOf_text in Eb. rewrite Eb. reflexivity.
  - destruct (roleOf o) as [[|]|] eqn:Er; try reflexivity.
    apply roleOf_text in Er. congruence.
Qed.

Lemma hasRole_dangling role c id : heap c !! id = None -> hasRole role c id = false.
Proof. intros E. unfold hasRole. rewrite E. reflexivity. Qed.

(** The distance the code computes is the Euclidean distance of the
    specification, evaluated in binary64. *)
Lemma distance_euclidean a b : distance a b = euclidean a b.
Proof. reflexivity. Qed.

Lemma bindable_not_text o : isBindableShape o = true -> isShapeText o = false.
Proof.
  unfold isBindableShape, isShapeText. destruct (_shapeType o) as [s|]; [|discriminate].
  intros H. apply bool_decide_eq_true in H. apply bool_decide_eq_false.
  intros H'. apply list_elem_of_In in H, H'. simpl in H, H'.
  repeat (destruct H as [<-|H]; [intuition discriminate|]). exact H.
Qed.

(** The first loop sorts the canvas into the containers and the bound
    texts, each in canvas order. *)
Lemma classify_roles c : classify c = (containers c, boundTexts c).
Proof.
  unfold classify, containers, boundTexts.
  assert (H : forall l a b,
            fold_left
              (fun acc id =>
                 match heap c !! id with
                 | Some obj =>
                     if isBindableShape obj then (acc.1 ++ [id], acc.2)
                     else if isShapeText obj then (acc.1, acc.2 ++ [id])
                     else acc
                 | None => acc
                 end) l (a, b) =
            (a ++ filter (fun id => hasRole boundContainer c id = true) l,
             b ++ filter (fun id => hasRole boundText c id = true) l)).
  { induction l as [|id l IH]; intros a b; simpl.
    - rewrite !app_nil_r. reflexivity.
    - rewrite !filter_cons.
      destruct (heap c !! id) as [obj|] eqn:E.
      + assert (Hb : hasRole boundContainer c id = isBindableShape obj)
          by (apply hasRole_container, E).
        assert (Ht : hasRole boundText c id = isShapeText obj)
          by (apply hasRole_text, E).
        rewrite Hb, Ht.
        destruct (isBindableShape obj) eqn:Eb.
        * rewrite (bindable_not_text _ Eb). rewrite IH. simpl.
          rewrite <- app_assoc. reflexivity.
        * destruct (isShapeText obj) eqn:Et; rewrite IH; simpl;
            rewrite <- ?app_assoc; reflexivity.
      + assert (Hb : hasRole boundContainer c id = false)
          by (apply hasRole_dangling, E).
        assert (Ht : hasRole boundText c id = false)
          by (apply hasRole_dangling, E).
        rewrite Hb, Ht, IH. reflexivity. }
  rewrite H. reflexivity.
Qed.

(** *** The inner loop *)

(** A text the inner loop does not skip: live and not yet claimed. *)
Definition available (c : Canvas) (t : ObjId) : bool :=
  match heap c !! t with
  | Some obj => negb (isClaimed obj)
  | None => false
  end.

(** [(closestText, minDistance)] after the texts [seen]: either no
    available text was below [Infinity], or [closestText] is the first of
    the available texts of least distance: those before it are not at its
    distance or below, those after it are not below. *)
Definition bestSoFar (c : Canvas) (ctr : Point) (seen : list ObjId)
    (acc : option ObjId * PrimFloat.float) : Prop :=
  let d t := distance ctr (centerOfRef centerOf c t) in
  match acc.1 with
  | None =>
      acc.2 = PrimFloat.infinity /\
      forall t, t ∈ seen -> available c t = true ->
        PrimFloat.ltb (d t) PrimFloat.infinity = false
  | Some b =>
      available c b = true /\ acc.2 = d b /\
      PrimFloat.ltb (d b) PrimFloat.infinity = true /\
      exists before after, seen = before ++ b :: after /\
        (forall t, t ∈ before -> available c t = true ->
           PrimFloat.leb (d t) (d b) = false) /\
        (forall t, t ∈ after -> available c t = true ->
           PrimFloat.ltb (d t) (d b) = false)
  end.

Lemma Qltb_ge a b : Num.Qltb a b = false -> (b <= a)%Q.
Proof.
  unfold Num.Qltb. rewrite negb_false_iff. apply Qle_bool_iff.
Qed.

Lemma not_leb_below x y z :
  PrimFloat.ltb y z = true -> PrimFloat.ltb x z = false ->
  PrimFloat.leb x y = false.
Proof.
  intros Hyz Hxz. destruct (PrimFloat.leb x y) eqn:E; [|reflexivity].
  rewrite (leb_ltb_trans x y z E Hyz) in Hxz. discriminate.
Qed.

Lemma scanText_step c ctr seen acc t :
  bestSoFar c ctr seen acc ->
  bestSoFar c ctr (seen ++ [t]) (scanText centerOf c ctr acc t).
Proof.
  intros Hacc. unfold scanText.
  assert (Hskip : forall dt,
            (available c t = true ->
             dt = distance ctr (centerOfRef centerOf c t) /\
             PrimFloat.ltb dt acc.2 = false) ->
            bestSoFar c ctr (seen ++ [t]) acc).
  { intros dt Hno. unfold bestSoFar in *. destruct acc as [[b|] m]; cbn [fst snd] in *.
    - destruct Hacc as (Hab & Hm & Hfin & before & after & Hsplit & Hbefore & Hafter).
      split; [exact Hab|]. split; [exact Hm|]. split; [exact Hfin|].
      exists before, (after ++ [t]). split; [rewrite Hsplit, <- app_assoc; reflexivity|].
      split; [exact Hbefore|].
      intros t' Ht' Hav'. apply elem_of_app in Ht' as [Ht'|Ht']; [auto|].
      apply list_elem_of_singleton in Ht'. subst t'.
      destruct (Hno Hav') as (-> & Hlt). rewrite <- Hm. exact Hlt.
    - destruct Hacc as (Hm & Hall). split; [exact Hm|].
      intros t' Ht' Hav'. apply elem_of_app in Ht' as [Ht'|Ht']; [auto|].
      apply list_elem_of_singleton in Ht'. subst t'.
      destruct (Hno Hav') as (-> & Hlt). rewrite <- Hm. exact Hlt. }
  destruct (heap c !! t) as [obj|] eqn:Eo;
    [|apply (Hskip PrimFloat.infinity); unfold available; rewrite Eo; discriminate].
  destruct (isClaimed obj) eqn:Ec;
    [apply (Hskip PrimFloat.infinity); unfold available; rewrite Eo, Ec; discriminate|].
  assert (Hav : available c t = true)
    by (unfold available; rewrite Eo, Ec; reflexivity).
  assert (Hctr : getCenterPoint centerOf obj = centerOfRef centerOf c t)
    by (unfold centerOfRef; rewrite Eo; reflexivity).
  rewrite Hctr. cbv zeta. unfold closer.
  set (dt := distance ctr (centerOfRef centerOf c t)).
  destruct (PrimFloat.ltb dt acc.2) eqn:E;
    [|apply (Hskip dt); intros _; split; [reflexivity | exact E]].
  unfold bestSoFar in *. destruct acc as [[b|] m]; cbn [fst snd] in *.
  - destruct Hacc as (Hab & Hm & Hfin & before & after & Hsplit & Hbefore & Hafter).
    subst m. fold dt.
    split; [exact Hav|]. split; [reflexivity|].
    split; [exact (ltb_trans _ _ _ E Hfin)|].
    exists seen, []. split; [reflexivity|]. split; [|intros t' Ht'; inversion Ht'].
    intros t' Ht' Hav'. apply (not_leb_below _ _ _ E).
    rewrite Hsplit in Ht'. apply elem_of_app in Ht' as [Ht'|Ht'].
    + destruct (PrimFloat.ltb (distance ctr (centerOfRef centerOf c t')) _) eqn:E';
        [|reflexivity].
      apply ltb_leb in E'. rewrite (Hbefore t' Ht' Hav') in E'. discriminate.
    + apply elem_of_cons in Ht' as [-> | Ht']; [apply ltb_irrefl | auto].
  - destruct Hacc as (Hm & Hall). subst m. fold dt.
    split; [exact Hav|]. split; [reflexivity|]. split; [exact E|].
    exists seen, []. split; [reflexivity|]. split; [|intros t' Ht'; inversion Ht'].
    intros t' Ht' Hav'. apply (not_leb_below _ _ _ E). auto.
Qed.

Lemma scanText_fold c ctr texts : forall seen acc,
  bestSoFar c ctr seen acc ->
  bestSoFar c ctr (seen ++ texts) (fold_left (scanText centerOf c ctr) texts acc).
Proof.
  induction texts as [|t texts IH]; intros seen acc Hacc; simpl.
  - rewrite app_nil_r. exact Hacc.
  - replace (seen ++ t :: texts) with ((seen ++ [t]) ++ texts)
      by (rewrite <- app_assoc; reflexivity).
    apply IH, scanText_step, Hacc.
Qed.

(** The inner loop finds the first of the available texts whose distance
    is least, and finds none only when no available text is below
    [Infinity]. *)
Lemma closestText_spec c texts ctr :
  let d t := distance ctr (centerOfRef centerOf c t) in
  match closestText centerOf c texts ctr with
  | Some b =>
      available c b = true /\
      PrimFloat.ltb (d b) PrimFloat.infinity = true /\
      exists before after, texts = before ++ b :: after /\
        (forall t, t ∈ before -> available c t = true ->
           PrimFloat.leb (d t) (d b) = false) /\
        (forall t, t ∈ after -> available c t = true ->
           PrimFloat.ltb (d t) (d b) = false)
  | None =>
      forall t, t ∈ texts -> available c t = true ->
        PrimFloat.ltb (d t) PrimFloat.infinity = false
  end.
Proof.
  intros d. unfold closestText.
  assert (H0 : bestSoFar c ctr [] (None, PrimFloat.infinity)).
  { split; [reflexivity|]. intros t Ht. inversion Ht. }
  pose proof (scanText_fold c ctr texts [] (None, PrimFloat.infinity) H0) as H.
  cbn [app] in H. unfold bestSoFar in H.
  destruct (fold_left (scanText centerOf c ctr) texts (None, PrimFloat.infinity))
    as [[b|] m]; cbn [fst snd] in *.
  - destruct H as (Hav & _ & Hfin & Hrest). auto.
  - apply H.
Qed.

(** *** One round of the outer loop *)

Definition linksOf (c : Canvas) (id : ObjId) : option Links :=
  links <$> heap c !! id.

(** The role tag and the geometry behind a reference: what a snapshot
    carries and the relink reads. *)
Definition roleGeomOf (c : Canvas) (id : ObjId)
  : option (option string * Geometry) :=
  (fun o => (_shapeType o, geom o)) <$> heap c !! id.

Definition containerIn (l : Links) : option ObjId :=
  match _boundBubble l with
  | Some b => Some b
  | None => _boundShape l
  end.

Lemma boundTextOf_links c id : boundTextOf c id = linksOf c id ≫= _boundText.
Proof. unfold boundTextOf, linksOf. destruct (heap c !! id); reflexivity. Qed.

Lemma boundContainerOf_links c id :
  boundContainerOf c id = linksOf c id ≫= containerIn.
Proof. unfold boundContainerOf, linksOf. destruct (heap c !! id); reflexivity. Qed.

Lemma available_links c t :
  available c t = true <->
  exists l, linksOf c t = Some l /\ containerIn l = None.
Proof.
  unfold available, linksOf, isClaimed.
  destruct (heap c !! t) as [o|]; simpl.
  - unfold containerIn.
    destruct (_boundBubble (links o)) as [b|] eqn:Eb;
      destruct (_boundShape (links o)) as [s|] eqn:Es; simpl; split;
      first [ discriminate
            | intros _; exists (links o); rewrite Eb, ?Es; split; reflexivity
            | intros (l & Hl & Hc); injection Hl as <-;
              rewrite Eb, ?Es in Hc; first [discriminate Hc | reflexivity] ].
  - split; [discriminate | intros (l & H & _); discriminate].
Qed.

Lemma centerOfRef_roleGeom c c' id :
  roleGeomOf c' id = roleGeomOf c id ->
  centerOfRef centerOf c' id = centerOfRef centerOf c id.
Proof.
  unfold roleGeomOf, centerOfRef, getCenterPoint.
  destruct (heap c' !! id), (heap c !! id); simpl; intros [= _ ->] || discriminate || reflexivity.
  reflexivity.
Qed.

(** The text a round binds. *)
Definition claim (bubble : bool) (shape : ObjId) (l : Links) : Links :=
  if bubble then mkLinks (_boundText l) (_boundShape l) (Some shape)
  else mkLinks (_boundText l) (Some shape) (_boundBubble l).

Lemma bindClosest_eq texts c s so t :
  heap c !! s = Some so ->
  closestText centerOf c texts (getCenterPoint centerOf so) = Some t ->
  bindClosest centerOf texts c s =
    if bool_decide (_shapeType so = Some "bubble") then
      setupBubbleTextEvents t
        (bindBubbleTextEvents s t
           (update t (setBoundBubble (Some s))
              (update s (setBoundText (Some t)) (update t lockText c))))
    else
      setupShapeTextEvents t
        (bindShapeTextEvents s t
           (update t (setBoundShape (Some s))
              (update s (setBoundText (Some t)) (update t lockText c)))).
Proof. intros Hs Hc. unfold bindClosest. rewrite Hs, Hc. reflexivity. Qed.

Lemma bindClosest_none texts c s so :
  heap c !! s = Some so ->
  closestText centerOf c texts (getCenterPoint centerOf so) = None ->
  bindClosest centerOf texts c s = c.
Proof. intros Hs Hc. unfold bindClosest. rewrite Hs, Hc. reflexivity. Qed.

Lemma bindClosest_effect texts c s so t ot :
  heap c !! s = Some so -> heap c !! t = Some ot -> s <> t ->
  closestText centerOf c texts (getCenterPoint centerOf so) = Some t ->
  let c' := bindClosest centerOf texts c s in
  objects c' = objects c /\
  (forall id, roleGeomOf c' id = roleGeomOf c id) /\
  (forall id, linksOf c' id =
     if decide (id = t)
     then Some (claim (bool_decide (_shapeType so = Some "bubble")) s (links ot))
     else if decide (id = s)
          then Some (mkLinks (Some t) (_boundShape (links so)) (_boundBubble (links so)))
          else linksOf c id).
Proof.
  intros Hs Ht Hne Hc c'. subst c'. rewrite (bindClosest_eq _ _ _ _ _ Hs Hc).
  unfold setupBubbleTextEvents, bindBubbleTextEvents,
    setupShapeTextEvents, bindShapeTextEvents, claim.
  destruct (bool_decide (_shapeType so = Some "bubble")).
  - split; [rewrite !update_objects; reflexivity|]. split.
    + intros id. unfold roleGeomOf.
      rewrite !(update_keeps _ (fun o => (_shapeType o, geom o))) by reflexivity.
      reflexivity.
    + intros id. unfold linksOf.
      rewrite !(update_keeps _ links) by reflexivity.
      rewrite !update_lookup.
      destruct (decide (id = t)) as [->|Hnt].
      * rewrite decide_True by reflexivity. rewrite decide_False by exact Hne.
        rewrite decide_True by reflexivity. rewrite Ht. reflexivity.
      * rewrite decide_False by congruence.
        destruct (decide (id = s)) as [->|Hns].
        -- rewrite decide_True by reflexivity. rewrite decide_False by congruence.
           rewrite Hs. reflexivity.
        -- rewrite !decide_False by congruence. reflexivity.
  - split; [rewrite !update_objects; reflexivity|]. split.
    + intros id. unfold roleGeomOf.
      rewrite !(update_keeps _ (fun o => (_shapeType o, geom o))) by reflexivity.
      reflexivity.
    + intros id. unfold linksOf.
      rewrite !(update_keeps _ links) by reflexivity.
      rewrite !update_lookup.
      destruct (decide (id = t)) as [->|Hnt].
      * rewrite decide_True by reflexivity. rewrite decide_False by exact Hne.
        rewrite decide_True by reflexivity. rewrite Ht. reflexivity.
      * rewrite decide_False by congruence.
        destruct (decide (id = s)) as [->|Hns].
        -- rewrite decide_True by reflexivity. rewrite decide_False by congruence.
           rewrite Hs. reflexivity.
        -- rewrite !decide_False by congruence. reflexivity.
Qed.

(** The two objects of the round, afterwards. *)
Definition containerAfter (bubble : bool) (s t : ObjId) (so : Obj) : Obj :=
  on (addRemoved (removeText t))
     (on (addTransform (if bubble then syncBubbleText s t else syncShapeText s t))
         (setBoundText (Some t) so)).
Definition textAfter (bubble : bool) (s t : ObjId) (ot : Obj) : Obj :=
  if bubble then
    on (addRemoved (removeBoundBubble t))
       (on (addExited (bubbleTextExited t))
           (on (addEntered (bubbleTextEntered t))
               (setBoundBubble (Some s) (lockText ot))))
  else
    on (addRemoved (removeBoundShape t))
       (on (addExited (shapeTextExited t))
           (setBoundShape (Some s) (lockText ot))).

Lemma bindClosest_heap texts c s so t ot :
  heap c !! s = Some so -> heap c !! t = Some ot -> s <> t ->
  closestText centerOf c texts (getCenterPoint centerOf so) = Some t ->
  forall id,
    heap (bindClosest centerOf texts c s) !! id =
      if decide (id = t)
      then Some (textAfter (bool_decide (_shapeType so = Some "bubble")) s t ot)
      else if decide (id = s)
           then Some (containerAfter (bool_decide (_shapeType so = Some "bubble")) s t so)
           else heap c !! id.
Proof.
  intros Hs Ht Hne Hc id. rewrite (bindClosest_eq _ _ _ _ _ Hs Hc).
  unfold setupBubbleTextEvents, bindBubbleTextEvents,
    setupShapeTextEvents, bindShapeTextEvents, textAfter, containerAfter.
  destruct (bool_decide (_shapeType so = Some "bubble"));
    rewrite !update_lookup;
    (destruct (decide (id = t)) as [->|Hnt];
     [|destruct (decide (id = s)) as [->|Hns]]);
    repeat first [ rewrite decide_True by reflexivity
                 | rewrite decide_False by congruence ];
    rewrite ?Hs, ?Ht; reflexivity.
Qed.

(** *** The outer loop *)

(** Text [t] is claimed by one of the containers [p] in state [c]. *)
Definition taken (c : Canvas) (p : list ObjId) (t : ObjId) : Prop :=
  exists s, s ∈ p /\ boundTextOf c s = Some t.

(** In state [c], container [s] holds the first of the [texts] of least
    distance among those that the containers [p] before it left unclaimed,
    measured on the loaded canvas [c0], and that text points back at [s];
    it holds none only when every text was claimed by [p] or is not below
    [Infinity]. *)
Definition matched (c0 : Canvas) (texts : list ObjId) (c : Canvas)
    (p : list ObjId) (s : ObjId) : Prop :=
  let d t := distanceBetween centerOf c0 s t in
  match boundTextOf c s with
  | Some t =>
      ~ taken c p t /\ boundContainerOf c t = Some s /\
      PrimFloat.ltb (d t) PrimFloat.infinity = true /\
      exists before after, texts = before ++ t :: after /\
        (forall t', t' ∈ before -> ~ taken c p t' ->
           PrimFloat.leb (d t') (d t) = false) /\
        (forall t', t' ∈ after -> ~ taken c p t' ->
           PrimFloat.ltb (d t') (d t) = false)
  | None =>
      forall t', t' ∈ texts ->
        taken c p t' \/ PrimFloat.ltb (d t') PrimFloat.infinity = false
  end.

Section Loop.
Variable c0 : Canvas.
Hypothesis loaded : freshlyLoaded c0.

(** The state of the outer loop after the containers [pre]. *)
Record Inv (pre : list ObjId) (c : Canvas) : Prop := mkInv {
  inv_objects : objects c = objects c0;
  inv_roles : forall id, roleGeomOf c id = roleGeomOf c0 id;
  inv_claimed : forall t, t ∈ boundTexts c0 ->
    (boundContainerOf c t <> None <-> taken c pre t);
  inv_matched : forall p1 s p2, pre = p1 ++ s :: p2 ->
    matched c0 (boundTexts c0) c p1 s;
  inv_pending : forall s, s ∈ objects c0 -> s ∉ pre -> boundTextOf c s = None;
  inv_unclaimed : forall id, id ∈ objects c0 -> id ∉ boundTexts c0 ->
    boundContainerOf c id = None;
  inv_fresh : forall s t, s ∈ pre -> boundTextOf c s = Some t -> freshPair c s t;
  inv_quiet : forall id o, id ∈ objects c0 -> id ∉ pre ->
    heap c !! id = Some o -> containerIn (links o) = None ->
    onRemoved (listeners o) = []
}.

Lemma text_is_live t :
  t ∈ boundTexts c0 ->
  t ∈ objects c0 /\ exists o, heap c0 !! t = Some o /\ isShapeText o = true.
Proof.
  intros H. apply list_elem_of_filter in H as [Hrole Hin]. split; [exact Hin|].
  destruct (heap c0 !! t) as [o|] eqn:E;
    [|rewrite (hasRole_dangling _ _ _ E) in Hrole; discriminate].
  rewrite (hasRole_text _ _ _ E) in Hrole. eauto.
Qed.

Lemma container_is_live s :
  s ∈ containers c0 ->
  s ∈ objects c0 /\ exists o, heap c0 !! s = Some o /\ isBindableShape o = true.
Proof.
  intros H. apply list_elem_of_filter in H as [Hrole Hin]. split; [exact Hin|].
  destruct (heap c0 !! s) as [o|] eqn:E;
    [|rewrite (hasRole_dangling _ _ _ E) in Hrole; discriminate].
  rewrite (hasRole_container _ _ _ E) in Hrole. eauto.
Qed.

Lemma container_not_text s : s ∈ containers c0 -> s ∉ boundTexts c0.
Proof.
  intros Hs Ht.
  destruct (container_is_live s Hs) as (_ & o & Ho & Hb).
  destruct (text_is_live s Ht) as (_ & o' & Ho' & Ht').
  rewrite Ho in Ho'. injection Ho' as <-.
  rewrite (bindable_not_text _ Hb) in Ht'. discriminate.
Qed.

Lemma containers_NoDup : NoDup (containers c0).
Proof. apply NoDup_filter, loaded. Qed.

Lemma live_in c id :
  (forall id, roleGeomOf c id = roleGeomOf c0 id) ->
  is_Some (heap c0 !! id) -> is_Some (heap c !! id).
Proof.
  intros Hr [o Ho]. specialize (Hr id). unfold roleGeomOf in Hr.
  rewrite Ho in Hr. destruct (heap c !! id); [eauto | discriminate].
Qed.

Lemma Inv_start : Inv [] c0.
Proof.
  destruct loaded as [Hnd Hfresh].
  assert (Hnone : forall id, id ∈ objects c0 -> linksOf c0 id = Some noLinks).
  { intros id Hid. destruct (Hfresh id Hid) as (o & Ho & Hl & _).
    unfold linksOf. rewrite Ho. simpl. rewrite Hl. reflexivity. }
  split.
  - reflexivity.
  - reflexivity.
  - intros t Ht. destruct (text_is_live t Ht) as (Hin & _).
    rewrite boundContainerOf_links, (Hnone t Hin). split.
    + intros H. exfalso. apply H. reflexivity.
    + intros (s & Hs & _). inversion Hs.
  - intros p1 s p2 H. destruct p1; discriminate.
  - intros s Hs _. rewrite boundTextOf_links, (Hnone s Hs). reflexivity.
  - intros id Hid _. rewrite boundContainerOf_links, (Hnone id Hid). reflexivity.
  - intros s t Hs. inversion Hs.
  - intros id o Hid _ Ho _. destruct (Hfresh id Hid) as (o' & Ho' & _ & Hq).
    rewrite Ho in Ho'. injection Ho' as <-. exact Hq.
Qed.

Lemma taken_agree c c' p t :
  (forall s, s ∈ p -> boundTextOf c' s = boundTextOf c s) ->
  taken c' p t <-> taken c p t.
Proof.
  intros H. unfold taken. split; intros (s & Hs & Hb); exists s;
    (split; [exact Hs|]); [rewrite <- H | rewrite H]; assumption.
Qed.

Lemma taken_snoc c p s t :
  taken c (p ++ [s]) t <-> taken c p t \/ boundTextOf c s = Some t.
Proof.
  unfold taken. split.
  - intros (s' & Hs' & Hb). apply elem_of_app in Hs' as [Hs'|Hs'].
    + left. eauto.
    + apply list_elem_of_singleton in Hs'. subst s'. right. exact Hb.
  - intros [(s' & Hs' & Hb) | Hb].
    + exists s'. split; [apply elem_of_app; auto | exact Hb].
    + exists s. split; [apply elem_of_app; right; apply list_elem_of_singleton; reflexivity
                       | exact Hb].
Qed.

(** One round keeps the invariant. *)
Lemma Inv_step pre c s :
  Inv pre c -> s ∈ containers c0 -> s ∉ pre ->
  (forall x, x ∈ pre -> x ∈ containers c0) ->
  Inv (pre ++ [s]) (bindClosest centerOf (boundTexts c0) c s).
Proof.
  intros [Hobj Hroles Hclaimed Hmatched Hpending Hunclaimed Hpairs Hquiet]
    Hs Hfresh Hpre.
  destruct (container_is_live s Hs) as (Hsin & o0 & Ho0 & _).
  destruct (live_in c s Hroles (ex_intro _ o0 Ho0)) as [so Hso].
  assert (Hctr : getCenterPoint centerOf so = centerOfRef centerOf c0 s).
  { rewrite <- (centerOfRef_roleGeom c0 c s (Hroles s)).
    unfold centerOfRef. rewrite Hso. reflexivity. }
  assert (Hdist : forall t,
            distance (getCenterPoint centerOf so) (centerOfRef centerOf c t)
            = distanceBetween centerOf c0 s t).
  { intros t. unfold distanceBetween.
    rewrite Hctr, (centerOfRef_roleGeom c0 c t (Hroles t)).
    apply distance_euclidean. }
  assert (Hsnone : boundTextOf c s = None) by (apply Hpending; assumption).
  assert (Havail : forall t, t ∈ boundTexts c0 ->
            (available c t = true <-> boundContainerOf c t = None)).
  { intros t Ht. rewrite available_links, boundContainerOf_links.
    destruct (text_is_live t Ht) as (_ & o & Ho & _).
    destruct (live_in c t Hroles (ex_intro _ o Ho)) as [o' Ho'].
    unfold linksOf. rewrite Ho'. simpl. split.
    - intros (l & [= <-] & H). exact H.
    - intros H. eauto. }
  pose proof (closestText_spec c (boundTexts c0) (getCenterPoint centerOf so)) as Hspec.
  destruct (closestText centerOf c (boundTexts c0) (getCenterPoint centerOf so))
    as [t|] eqn:Hclosest.
  - (* a text is bound *)
    cbv zeta in Hspec.
    destruct Hspec as (Hav & Hfin & before & after & Htexts & Hbefore & Hafter).
    assert (Ht : t ∈ boundTexts c0)
      by (rewrite Htexts; apply elem_of_app; right; left).
    assert (Hne : s <> t) by (intros ->; exact (container_not_text _ Hs Ht)).
    destruct (text_is_live t Ht) as (_ & ot0 & Hot0 & _).
    destruct (live_in c t Hroles (ex_intro _ ot0 Hot0)) as [ot Hot].
    destruct (bindClosest_effect _ _ _ _ _ _ Hso Hot Hne Hclosest)
      as (Hobj' & Hroles' & Hlinks').
    set (c' := bindClosest centerOf (boundTexts c0) c s) in *.
    assert (Hbt_s : boundTextOf c' s = Some t).
    { rewrite boundTextOf_links, Hlinks'.
      rewrite decide_False by exact Hne. rewrite decide_True by reflexivity.
      reflexivity. }
    assert (Hbt_other : forall id, id <> s -> boundTextOf c' id = boundTextOf c id).
    { intros id Hid. rewrite !boundTextOf_links, Hlinks'.
      destruct (decide (id = t)) as [->|Hnt].
      - unfold linksOf. rewrite Hot. simpl. unfold claim.
        destruct (bool_decide _); reflexivity.
      - rewrite decide_False by exact Hid. reflexivity. }
    assert (Hbc_t : boundContainerOf c' t = Some s).
    { rewrite boundContainerOf_links, Hlinks'. rewrite decide_True by reflexivity.
      simpl. unfold claim, containerIn.
      apply Havail in Hav; [|exact Ht].
      rewrite boundContainerOf_links in Hav. unfold linksOf in Hav.
      rewrite Hot in Hav. simpl in Hav. unfold containerIn in Hav.
      destruct (bool_decide _); simpl; [reflexivity|].
      destruct (_boundBubble (links ot)); [discriminate Hav | reflexivity]. }
    assert (Hbc_other : forall id, id <> t ->
              boundContainerOf c' id = boundContainerOf c id).
    { intros id Hid. rewrite !boundContainerOf_links, Hlinks'.
      rewrite decide_False by exact Hid.
      destruct (decide (id = s)) as [->|Hns]; [|reflexivity].
      unfold linksOf. rewrite Hso. reflexivity. }
    assert (Hpre_agree : forall s', s' ∈ pre -> boundTextOf c' s' = boundTextOf c s').
    { intros s' Hs'. apply Hbt_other. intros ->. exact (Hfresh Hs'). }
    split.
    + rewrite Hobj'. exact Hobj.
    + intros id. rewrite Hroles'. apply Hroles.
    + intros t' Ht'. rewrite taken_snoc, Hbt_s, (taken_agree c c' pre t' Hpre_agree).
      destruct (decide (t' = t)) as [->|Hnt].
      * rewrite Hbc_t. split; [auto | congruence].
      * rewrite (Hbc_other t' Hnt), (Hclaimed t' Ht'). split; [auto|].
        intros [H|[= H]]; [exact H | congruence].
    + intros p1 x p2 Hsplit.
      destruct p2 as [|y p2 _] using rev_ind.
      * (* the container of this round *)
        apply app_inj_tail in Hsplit as [-> ->].
        unfold matched. rewrite Hbt_s.
        assert (Hnot : forall t', t' ∈ boundTexts c0 ->
                  (~ taken c' p1 t' <-> boundContainerOf c t' = None)).
        { intros t' Ht'. rewrite (taken_agree c c' p1 t' Hpre_agree).
          rewrite <- (Hclaimed t' Ht').
          destruct (boundContainerOf c t') as [k|]; split.
          - intros H. exfalso. apply H. discriminate.
          - discriminate.
          - reflexivity.
          - intros _ H. apply H. reflexivity. }
        cbv zeta.
        split; [apply Hnot; [exact Ht | apply Havail; assumption]|].
        split; [exact Hbc_t|].
        split; [rewrite <- Hdist; exact Hfin|].
        exists before, after. split; [exact Htexts|].
        assert (Hfree_av : forall t', t' ∈ boundTexts c0 -> ~ taken c' p1 t' ->
                  available c t' = true).
        { intros t' Ht' Hfree. apply Havail; [exact Ht'|]. apply Hnot; assumption. }
        split; intros t' Ht' Hfree; rewrite <- !Hdist;
          [apply Hbefore | apply Hafter]; try exact Ht';
          apply Hfree_av; try exact Hfree; rewrite Htexts; apply elem_of_app;
          [left; exact Ht' | right; right; exact Ht'].
      * (* an earlier container *)
        rewrite app_comm_cons, app_assoc in Hsplit.
        apply app_inj_tail in Hsplit as [-> ->].
        assert (Hx : x ∈ p1 ++ x :: p2) by (apply elem_of_app; right; left).
        assert (Hp1 : forall s', s' ∈ p1 -> boundTextOf c' s' = boundTextOf c s').
        { intros s' Hs'. apply Hpre_agree. apply elem_of_app. auto. }
        specialize (Hmatched p1 x p2 eq_refl). unfold matched in *.
        rewrite (Hpre_agree x Hx).
        destruct (boundTextOf c x) as [tx|] eqn:Hbx.
        -- cbv zeta in Hmatched |- *.
           destruct Hmatched as (Hntx & Hbcx & Hfinx & bx & ax & Hsx & Hbx' & Hax').
           split; [rewrite (taken_agree c c' p1 tx Hp1); exact Hntx|].
           split.
           { rewrite Hbc_other; [exact Hbcx|]. intros ->.
             apply Havail in Hav; [|exact Ht]. congruence. }
           split; [exact Hfinx|].
           exists bx, ax. split; [exact Hsx|].
           split; intros t' Ht' Hfree; [apply Hbx' | apply Hax']; try exact Ht';
             rewrite <- (taken_agree c c' p1 t' Hp1); exact Hfree.
        -- cbv zeta in Hmatched |- *. intros t' Ht'.
           rewrite (taken_agree c c' p1 t' Hp1). auto.
    + intros x Hx Hnx. rewrite Hbt_other.
      * apply Hpending; [exact Hx|]. intros H. apply Hnx, elem_of_app. auto.
      * intros ->. apply Hnx, elem_of_app. right. apply list_elem_of_singleton. reflexivity.
    + intros id Hid Hnt. rewrite Hbc_other; [apply Hunclaimed; assumption|].
      intros ->. exact (Hnt Ht).
    + (* the pairs bound so far *)
      pose proof (bindClosest_heap _ _ _ _ _ _ Hso Hot Hne Hclosest) as Hheap.
      fold c' in Hheap.
      assert (Hfree_t : containerIn (links ot) = None).
      { apply Havail in Hav; [|exact Ht].
        rewrite boundContainerOf_links in Hav. unfold linksOf in Hav.
        rewrite Hot in Hav. exact Hav. }
      assert (Hfree_s : containerIn (links so) = None).
      { pose proof (Hunclaimed s Hsin (container_not_text _ Hs)) as H.
        rewrite boundContainerOf_links in H. unfold linksOf in H.
        rewrite Hso in H. exact H. }
      intros x tx Hx Hbx. apply elem_of_app in Hx as [Hx|Hx].
      * assert (Hxs : x <> s) by (intros ->; exact (Hfresh Hx)).
        rewrite (Hbt_other x Hxs) in Hbx.
        destruct (Hpairs x tx Hx Hbx) as (ox & otx & Hox & Hotx & Hb & Hl & Hback).
        assert (Hxt : x <> t)
          by (intros ->; exact (container_not_text _ (Hpre _ Hx) Ht)).
        assert (Htxt : tx <> t).
        { intros ->. rewrite Hot in Hotx. injection Hotx as <-.
          unfold containerIn in Hfree_t.
          destruct Hback as [[Hk _]|[Hk _]]; rewrite Hk in Hfree_t;
            [destruct (_boundBubble (links ot))|]; discriminate. }
        assert (Htxs : tx <> s).
        { intros ->. rewrite Hso in Hotx. injection Hotx as <-.
          unfold containerIn in Hfree_s.
          destruct Hback as [[Hk _]|[Hk _]]; rewrite Hk in Hfree_s;
            [destruct (_boundBubble (links so))|]; discriminate. }
        exists ox, otx. rewrite !Hheap.
        rewrite !decide_False by assumption. auto.
      * apply list_elem_of_singleton in Hx. subst x.
        rewrite Hbt_s in Hbx. injection Hbx as <-.
        exists (containerAfter (bool_decide (_shapeType so = Some "bubble")) s t so),
               (textAfter (bool_decide (_shapeType so = Some "bubble")) s t ot).
        rewrite !Hheap. rewrite decide_False by exact Hne.
        rewrite !decide_True by reflexivity.
        split; [reflexivity|]. split; [reflexivity|]. split; [reflexivity|].
        split.
        -- simpl. rewrite (Hquiet s so Hsin Hfresh Hso Hfree_s). reflexivity.
        -- assert (Hqt : onRemoved (listeners ot) = []).
           { destruct (text_is_live t Ht) as (Htin & _).
             apply (Hquiet t ot Htin); [|exact Hot | exact Hfree_t].
             intros H. exact (container_not_text _ (Hpre _ H) Ht). }
           unfold textAfter. destruct (bool_decide _); [right | left];
             (split; [reflexivity|]); simpl; rewrite Hqt; reflexivity.
    + (* the objects not bound yet *)
      pose proof (bindClosest_heap _ _ _ _ _ _ Hso Hot Hne Hclosest) as Hheap.
      fold c' in Hheap.
      intros id o Hid Hnid Ho Hfree. rewrite Hheap in Ho.
      assert (Hids : id <> s).
      { intros ->. apply Hnid, elem_of_app. right.
        apply list_elem_of_singleton. reflexivity. }
      destruct (decide (id = t)) as [->|Hnt].
      * injection Ho as <-. exfalso. revert Hfree.
        unfold textAfter, containerIn.
        destruct (bool_decide _); simpl; [discriminate|].
        destruct (_boundBubble (links ot)); discriminate.
      * rewrite decide_False in Ho by exact Hids.
        apply (Hquiet id o Hid); [|exact Ho | exact Hfree].
        intros H. apply Hnid, elem_of_app. auto.
  - (* no text is left *)
    rewrite (bindClosest_none _ _ _ _ Hso Hclosest).
    cbv zeta in Hspec.
    assert (Hall : forall t', t' ∈ boundTexts c0 ->
              taken c pre t' \/
              PrimFloat.ltb (distanceBetween centerOf c0 s t') PrimFloat.infinity = false).
    { intros t' Ht'.
      destruct (boundContainerOf c t') as [k|] eqn:Ek.
      - left. apply Hclaimed; [exact Ht' | rewrite Ek; discriminate].
      - right. rewrite <- Hdist. apply Hspec; [exact Ht'|].
        apply Havail; assumption. }
    split.
    + exact Hobj.
    + exact Hroles.
    + intros t' Ht'. rewrite taken_snoc, Hsnone, (Hclaimed t' Ht').
      split; [auto | intros [H|H]; [exact H | discriminate]].
    + intros p1 x p2 Hsplit.
      destruct p2 as [|y p2 _] using rev_ind.
      * apply app_inj_tail in Hsplit as [-> ->].
        unfold matched. rewrite Hsnone. exact Hall.
      * rewrite app_comm_cons, app_assoc in Hsplit.
        apply app_inj_tail in Hsplit as [-> ->].
        apply (Hmatched p1 x p2 eq_refl).
    + intros x Hx Hnx. apply Hpending; [exact Hx|].
      intros H. apply Hnx, elem_of_app. auto.
    + exact Hunclaimed.
    + intros x tx Hx Hbx. apply elem_of_app in Hx as [Hx|Hx]; [auto|].
      apply list_elem_of_singleton in Hx. subst x. congruence.
    + intros id o Hid Hnid. apply Hquiet; [exact Hid|].
      intros H. apply Hnid, elem_of_app. auto.
Qed.

Lemma Inv_loop rest : forall pre c,
  Inv pre c -> NoDup (pre ++ rest) ->
  (forall s, s ∈ pre ++ rest -> s ∈ containers c0) ->
  Inv (pre ++ rest) (fold_left (bindClosest centerOf (boundTexts c0)) rest c).
Proof.
  induction rest as [|s rest IH]; intros pre c Hinv Hnd Hsub; simpl.
  - rewrite app_nil_r. exact Hinv.
  - replace (pre ++ s :: rest) with ((pre ++ [s]) ++ rest) in *
      by (rewrite <- app_assoc; reflexivity).
    apply IH.
    + apply Inv_step; [exact Hinv | | |].
      * apply Hsub, elem_of_app. left. apply elem_of_app. right. left.
      * apply NoDup_app in Hnd as (Hnd & _ & _).
        apply NoDup_app in Hnd as (_ & Hdis & _).
        intros H. apply (Hdis s H). left.
      * intros x Hx. apply Hsub, elem_of_app. left. apply elem_of_app. auto.
    + exact Hnd.
    + exact Hsub.
Qed.

Lemma Inv_end : Inv (containers c0) (restoreBubbleTextBindings centerOf c0).
Proof.
  unfold restoreBubbleTextBindings. rewrite classify_roles.
  apply (Inv_loop (containers c0) [] c0 Inv_start).
  - simpl. apply containers_NoDup.
  - auto.
Qed.

End Loop.

(** Of two different members of a list one comes before the other. *)
Lemma split_two (l : list ObjId) a b :
  a ∈ l -> b ∈ l -> a <> b ->
  (exists p q, l = p ++ b :: q /\ a ∈ p) \/ (exists p q, l = p ++ a :: q /\ b ∈ p).
Proof.
  intros Ha Hb Hne. apply list_elem_of_split in Hb as (p & q & ->).
  apply elem_of_app in Ha as [Ha|Ha].
  - left. eauto.
  - apply elem_of_cons in Ha as [->|Ha]; [congruence|].
    apply list_elem_of_split in Ha as (q1 & q2 & ->).
    right. exists (p ++ b :: q1), q2. split.
    + rewrite <- app_assoc. reflexivity.
    + apply elem_of_app. right. left.
Qed.

(** C1 (amended): on a collection as a restore produces it, the relink
    sorts the objects into containers (role bubble, rect, circle,
    triangle) and bound texts (role bubbleText, shapeText), in encounter
    order; every container, in that order, is bound to the first text of
    least distance between centres, as computed in binary64, among the
    texts that the containers before it did not claim: its distance is
    below Infinity, no unclaimed text before it is at its distance or
    below, no unclaimed text after it is below; the text is bound back to
    the container.  No text is bound to two containers; a container stays
    unbound only when every text was claimed before its turn or is not
    computed below Infinity, a text that no container chose stays
    unbound, and no other object is bound.  Every pair so bound has its
    cascade handlers registered. *)
Theorem relink_binds_nearest_unclaimed c :
  freshlyLoaded c ->
  let c' := restoreBubbleTextBindings centerOf c in
  let d s t := euclidean (centerOfRef centerOf c s) (centerOfRef centerOf c t) in
  classify c = (containers c, boundTexts c) /\
  objects c' = objects c /\
  (forall pre s post, containers c = pre ++ s :: post ->
     match boundTextOf c' s with
     | Some t =>
         ~ taken c' pre t /\ boundContainerOf c' t = Some s /\
         PrimFloat.ltb (d s t) PrimFloat.infinity = true /\
         exists before after, boundTexts c = before ++ t :: after /\
           (forall t', t' ∈ before -> ~ taken c' pre t' ->
              PrimFloat.leb (d s t') (d s t) = false) /\
           (forall t', t' ∈ after -> ~ taken c' pre t' ->
              PrimFloat.ltb (d s t') (d s t) = false)
     | None =>
         forall t', t' ∈ boundTexts c ->
           taken c' pre t' \/ PrimFloat.ltb (d s t') PrimFloat.infinity = false
     end) /\
  (forall s1 s2 t, s1 ∈ containers c -> s2 ∈ containers c ->
     boundTextOf c' s1 = Some t -> boundTextOf c' s2 = Some t -> s1 = s2) /\
  (forall t, t ∈ boundTexts c ->
     (forall s, s ∈ containers c -> boundTextOf c' s <> Some t) ->
     boundContainerOf c' t = None) /\
  (forall id, id ∈ objects c -> id ∉ containers c -> boundTextOf c' id = None) /\
  (forall s t, s ∈ containers c -> boundTextOf c' s = Some t -> freshPair c' s t).
Proof.
  intros Hloaded c' d. subst c' d.
  destruct (Inv_end c Hloaded)
    as [Hobj Hroles Hclaimed Hmatched Hpending _ Hpairs _].
  split; [apply classify_roles|]. split; [exact Hobj|].
  split; [intros pre s post Hsplit; apply (Hmatched pre s post Hsplit)|].
  split; [|split].
  - intros s1 s2 t H1 H2 Hb1 Hb2.
    destruct (decide (s1 = s2)) as [|Hne]; [assumption|exfalso].
    destruct (split_two _ _ _ H1 H2 Hne) as [(p & q & Hsplit & Hin) | (p & q & Hsplit & Hin)].
    + pose proof (Hmatched p s2 q Hsplit) as Hm. unfold matched in Hm.
      rewrite Hb2 in Hm. destruct Hm as (Hnt & _). apply Hnt.
      exists s1. auto.
    + pose proof (Hmatched p s1 q Hsplit) as Hm. unfold matched in Hm.
      rewrite Hb1 in Hm. destruct Hm as (Hnt & _). apply Hnt.
      exists s2. auto.
  - intros t Ht Hnone.
    destruct (boundContainerOf (restoreBubbleTextBindings centerOf c) t) as [k|] eqn:E;
      [exfalso | reflexivity].
    assert (Hk : boundContainerOf (restoreBubbleTextBindings centerOf c) t <> None)
      by (rewrite E; discriminate).
    apply (Hclaimed t Ht) in Hk. destruct Hk as (s & Hs & Hb).
    exact (Hnone s Hs Hb).
  - split; [intros id Hid Hnot; apply Hpending; assumption|].
    exact Hpairs.
Qed.

(** The loop of [restoreState] that runs before the relink keeps the
    collection as loaded: it touches neither the canvas list nor a
    back-reference. *)
Lemma update_keeps_loaded id f c :
  (forall o, links (f o) = links o) ->
  (forall o, onRemoved (listeners (f o)) = onRemoved (listeners o)) ->
  freshlyLoaded c -> freshlyLoaded (update id f c).
Proof.
  intros Hf Hq [Hnd Hfresh]. split; [rewrite update_objects; exact Hnd|].
  intros x Hx. rewrite update_objects in Hx.
  destruct (Hfresh x Hx) as (o & Ho & Hl & Hn).
  rewrite update_lookup. destruct (decide (id = x)) as [->|].
  - rewrite Ho. simpl. eexists. split; [reflexivity|]. rewrite Hf, Hq. auto.
  - eauto.
Qed.

Lemma reviveObject_keeps_loaded c id :
  freshlyLoaded c -> freshlyLoaded (reviveObject c id).
Proof.
  intros H. unfold reviveObject. destruct (heap c !! id) as [obj|]; [|exact H].
  assert (H1 : freshlyLoaded
                 (if bool_decide (name obj = Some "cropRect") then c
                  else update id setInteractive c)).
  { destruct (bool_decide _); [exact H|]. apply update_keeps_loaded; auto. }
  destruct (_ && _); [|exact H1].
  unfold setupRestoredTextBox.
  repeat apply update_keeps_loaded; try reflexivity.
  destruct (isActive id _); [exact H1|]. apply update_keeps_loaded; auto.
Qed.

Lemma revive_all_keeps_loaded ids : forall c,
  freshlyLoaded c -> freshlyLoaded (fold_left reviveObject ids c).
Proof.
  induction ids as [|id ids IH]; intros c H; simpl; [exact H|].
  apply IH, reviveObject_keeps_loaded, H.
Qed.

End WithFabric.

End RelinkFacts.

(** ** The concrete scene at work *)

Module ExampleFacts.
Import Scene Tools Restore Examples SceneFacts ToolsFacts CascadeFacts RelinkFacts.

Example rectWithText_objects : objects rectWithText = [0; 1].
Proof. vm_compute. reflexivity. Qed.

Example rectWithText_geom :
  geomOf rectWithText 0 = Some (mkGeometry 10 10 100 200 0 0 1 1 0 "left" "top").
Proof. vm_compute. reflexivity. Qed.

Example rectWithText_heap :
  heap rectWithText !! 0 =
    Some (mkObj "rect" (Some "rect") None
            (mkGeometry 10 10 100 200 0 0 1 1 0 "left" "top")
            (mkTextProps "" "#ffffff" "normal" (Some "#333333") 2 false)
            defaultControls noBubble (mkLinks (Some 1) None None)
            (mkListeners [syncShapeText 0 1] [removeText 1] [] [])).
Proof. vm_compute. reflexivity. Qed.

Lemma sync_centers_text_and_is_idempotent_witness :
  let c1 := updateTextPositionForShape centerOf 0 1 rectWithText in
  heap rectWithText !! 0 <> None /\ heap rectWithText !! 1 <> None /\
  (exists t', heap c1 !! 1 = Some t' /\
     (left (geom t') == 60)%Q /\ (top (geom t') == 110)%Q /\
     scaleX (geom t') = 1%Q /\ angle (geom t') = 0%Q) /\
  updateTextPositionForShape centerOf 0 1 c1 = c1.
Proof.
  destruct (heap rectWithText !! 0) as [s|] eqn:Hs; [|vm_compute in Hs; discriminate].
  destruct (heap rectWithText !! 1) as [t|] eqn:Ht; [|vm_compute in Ht; discriminate].
  destruct (sync_centers_text_and_is_idempotent centerOf rectWithText 0 1 s t Hs Ht)
    as ((t' & Ht' & Hl & Htop & Hsx & _ & Ha & _) & _ & _ & _ & Hidem & _);
    [lia|].
  split; [discriminate|]. split; [discriminate|]. split; [|exact Hidem].
  exists t'. split; [exact Ht'|].
  rewrite Hl, Htop, Hsx, Ha.
  vm_compute in Hs. injection Hs as <-. vm_compute. repeat split; discriminate.
Defined.

Lemma finalize_snaps_each_dimension_witness :
  heap thinRect !! 0 = Some (draggedRect 10 10 30 200) /\
  0 ∈ objects rectWithText /\
  exists g, geomOf rectWithText 0 = Some g /\
    snapped 30 60 100 30 (width g) /\ snapped 200 40 80 200 (height g).
Proof.
  assert (Hs : heap thinRect !! 0 = Some (draggedRect 10 10 30 200))
    by (vm_compute; reflexivity).
  split; [exact Hs|].
  assert (Hlt : 0 < nextId thinRect) by (vm_compute; lia).
  assert (Hin : 0 ∈ objects thinRect) by (apply list_elem_of_In; simpl; tauto).
  destruct (finalize_snaps_each_dimension centerOf boundsOf thinRect 0
              (draggedRect 10 10 30 200) Hs Hlt Hin)
    as ((Hon & g & Hg & Hsnap) & _).
  split; [exact Hon|]. exists g. split; [exact Hg|]. exact Hsnap.
Defined.

(** C7 as stated fails: a rect dragged 30 wide and 200 high is below the
    minimum width, yet it is not given the default size of 100 by 80; only
    its width is snapped and it ends 100 by 200. *)
Lemma thin_rect_not_default_size :
  (width (draggedRect 10 10 30 200).(geom) < 60)%Q /\
  exists g, geomOf rectWithText 0 = Some g /\
    width g = 100%Q /\ height g = 200%Q /\ ~ (height g == 80)%Q.
Proof.
  split; [reflexivity|].
  eexists. split; [vm_compute; reflexivity|].
  split; [reflexivity|]. split; [reflexivity|]. intros H. discriminate H.
Qed.

Lemma placeholder_lifecycle_witness :
  heap freeText !! 0 = Some (draggedTextBox 50 50 150) /\
  (exists p, propsOf 0 (enterEditing 0 (setupTextBoxEvents 0 freeText)) = Some p /\
     shownCleared p) /\
  (exists p, propsOf 0 (exitEditing trim 0 (setupTextBoxEvents 0 freeText)) = Some p /\
     shownPlaceholder p) /\
  (exists p, propsOf 0 (enterEditing 0 (setupBubbleTextEvents 0 freeText)) = Some p /\
     shownCleared p) /\
  propsOf 0 (exitEditing trim 0 (setupShapeTextEvents 0 freeText))
    = Some (props (draggedTextBox 50 50 150)).
Proof.
  assert (Hs : heap freeText !! 0 = Some (draggedTextBox 50 50 150))
    by (vm_compute; reflexivity).
  split; [exact Hs|].
  destruct (placeholder_lifecycle trim freeText 0 (draggedTextBox 50 50 150)
              Hs eq_refl) as (Henter & Hexit & _ & Hshape).
  destruct (Henter eq_refl) as (H1 & H2 & _).
  destruct (Hexit eq_refl) as (H3 & _).
  split; [exact H1|]. split; [exact H3|]. split; [exact H2|]. exact Hshape.
Defined.

(** A free text that received content keeps it: leaving edit mode with
    "Hello" typed stores it with the flag off, and entering again does not
    clear it. *)
Example typed_text_is_kept :
  let c := setupTextBoxEvents 0 freeText in
  let c1 := exitEditing trim 0 (typeText 0 "Hello" (enterEditing 0 c)) in
  (text <$> propsOf 0 c1) = Some "Hello" /\
  (_isPlaceholder <$> propsOf 0 c1) = Some false /\
  (text <$> propsOf 0 (enterEditing 0 c1)) = Some "Hello".
Proof. repeat split; vm_compute; reflexivity. Qed.

(** C8 as stated fails for the shape-bound text: the text created with a
    rect has only the handlers of [setupShapeTextEvents]; leaving edit mode
    with empty content leaves it empty, in the normal style, flag false. *)
Lemma shape_text_gets_no_placeholder :
  boundShapeOf 1 rectWithText = Some 0 /\
  (exists o, heap rectWithText !! 1 = Some o /\ text (props o) = "" /\
     onEntered (listeners o) = [] /\
     onExited (listeners o) = [shapeTextExited 1]) /\
  exists p,
    propsOf 1 (exitEditing trim 1 (enterEditing 1 rectWithText)) = Some p /\
    text p = "" /\ _isPlaceholder p = false /\ ~ shownPlaceholder p.
Proof.
  split; [vm_compute; reflexivity|]. split.
  - eexists. split; [vm_compute; reflexivity|]. repeat split.
  - eexists. split; [vm_compute; reflexivity|].
    split; [reflexivity|]. split; [reflexivity|].
    intros (_ & _ & _ & H). discriminate H.
Qed.

Lemma rectWithText_NoDup : NoDup (objects rectWithText).
Proof.
  replace (objects rectWithText) with [0; 1] by (vm_compute; reflexivity).
  apply NoDup_cons. split; [|apply NoDup_singleton].
  intros H. apply list_elem_of_In in H. simpl in H.
  destruct H as [H|[]]. discriminate H.
Defined.

Lemma rectWithText_freshPair : freshPair rectWithText 0 1.
Proof.
  eexists _, _. split; [vm_compute; reflexivity|].
  split; [vm_compute; reflexivity|].
  split; [reflexivity|]. split; [reflexivity|].
  left. split; reflexivity.
Defined.

Lemma rectWithText_boundPair : boundPair rectWithText 0 1.
Proof.
  eexists _, _. split; [vm_compute; reflexivity|].
  split; [vm_compute; reflexivity|].
  split; [reflexivity|]. split; [in_list|].
  left. split; [reflexivity | in_list].
Defined.

Lemma cascade_delete_leaves_no_orphan_witness :
  (exists c', remove 0 rectWithText = Some c' /\
     (0 ∉ objects c') /\ (1 ∉ objects c')) /\
  (exists c', remove 1 rectWithText = Some c' /\
     (0 ∉ objects c') /\ (1 ∉ objects c')) /\
  (forall o, exists c', remove o rectWithText = Some c' /\
     (0 ∈ objects c' <-> 1 ∈ objects c')) /\
  (exists c', deleteSelected rectWithText = Some c' /\
     (0 ∈ objects c' <-> 1 ∈ objects c')).
Proof.
  apply (cascade_delete_leaves_no_orphan rectWithText 0 1
           rectWithText_NoDup rectWithText_boundPair).
  - rewrite rectWithText_objects. in_list.
  - rewrite rectWithText_objects. in_list.
Defined.

Lemma cascade_ends_after_two_removals_witness :
  (exists c', remove 0 rectWithText = Some c' /\
     removedLog c' = removedLog rectWithText ++ [0; 1] /\
     length (objects c') + 2 = length (objects rectWithText)) /\
  (exists c', remove 1 rectWithText = Some c' /\
     removedLog c' = removedLog rectWithText ++ [1; 0] /\
     length (objects c') + 2 = length (objects rectWithText)).
Proof.
  destruct (cascade_ends_after_two_removals rectWithText 0 1
              rectWithText_NoDup rectWithText_freshPair)
    as ((c1 & H1 & L1 & N1 & _) & (c2 & H2 & L2 & N2 & _) & _);
    [lia | rewrite rectWithText_objects; in_list
         | rewrite rectWithText_objects; in_list |].
  split; [exists c1 | exists c2]; auto.
Defined.

Example remove_rect_takes_text :
  (objects <$> remove 0 rectWithText) = Some [] /\
  (removedLog <$> remove 0 rectWithText) = Some [0; 1] /\
  (removedLog <$> remove 1 rectWithText) = Some [1; 0].
Proof. repeat split; vm_compute; reflexivity. Qed.

(** A collection is as loaded when its references are distinct and live
    and its objects carry neither links nor ['removed'] handlers. *)
Ltac loaded_scene ids :=
  split;
  [ replace (objects _) with ids by (vm_compute; reflexivity);
    repeat (apply NoDup_cons; split;
            [intros H; apply list_elem_of_In in H; simpl in H;
             repeat (destruct H as [H|H]; [discriminate H|]); exact H|]);
    apply NoDup_nil; exact I
  | let id := fresh "id" in
    let Hid := fresh "Hid" in
    intros id Hid; apply list_elem_of_In in Hid;
    replace (objects _) with ids in Hid by (vm_compute; reflexivity);
    simpl in Hid;
    repeat (destruct Hid as [<-|Hid];
            [eexists; split; [vm_compute; reflexivity | split; reflexivity]|]);
    destruct Hid ].

Lemma loadedScene_loaded : freshlyLoaded loadedScene.
Proof. loaded_scene [0; 1; 2; 3]. Defined.

Lemma tiedScene_loaded : freshlyLoaded tiedScene.
Proof. loaded_scene [0; 1; 2]. Defined.

Example loadedScene_roles :
  containers loadedScene = [0; 2] /\ boundTexts loadedScene = [1; 3].
Proof. split; vm_compute; reflexivity. Qed.

(** Restoring the two rects and the two texts binds each rect to the text
    next to it, not to the text that comes first. *)
Example relink_two_pairs :
  let c' := restoreBubbleTextBindings centerOf loadedScene in
  boundTextOf c' 0 = Some 3 /\ boundContainerOf c' 3 = Some 0 /\
  boundTextOf c' 2 = Some 1 /\ boundContainerOf c' 1 = Some 2 /\
  freshPair c' 0 3 /\ freshPair c' 2 1.
Proof.
  repeat split; try (vm_compute; reflexivity);
    (eexists _, _; split; [vm_compute; reflexivity|];
     split; [vm_compute; reflexivity|];
     split; [reflexivity|]; split; [reflexivity|]; left; split; reflexivity).
Qed.

Lemma relink_binds_nearest_unclaimed_witness :
  let c := loadedScene in
  let c' := restoreBubbleTextBindings centerOf c in
  let d s t := euclidean (centerOfRef centerOf c s) (centerOfRef centerOf c t) in
  classify c = ([0; 2], [1; 3]) /\
  boundTextOf c' 0 = Some 3 /\ boundTextOf c' 2 = Some 1 /\
  PrimFloat.leb (d 0 1) (d 0 3) = false /\
  match boundTextOf c' 0 with
  | Some t =>
      ~ taken c' [] t /\ boundContainerOf c' t = Some 0 /\
      PrimFloat.ltb (d 0 t) PrimFloat.infinity = true /\
      exists before after, boundTexts c = before ++ t :: after /\
        (forall t', t' ∈ before -> ~ taken c' [] t' ->
           PrimFloat.leb (d 0 t') (d 0 t) = false) /\
        (forall t', t' ∈ after -> ~ taken c' [] t' ->
           PrimFloat.ltb (d 0 t') (d 0 t) = false)
  | None =>
      forall t', t' ∈ boundTexts c ->
        taken c' [] t' \/ PrimFloat.ltb (d 0 t') PrimFloat.infinity = false
  end /\
  (forall s1 s2 t, s1 ∈ containers c -> s2 ∈ containers c ->
     boundTextOf c' s1 = Some t -> boundTextOf c' s2 = Some t -> s1 = s2).
Proof.
  destruct (relink_binds_nearest_unclaimed centerOf loadedScene loadedScene_loaded)
    as (Hclass & _ & Hmatch & Hinj & _).
  split; [rewrite Hclass; vm_compute; reflexivity|].
  split; [vm_compute; reflexivity|]. split; [vm_compute; reflexivity|].
  split; [vm_compute; reflexivity|].
  split; [|exact Hinj].
  apply (Hmatch [] 0 [2]). vm_compute. reflexivity.
Defined.

(** C1 as stated fails: the rect of [tiedScene] is bound to text 1,
    although text 2 is unclaimed and its centre is nearer to the centre of
    the rect (25 against 25 + 2^-60 for the squares of the distances).
    In binary64 the sum 25 + 2^-60 is 25, both distances are computed as
    5, and the text that comes first keeps the place. *)
Lemma relink_tie_binds_farther_text :
  let c := tiedScene in
  let c' := restoreBubbleTextBindings centerOf c in
  let ctr := centerOfRef centerOf c in
  freshlyLoaded c /\
  containers c = [0] /\ boundTexts c = [1; 2] /\
  (Qeq (x (ctr 0)) 60 /\ Qeq (y (ctr 0)) 50) /\
  (Qeq (x (ctr 1)) 65 /\ Qeq (y (ctr 1)) (50 + (1 # 1073741824))) /\
  (Qeq (x (ctr 2)) 63 /\ Qeq (y (ctr 2)) 54) /\
  boundTextOf c' 0 = Some 1 /\ boundContainerOf c' 2 = None /\
  Qlt (euclid2 (ctr 0) (ctr 2)) (euclid2 (ctr 0) (ctr 1)) /\
  euclidean (ctr 0) (ctr 1) = euclidean (ctr 0) (ctr 2) /\
  ~ (forall t', t' ∈ boundTexts c -> ~ taken c' [] t' ->
       Qle (euclid2 (ctr 0) (ctr 1)) (euclid2 (ctr 0) (ctr t'))).
Proof.
  split; [exact tiedScene_loaded|].
  split; [vm_compute; reflexivity|]. split; [vm_compute; reflexivity|].
  split; [split; vm_compute; reflexivity|].
  split; [split; vm_compute; reflexivity|].
  split; [split; vm_compute; reflexivity|].
  split; [vm_compute; reflexivity|]. split; [vm_compute; reflexivity|].
  split; [vm_compute; reflexivity|].
  split; [vm_compute; reflexivity|].
  intros H.
  assert (H2 : Qle (euclid2 (centerOfRef centerOf tiedScene 0)
                            (centerOfRef centerOf tiedScene 1))
                   (euclid2 (centerOfRef centerOf tiedScene 0)
                            (centerOfRef centerOf tiedScene 2))).
  { apply H.
    - replace (boundTexts tiedScene) with [1; 2] by (vm_compute; reflexivity).
      right. left.
    - intros (s & Hs & _). inversion Hs. }
  revert H2. vm_compute. intros H2. apply H2. reflexivity.
Qed.

(** A text whose distance overflows is not bound, although it is the only
    one and unclaimed: its distance is computed as [Infinity], which is
    not below the initial [minDistance]. *)
Example relink_overflow_binds_nothing :
  let c := remoteScene in
  let c' := restoreBubbleTextBindings centerOf c in
  containers c = [0] /\ boundTexts c = [1] /\
  boundTextOf c' 0 = None /\ boundContainerOf c' 1 = None /\
  euclidean (centerOfRef centerOf c 0) (centerOfRef centerOf c 1)
  = PrimFloat.infinity.
Proof. repeat split; vm_compute; reflexivity. Qed.

(** An editor on the scene with the rect selected and the select tool
    active. *)
Definition editorOnRect : Editor.Editor :=
  Editor.mkEditor rectWithText (mkTools "select" false None None)
                  ("#000000", 5%Q) None true true [] 0.

Lemma lasso_not_accepted : "lasso" ∉ Editor.acceptedTools.
Proof.
  intros H. apply list_elem_of_In in H. simpl in H.
  repeat (destruct H as [H|H]; [discriminate H|]). exact H.
Defined.

Lemma setTool_unknown_name_is_stored_witness :
  let e' := Editor.setTool true (fun e => e) "lasso" editorOnRect in
  ("lasso" ∉ Editor.acceptedTools) /\
  currentTool (Editor.tools e') = "lasso" /\
  activeObject (Editor.canvas e') = None /\
  Editor.toasts e' = Editor.toasts editorOnRect.
Proof.
  split; [exact lasso_not_accepted|].
  destruct (EditorFacts.setTool_unknown_name_is_stored true (fun e => e)
              "lasso" editorOnRect lasso_not_accepted)
    as (H1 & _ & _ & _ & _ & H2 & _ & _ & H3 & _).
  split; [exact H1|]. split; [exact H2|]. exact H3.
Defined.

(** C9 as stated fails: ["lasso"] is not an accepted name, yet [setTool]
    makes it the current tool and drops the selection, and surfaces no
    error. *)
Lemma setTool_accepts_unknown_name :
  let e' := Editor.setTool true (fun e => e) "lasso" editorOnRect in
  ("lasso" ∉ Editor.acceptedTools) /\
  currentTool (Editor.tools editorOnRect) = "select" /\
  currentTool (Editor.tools e') = "lasso" /\
  currentTool (Editor.tools e') <> currentTool (Editor.tools editorOnRect) /\
  activeObject (Editor.canvas editorOnRect) = Some (single 0) /\
  activeObject (Editor.canvas e') = None /\
  Editor.toasts e' = [].
Proof.
  split; [exact lasso_not_accepted|].
  split; [reflexivity|]. split; [vm_compute; reflexivity|].
  split; [vm_compute; discriminate|].
  split; [vm_compute; reflexivity|].
  split; vm_compute; reflexivity.
Qed.

End ExampleFacts.

Module HistoryLaws.
Import History HistoryEvents.

Lemma last_length_pos (l : list string) x : last l = Some x -> 0 < length l.
Proof. destruct l; [discriminate | simpl; lia]. Qed.

Lemma last_removelast (l : list string) x :
  last l = Some x -> l = removelast l ++ [x].
Proof.
  intros H. apply last_Some in H as [l' ->]. rewrite removelast_last. reflexivity.
Qed.

Lemma snoc_cases (l : list string) : l = [] \/ exists l' x, l = l' ++ [x].
Proof.
  destruct l as [|x l] using rev_ind; [left; reflexivity | right; eauto].
Qed.

Lemma two_on_top (l : list string) :
  2 <= length l -> exists u a b, l = u ++ [a; b].
Proof.
  intros Hlen.
  destruct (snoc_cases l) as [->|(l1 & b & ->)]; [simpl in Hlen; lia|].
  destruct (snoc_cases l1) as [->|(u & a & ->)]; [simpl in Hlen; lia|].
  exists u, a, b. rewrite <- app_assoc. reflexivity.
Qed.

Lemma set_isSaving_back hm :
  isSaving hm = false -> set_isSaving false (set_isSaving true hm) = hm.
Proof. destruct hm; simpl; intros ->; reflexivity. Qed.

(** A commit either leaves both stacks as they are, or pushes: then
    [redoStack] is empty and [undoStack] is the old one with the snapshot
    appended, cut to the capacity from the front. *)
Lemma doSaveState_cases o hm :
  (undoStack (_doSaveState o hm) = undoStack hm /\
   redoStack (_doSaveState o hm) = redoStack hm) \/
  (exists s, o = Some s /\ redoStack (_doSaveState o hm) = [] /\
     undoStack (_doSaveState o hm) =
       if maxStates hm <? length (undoStack hm ++ [s])
       then shift (undoStack hm ++ [s]) else undoStack hm ++ [s]).
Proof.
  unfold _doSaveState.
  destruct (isRestoring hm || isSaving hm); [left; auto|].
  destruct o as [s|]; simpl; [|left; auto].
  destruct ((0 <? length (undoStack hm)) && top_is s (undoStack hm)); simpl;
    [left; auto|].
  right. exists s. split; [reflexivity|].
  destruct (maxStates hm <? length (undoStack hm ++ [s])); simpl; auto.
Qed.

Section Laws.
Variable JSON_parse_ok : string -> bool.

Abbreviation undo := (undo JSON_parse_ok).
Abbreviation redo := (redo JSON_parse_ok).
Abbreviation restoreState := (restoreState JSON_parse_ok).
Abbreviation handle := (handle JSON_parse_ok).
Abbreviation run := (run JSON_parse_ok).

(** [undo()] either does nothing or moves the top of [undoStack], which
    has an entry below it, onto [redoStack]. *)
Lemma undo_cases hm :
  undo hm = hm \/
  exists u a b, undoStack hm = u ++ [a; b] /\ isRestoring hm = false /\
    undo hm = restoreState a
      (set_redoStack (redoStack hm ++ [b])
         (set_undoStack (u ++ [a]) (set_debounceTimer false hm))).
Proof.
  destruct (isRestoring hm) eqn:Hr.
  { left. unfold History.undo. rewrite Hr, orb_true_r. reflexivity. }
  destruct (snoc_cases (undoStack hm)) as [Hu|(l & x & Hu)].
  { left. unfold History.undo. rewrite Hu. reflexivity. }
  destruct (snoc_cases l) as [->|(l' & y & ->)].
  { left. unfold History.undo. rewrite Hu. reflexivity. }
  right. exists l', y, x.
  assert (Hu' : undoStack hm = l' ++ [y; x]) by (rewrite Hu, <- app_assoc; reflexivity).
  split; [exact Hu'|]. split; [reflexivity|].
  apply HistoryFacts.undo_moves; assumption.
Qed.

Lemma redo_cases hm :
  redo hm = hm \/
  exists r b, redoStack hm = r ++ [b] /\ isRestoring hm = false /\
    redo hm = restoreState b
      (set_undoStack (undoStack hm ++ [b])
         (set_redoStack r (set_debounceTimer false hm))).
Proof.
  destruct (isRestoring hm) eqn:Hr.
  { left. unfold History.redo. rewrite Hr, orb_true_r. reflexivity. }
  destruct (snoc_cases (redoStack hm)) as [Hu|(l & x & Hu)].
  { left. unfold History.redo. rewrite Hu. reflexivity. }
  right. exists l, x. split; [exact Hu|]. split; [reflexivity|].
  apply HistoryFacts.redo_moves; assumption.
Qed.

Lemma restoreState_maxStates s hm :
  maxStates (restoreState s hm) = maxStates hm.
Proof. apply HistoryFacts.restoreState_stacks. Qed.

(** The total number of stored snapshots. *)
Definition stored (hm : HistoryManager) : nat :=
  length (undoStack hm) + length (redoStack hm).

Lemma doSaveState_stored o hm :
  stored hm <= maxStates hm ->
  stored (_doSaveState o hm) <= maxStates hm.
Proof.
  unfold stored. intros Hb.
  destruct (doSaveState_cases o hm) as [[-> ->]|(s & _ & -> & ->)]; [exact Hb|].
  simpl. rewrite Nat.add_0_r.
  destruct (maxStates hm <? length (undoStack hm ++ [s])) eqn:E.
  - rewrite HistoryFacts.shift_length, length_app. simpl. lia.
  - apply Nat.ltb_ge in E. exact E.
Qed.

Lemma doSaveState_maxStates o hm : maxStates (_doSaveState o hm) = maxStates hm.
Proof. apply (HistoryFacts.doSaveState_frame o hm). Qed.

Lemma handle_maxStates hm e : maxStates (handle hm e) = maxStates hm.
Proof.
  destruct e; simpl.
  - unfold saveState. destruct (_ || _); reflexivity.
  - unfold timerFires. destruct (debounceTimer hm); [|reflexivity].
    rewrite doSaveState_maxStates. reflexivity.
  - unfold saveStateImmediate. destruct (_ || _); [reflexivity|].
    rewrite doSaveState_maxStates. reflexivity.
  - destruct (undo_cases hm) as [->|(u & a & b & _ & _ & ->)]; [reflexivity|].
    rewrite restoreState_maxStates. reflexivity.
  - destruct (redo_cases hm) as [->|(r & b & _ & _ & ->)]; [reflexivity|].
    rewrite restoreState_maxStates. reflexivity.
  - apply HistoryFacts.loadSettled_stacks.
  - unfold clear, saveStateImmediate. simpl. destruct (_ || _); [reflexivity|].
    rewrite doSaveState_maxStates. reflexivity.
Qed.

Lemma handle_stored hm e :
  stored hm <= maxStates hm -> stored (handle hm e) <= maxStates hm.
Proof.
  intros Hb. destruct e; simpl.
  - unfold saveState. destruct (_ || _); exact Hb.
  - unfold timerFires. destruct (debounceTimer hm); [|exact Hb].
    apply (doSaveState_stored stateStr (set_debounceTimer false hm)). exact Hb.
  - unfold saveStateImmediate. destruct (_ || _); [exact Hb|].
    apply (doSaveState_stored stateStr (set_debounceTimer false hm)). exact Hb.
  - destruct (undo_cases hm) as [->|(u & a & b & Hu & _ & ->)]; [exact Hb|].
    unfold stored in *.
    destruct (HistoryFacts.restoreState_stacks JSON_parse_ok a
                (set_redoStack (redoStack hm ++ [b])
                   (set_undoStack (u ++ [a]) (set_debounceTimer false hm))))
      as (-> & -> & _).
    simpl. rewrite Hu in Hb. rewrite !length_app in *. simpl in *. lia.
  - destruct (redo_cases hm) as [->|(r & b & Hr & _ & ->)]; [exact Hb|].
    unfold stored in *.
    destruct (HistoryFacts.restoreState_stacks JSON_parse_ok b
                (set_undoStack (undoStack hm ++ [b])
                   (set_redoStack r (set_debounceTimer false hm))))
      as (-> & -> & _).
    simpl. rewrite Hr in Hb. rewrite !length_app in *. simpl in *. lia.
  - unfold stored in *.
    destruct (HistoryFacts.loadSettled_stacks resolved hm) as (-> & -> & _). exact Hb.
  - unfold clear, saveStateImmediate. simpl.
    destruct (_ || _); [unfold stored; simpl; lia|].
    apply (doSaveState_stored stateStr
             (set_debounceTimer false
                (set_redoStack [] (set_undoStack [] (set_debounceTimer false hm))))).
    unfold stored. simpl. lia.
Qed.

(** X1: whatever the manager is asked to do and in whatever order (saves,
    debounce callbacks, undos, redos, loads settling, clears), the two
    stacks together never hold more than [maxStates] snapshots, and
    [maxStates] itself never changes.  In particular [redo()], which pushes
    without a bound check of its own, cannot push [undoStack] past the
    bound. *)
Theorem stacks_together_stay_within_capacity events hm :
  length (undoStack hm) + length (redoStack hm) <= maxStates hm ->
  let hm' := run events hm in
  maxStates hm' = maxStates hm /\
  length (undoStack hm') + length (redoStack hm') <= maxStates hm /\
  length (undoStack hm') <= maxStates hm.
Proof.
  intros Hb hm'. subst hm'. unfold HistoryEvents.run.
  revert hm Hb. induction events as [|e rest IH]; intros hm Hb; simpl.
  - split; [reflexivity|]. split; [exact Hb | lia].
  - destruct (IH (handle hm e)) as (E1 & E2 & E3).
    + rewrite handle_maxStates. apply (handle_stored hm e). exact Hb.
    + rewrite handle_maxStates in E1, E2, E3. auto.
Qed.

(** What navigation conserves: the snapshots, read from the bottom of
    [undoStack] up and then down [redoStack]. *)
Definition timeline (hm : HistoryManager) : list string :=
  undoStack hm ++ rev (redoStack hm).

Lemma navigation_step hm e :
  isNavigation e = true -> undoStack hm <> [] ->
  timeline (handle hm e) = timeline hm /\
  head (undoStack (handle hm e)) = head (undoStack hm) /\
  undoStack (handle hm e) <> [].
Proof.
  destruct e; try discriminate; intros _ Hne; simpl.
  - unfold saveState. destruct (_ || _); auto.
  - destruct (undo_cases hm) as [->|(u & a & b & Hu & _ & ->)]; [auto|].
    unfold timeline.
    destruct (HistoryFacts.restoreState_stacks JSON_parse_ok a
                (set_redoStack (redoStack hm ++ [b])
                   (set_undoStack (u ++ [a]) (set_debounceTimer false hm))))
      as (-> & -> & _).
    simpl. rewrite Hu, rev_app_distr. simpl. rewrite <- !app_assoc. simpl.
    split; [reflexivity|]. split; [destruct u; reflexivity|].
    destruct u; discriminate.
  - destruct (redo_cases hm) as [->|(r & b & Hr & _ & ->)]; [auto|].
    unfold timeline.
    destruct (HistoryFacts.restoreState_stacks JSON_parse_ok b
                (set_undoStack (undoStack hm ++ [b])
                   (set_redoStack r (set_debounceTimer false hm))))
      as (-> & -> & _).
    simpl. rewrite Hr, rev_app_distr. simpl. rewrite <- !app_assoc. simpl.
    split; [reflexivity|].
    destruct (undoStack hm); [contradiction|]. split; [reflexivity | discriminate].
  - unfold timeline.
    destruct (HistoryFacts.loadSettled_stacks resolved hm) as (-> & -> & _).
    auto.
Qed.

(** X2: undoing and redoing never lose, duplicate or reorder a snapshot,
    in whatever order the calls and the settling loads come, with whatever
    outcome: [undoStack] followed by [redoStack] read from its top is always
    the same list; and the bottom entry of [undoStack] stays where it is,
    so [undoStack] never becomes empty. *)
Theorem navigation_conserves_snapshots events hm :
  forallb isNavigation events = true -> undoStack hm <> [] ->
  let hm' := run events hm in
  undoStack hm' ++ rev (redoStack hm') = undoStack hm ++ rev (redoStack hm) /\
  head (undoStack hm') = head (undoStack hm) /\
  undoStack hm' <> [].
Proof.
  intros Hnav Hne hm'. subst hm'. unfold HistoryEvents.run.
  revert hm Hne. induction events as [|e rest IH]; intros hm Hne; simpl.
  - auto.
  - simpl in Hnav. apply andb_true_iff in Hnav as [He Hrest].
    destruct (navigation_step hm e He Hne) as (E1 & E2 & E3).
    destruct (IH Hrest (handle hm e) E3) as (F1 & F2 & F3).
    unfold timeline in E1. rewrite F1, F2, E1, E2. auto.
Qed.




(** X4: while the load started by an [undo()] is pending, the manager
    ignores everything but [clear()]: further calls of [undo()] and
    [redo()], debounced and immediate saves and the debounce callback all
    leave it as it is, so of any number of undos made back to back only
    the first one acts.  When the snapshot does not even parse, the flag is
    lowered before [undo()] returns. *)
Theorem pending_restore_blocks_history hm u a b :
  isRestoring hm = false -> undoStack hm = u ++ [a; b] ->
  let hm1 := undo hm in
  (JSON_parse_ok a = true ->
     isRestoring hm1 = true /\
     (forall n, undosUnsettled JSON_parse_ok (S n) hm = hm1) /\
     undo hm1 = hm1 /\ redo hm1 = hm1 /\ saveState hm1 = hm1 /\
     (forall o, saveStateImmediate o hm1 = hm1 /\ timerFires o hm1 = hm1 /\
                _doSaveState o hm1 = hm1)) /\
  (JSON_parse_ok a = false ->
     isRestoring hm1 = false /\ undoStack hm1 = u ++ [a] /\
     redoStack hm1 = redoStack hm ++ [b]).
Proof.
  intros Hr Hu hm1. subst hm1.
  rewrite (HistoryFacts.undo_moves JSON_parse_ok u a b hm Hr Hu).
  set (hm0 := set_redoStack _ _).
  assert (Hd : debounceTimer (restoreState a hm0) = false).
  { unfold History.restoreState. destruct (JSON_parse_ok a); reflexivity. }
  split.
  - intros Hp.
    assert (Hflag : isRestoring (restoreState a hm0) = true).
    { unfold History.restoreState. rewrite Hp. reflexivity. }
    assert (Hundo : undo (restoreState a hm0) = restoreState a hm0).
    { unfold History.undo. rewrite Hflag, orb_true_r. reflexivity. }
    split; [exact Hflag|]. split; [|split; [exact Hundo|]].
    + intros n. simpl.
      rewrite (HistoryFacts.undo_moves JSON_parse_ok u a b hm Hr Hu). fold hm0.
      induction n as [|n IH]; simpl; [reflexivity|]. rewrite Hundo. exact IH.
    + split; [unfold History.redo; rewrite Hflag, orb_true_r; reflexivity|].
      split; [unfold saveState; rewrite Hflag; reflexivity|].
      intros o. split; [unfold saveStateImmediate; rewrite Hflag; reflexivity|].
      split; [unfold timerFires; rewrite Hd; reflexivity|].
      unfold _doSaveState. rewrite Hflag. reflexivity.
  - intros Hp. unfold History.restoreState. rewrite Hp. simpl. auto.
Qed.

End Laws.

(** X5: a commit either pushes or changes nothing at all.  When
    serialising the canvas throws, or gives the snapshot that is already on
    top, the manager is exactly as before and [redoStack] is kept; when it
    pushes, the new snapshot is the current one and [redoStack] is empty, so
    a [redo()] after it does nothing. *)
Theorem commit_pushes_or_changes_nothing hm s :
  isRestoring hm = false -> isSaving hm = false ->
  _doSaveState None hm = hm /\
  (last (undoStack hm) = Some s -> _doSaveState (Some s) hm = hm) /\
  (last (undoStack hm) <> Some s ->
     let hm' := _doSaveState (Some s) hm in
     redoStack hm' = [] /\
     (0 < maxStates hm -> current hm' = Some s) /\
     forall parses, redo parses hm' = hm').
Proof.
  intros Hr Hs. split; [|split].
  - unfold _doSaveState. rewrite Hr, Hs. simpl. apply set_isSaving_back, Hs.
  - intros Htop. unfold _doSaveState. rewrite Hr, Hs. simpl.
    apply HistoryFacts.top_is_true in Htop. rewrite Htop.
    destruct (undoStack hm) eqn:E; [discriminate|]. simpl.
    apply set_isSaving_back, Hs.
  - intros Htop hm'.
    assert (Hredo : redoStack hm' = []).
    { subst hm'. rewrite HistoryFacts.doSaveState_pushes by assumption. simpl.
      destruct (maxStates hm <? length (undoStack hm ++ [s])); reflexivity. }
    split; [exact Hredo|]. split.
    + intros Hmax. subst hm'. unfold current.
      rewrite HistoryFacts.doSaveState_undoStack by assumption.
      destruct (maxStates hm <? length (undoStack hm ++ [s])) eqn:E;
        [|apply last_snoc].
      apply Nat.ltb_lt in E. rewrite length_app in E. simpl in E.
      destruct (undoStack hm) as [|x l]; [simpl in E; lia|].
      simpl. apply last_snoc.
    + intros parses. unfold redo. rewrite Hredo. reflexivity.
Qed.

(** X6: debounced saves are coalesced.  However many times [saveState()]
    is called before the timer fires, the timer commits once, exactly as
    one [saveStateImmediate()] would have; a second firing finds nothing to
    do; [saveStateImmediate()] cancels the pending request; and so does an
    [undo()] that acts, after which the state the request was made for is
    never committed. *)
Theorem debounced_saves_commit_once hm n :
  isRestoring hm = false -> isSaving hm = false ->
  let pending := Nat.iter (S n) saveState hm in
  forall o o',
    timerFires o pending = saveStateImmediate o hm /\
    timerFires o' (timerFires o pending) = timerFires o pending /\
    timerFires o' (saveStateImmediate o pending) = saveStateImmediate o pending /\
    forall parses, 2 <= length (undoStack hm) ->
      timerFires o (undo parses pending) = undo parses pending /\
      undo parses pending = undo parses hm.
Proof.
  intros Hr Hs pending.
  assert (Hp : pending = set_debounceTimer true hm).
  { subst pending. induction n as [|n IH].
    - simpl. unfold saveState. rewrite Hr, Hs. reflexivity.
    - change (Nat.iter (S (S n)) saveState hm)
        with (saveState (Nat.iter (S n) saveState hm)).
      rewrite IH. unfold saveState. simpl. rewrite Hr, Hs. reflexivity. }
  intros o o'.
  assert (Hquiet : forall h p, debounceTimer (_doSaveState p h) = debounceTimer h).
  { intros h p. apply (HistoryFacts.doSaveState_frame p h). }
  assert (E1 : timerFires o pending = saveStateImmediate o hm).
  { rewrite Hp. unfold timerFires, saveStateImmediate. simpl. rewrite Hr, Hs. reflexivity. }
  split; [exact E1|]. split; [|split].
  - rewrite E1. unfold saveStateImmediate. rewrite Hr, Hs. simpl.
    unfold timerFires at 1. rewrite Hquiet. reflexivity.
  - rewrite Hp. unfold saveStateImmediate. simpl. rewrite Hr, Hs. simpl.
    unfold timerFires. rewrite Hquiet. reflexivity.
  - intros parses Hlen. rewrite Hp.
    destruct (two_on_top _ Hlen) as (u & a & b & Hu).
    rewrite (HistoryFacts.undo_moves parses u a b hm Hr Hu).
    rewrite (HistoryFacts.undo_moves parses u a b (set_debounceTimer true hm) Hr Hu).
    simpl. split; [|reflexivity].
    unfold timerFires, restoreState. destruct (parses a); reflexivity.
Qed.

(** X7: [clear()] empties both stacks and then saves at once, so the
    history restarts from the snapshot of the canvas as it is; but when a
    restore is in flight, or serialising throws, the save does not happen
    and the history is left empty, without even a floor entry: [getInfo()]
    then reports an undo count of [-1], and [undo()] and [redo()] do
    nothing, also after the load has settled. *)
Theorem clear_restarts_history hm s :
  isSaving hm = false ->
  (isRestoring hm = false -> 0 < maxStates hm ->
     undoStack (clear (Some s) hm) = [s] /\ redoStack (clear (Some s) hm) = [] /\
     debounceTimer (clear (Some s) hm) = false) /\
  (forall o, isRestoring hm = true \/ o = None ->
     let hm' := clear o hm in
     undoStack hm' = [] /\ redoStack hm' = [] /\
     getInfo hm' = mkInfo (-1) 0 false false /\
     forall parses r,
       undo parses hm' = hm' /\ redo parses hm' = hm' /\
       undo parses (loadSettled r hm') = loadSettled r hm' /\
       redo parses (loadSettled r hm') = loadSettled r hm').
Proof.
  intros Hs. split.
  - intros Hr Hmax. unfold clear, saveStateImmediate. simpl. rewrite Hr, Hs. simpl.
    unfold _doSaveState. simpl. rewrite Hr, Hs. simpl.
    destruct (maxStates hm) as [|m]; [lia|]. simpl. auto.
  - intros o Ho hm'.
    assert (E : undoStack hm' = [] /\ redoStack hm' = []).
    { subst hm'. unfold clear, saveStateImmediate. simpl.
      destruct Ho as [Hr| ->].
      - rewrite Hr. simpl. auto.
      - destruct (isRestoring hm || isSaving hm); [simpl; auto|].
        unfold _doSaveState. simpl.
        destruct (isRestoring hm || isSaving hm); simpl; auto. }
    destruct E as [Eu Er]. split; [exact Eu|]. split; [exact Er|]. split.
    + unfold getInfo. rewrite Eu, Er. reflexivity.
    + intros parses r.
      destruct (HistoryFacts.loadSettled_stacks r hm') as (Lu & Lr & _).
      unfold undo, redo. rewrite Lu, Lr, Eu, Er. simpl. auto.
Qed.

(** X8: [getInfo()] tells what the next call would do.  As long as no
    restore is in flight, [canUndo] is true exactly when [undo()] would take
    an entry off [undoStack], [canRedo] exactly when [redo()] would take one
    off [redoStack]; and [undoCount] is the number of undos that act before
    the floor is reached: after that many settled undos [undoStack] holds
    its bottom entry alone and [canUndo] is false. *)
Theorem getInfo_tells_what_undo_will_do hm parses :
  idle hm ->
  (canUndo (getInfo hm) = true <->
     length (undoStack (undo parses hm)) < length (undoStack hm)) /\
  (canRedo (getInfo hm) = true <->
     length (redoStack (redo parses hm)) < length (redoStack hm)) /\
  redoCount (getInfo hm) = length (redoStack hm) /\
  forall floor rest outcomes,
    undoStack hm = floor :: rest ->
    undoCount (getInfo hm) = Z.of_nat (length outcomes) ->
    let hm' := undos parses outcomes hm in
    undoStack hm' = [floor] /\ canUndo (getInfo hm') = false /\
    undoCount (getInfo hm') = 0%Z.
Proof.
  intros Hidle. pose proof Hidle as (Hr & Hs & Hl).
  split; [|split; [|split; [reflexivity|]]].
  - unfold getInfo. simpl. rewrite Nat.ltb_lt. split.
    + intros Hlen. destruct (two_on_top _ Hlen) as (u & a & b & Hu).
      rewrite (HistoryFacts.undo_moves parses u a b hm Hr Hu).
      rewrite (proj1 (HistoryFacts.restoreState_stacks parses a _)). simpl.
      rewrite Hu, !length_app. simpl. lia.
    + intros Hlt. destruct (length (undoStack hm) <=? 1) eqn:El;
        [|apply Nat.leb_gt in El; exact El].
      unfold undo in Hlt. rewrite El in Hlt. simpl in Hlt. lia.
  - unfold getInfo. simpl. rewrite Nat.ltb_lt. split.
    + intros Hlen.
      destruct (snoc_cases (redoStack hm)) as [E|(r & b & Hu)];
        [rewrite E in Hlen; simpl in Hlen; lia|].
      rewrite (HistoryFacts.redo_moves parses r b hm Hr Hu).
      rewrite (proj1 (proj2 (HistoryFacts.restoreState_stacks parses b _))). simpl.
      rewrite Hu, !length_app. simpl. lia.
    + intros Hlt. destruct (length (redoStack hm) =? 0) eqn:El;
        [|apply Nat.eqb_neq in El; lia].
      unfold redo in Hlt. rewrite El in Hlt. simpl in Hlt. lia.
  - intros floor rest outcomes Hu Hcount hm'.
    assert (Hlen : length outcomes = length rest).
    { unfold getInfo in Hcount. simpl in Hcount. rewrite Hu in Hcount.
      simpl in Hcount. lia. }
    destruct (HistoryFacts.undos_pop_all parses outcomes rest [] floor hm Hlen Hidle Hu)
      as (E & _).
    subst hm'. unfold getInfo. simpl in E. rewrite E. simpl. auto.
Qed.

(** ** Concrete runs *)

Definition threeDeep : HistoryManager :=
  commits [snap 1; snap 2] HistoryFacts.fresh.

Lemma stacks_together_stay_within_capacity_witness :
  let events := [callSaveState; debounceFires (Some (snap 1)); callUndo;
                 loadSettles true; callRedo; callUndo; loadSettles false;
                 callClear (Some (snap 2)); callSaveStateImmediate (Some (snap 3))] in
  let hm' := run HistoryFacts.parsesAll events HistoryFacts.fresh in
  maxStates hm' = 50 /\
  length (undoStack hm') + length (redoStack hm') <= 50 /\
  length (undoStack hm') <= 50.
Proof.
  intros events.
  apply (stacks_together_stay_within_capacity HistoryFacts.parsesAll events
           HistoryFacts.fresh).
  vm_compute. lia.
Defined.

Lemma navigation_conserves_snapshots_witness :
  let events := [callUndo; loadSettles true; callUndo; callUndo; loadSettles false;
                 callUndo; loadSettles true; callRedo; callSaveState] in
  let hm' := run HistoryFacts.parsesAll events threeDeep in
  undoStack hm' ++ rev (redoStack hm') = [snap 0; snap 1; snap 2] /\
  head (undoStack hm') = Some (snap 0) /\
  undoStack hm' <> [].
Proof.
  intros events.
  apply (navigation_conserves_snapshots HistoryFacts.parsesAll events threeDeep).
  - reflexivity.
  - vm_compute. discriminate.
Defined.


Lemma pending_restore_blocks_history_witness :
  let hm1 := undo HistoryFacts.parsesAll threeDeep in
  isRestoring hm1 = true /\
  undosUnsettled HistoryFacts.parsesAll 5 threeDeep = hm1 /\
  redo HistoryFacts.parsesAll hm1 = hm1 /\
  saveStateImmediate (Some (snap 7)) hm1 = hm1.
Proof.
  destruct (pending_restore_blocks_history HistoryFacts.parsesAll threeDeep
              [snap 0] (snap 1) (snap 2)) as [H _].
  - reflexivity.
  - reflexivity.
  - destruct (H eq_refl) as (H1 & H2 & _ & H4 & _ & H6).
    split; [exact H1|]. split; [exact (H2 4)|]. split; [exact H4|].
    exact (proj1 (H6 (Some (snap 7)))).
Defined.

Lemma commit_pushes_or_changes_nothing_witness :
  let hm := undoSettled HistoryFacts.parsesAll true threeDeep in
  _doSaveState None hm = hm /\
  _doSaveState (Some (snap 1)) hm = hm /\
  redoStack hm = [snap 2] /\
  redoStack (_doSaveState (Some (snap 3)) hm) = [] /\
  current (_doSaveState (Some (snap 3)) hm) = Some (snap 3).
Proof.
  intros hm.
  destruct (commit_pushes_or_changes_nothing hm (snap 1)) as (H1 & H2 & _);
    [reflexivity | reflexivity |].
  destruct (commit_pushes_or_changes_nothing hm (snap 3)) as (_ & _ & H3);
    [reflexivity | reflexivity |].
  split; [exact H1|]. split; [apply H2; reflexivity|]. split; [reflexivity|].
  assert (Hne : last (undoStack hm) <> Some (snap 3)) by (vm_compute; discriminate).
  destruct (H3 Hne) as (E1 & E2 & _).
  split; [exact E1|]. apply E2. vm_compute. lia.
Defined.

Lemma debounced_saves_commit_once_witness :
  let pending := Nat.iter 3 saveState threeDeep in
  timerFires (Some (snap 3)) pending = saveStateImmediate (Some (snap 3)) threeDeep /\
  timerFires (Some (snap 4)) (timerFires (Some (snap 3)) pending)
    = timerFires (Some (snap 3)) pending /\
  timerFires (Some (snap 3)) (undo HistoryFacts.parsesAll pending)
    = undo HistoryFacts.parsesAll pending.
Proof.
  intros pending.
  destruct (debounced_saves_commit_once threeDeep 2 eq_refl eq_refl
              (Some (snap 3)) (Some (snap 4))) as (H1 & H2 & _ & H4).
  split; [exact H1|]. split; [exact H2|].
  apply (H4 HistoryFacts.parsesAll). vm_compute. lia.
Defined.

Lemma clear_restarts_history_witness :
  undoStack (clear (Some (snap 9)) threeDeep) = [snap 9] /\
  redoStack (clear (Some (snap 9)) threeDeep) = [] /\
  let restoring := undo HistoryFacts.parsesAll threeDeep in
  undoStack (clear (Some (snap 9)) restoring) = [] /\
  getInfo (clear (Some (snap 9)) restoring) = mkInfo (-1) 0 false false.
Proof.
  destruct (clear_restarts_history threeDeep (snap 9) eq_refl) as [H1 _].
  destruct (H1 eq_refl) as (E1 & E2 & _); [vm_compute; lia|].
  split; [exact E1|]. split; [exact E2|]. intros restoring.
  destruct (clear_restarts_history restoring (snap 9) eq_refl) as [_ H2].
  destruct (H2 (Some (snap 9)) (or_introl eq_refl)) as (F1 & _ & F3 & _).
  split; [exact F1 | exact F3].
Defined.

Lemma getInfo_tells_what_undo_will_do_witness :
  canUndo (getInfo threeDeep) = true /\
  canRedo (getInfo threeDeep) = false /\
  undoCount (getInfo threeDeep) = 2%Z /\
  undoStack (undos HistoryFacts.parsesAll [true; false] threeDeep) = [snap 0] /\
  canUndo (getInfo (undos HistoryFacts.parsesAll [true; false] threeDeep)) = false.
Proof.
  destruct (getInfo_tells_what_undo_will_do threeDeep HistoryFacts.parsesAll)
    as (_ & _ & _ & H); [repeat split|].
  destruct (H (snap 0) [snap 1; snap 2] [true; false] eq_refl eq_refl) as (E1 & E2 & _).
  split; [reflexivity|]. split; [reflexivity|]. split; [reflexivity|].
  split; [exact E1 | exact E2].
Defined.

End HistoryLaws.

Module FilterFacts.
Import Filters.

Lemma nonZero_false q : nonZero q = false -> (q == 0)%Q.
Proof.
  unfold nonZero. intros H. apply negb_false_iff in H. apply Qeq_bool_iff, H.
Qed.

Lemma nonZero_true q : nonZero q = true -> ~ (q == 0)%Q.
Proof.
  unfold nonZero. intros H Hq. apply negb_true_iff in H.
  apply Qeq_bool_iff in Hq. congruence.
Qed.

Lemma positive_true q : positive q = true <-> (0 < q)%Q.
Proof. apply ToolsFacts.Qltb_lt. Qed.

Lemma positive_false q : positive q = false <-> (q <= 0)%Q.
Proof.
  split.
  - apply RelinkFacts.Qltb_ge.
  - intros H. destruct (positive q) eqn:E; [|reflexivity].
    apply positive_true in E. lra.
Qed.

Lemma orDefault_nonZero q : nonZero q = true -> Num.orDefault (Some q) 0 = q.
Proof.
  unfold nonZero, Num.orDefault. intros H. apply negb_true_iff in H.
  rewrite H. reflexivity.
Qed.

Lemma orDefault_positive q : positive q = true -> Num.orDefault (Some q) 0 = q.
Proof.
  intros H. apply orDefault_nonZero. unfold nonZero.
  apply positive_true in H. apply negb_true_iff.
  destruct (Qeq_bool q 0) eqn:E; [|reflexivity].
  apply Qeq_bool_iff in E. lra.
Qed.

(** What reading back the filters made from [s] gives, slider by
    slider. *)
Lemma read_filtersFor s :
  fold_left readFilter (filtersFor s) neutral =
    mkSettings (if nonZero (brightness s) then brightness s else 0)
               (if nonZero (contrast s) then contrast s else 0)
               (if nonZero (saturation s) then saturation s else 0)
               (if positive (blur s) then blur s else 0)
               (if positive (noise s) then noise s else 0).
Proof.
  unfold filtersFor.
  destruct (nonZero (brightness s)) eqn:E1, (nonZero (contrast s)) eqn:E2,
    (nonZero (saturation s)) eqn:E3, (positive (blur s)) eqn:E4,
    (positive (noise s)) eqn:E5;
    cbn [app fold_left readFilter filterType amount String.eqb Ascii.eqb Bool.eqb
         setProperty neutral brightness contrast saturation blur noise];
    rewrite ?(orDefault_nonZero _ E1), ?(orDefault_nonZero _ E2),
      ?(orDefault_nonZero _ E3), ?(orDefault_positive _ E4),
      ?(orDefault_positive _ E5);
    reflexivity.
Qed.

(** X9: the filters of an image and the slider values are two forms of
    the same information as long as blur and noise are not negative:
    [applyFilters()] followed by [updateFilterUI] of the image gives back
    the slider values, number for number.  A negative blur or noise is not
    turned into a filter, so it reads back as 0: the round trip holds
    exactly when both are at least 0.  Whatever filters the image had
    before, also ones of other types, do not survive [applyFilters()]. *)
Theorem filters_round_trip fm old :
  activeObject fm = Some (mkTarget "image" old) ->
  let fm1 := applyFilters fm in
  let img := mkTarget "image" (Some (filtersFor (settings fm))) in
  activeObject fm1 = Some img /\ settings fm1 = settings fm /\
  (sameSettings (settings (updateFilterUI img fm1)) (settings fm) <->
   (0 <= blur (settings fm))%Q /\ (0 <= noise (settings fm))%Q).
Proof.
  intros Ha fm1 img. subst fm1 img. unfold applyFilters. rewrite Ha. simpl.
  split; [reflexivity|]. split; [reflexivity|].
  unfold updateFilterUI. simpl.
  rewrite read_filtersFor. unfold sameSettings. simpl.
  set (s := settings fm).
  destruct (nonZero (brightness s)) eqn:E1, (nonZero (contrast s)) eqn:E2,
    (nonZero (saturation s)) eqn:E3;
    try apply nonZero_false in E1; try apply nonZero_false in E2;
    try apply nonZero_false in E3;
    destruct (positive (blur s)) eqn:E4, (positive (noise s)) eqn:E5;
    try apply positive_true in E4; try apply positive_true in E5;
    try apply positive_false in E4; try apply positive_false in E5;
    (split; [intros (H1 & H2 & H3 & H4 & H5); split; lra
            | intros [H4 H5]; repeat split; lra]).
Qed.

(** The types [applyFilters()] can attach, in the order it pushes them. *)
Definition pushOrder : list string :=
  ["Brightness"; "Contrast"; "Saturation"; "Blur"; "Noise"].

Lemma sublist_skip_if (b : bool) (x : string) l1 l2 :
  sublist l1 l2 -> sublist ((if b then [x] else []) ++ l1) (x :: l2).
Proof.
  intros H. destruct b; simpl; [apply sublist_skip | apply sublist_cons]; exact H.
Qed.

Lemma filtersFor_order s : sublist (map filterType (filtersFor s)) pushOrder.
Proof.
  unfold filtersFor, pushOrder. rewrite !map_app.
  replace (map filterType (if nonZero (brightness s)
             then [mkFilter "Brightness" (Some (brightness s))] else []))
    with (if nonZero (brightness s) then ["Brightness"] else [])
    by (destruct (nonZero (brightness s)); reflexivity).
  replace (map filterType (if nonZero (contrast s)
             then [mkFilter "Contrast" (Some (contrast s))] else []))
    with (if nonZero (contrast s) then ["Contrast"] else [])
    by (destruct (nonZero (contrast s)); reflexivity).
  replace (map filterType (if nonZero (saturation s)
             then [mkFilter "Saturation" (Some (saturation s))] else []))
    with (if nonZero (saturation s) then ["Saturation"] else [])
    by (destruct (nonZero (saturation s)); reflexivity).
  replace (map filterType (if positive (blur s)
             then [mkFilter "Blur" (Some (blur s))] else []))
    with (if positive (blur s) then ["Blur"] else [])
    by (destruct (positive (blur s)); reflexivity).
  replace (map filterType (if positive (noise s)
             then [mkFilter "Noise" (Some (noise s))] else []))
    with (if positive (noise s) then ["Noise"] else [])
    by (destruct (positive (noise s)); reflexivity).
  do 4 apply sublist_skip_if.
  destruct (positive (noise s)); [reflexivity | apply sublist_nil_l].
Qed.

Lemma filtersFor_effective s f :
  f ∈ filtersFor s -> exists v, amount f = Some v /\ ~ (v == 0)%Q.
Proof.
  unfold filtersFor. rewrite !elem_of_app.
  intros [H|[H|[H|[H|H]]]].
  - destruct (nonZero (brightness s)) eqn:E; [|inversion H].
    apply list_elem_of_singleton in H as ->. eexists. split; [reflexivity|].
    apply nonZero_true, E.
  - destruct (nonZero (contrast s)) eqn:E; [|inversion H].
    apply list_elem_of_singleton in H as ->. eexists. split; [reflexivity|].
    apply nonZero_true, E.
  - destruct (nonZero (saturation s)) eqn:E; [|inversion H].
    apply list_elem_of_singleton in H as ->. eexists. split; [reflexivity|].
    apply nonZero_true, E.
  - destruct (positive (blur s)) eqn:E; [|inversion H].
    apply list_elem_of_singleton in H as ->. eexists. split; [reflexivity|].
    apply positive_true in E. lra.
  - destruct (positive (noise s)) eqn:E; [|inversion H].
    apply list_elem_of_singleton in H as ->. eexists. split; [reflexivity|].
    apply positive_true in E. lra.
Qed.

(** X10: [applyFilters()] touches nothing but the filters of an active
    image, and never asks for a history save.  The list it attaches is
    canonical: at most one filter of each of the five types, in the order
    Brightness, Contrast, Saturation, Blur, Noise, and none of them neutral;
    applying a second time changes nothing.  [resetFilters()] leaves the
    sliders neutral, strips an active image of all its filters and then
    asks for one save; with anything else selected it only resets the
    sliders and asks for none. *)
Theorem applied_filters_are_canonical fm :
  let fm1 := applyFilters fm in
  let fm0 := resetFilters fm in
  settings fm1 = settings fm /\ saveRequests fm1 = saveRequests fm /\
  applyFilters fm1 = fm1 /\ settings fm0 = neutral /\
  match activeObject fm with
  | Some obj =>
      if isImage obj then
        (exists fs, activeObject fm1 = Some (mkTarget (targetType obj) (Some fs)) /\
           sublist (map filterType fs) pushOrder /\
           forall f, f ∈ fs -> exists v, amount f = Some v /\ ~ (v == 0)%Q) /\
        activeObject fm0 = Some (mkTarget (targetType obj) (Some [])) /\
        saveRequests fm0 = S (saveRequests fm) /\
        applyFilters fm0 = fm0
      else fm1 = fm /\ activeObject fm0 = activeObject fm /\
           saveRequests fm0 = saveRequests fm
  | None => fm1 = fm /\ activeObject fm0 = None /\
            saveRequests fm0 = saveRequests fm
  end.
Proof.
  intros fm1 fm0. subst fm1 fm0. unfold applyFilters, resetFilters.
  destruct (activeObject fm) as [obj|] eqn:Ha; [|simpl; rewrite Ha; auto 10].
  destruct (isImage obj) eqn:Hi; simpl; [|rewrite Ha, Hi; auto 10].
  unfold isImage in *. simpl. rewrite Hi.
  repeat split; try reflexivity.
  exists (filtersFor (settings fm)). split; [reflexivity|].
  split; [apply filtersFor_order | apply filtersFor_effective].
Qed.

(** ** A concrete image *)

Definition photo : FilterManager :=
  mkFilterManager (mkSettings (3 # 10) 0 (-(1 # 2)) (1 # 4) 0)
    (Some (mkTarget "image" (Some [mkFilter "Grayscale" None]))) 0.

Lemma filters_round_trip_witness :
  let fm1 := applyFilters photo in
  let img := mkTarget "image"
               (Some [mkFilter "Brightness" (Some (3 # 10));
                      mkFilter "Saturation" (Some (-(1 # 2)));
                      mkFilter "Blur" (Some (1 # 4))]) in
  activeObject fm1 = Some img /\
  sameSettings (settings (updateFilterUI img fm1)) (settings photo).
Proof.
  destruct (filters_round_trip photo (Some [mkFilter "Grayscale" None]) eq_refl)
    as (H1 & _ & H3).
  split; [exact H1|]. apply H3. split; vm_compute; discriminate.
Defined.

(** A negative blur is lost on the way. *)
Example negative_blur_reads_back_as_zero :
  let fm := onSliderInput "blur" (-(1 # 2)) photo in
  activeObject fm =
    Some (mkTarget "image" (Some [mkFilter "Brightness" (Some (3 # 10));
                                  mkFilter "Saturation" (Some (-(1 # 2)))])) /\
  blur (settings fm) = (-(1 # 2))%Q /\
  forall img, activeObject fm = Some img ->
    blur (settings (updateFilterUI img fm)) = 0%Q.
Proof.
  split; [reflexivity|]. split; [reflexivity|]. intros img [= <-]. reflexivity.
Qed.

End FilterFacts.

Module DrawingFacts.
Import Scene Tools Drawing SceneFacts.

#[local] Arguments Qabs : simpl never.
#[local] Arguments Qminus : simpl never.
#[local] Arguments Qplus : simpl never.
#[local] Arguments Qmult : simpl never.
#[local] Arguments Qdiv : simpl never.
#[local] Arguments Qopp : simpl never.
#[local] Arguments Num.min : simpl never.
#[local] Arguments Num.max : simpl never.
#[local] Arguments Num.orDefault : simpl never.
#[local] Arguments createBubblePath : simpl never.

Lemma update_ext o f g c :
  (forall obj, f obj = g obj) -> update o f c = update o g c.
Proof.
  intros H. unfold update. destruct (heap c !! o); [rewrite H|]; reflexivity.
Qed.

Lemma onGeom_onGeom F G o : onGeom F (onGeom G o) = onGeom (fun g => F (G g)) o.
Proof. reflexivity. Qed.

Lemma update_overwrites o f g c :
  (forall obj, f (g obj) = f obj) -> update o f (update o g c) = update o f c.
Proof.
  intros H. rewrite ToolsFacts.update_update. apply update_ext, H.
Qed.

Lemma Qle_bool_true a b : Qle_bool a b = true <-> (a <= b)%Q.
Proof. apply Qle_bool_iff. Qed.

Lemma Qle_bool_false a b : Qle_bool a b = false <-> (b < a)%Q.
Proof.
  split; intros H.
  - destruct (Qlt_le_dec b a) as [Hlt|Hle]; [exact Hlt|].
    apply Qle_bool_iff in Hle. congruence.
  - destruct (Qle_bool a b) eqn:E; [|reflexivity].
    apply Qle_bool_iff in E. lra.
Qed.

Lemma min_spec a b :
  (Num.min a b <= a)%Q /\ (Num.min a b <= b)%Q /\
  (Num.min a b = a \/ Num.min a b = b).
Proof.
  unfold Num.min. destruct (Qle_bool a b) eqn:E.
  - apply Qle_bool_true in E. repeat split; auto; lra.
  - apply Qle_bool_false in E. repeat split; auto; lra.
Qed.

Lemma max_spec a b :
  (a <= Num.max a b)%Q /\ (b <= Num.max a b)%Q /\
  (Num.max a b = a \/ Num.max a b = b).
Proof.
  unfold Num.max. destruct (Qle_bool a b) eqn:E.
  - apply Qle_bool_true in E. repeat split; auto; lra.
  - apply Qle_bool_false in E. repeat split; auto; lra.
Qed.

Lemma orDefault_some w d : ~ (w == 0)%Q -> Num.orDefault (Some w) d = w.
Proof.
  intros H. unfold Num.orDefault. destruct (Qeq_bool w 0) eqn:E; [|reflexivity].
  apply Qeq_bool_iff in E. contradiction.
Qed.

Section WithFabric.
Variable centerOf : Geometry -> Point.
Variable boundsOf : Geometry -> Q * Q.
Variable lineBox : Q -> Q -> Q -> Q -> Geometry.
Variable moveLineEnd : Q -> Q -> Geometry -> Geometry.
Variable arrowBox : Q -> Q -> Q -> Q -> Geometry.
Variable pathSize : list PathCmd -> Q * Q.

Abbreviation updateShape := (updateShape moveLineEnd arrowBox).
Abbreviation onMouseMove := (onMouseMove moveLineEnd arrowBox).
Abbreviation onMouseDown := (onMouseDown lineBox arrowBox pathSize).
Abbreviation mouseUp := (mouseUp centerOf boundsOf).
Abbreviation drag :=
  (drag centerOf boundsOf lineBox moveLineEnd arrowBox pathSize).

(** What a move does while a shape is being drawn with one of the tools
    whose case is a single [set] on the shape. *)
Definition reshape (tool : string) (start pointer : Point) (o : Obj) : Obj :=
  let w := (x pointer - x start)%Q in
  let h := (y pointer - y start)%Q in
  if String.eqb tool "circle" then
    onGeom (fun g => setRy (Qabs h / 2) (setRx (Qabs w / 2) (anchor start pointer g))) o
  else if String.eqb tool "text" then
    onGeom (fun g => setWidth (Num.max (Qabs w) 50) (anchor start pointer g)) o
  else if String.eqb tool "bubble" then resizeBubble start pointer o
  else onGeom (dragBox pointer w h) o.

Lemma onMouseMove_reshape t isPanning c start shape p :
  currentTool t ∈ ["rect"; "triangle"; "circle"; "text"; "bubble"] ->
  isDrawingShape t = true -> startPoint t = Some start ->
  currentShape t = Some shape ->
  onMouseMove p (t, isPanning, c) =
    (t, isPanning, update shape (reshape (currentTool t) start p) c).
Proof.
  intros Htool Hd Hs Hc. unfold Drawing.onMouseMove, Drawing.updateShape.
  rewrite Hd, Hs, Hc. simpl. unfold reshape.
  apply list_elem_of_In in Htool. simpl in Htool.
  destruct Htool as [<-|[<-|[<-|[<-|[<-|[]]]]]]; reflexivity.
Qed.

Lemma onMouseMove_idle t isPanning c p :
  isDrawingShape t = false \/ currentShape t = None ->
  onMouseMove p (t, isPanning, c) = (t, isPanning, c).
Proof.
  intros [H|H]; unfold Drawing.onMouseMove; rewrite H; simpl;
    [reflexivity | rewrite orb_true_r; reflexivity].
Qed.

Lemma reshape_overwrites tool start p1 p2 o :
  tool ∈ ["circle"; "text"; "bubble"] ->
  reshape tool start p2 (reshape tool start p1 o) = reshape tool start p2 o.
Proof.
  intros Htool. apply list_elem_of_In in Htool. simpl in Htool.
  destruct Htool as [<-|[<-|[<-|[]]]]; unfold reshape; simpl;
    destruct o as [ty st nm g pr ct bu li ls]; destruct g; reflexivity.
Qed.

(** X11: while an ellipse, a text box or a bubble is dragged out, the
    shape depends on the start point and the latest pointer position only,
    not on the way the pointer took: two moves leave the same state as the
    second alone.  The shape is anchored at the corner of the rectangle
    spanned by start and pointer that is nearest the origin; an ellipse
    gets half the horizontal and half the vertical distance between start
    and pointer as its radii, a text box is as wide as that distance but
    at least 50, a bubble records the two distances but at least 80 by
    50. *)
Theorem anchored_drag_follows_pointer t isPanning c start shape o p1 p2 :
  currentTool t ∈ ["circle"; "text"; "bubble"] ->
  isDrawingShape t = true -> startPoint t = Some start ->
  currentShape t = Some shape -> heap c !! shape = Some o ->
  onMouseMove p2 (onMouseMove p1 (t, isPanning, c)) = onMouseMove p2 (t, isPanning, c) /\
  exists o', heap (onMouseMove p2 (t, isPanning, c)).2 !! shape = Some o' /\
    left (geom o') = Num.min (x start) (x p2) /\
    top (geom o') = Num.min (y start) (y p2) /\
    (currentTool t = "circle" ->
       rx (geom o') = (Qabs (x p2 - x start) / 2)%Q /\
       ry (geom o') = (Qabs (y p2 - y start) / 2)%Q) /\
    (currentTool t = "text" ->
       width (geom o') = Num.max (Qabs (x p2 - x start)) 50 /\
       (50 <= width (geom o'))%Q) /\
    (currentTool t = "bubble" ->
       exists w h, _bubbleWidth (Scene.bubble o') = Some w /\
         _bubbleHeight (Scene.bubble o') = Some h /\
         w = Num.max (Qabs (x p2 - x start)) 80 /\
         h = Num.max (Qabs (y p2 - y start)) 50 /\
         (80 <= w)%Q /\ (50 <= h)%Q /\
         path (Scene.bubble o') =
           createBubblePath 0 0 w h 10
             (Num.orDefault (_tailSize (Scene.bubble o)) 15)).
Proof.
  intros Htool Hd Hs Hc Ho.
  assert (Htool' : currentTool t ∈ ["rect"; "triangle"; "circle"; "text"; "bubble"]).
  { apply list_elem_of_In in Htool. apply list_elem_of_In. simpl in *. tauto. }
  rewrite !(onMouseMove_reshape _ _ _ start shape) by assumption.
  split.
  - rewrite update_overwrites; [reflexivity|].
    intros obj. apply reshape_overwrites, Htool.
  - simpl. rewrite update_lookup_eq with (obj := o) by exact Ho.
    eexists. split; [reflexivity|].
    apply list_elem_of_In in Htool. simpl in Htool.
    destruct Htool as [Ht|[Ht|[Ht|[]]]]; rewrite <- Ht; unfold reshape; simpl.
    + split; [reflexivity|]. split; [reflexivity|].
      split; [|split; discriminate]. intros _. split; reflexivity.
    + split; [reflexivity|]. split; [reflexivity|].
      split; [discriminate|]. split; [|discriminate]. intros _.
      split; [reflexivity|]. apply max_spec.
    + split; [reflexivity|]. split; [reflexivity|].
      split; [discriminate|]. split; [discriminate|]. intros _.
      eexists _, _. repeat split; try reflexivity; apply max_spec.
Qed.

Lemma Qltb_true a b : Num.Qltb a b = true <-> (a < b)%Q.
Proof. apply ToolsFacts.Qltb_lt. Qed.

Lemma Qltb_false a b : Num.Qltb a b = false <-> (b <= a)%Q.
Proof.
  split; [apply RelinkFacts.Qltb_ge|].
  intros H. destruct (Num.Qltb a b) eqn:E; [|reflexivity].
  apply Qltb_true in E. lra.
Qed.

(** The box [dragBox] leaves, side by side. *)
Lemma dragBox_spec p w h g :
  let g' := dragBox p w h g in
  (width g' == Qabs w)%Q /\ (height g' == Qabs h)%Q /\
  left g' = (if Num.Qltb w 0 then x p else left g) /\
  top g' = (if Num.Qltb h 0 then y p else top g).
Proof.
  unfold dragBox.
  destruct (Num.Qltb w 0) eqn:Ew, (Num.Qltb h 0) eqn:Eh; simpl;
    try apply Qltb_true in Ew; try apply Qltb_true in Eh;
    try apply Qltb_false in Ew; try apply Qltb_false in Eh;
    repeat split; try reflexivity;
    try (rewrite Qabs_pos by lra; reflexivity).
Qed.

(** X12: while a rect or a triangle is dragged out, its width and height
    are the distances between start point and pointer.  Its left edge is
    moved to the pointer whenever the pointer is left of the start point,
    and is otherwise left where it was, not put back to the start point:
    after the pointer has been left of the start and has come back to its
    right, the box still begins at that earlier position, left of the
    start point, while its width is the distance from the start point to
    the pointer.  The same holds for the top edge. *)
Theorem box_drag_keeps_earlier_corner t isPanning c start shape o p :
  currentTool t ∈ ["rect"; "triangle"] ->
  isDrawingShape t = true -> startPoint t = Some start ->
  currentShape t = Some shape -> heap c !! shape = Some o ->
  (exists o', heap (onMouseMove p (t, isPanning, c)).2 !! shape = Some o' /\
     (width (geom o') == Qabs (x p - x start))%Q /\
     (height (geom o') == Qabs (y p - y start))%Q /\
     ((x p < x start)%Q -> left (geom o') = x p) /\
     ((x start <= x p)%Q -> left (geom o') = left (geom o)) /\
     ((y p < y start)%Q -> top (geom o') = y p) /\
     ((y start <= y p)%Q -> top (geom o') = top (geom o))) /\
  (forall q, (x q < x start)%Q -> (x start <= x p)%Q ->
     exists o', heap (onMouseMove p (onMouseMove q (t, isPanning, c))).2 !! shape
                = Some o' /\
       left (geom o') = x q /\
       (width (geom o') == x p - x start)%Q).
Proof.
  intros Htool Hd Hs Hc Ho.
  assert (Htool' : currentTool t ∈ ["rect"; "triangle"; "circle"; "text"; "bubble"]).
  { apply list_elem_of_In in Htool. apply list_elem_of_In. simpl in *. tauto. }
  assert (Hre : forall a b obj,
            reshape (currentTool t) a b obj
            = onGeom (dragBox b (x b - x a) (y b - y a)) obj).
  { intros a b obj. apply list_elem_of_In in Htool. simpl in Htool.
    destruct Htool as [<-|[<-|[]]]; reflexivity. }
  rewrite !(onMouseMove_reshape _ _ _ start shape) by assumption.
  split.
  - simpl. rewrite update_lookup_eq with (obj := o) by exact Ho.
    eexists. split; [reflexivity|]. rewrite Hre.
    destruct (dragBox_spec p (x p - x start) (y p - y start) (geom o))
      as (Hw & Hh & Hl & Ht).
    cbn [geom onGeom set_geom].
    split; [exact Hw|]. split; [exact Hh|].
    rewrite Hl, Ht.
    split; [|split; [|split]].
    + intros Hlt. rewrite (proj2 (Qltb_true _ _)) by lra. reflexivity.
    + intros Hle. rewrite (proj2 (Qltb_false _ _)) by lra. reflexivity.
    + intros Hlt. rewrite (proj2 (Qltb_true _ _)) by lra. reflexivity.
    + intros Hle. rewrite (proj2 (Qltb_false _ _)) by lra. reflexivity.
  - intros q Hq Hp.
    rewrite !(onMouseMove_reshape _ _ _ start shape) by assumption.
    cbn [snd]. rewrite ToolsFacts.update_update.
    rewrite update_lookup_eq with (obj := o) by exact Ho.
    eexists. split; [reflexivity|]. rewrite !Hre.
    destruct (dragBox_spec q (x q - x start) (y q - y start) (geom o))
      as (_ & _ & Hl1 & _).
    rewrite (proj2 (Qltb_true _ _)) in Hl1 by lra.
    destruct (dragBox_spec p (x p - x start) (y p - y start)
                (dragBox q (x q - x start) (y q - y start) (geom o)))
      as (Hw & _ & Hl & _).
    rewrite (proj2 (Qltb_false _ _)) in Hl by lra.
    cbn [geom onGeom set_geom]. rewrite Hl, Hl1, Hw.
    rewrite Qabs_pos by lra. split; reflexivity.
Qed.

(** X13: [onMouseDown] creates something only for one of the seven
    drawing tools and only when the pointer is over no object; then it
    adds exactly one new object, at the end of the canvas, and starts a
    drag from the pointer (no save is requested yet, the canvas not being
    in drawing mode).  Over an object a drawing tool only selects that
    object and does not begin to draw: the tool's own handlers of the
    pointer moves and of the release that follow leave everything as it
    is (what fabric itself does with a press on a selectable object is not
    theirs).  With any other tool the objects, the selection and the tool
    state stay as they are; only the hand tool starts panning. *)
Theorem mouse_down_creates_only_on_empty_canvas t isPanning c target p :
  let st' := onMouseDown target p (t, isPanning, c) in
  (currentTool t ∉ drawingTools ->
     st'.1.1 = t /\ heap st'.2 = heap c /\ objects st'.2 = objects c /\
     activeObject st'.2 = activeObject c /\ saveRequests st'.2 = saveRequests c /\
     st'.1.2 = (if String.eqb (currentTool t) "hand" then true else isPanning)) /\
  (currentTool t ∈ drawingTools ->
     match target with
     | Some o =>
         st' = (t, isPanning, setActiveObject o c) /\
         (isDrawingShape t = false ->
            (forall q, onMouseMove q st' = st') /\
            mouseUp st' = st')
     | None =>
         st'.1.1 = mkTools (currentTool t) true (Some p) (Some (nextId c)) /\
         st'.1.2 = isPanning /\
         objects st'.2 = objects c ++ [nextId c] /\
         nextId st'.2 = S (nextId c) /\
         (forall id, id <> nextId c -> heap st'.2 !! id = heap c !! id) /\
         is_Some (heap st'.2 !! nextId c) /\
         activeObject st'.2 = activeObject c /\
         (isDrawingMode c = false -> saveRequests st'.2 = saveRequests c)
     end).
Proof.
  intros st'. subst st'. split.
  - intros Hnot.
    assert (Hshape : bool_decide (currentTool t ∈ shapeTools) = false).
    { apply bool_decide_eq_false. intros H. apply Hnot.
      apply list_elem_of_In in H. apply list_elem_of_In.
      unfold shapeTools, drawingTools in *. simpl in *. tauto. }
    assert (Htext : String.eqb (currentTool t) "text" = false).
    { apply String.eqb_neq. intros H. apply Hnot. rewrite H.
      apply list_elem_of_In. unfold drawingTools. simpl. tauto. }
    assert (Hbubble : String.eqb (currentTool t) "bubble" = false).
    { apply String.eqb_neq. intros H. apply Hnot. rewrite H.
      apply list_elem_of_In. unfold drawingTools. simpl. tauto. }
    assert (Hdraw : bool_decide (currentTool t ∈ drawingTools) = false)
      by (apply bool_decide_eq_false; exact Hnot).
    unfold Drawing.onMouseDown. rewrite Hshape, Htext, Hbubble, Hdraw.
    destruct target; destruct (String.eqb (currentTool t) "hand");
      simpl; auto 10.
  - intros Hin.
    assert (Hdraw : bool_decide (currentTool t ∈ drawingTools) = true)
      by (apply bool_decide_eq_true; exact Hin).
    destruct target as [o|].
    + unfold Drawing.onMouseDown at 1. rewrite Hdraw. split; [reflexivity|].
      intros Hd. unfold Drawing.onMouseDown. rewrite Hdraw.
      split; [intros q; apply onMouseMove_idle; left; exact Hd|].
      unfold Drawing.mouseUp, onMouseUp. rewrite Hd. simpl.
      assert (Hhand : String.eqb (currentTool t) "hand" = false).
      { apply String.eqb_neq. intros H. rewrite H in Hin.
        apply list_elem_of_In in Hin. unfold drawingTools in Hin. simpl in Hin.
        repeat (destruct Hin as [Hin|Hin]; [discriminate Hin|]). exact Hin. }
      rewrite Hhand. reflexivity.
    + unfold Drawing.onMouseDown, createShape, createTextBox, createBubble.
      apply list_elem_of_In in Hin. unfold drawingTools in Hin. simpl in Hin.
      destruct t as [tool d sp sh]. simpl in *.
      destruct Hin as [<-|[<-|[<-|[<-|[<-|[<-|[<-|[]]]]]]]]; simpl;
        (split; [reflexivity|]); (split; [reflexivity|]);
        (split; [reflexivity|]); (split; [reflexivity|]);
        (split; [intros id Hid; apply lookup_insert_ne; congruence|]);
        (split; [rewrite lookup_insert_eq; eexists; reflexivity|]);
        (split; [reflexivity|]); intros _; reflexivity.
Qed.

(** *** Whole gestures *)

Lemma update_same o c : update o (fun obj => obj) c = c.
Proof.
  unfold update. destruct (heap c !! o) as [obj|] eqn:E; [|reflexivity].
  rewrite insert_id by exact E. destruct c; reflexivity.
Qed.

Lemma saveRequests_update o f c : saveRequests (update o f c) = saveRequests c.
Proof. apply update_frame. Qed.

Lemma activeObject_update o f c : activeObject (update o f c) = activeObject c.
Proof. apply update_frame. Qed.

Lemma timeouts_update o f c : timeouts (update o f c) = timeouts c.
Proof. apply update_frame. Qed.

Lemma saveRequests_add o c : saveRequests (add o c) = saveRequests c.
Proof. reflexivity. Qed.
Lemma saveRequests_alloc obj c : saveRequests (alloc obj c).2 = saveRequests c.
Proof. reflexivity. Qed.
Lemma saveRequests_setActiveObject o c :
  saveRequests (setActiveObject o c) = saveRequests c.
Proof. reflexivity. Qed.
Lemma saveRequests_setTimeout k c : saveRequests (setTimeout k c) = saveRequests c.
Proof. reflexivity. Qed.
Lemma timeouts_add o c : timeouts (add o c) = timeouts c.
Proof. reflexivity. Qed.
Lemma timeouts_alloc obj c : timeouts (alloc obj c).2 = timeouts c.
Proof. reflexivity. Qed.
Lemma timeouts_setActiveObject o c : timeouts (setActiveObject o c) = timeouts c.
Proof. reflexivity. Qed.
Lemma timeouts_requestSave c : timeouts (requestSave c) = timeouts c.
Proof. reflexivity. Qed.
Lemma activeObject_requestSave c : activeObject (requestSave c) = activeObject c.
Proof. reflexivity. Qed.
Lemma activeObject_add o c : activeObject (add o c) = activeObject c.
Proof. reflexivity. Qed.
Lemma activeObject_alloc obj c : activeObject (alloc obj c).2 = activeObject c.
Proof. reflexivity. Qed.

Lemma updateTextPositionForShape_quiet shape textbox c :
  let c' := updateTextPositionForShape centerOf shape textbox c in
  saveRequests c' = saveRequests c /\ timeouts c' = timeouts c /\
  activeObject c' = activeObject c.
Proof.
  unfold updateTextPositionForShape. destruct (heap c !! shape); [|auto].
  cbv zeta. rewrite saveRequests_update, timeouts_update, activeObject_update. auto.
Qed.

Lemma updateTextPositionForBubble_quiet bubble textbox c :
  let c' := updateTextPositionForBubble centerOf bubble textbox c in
  saveRequests c' = saveRequests c /\ timeouts c' = timeouts c /\
  activeObject c' = activeObject c.
Proof.
  unfold updateTextPositionForBubble. destruct (heap c !! bubble); [|auto].
  cbv zeta. rewrite saveRequests_update, timeouts_update, activeObject_update. auto.
Qed.

(** The object a drawing tool puts on the canvas when the button goes
    down. *)
Definition firstShape (tool : string) (p : Point) : Obj :=
  if String.eqb tool "rect" then newShape "rect" "rect" p
  else if String.eqb tool "circle" then newShape "ellipse" "circle" p
  else if String.eqb tool "triangle" then newShape "triangle" "triangle" p
  else if String.eqb tool "line" then newLine lineBox (x p) (y p) (x p) (y p)
  else if String.eqb tool "arrow" then createArrow arrowBox (x p) (y p) (x p) (y p)
  else if String.eqb tool "text" then newTextBox p
  else newBubble pathSize p.

Lemma onMouseDown_starts t isPanning c p :
  currentTool t ∈ drawingTools ->
  onMouseDown None p (t, isPanning, c) =
    (mkTools (currentTool t) true (Some p) (Some (nextId c)), isPanning,
     add (nextId c) (alloc (firstShape (currentTool t) p) c).2).
Proof.
  intros Hin. apply list_elem_of_In in Hin. unfold drawingTools in Hin. simpl in Hin.
  destruct t as [tool d sp sh]. simpl in *.
  unfold Drawing.onMouseDown, createShape, createTextBox, createBubble, firstShape.
  destruct Hin as [<-|[<-|[<-|[<-|[<-|[<-|[<-|[]]]]]]]]; reflexivity.
Qed.

(** All the moves of a drag, applied to the shape. *)
Definition reshapeAll (tool : string) (start : Point) (moves : list Point)
    (o : Obj) : Obj :=
  fold_left (fun obj p => reshape tool start p obj) moves o.

Lemma moves_reshape tool start shape isPanning moves : forall c,
  tool ∈ ["rect"; "triangle"; "circle"; "text"; "bubble"] ->
  fold_left (fun s p => onMouseMove p s) moves
    (mkTools tool true (Some start) (Some shape), isPanning, c) =
  (mkTools tool true (Some start) (Some shape), isPanning,
   update shape (reshapeAll tool start moves) c).
Proof.
  intros c Htool. revert c.
  induction moves as [|q rest IH]; intros c; cbn [fold_left].
  - unfold reshapeAll. cbn [fold_left]. rewrite update_same. reflexivity.
  - rewrite (onMouseMove_reshape _ _ _ start shape) by (try reflexivity; exact Htool).
    cbn [currentTool]. rewrite IH, ToolsFacts.update_update. reflexivity.
Qed.

Lemma reshape_keeps (A : Type) (proj : Obj -> A) tool start p o :
  (forall g obj, proj (set_geom g obj) = proj obj) ->
  (forall b obj, proj (set_bubble b obj) = proj obj) ->
  proj (reshape tool start p o) = proj o.
Proof.
  intros Hg Hb. unfold reshape, resizeBubble, onGeom.
  destruct (String.eqb tool "circle"); [apply Hg|].
  destruct (String.eqb tool "text"); [apply Hg|].
  destruct (String.eqb tool "bubble"); [rewrite Hb; apply Hg | apply Hg].
Qed.

Lemma reshapeAll_keeps (A : Type) (proj : Obj -> A) tool start moves : forall o,
  (forall g obj, proj (set_geom g obj) = proj obj) ->
  (forall b obj, proj (set_bubble b obj) = proj obj) ->
  proj (reshapeAll tool start moves o) = proj o.
Proof.
  intros o Hg Hb. revert o. unfold reshapeAll.
  induction moves as [|q rest IH]; intros o; cbn [fold_left]; [reflexivity|].
  rewrite IH. apply reshape_keeps; assumption.
Qed.

(** What [onMouseUp] does at the end of a drag, by tool. *)
Definition finish (tool : string) (shape : ObjId) (c : Canvas) : Canvas :=
  if String.eqb tool "text" then finalizeTextBox (Some shape) c
  else if String.eqb tool "bubble" then finalizeBubble centerOf (Some shape) c
  else if bool_decide (tool ∈ ["rect"; "circle"; "triangle"])
  then finalizeShapeWithText centerOf boundsOf (Some shape) c
  else c.

Lemma mouseUp_finishes tool start shape isPanning c :
  tool <> "hand" ->
  mouseUp (mkTools tool true start (Some shape), isPanning, c) =
    (mkTools tool false None None, isPanning, requestSave (finish tool shape c)).
Proof.
  intros Hhand. apply String.eqb_neq in Hhand.
  unfold Drawing.mouseUp, onMouseUp, finish.
  cbn [isDrawingShape currentShape currentTool andb].
  rewrite bool_decide_eq_true_2 by (eexists; reflexivity).
  cbn [currentTool]. rewrite Hhand. reflexivity.
Qed.

Lemma in_drawing_not_hand tool : tool ∈ drawingTools -> tool <> "hand".
Proof.
  intros Hin ->. apply list_elem_of_In in Hin. unfold drawingTools in Hin.
  simpl in Hin. repeat (destruct Hin as [Hin|Hin]; [discriminate Hin|]). exact Hin.
Qed.

(** A whole drag with a drawing tool that reshapes one object. *)
Lemma drag_reshapes t isPanning c p0 moves :
  currentTool t ∈ ["rect"; "triangle"; "circle"; "text"; "bubble"] ->
  drag None p0 moves (t, isPanning, c) =
    (mkTools (currentTool t) false None None, isPanning,
     requestSave
       (finish (currentTool t) (nextId c)
          (update (nextId c) (reshapeAll (currentTool t) p0 moves)
             (add (nextId c) (alloc (firstShape (currentTool t) p0) c).2)))).
Proof.
  intros Htool.
  assert (Hin : currentTool t ∈ drawingTools).
  { apply list_elem_of_In in Htool. apply list_elem_of_In.
    unfold drawingTools. simpl in *. tauto. }
  unfold Drawing.drag. rewrite onMouseDown_starts by exact Hin.
  rewrite moves_reshape by exact Htool.
  apply mouseUp_finishes, in_drawing_not_hand, Hin.
Qed.

(** The sizes [snapShape] guarantees. *)
Lemma snapShape_at_least s :
  let s' := snapShape s in
  if String.eqb (type s) "ellipse"
  then (60 <= rx (geom s') * 2)%Q /\ (40 <= ry (geom s') * 2)%Q
  else (60 <= width (geom s'))%Q /\ (40 <= height (geom s'))%Q.
Proof.
  unfold snapShape. destruct (String.eqb (type s) "ellipse").
  - destruct (Num.Qltb (rx (geom s) * 2) 60) eqn:E1,
      (Num.Qltb (ry (geom s) * 2) 40) eqn:E2; cbn [geom onGeom set_geom setRx setRy rx ry];
      try apply Qltb_false in E1; try apply Qltb_false in E2; split; lra.
  - destruct (Num.Qltb (width (geom s)) 60) eqn:E1,
      (Num.Qltb (height (geom s)) 40) eqn:E2;
      cbn [geom onGeom set_geom setWidth setHeight width height];
      try apply Qltb_false in E1; try apply Qltb_false in E2; split; lra.
Qed.

Lemma snapShape_keeps (A : Type) (proj : Obj -> A) s :
  (forall g obj, proj (set_geom g obj) = proj obj) ->
  proj (snapShape s) = proj s.
Proof.
  intros Hg. unfold snapShape, onGeom.
  destruct (String.eqb (type s) "ellipse");
    repeat match goal with |- context [if ?b then _ else _] => destruct b end;
    rewrite ?Hg; reflexivity.
Qed.

Lemma freshPair_heap c c' a b :
  heap c' = heap c -> CascadeFacts.freshPair c a b -> CascadeFacts.freshPair c' a b.
Proof. unfold CascadeFacts.freshPair. intros ->. exact (fun H => H). Qed.

Lemma createBoundTextForShape_quiet shape c s :
  heap c !! shape = Some s ->
  let c' := createBoundTextForShape centerOf boundsOf shape c in
  saveRequests c' = saveRequests c /\ activeObject c' = Some (single shape) /\
  timeouts c' = timeouts c.
Proof.
  intros Hs c'. subst c'. rewrite (ToolsFacts.createBoundTextForShape_eq _ _ _ _ _ Hs).
  unfold setupShapeTextEvents, bindShapeTextEvents.
  split; [|split; [reflexivity|]].
  - rewrite saveRequests_setActiveObject, !saveRequests_update, saveRequests_add.
    rewrite (proj1 (updateTextPositionForShape_quiet _ _ _)). reflexivity.
  - rewrite timeouts_setActiveObject, !timeouts_update, timeouts_add.
    rewrite (proj1 (proj2 (updateTextPositionForShape_quiet _ _ _))). reflexivity.
Qed.

Lemma createBoundTextForBubble_quiet bubble c b :
  heap c !! bubble = Some b ->
  let c' := createBoundTextForBubble centerOf bubble c in
  saveRequests c' = saveRequests c /\ activeObject c' = Some (single bubble) /\
  timeouts c' = timeouts c ++ [selectAndEditLater (nextId c)].
Proof.
  intros Hs c'. subst c'. rewrite (ToolsFacts.createBoundTextForBubble_eq _ _ _ _ Hs).
  unfold setupBubbleTextEvents, bindBubbleTextEvents.
  split; [|split; [reflexivity|]].
  - rewrite saveRequests_setTimeout, saveRequests_setActiveObject,
      !saveRequests_update, saveRequests_add.
    rewrite (proj1 (updateTextPositionForBubble_quiet _ _ _)). reflexivity.
  - unfold setTimeout at 1. cbn [timeouts set_timeouts].
    rewrite timeouts_setActiveObject, !timeouts_update, timeouts_add.
    rewrite (proj1 (proj2 (updateTextPositionForBubble_quiet _ _ _))). reflexivity.
Qed.

Lemma createBoundTextForShape_text shape c s :
  heap c !! shape = Some s ->
  props <$> heap (createBoundTextForShape centerOf boundsOf shape c) !! nextId c
  = Some (mkTextProps "" textColor "normal" None 0 false).
Proof.
  intros Hs. rewrite (ToolsFacts.createBoundTextForShape_eq _ _ _ _ _ Hs).
  unfold setupShapeTextEvents, bindShapeTextEvents.
  rewrite heap_setActiveObject.
  rewrite !(ToolsFacts.update_keeps TextProps props) by (intros; reflexivity).
  rewrite heap_add. unfold updateTextPositionForShape. rewrite heap_alloc.
  destruct (<[nextId c:=_]> (heap c) !! shape);
    [rewrite (ToolsFacts.update_keeps TextProps props) by (intros; reflexivity)|];
    rewrite heap_alloc, lookup_insert_eq; reflexivity.
Qed.

Lemma createBoundTextForBubble_text bubble c b :
  heap c !! bubble = Some b ->
  exists tx, heap (createBoundTextForBubble centerOf bubble c) !! nextId c = Some tx /\
    props tx = mkTextProps placeholderText placeholderFill "italic" None 0 true /\
    (width (geom tx) = Num.orDefault (_bubbleWidth (Scene.bubble b)) 150 - 30)%Q.
Proof.
  intros Hs. rewrite (ToolsFacts.createBoundTextForBubble_eq _ _ _ _ Hs).
  unfold setupBubbleTextEvents, bindBubbleTextEvents.
  rewrite heap_setTimeout, heap_setActiveObject.
  set (c0 := updateTextPositionForBubble _ _ _ _).
  assert (H0 : exists tx, heap c0 !! nextId c = Some tx /\
            props tx = mkTextProps placeholderText placeholderFill "italic" None 0 true /\
            (width (geom tx) = Num.orDefault (_bubbleWidth (Scene.bubble b)) 150 - 30)%Q).
  { subst c0. unfold updateTextPositionForBubble. rewrite heap_alloc.
    destruct (<[nextId c:=_]> (heap c) !! bubble).
    - rewrite update_lookup_eq with (obj := newBubbleText
          (Num.orDefault (_bubbleWidth (Scene.bubble b)) 150 - 30))
        by (rewrite heap_alloc; apply lookup_insert_eq).
      eexists. split; [reflexivity|]. split; reflexivity.
    - rewrite heap_alloc, lookup_insert_eq.
      eexists. split; [reflexivity|]. split; reflexivity. }
  destruct H0 as (tx & Htx & Hp & Hw).
  pose proof (ToolsFacts.update_keeps _ (fun o => (props o, geom o))) as K.
  assert (E : (fun o => (props o, geom o)) <$>
              heap (update (nextId c) (on (addRemoved (removeBoundBubble (nextId c))))
                (update (nextId c) (on (addExited (bubbleTextExited (nextId c))))
                   (update (nextId c) (on (addEntered (bubbleTextEntered (nextId c))))
                      (update bubble (on (addRemoved (removeText (nextId c))))
                         (update bubble (on (addTransform (syncBubbleText bubble (nextId c))))
                            (update (nextId c) (setBoundBubble (Some bubble))
                               (update bubble (setBoundText (Some (nextId c)))
                                  (add (nextId c) c0))))))))
              !! nextId c = Some (props tx, geom tx)).
  { rewrite !K by (intros; reflexivity). rewrite heap_add, Htx. reflexivity. }
  apply fmap_Some in E as (tx' & Htx' & Heq). injection Heq as Hp' Hg'.
  exists tx'. split; [exact Htx'|]. rewrite <- Hp', <- Hg'. auto.
Qed.

(** X14: a whole drag with the rect, circle or triangle tool, from the
    button going down over empty canvas to its release, whatever way the
    pointer takes, on a canvas that is not in drawing mode (as [setTool]
    leaves it for these tools): the canvas gains exactly two objects at its end, the
    shape and an empty text bound to it as a pair whose members remove each
    other; the shape is at least 60 by 40 and is selected; one history save
    is requested; and the tool is ready for the next drag. *)
Theorem shape_drag_creates_bound_pair t isPanning c p0 moves :
  currentTool t ∈ ["rect"; "circle"; "triangle"] ->
  isDrawingMode c = false ->
  let shape := nextId c in
  let textbox := S (nextId c) in
  let st' := drag None p0 moves (t, isPanning, c) in
  st'.1.1 = mkTools (currentTool t) false None None /\
  st'.1.2 = isPanning /\
  objects st'.2 = objects c ++ [shape; textbox] /\
  CascadeFacts.freshPair st'.2 shape textbox /\
  activeObject st'.2 = Some (single shape) /\
  saveRequests st'.2 = S (saveRequests c) /\
  exists s tx, heap st'.2 !! shape = Some s /\ heap st'.2 !! textbox = Some tx /\
    _shapeType s = Some (currentTool t) /\
    text (props tx) = "" /\ _isPlaceholder (props tx) = false /\
    if String.eqb (currentTool t) "circle"
    then (60 <= rx (geom s) * 2)%Q /\ (40 <= ry (geom s) * 2)%Q
    else (60 <= width (geom s))%Q /\ (40 <= height (geom s))%Q.
Proof.
  intros Htool _ shape textbox st'. subst st' textbox.
  assert (Htool' : currentTool t ∈ ["rect"; "triangle"; "circle"; "text"; "bubble"]).
  { apply list_elem_of_In in Htool. apply list_elem_of_In. simpl in *. tauto. }
  rewrite drag_reshapes by exact Htool'. cbn [fst snd]. fold shape.
  set (tool := currentTool t) in *.
  set (obj0 := firstShape tool p0).
  set (c1 := add shape (alloc obj0 c).2).
  assert (Hfin : finish tool shape (update shape (reshapeAll tool p0 moves) c1)
                 = createBoundTextForShape centerOf boundsOf shape
                     (update shape (fun o => snapShape (reshapeAll tool p0 moves o)) c1)).
  { unfold finish. apply list_elem_of_In in Htool. simpl in Htool.
    destruct Htool as [<-|[<-|[<-|[]]]]; cbn [String.eqb Ascii.eqb Bool.eqb];
      (rewrite bool_decide_eq_true_2 by (apply list_elem_of_In; simpl; tauto));
      unfold finalizeShapeWithText; rewrite ToolsFacts.update_update; reflexivity. }
  rewrite Hfin. clear Hfin.
  set (s := snapShape (reshapeAll tool p0 moves obj0)).
  set (c2 := update shape _ c1).
  assert (H1 : heap c1 !! shape = Some obj0).
  { subst c1. rewrite heap_add, heap_alloc. apply lookup_insert_eq. }
  assert (H2 : heap c2 !! shape = Some s).
  { subst c2. rewrite update_lookup_eq with (obj := obj0) by exact H1. reflexivity. }
  assert (Hn : nextId c2 = S shape).
  { subst c2. rewrite update_nextId. reflexivity. }
  assert (Hobjs : objects c2 = objects c ++ [shape]).
  { subst c2. rewrite update_objects. reflexivity. }
  assert (Hlist : listeners s = noListeners).
  { subst s. rewrite (snapShape_keeps _ listeners) by reflexivity.
    rewrite (reshapeAll_keeps _ listeners) by reflexivity.
    subst obj0. unfold firstShape.
    repeat match goal with |- context [if ?b then _ else _] => destruct b end;
      reflexivity. }
  assert (Hlt : shape < nextId c2) by (rewrite Hn; lia).
  pose proof (CascadeFacts.createBoundTextForShape_freshPair centerOf boundsOf
                shape c2 s H2 Hlt) as Hfresh.
  rewrite Hn in Hfresh.
  specialize (Hfresh ltac:(rewrite Hlist; reflexivity)).
  destruct (ToolsFacts.createBoundTextForShape_keeps centerOf boundsOf _
              (fun o => (geom o, _shapeType o)) shape c2 s H2 Hlt) as [Hkeep Hobj3];
    [reflexivity | reflexivity |].
  destruct (createBoundTextForShape_quiet shape c2 s H2) as (Hsave & Hact & _).
  pose proof (createBoundTextForShape_text shape c2 s H2) as Htext.
  rewrite Hn in Htext.
  set (c3 := createBoundTextForShape centerOf boundsOf shape c2) in *.
  split; [reflexivity|]. split; [reflexivity|].
  split; [rewrite objects_requestSave, Hobj3, Hobjs, Hn, <- app_assoc; reflexivity|].
  split; [apply (freshPair_heap c3); [apply heap_requestSave | exact Hfresh]|].
  split; [rewrite activeObject_requestSave; exact Hact|].
  split.
  { cbn [requestSave saveRequests set_saveRequests]. rewrite Hsave.
    subst c2. rewrite saveRequests_update. reflexivity. }
  rewrite heap_requestSave.
  apply fmap_Some in Hkeep as (s' & Hs' & Hgs).
  apply fmap_Some in Htext as (tx & Htx & Hptx).
  injection Hgs as Hg Hst.
  exists s', tx. split; [exact Hs'|]. split; [exact Htx|].
  assert (Htype : _shapeType s = Some tool /\
                  String.eqb (type (reshapeAll tool p0 moves obj0)) "ellipse"
                  = String.eqb tool "circle").
  { subst s. rewrite (snapShape_keeps _ _shapeType) by reflexivity.
    rewrite (reshapeAll_keeps _ _shapeType) by reflexivity.
    rewrite (reshapeAll_keeps _ type) by reflexivity.
    subst obj0. apply list_elem_of_In in Htool. simpl in Htool.
    destruct Htool as [<-|[<-|[<-|[]]]]; split; reflexivity. }
  destruct Htype as [Hst' Hty].
  split; [rewrite <- Hst; exact Hst'|].
  split; [rewrite <- Hptx; reflexivity|]. split; [rewrite <- Hptx; reflexivity|].
  rewrite <- Hg, <- Hty.
  apply (snapShape_at_least (reshapeAll tool p0 moves obj0)).
Qed.



Lemma finalizeTextBox_eq textbox c tx :
  heap c !! textbox = Some tx -> type tx = "textbox" ->
  finalizeTextBox (Some textbox) c =
    setTimeout (editLater textbox)
      (setupTextBoxEvents textbox
         (setActiveObject textbox (update textbox snapTextBox c))).
Proof.
  intros Htx Hty. unfold finalizeTextBox. rewrite Htx, Hty. reflexivity.
Qed.

Lemma finalizeBubble_eq bubble c b :
  heap c !! bubble = Some b -> _shapeType b = Some "bubble" ->
  finalizeBubble centerOf (Some bubble) c =
    createBoundTextForBubble centerOf bubble (update bubble snapBubble c).
Proof.
  intros Hb Hty. unfold finalizeBubble. rewrite Hb.
  rewrite bool_decide_eq_true_2 by exact Hty. reflexivity.
Qed.

(** The sizes [snapBubble] guarantees. *)
Lemma snapBubble_at_least b :
  exists w h,
    Scene.bubble (snapBubble b) =
      mkBubbleProps (createBubblePath 0 0 w h 10
                       (Num.orDefault (_tailSize (Scene.bubble b)) 15))
                    (Some w) (Some h) (_tailSize (Scene.bubble b)) /\
    (100 <= w)%Q /\ (60 <= h)%Q.
Proof.
  unfold snapBubble.
  destruct (Num.Qltb (Num.orDefault (_bubbleWidth (Scene.bubble b)) 150) 100) eqn:E1,
    (Num.Qltb (Num.orDefault (_bubbleHeight (Scene.bubble b)) 80) 60) eqn:E2;
    try apply Qltb_false in E1; try apply Qltb_false in E2;
    eexists _, _; (split; [reflexivity|]); split; lra.
Qed.

Lemma reshapeAll_tail start moves : forall o,
  _tailSize (Scene.bubble (reshapeAll "bubble" start moves o))
  = _tailSize (Scene.bubble o).
Proof.
  unfold reshapeAll. induction moves as [|q rest IH]; intros o; cbn [fold_left];
    [reflexivity|].
  rewrite IH. reflexivity.
Qed.

(** X15: a whole drag with the text tool leaves one new text box, at
    least 80 wide, showing the placeholder in the muted style, selected,
    with the placeholder handlers registered and a timer set that will
    start editing; a whole drag with the bubble tool leaves a bubble that
    records a size of at least 100 by 60, with the outline for that size
    and a tail of 15, and a placeholder text 30 narrower bound to it as a
    pair whose members remove each other.  Either way, on a canvas that
    is not in drawing mode, one history save is requested and the tool is
    ready for the next drag. *)
Theorem text_and_bubble_drags_end_with_placeholder t isPanning c p0 moves :
  let shape := nextId c in
  let textbox := S (nextId c) in
  let st' := drag None p0 moves (t, isPanning, c) in
  (currentTool t = "text" -> isDrawingMode c = false ->
     st'.1.1 = mkTools "text" false None None /\
     objects st'.2 = objects c ++ [shape] /\
     activeObject st'.2 = Some (single shape) /\
     saveRequests st'.2 = S (saveRequests c) /\
     timeouts st'.2 = timeouts c ++ [editLater shape] /\
     exists tx, heap st'.2 !! shape = Some tx /\
       props tx = mkTextProps placeholderText placeholderFill "italic"
                              (Some borderColor) borderWidth true /\
       (80 <= width (geom tx))%Q /\
       onEntered (listeners tx) = [textBoxEntered shape] /\
       onExited (listeners tx) = [textBoxExited shape]) /\
  (currentTool t = "bubble" -> isDrawingMode c = false ->
     st'.1.1 = mkTools "bubble" false None None /\
     objects st'.2 = objects c ++ [shape; textbox] /\
     CascadeFacts.freshPair st'.2 shape textbox /\
     activeObject st'.2 = Some (single shape) /\
     saveRequests st'.2 = S (saveRequests c) /\
     timeouts st'.2 = timeouts c ++ [selectAndEditLater textbox] /\
     exists b tx w h, heap st'.2 !! shape = Some b /\
       heap st'.2 !! textbox = Some tx /\
       Scene.bubble b = mkBubbleProps (createBubblePath 0 0 w h 10 15)
                                      (Some w) (Some h) (Some 15%Q) /\
       (100 <= w)%Q /\ (60 <= h)%Q /\
       props tx = mkTextProps placeholderText placeholderFill "italic" None 0 true /\
       width (geom tx) = (w - 30)%Q).
Proof.
  intros shape textbox st'. subst st' textbox. split.
  - intros Ht _.
    rewrite drag_reshapes by (rewrite Ht; apply list_elem_of_In; simpl; tauto).
    cbn [fst snd]. rewrite Ht. fold shape.
    set (obj0 := firstShape "text" p0).
    set (c1 := add shape (alloc obj0 c).2).
    set (R := reshapeAll "text" p0 moves).
    assert (H1 : heap c1 !! shape = Some obj0).
    { subst c1. rewrite heap_add, heap_alloc. apply lookup_insert_eq. }
    assert (H2 : heap (update shape R c1) !! shape = Some (R obj0)).
    { rewrite update_lookup_eq with (obj := obj0) by exact H1. reflexivity. }
    unfold finish. cbn [String.eqb Ascii.eqb Bool.eqb].
    rewrite (finalizeTextBox_eq shape _ (R obj0) H2)
      by (subst R; rewrite (reshapeAll_keeps _ type) by reflexivity; reflexivity).
    unfold setupTextBoxEvents.
    split; [reflexivity|].
    split.
    { rewrite objects_requestSave, objects_setTimeout, !update_objects,
        objects_setActiveObject, !update_objects. reflexivity. }
    split.
    { rewrite activeObject_requestSave. unfold setTimeout.
      cbn [activeObject set_timeouts]. rewrite !activeObject_update. reflexivity. }
    split.
    { cbn [requestSave saveRequests set_saveRequests].
      rewrite saveRequests_setTimeout, !saveRequests_update,
        saveRequests_setActiveObject, !saveRequests_update. reflexivity. }
    split.
    { rewrite timeouts_requestSave. unfold setTimeout at 1.
      cbn [timeouts set_timeouts].
      rewrite !timeouts_update, timeouts_setActiveObject, !timeouts_update.
      reflexivity. }
    rewrite heap_requestSave, heap_setTimeout, !update_lookup, heap_setActiveObject,
      !update_lookup.
    rewrite !decide_True by reflexivity. rewrite H1. cbn [fmap option_fmap option_map].
    eexists. split; [reflexivity|].
    assert (Hp : props (R obj0) = props obj0)
      by (subst R; apply (reshapeAll_keeps _ props); reflexivity).
    assert (Hl : listeners (R obj0) = noListeners)
      by (subst R; rewrite (reshapeAll_keeps _ listeners) by reflexivity; reflexivity).
    unfold snapTextBox.
    destruct (Num.Qltb (width (geom (R obj0))) 80) eqn:E;
      cbn [on onProps onGeom set_listeners set_props set_geom props geom listeners
           setWidth width addExited addEntered onEntered onExited onTransform
           onRemoved showPlaceholder stroke strokeWidth];
      rewrite ?Hp, ?Hl;
      (split; [reflexivity|]); (split; [|split; reflexivity]).
    + lra.
    + apply Qltb_false in E. exact E.
  - intros Ht _.
    rewrite drag_reshapes by (rewrite Ht; apply list_elem_of_In; simpl; tauto).
    cbn [fst snd]. rewrite Ht. fold shape.
    set (obj0 := firstShape "bubble" p0).
    set (c1 := add shape (alloc obj0 c).2).
    set (R := reshapeAll "bubble" p0 moves).
    assert (H1 : heap c1 !! shape = Some obj0).
    { subst c1. rewrite heap_add, heap_alloc. apply lookup_insert_eq. }
    assert (H2 : heap (update shape R c1) !! shape = Some (R obj0)).
    { rewrite update_lookup_eq with (obj := obj0) by exact H1. reflexivity. }
    unfold finish. cbn [String.eqb Ascii.eqb Bool.eqb].
    rewrite (finalizeBubble_eq shape _ (R obj0) H2)
      by (subst R; rewrite (reshapeAll_keeps _ _shapeType) by reflexivity; reflexivity).
    rewrite ToolsFacts.update_update.
    set (b := snapBubble (R obj0)).
    set (c2 := update shape _ c1).
    assert (H3 : heap c2 !! shape = Some b).
    { subst c2. rewrite update_lookup_eq with (obj := obj0) by exact H1. reflexivity. }
    assert (Hn : nextId c2 = S shape) by (subst c2; rewrite update_nextId; reflexivity).
    assert (Hobjs : objects c2 = objects c ++ [shape])
      by (subst c2; rewrite update_objects; reflexivity).
    assert (Hlt : shape < nextId c2) by (rewrite Hn; lia).
    assert (Hlist : onRemoved (listeners b) = []).
    { subst b. unfold snapBubble. cbn [listeners set_bubble].
      subst R. rewrite (reshapeAll_keeps _ listeners) by reflexivity. reflexivity. }
    pose proof (CascadeFacts.createBoundTextForBubble_freshPair centerOf
                  shape c2 b H3 Hlt Hlist) as Hfresh.
    destruct (ToolsFacts.createBoundTextForBubble_keeps centerOf _
                Scene.bubble shape c2 b H3 Hlt) as [Hkeep Hobj3];
      [reflexivity | reflexivity |].
    destruct (createBoundTextForBubble_quiet shape c2 b H3) as (Hsave & Hact & Htime).
    destruct (createBoundTextForBubble_text shape c2 b H3) as (tx & Htx & Hptx & Hwtx).
    rewrite Hn in *.
    set (c3 := createBoundTextForBubble centerOf shape c2) in *.
    split; [reflexivity|].
    split; [rewrite objects_requestSave, Hobj3, Hobjs, <- app_assoc; reflexivity|].
    split; [apply (freshPair_heap c3); [apply heap_requestSave | exact Hfresh]|].
    split; [rewrite activeObject_requestSave; exact Hact|].
    split.
    { cbn [requestSave saveRequests set_saveRequests]. rewrite Hsave.
      subst c2. rewrite saveRequests_update. reflexivity. }
    split.
    { rewrite timeouts_requestSave, Htime. subst c2. rewrite timeouts_update.
      reflexivity. }
    rewrite heap_requestSave.
    apply fmap_Some in Hkeep as (b' & Hb' & Hbb).
    destruct (snapBubble_at_least (R obj0)) as (w & h & Hbub & Hw & Hh).
    assert (Htail : _tailSize (Scene.bubble (R obj0)) = Some 15%Q).
    { subst R. rewrite reshapeAll_tail. reflexivity. }
    rewrite Htail in Hbub. fold b in Hbub.
    exists b', tx, w, h. split; [exact Hb'|]. split; [exact Htx|].
    split; [rewrite <- Hbb; exact Hbub|].
    split; [exact Hw|]. split; [exact Hh|]. split; [exact Hptx|].
    rewrite Hwtx, Hbub. cbn [_bubbleWidth].
    rewrite orDefault_some by lra. reflexivity.
Qed.

(** *** Lines and arrows *)

Lemma detached_nextId o c : nextId (CascadeFacts.detached o c) = nextId c.
Proof. unfold CascadeFacts.detached. destruct (isActive o _); reflexivity. Qed.

Lemma detached_saveRequests o c :
  saveRequests (CascadeFacts.detached o c) = saveRequests c.
Proof. unfold CascadeFacts.detached. destruct (isActive o _); reflexivity. Qed.

(** Removing an object that no ['removed'] handler listens on. *)
Lemma remove_plain o c obj :
  o ∈ objects c -> heap c !! o = Some obj -> onRemoved (listeners obj) = [] ->
  remove o c = Some (CascadeFacts.detached o c).
Proof.
  intros Hin Ho Hl. unfold remove. rewrite CascadeFacts.removeFuel_unfold.
  rewrite (proj2 (CascadeFacts.contains_true c o)) by exact Hin.
  unfold listenersOf. rewrite CascadeFacts.detached_heap, Ho, Hl. reflexivity.
Qed.

Lemma spliceOut_last o l : o ∉ l -> spliceOut o (l ++ [o]) = l.
Proof.
  induction l as [|a l IH]; intros Hnot; simpl.
  - rewrite Nat.eqb_refl. reflexivity.
  - destruct (Nat.eqb a o) eqn:E.
    + apply Nat.eqb_eq in E. subst a. exfalso. apply Hnot. left.
    + rewrite IH; [reflexivity|]. intros H. apply Hnot. right. exact H.
Qed.

(** The canvas in the middle of an arrow drag that started on [c] at
    [start]: [k] arrows have come and gone, the one with reference
    [nextId c + k] is on the canvas. *)
Record ArrowDrag (c : Canvas) (start : Point) (k : nat) (tip : Point)
    (ck : Canvas) : Prop := mkArrowDrag {
  ad_objects : objects ck = objects c ++ [nextId c + k];
  ad_nextId : nextId ck = S (nextId c + k);
  ad_removed : removedLog ck = removedLog c ++ seq (nextId c) k;
  ad_saves : saveRequests ck = saveRequests c;
  ad_arrow : heap ck !! (nextId c + k)
             = Some (createArrow arrowBox (x start) (y start) (x tip) (y tip));
  ad_others : forall id, id < nextId c -> heap ck !! id = heap c !! id
}.

Lemma arrow_move c start k tip ck isPanning q :
  (forall id, id ∈ objects c -> id < nextId c) ->
  ArrowDrag c start k tip ck ->
  exists ck',
    onMouseMove q (mkTools "arrow" true (Some start) (Some (nextId c + k)), isPanning, ck)
    = (mkTools "arrow" true (Some start) (Some (nextId c + S k)), isPanning, ck') /\
    ArrowDrag c start (S k) q ck'.
Proof.
  intros Hwf [Hobj Hn Hlog Hsave Harrow Hothers].
  assert (Hin : nextId c + k ∈ objects ck).
  { rewrite Hobj. apply elem_of_app. right. apply list_elem_of_singleton. reflexivity. }
  pose proof (remove_plain _ _ _ Hin Harrow eq_refl) as Hrm.
  unfold Drawing.onMouseMove, Drawing.updateShape.
  cbn [isDrawingShape currentShape startPoint currentTool negb orb].
  rewrite bool_decide_eq_true_2 by (eexists; reflexivity).
  cbn [negb String.eqb Ascii.eqb Bool.eqb orb]. rewrite Hrm.
  cbn [default from_option id alloc withShape currentTool isDrawingShape startPoint].
  rewrite detached_nextId, Hn.
  replace (S (nextId c + k)) with (nextId c + S k) by lia.
  eexists. split; [reflexivity|].
  split.
  - rewrite objects_add. cbn [objects set_nextId set_heap].
    rewrite CascadeFacts.detached_objects, Hobj, spliceOut_last; [reflexivity|].
    intros H. apply Hwf in H. lia.
  - cbn [add nextId set_objects set_nextId]. lia.
  - cbn [add removedLog set_objects set_nextId set_heap].
    rewrite CascadeFacts.detached_removedLog, Hlog, seq_S, app_assoc. reflexivity.
  - cbn [add saveRequests set_objects set_nextId set_heap].
    rewrite detached_saveRequests. exact Hsave.
  - rewrite heap_add. cbn [heap set_nextId set_heap]. apply lookup_insert_eq.
  - intros id Hid. rewrite heap_add. cbn [heap set_nextId set_heap].
    rewrite lookup_insert_ne by lia. rewrite CascadeFacts.detached_heap.
    apply Hothers, Hid.
Qed.

Lemma arrow_moves c start isPanning moves : forall k tip ck,
  (forall id, id ∈ objects c -> id < nextId c) ->
  ArrowDrag c start k tip ck ->
  exists ck',
    fold_left (fun s p => onMouseMove p s) moves
      (mkTools "arrow" true (Some start) (Some (nextId c + k)), isPanning, ck)
    = (mkTools "arrow" true (Some start) (Some (nextId c + (k + length moves))),
       isPanning, ck') /\
    ArrowDrag c start (k + length moves) (default tip (last moves)) ck'.
Proof.
  induction moves as [|q rest IH]; intros k tip ck Hwf Hinv; cbn [fold_left].
  - exists ck. rewrite Nat.add_0_r. split; [reflexivity | exact Hinv].
  - destruct (arrow_move c start k tip ck isPanning q Hwf Hinv) as (ck1 & -> & Hinv1).
    destruct (IH (S k) q ck1 Hwf Hinv1) as (ck' & -> & Hinv').
    exists ck'. cbn [length]. replace (k + S (length rest)) with (S k + length rest) by lia.
    split; [reflexivity|].
    replace (default tip (last (q :: rest))) with (default q (last rest));
      [exact Hinv'|].
    clear. destruct rest as [|q' rest']; [reflexivity|].
    change (last (q :: q' :: rest')) with (last (q' :: rest')).
    destruct (last (q' :: rest')) eqn:E; [reflexivity|].
    apply last_None in E. discriminate.
Qed.

(** The box of a line after the moves of a drag. *)
Definition lineAfter (start : Point) (moves : list Point) : Geometry :=
  fold_left (fun g p => moveLineEnd (x p) (y p) g) moves
    (lineBox (x start) (y start) (x start) (y start)).

Lemma line_moves start shape isPanning moves : forall c,
  fold_left (fun s p => onMouseMove p s) moves
    (mkTools "line" true (Some start) (Some shape), isPanning, c) =
  (mkTools "line" true (Some start) (Some shape), isPanning,
   update shape
     (onGeom (fun g => fold_left (fun g p => moveLineEnd (x p) (y p) g) moves g)) c).
Proof.
  induction moves as [|q rest IH]; intros c; cbn [fold_left].
  - rewrite (update_ext _ _ (fun obj => obj)); [rewrite update_same; reflexivity|].
    intros [ty st nm g pr ct bu li ls]. reflexivity.
  - unfold Drawing.onMouseMove at 2, Drawing.updateShape.
    cbn [isDrawingShape currentShape startPoint currentTool negb orb].
    rewrite bool_decide_eq_true_2 by (eexists; reflexivity).
    cbn [negb String.eqb Ascii.eqb Bool.eqb orb].
    rewrite IH, ToolsFacts.update_update. reflexivity.
Qed.

(** X16: a whole drag with the line or the arrow tool, on a canvas that is
    not in drawing mode, adds exactly one object and binds no text to it;
    one history save is requested.  A line
    is created when the button goes down and only its far end moves.  An
    arrow is rebuilt on every move: the previous arrow is removed from the
    canvas and a new one from the start point to the pointer is added, so
    that the canvas never holds more than one arrow of the drag, and the
    one that stays points from the start to the last pointer position. *)
Theorem line_and_arrow_drags_add_one_object t isPanning c p0 moves :
  let st' := drag None p0 moves (t, isPanning, c) in
  (currentTool t = "line" -> isDrawingMode c = false ->
     st'.1.1 = mkTools "line" false None None /\
     objects st'.2 = objects c ++ [nextId c] /\
     nextId st'.2 = S (nextId c) /\
     removedLog st'.2 = removedLog c /\
     saveRequests st'.2 = S (saveRequests c) /\
     exists o, heap st'.2 !! nextId c = Some o /\
       geom o = lineAfter p0 moves /\ links o = noLinks /\
       listeners o = noListeners) /\
  (currentTool t = "arrow" -> isDrawingMode c = false ->
     (forall id, id ∈ objects c -> id < nextId c) ->
     let arrow := nextId c + length moves in
     let tip := default p0 (last moves) in
     st'.1.1 = mkTools "arrow" false None None /\
     objects st'.2 = objects c ++ [arrow] /\
     nextId st'.2 = S arrow /\
     removedLog st'.2 = removedLog c ++ seq (nextId c) (length moves) /\
     saveRequests st'.2 = S (saveRequests c) /\
     heap st'.2 !! arrow
       = Some (createArrow arrowBox (x p0) (y p0) (x tip) (y tip)) /\
     forall id, id < nextId c -> heap st'.2 !! id = heap c !! id).
Proof.
  intros st'. subst st'. split.
  - intros Ht _. unfold Drawing.drag.
    rewrite onMouseDown_starts
      by (rewrite Ht; apply list_elem_of_In; unfold drawingTools; simpl; tauto).
    rewrite Ht, line_moves, mouseUp_finishes by discriminate.
    cbn [fst snd]. unfold finish.
    cbn [String.eqb Ascii.eqb Bool.eqb]. rewrite bool_decide_eq_false_2.
    2:{ intros H. apply list_elem_of_In in H. simpl in H.
        repeat (destruct H as [H|H]; [discriminate H|]). exact H. }
    split; [reflexivity|].
    split; [rewrite objects_requestSave, update_objects; reflexivity|].
    split; [cbn [requestSave nextId set_saveRequests]; rewrite update_nextId;
            reflexivity|].
    split; [cbn [requestSave removedLog set_saveRequests];
            rewrite (proj1 (proj2 (proj2 (proj2 (update_frame _ _ _))))); reflexivity|].
    split; [cbn [requestSave saveRequests set_saveRequests];
            rewrite saveRequests_update; reflexivity|].
    rewrite heap_requestSave.
    rewrite update_lookup_eq
      with (obj := firstShape "line" p0)
      by (rewrite heap_add, heap_alloc; apply lookup_insert_eq).
    eexists. split; [reflexivity|]. split; [reflexivity|]. split; reflexivity.
  - intros Ht _ Hwf arrow tip. subst arrow tip. unfold Drawing.drag.
    rewrite onMouseDown_starts
      by (rewrite Ht; apply list_elem_of_In; unfold drawingTools; simpl; tauto).
    rewrite Ht.
    assert (H0 : ArrowDrag c p0 0 p0 (add (nextId c) (alloc (firstShape "arrow" p0) c).2)).
    { split.
      - rewrite Nat.add_0_r. reflexivity.
      - rewrite Nat.add_0_r. reflexivity.
      - cbn [seq]. rewrite app_nil_r. reflexivity.
      - reflexivity.
      - rewrite Nat.add_0_r, heap_add, heap_alloc. apply lookup_insert_eq.
      - intros id Hid. rewrite heap_add, heap_alloc. apply lookup_insert_ne. lia. }
    pose proof (arrow_moves c p0 isPanning moves 0 p0 _ Hwf H0) as (ck & Hfold & Hinv).
    rewrite Nat.add_0_r in Hfold. cbn [Nat.add] in Hfold, Hinv.
    rewrite Hfold, mouseUp_finishes by discriminate.
    cbn [fst snd]. unfold finish.
    cbn [String.eqb Ascii.eqb Bool.eqb]. rewrite bool_decide_eq_false_2.
    2:{ intros H. apply list_elem_of_In in H. simpl in H.
        repeat (destruct H as [H|H]; [discriminate H|]). exact H. }
    destruct Hinv as [Hobj Hn Hlog Hsave Harrow Hothers].
    split; [reflexivity|]. split; [exact Hobj|]. split; [exact Hn|].
    split; [exact Hlog|].
    split; [cbn [requestSave saveRequests set_saveRequests]; rewrite Hsave; reflexivity|].
    split; [exact Harrow | exact Hothers].
Qed.

End WithFabric.

(** X17: the outline [createBubblePath] draws for a body of [width] by
    [height] at [(x, y)] stays inside the box of that width and of
    [height + tailSize]: every point it passes through or is pulled
    towards lies in the box, provided the sizes are not negative and the
    tail, one and a half times [tailSize] wide, is not wider than the
    body.  The corner radius used is the requested one capped at half the
    width and half the height; the tip of the tail is centred under the
    body, [tailSize] below it; and the outline ends where it began. *)
Theorem bubble_outline_stays_in_box x0 y0 w h radius tailSize :
  (0 <= w)%Q -> (0 <= h)%Q -> (0 <= radius)%Q -> (0 <= tailSize)%Q ->
  (tailSize * (15 # 10) <= w)%Q ->
  let outline := createBubblePath x0 y0 w h radius tailSize in
  let r := Num.min (Num.min radius (w / 2)) (h / 2) in
  (forall cmd pt, cmd ∈ outline -> pt ∈ pathPoints cmd ->
     (x0 <= x pt)%Q /\ (x pt <= x0 + w)%Q /\
     (y0 <= y pt)%Q /\ (y pt <= y0 + h + tailSize)%Q) /\
  (0 <= r)%Q /\ (r <= radius)%Q /\ (r * 2 <= w)%Q /\ (r * 2 <= h)%Q /\
  head outline = Some (PathM (x0 + r) y0) /\
  PathL (x0 + w / 2) (y0 + h + tailSize) ∈ outline /\
  head (penPositions outline) = last (penPositions outline).
Proof.
  intros Hw Hh Hr Ht Htail outline r. subst outline.
  assert (Hw2 : (w / 2 * 2 == w)%Q) by field.
  assert (Hh2 : (h / 2 * 2 == h)%Q) by field.
  assert (Htw2 : (tailSize * (15 # 10) / 2 * 2 == tailSize * (15 # 10))%Q) by field.
  destruct (min_spec radius (w / 2)) as (M1 & M2 & M3).
  destruct (min_spec (Num.min radius (w / 2)) (h / 2)) as (N1 & N2 & N3).
  fold r in N1, N2, N3.
  assert (Hr0 : (0 <= r)%Q).
  { destruct N3 as [->| ->]; [destruct M3 as [->| ->]|]; lra. }
  unfold createBubblePath. fold r.
  set (w2 := (w / 2)%Q) in *. set (h2 := (h / 2)%Q) in *.
  set (t2 := (tailSize * (15 # 10) / 2)%Q) in *.
  split; [|split; [exact Hr0|]; split; [lra|]; split; [lra|]; split; [lra|];
           split; [reflexivity|]; split; [|reflexivity]].
  - intros cmd pt Hcmd Hpt. apply list_elem_of_In in Hcmd. cbn [In] in Hcmd.
    repeat (destruct Hcmd as [<-|Hcmd];
            [apply list_elem_of_In in Hpt; cbn [pathPoints In] in Hpt;
             repeat (destruct Hpt as [<-|Hpt]; [cbn [x y]; repeat split; lra|]);
             destruct Hpt|]).
    destruct Hcmd.
  - apply list_elem_of_In. cbn [In]. tauto.
Qed.

(** ** Concrete drags *)

(** Boxes for an unrotated line from its end points, for the arrow the
    same, and the size of the bubble outline. *)
Definition lineBox (x1 y1 x2 y2 : Q) : Geometry :=
  mkGeometry (Num.min x1 x2) (Num.min y1 y2) (Qabs (x2 - x1)) (Qabs (y2 - y1))
             0 0 1 1 0 "left" "top".
Definition moveLineEnd (x2 y2 : Q) (g : Geometry) : Geometry :=
  setHeight (Qabs (y2 - top g)) (setWidth (Qabs (x2 - left g)) g).
Definition pathSize (p : list PathCmd) : Q * Q := (150%Q, 95%Q).

Definition mouseDown := Drawing.onMouseDown lineBox lineBox pathSize.
Definition mouseMove := Drawing.onMouseMove moveLineEnd lineBox.
Definition dragOn :=
  Drawing.drag Examples.centerOf Examples.boundsOf lineBox moveLineEnd lineBox pathSize.

(** An editor with nothing on the canvas and the given tool chosen. *)
Definition blank (tool : string) : ToolsManager * bool * Canvas :=
  (mkTools tool false None None, false, Examples.emptyCanvas).

Lemma anchored_drag_follows_pointer_witness :
  let st := mouseDown None (mkPoint 100 100) (blank "circle") in
  mouseMove (mkPoint 40 130) (mouseMove (mkPoint 300 20) st)
    = mouseMove (mkPoint 40 130) st /\
  exists o', heap (mouseMove (mkPoint 40 130) st).2 !! 0 = Some o' /\
    left (geom o') = Num.min 100 40 /\
    rx (geom o') = (Qabs (40 - 100) / 2)%Q.
Proof.
  intros st.
  destruct (anchored_drag_follows_pointer moveLineEnd lineBox
              st.1.1 st.1.2 st.2 (mkPoint 100 100) 0
              (newShape "ellipse" "circle" (mkPoint 100 100))
              (mkPoint 300 20) (mkPoint 40 130))
    as (H1 & o' & H2 & H3 & _ & H5 & _).
  - apply list_elem_of_In. simpl. tauto.
  - reflexivity.
  - reflexivity.
  - reflexivity.
  - vm_compute. reflexivity.
  - split; [exact H1|]. exists o'. split; [exact H2|]. split; [exact H3|].
    apply H5. reflexivity.
Defined.

Lemma box_drag_keeps_earlier_corner_witness :
  let st := mouseDown None (mkPoint 100 100) (blank "rect") in
  exists o', heap (mouseMove (mkPoint 150 150) (mouseMove (mkPoint 50 50) st)).2 !! 0
             = Some o' /\
    left (geom o') = 50%Q /\
    (width (geom o') == 150 - 100)%Q.
Proof.
  intros st.
  destruct (box_drag_keeps_earlier_corner moveLineEnd lineBox
              st.1.1 st.1.2 st.2 (mkPoint 100 100) 0
              (newShape "rect" "rect" (mkPoint 100 100)) (mkPoint 150 150))
    as [_ H].
  - apply list_elem_of_In. simpl. tauto.
  - reflexivity.
  - reflexivity.
  - reflexivity.
  - vm_compute. reflexivity.
  - apply (H (mkPoint 50 50)); vm_compute; congruence.
Defined.

Lemma shape_drag_creates_bound_pair_witness :
  let st' := dragOn None (mkPoint 10 10) [mkPoint 20 30; mkPoint 40 210]
                    (blank "rect") in
  st'.1.1 = mkTools "rect" false None None /\
  objects st'.2 = [0; 1] /\
  CascadeFacts.freshPair st'.2 0 1 /\
  activeObject st'.2 = Some (single 0) /\
  saveRequests st'.2 = 1.
Proof.
  intros st'.
  destruct (shape_drag_creates_bound_pair Examples.centerOf Examples.boundsOf
              lineBox moveLineEnd lineBox pathSize
              (mkTools "rect" false None None) false Examples.emptyCanvas
              (mkPoint 10 10) [mkPoint 20 30; mkPoint 40 210])
    as (H1 & _ & H3 & H4 & H5 & H6 & _).
  - apply list_elem_of_In. simpl. tauto.
  - reflexivity.
  - split; [exact H1|]. split; [exact H3|]. split; [exact H4|].
    split; [exact H5 | exact H6].
Defined.

(** The rect of that drag: 30 wide is below the minimum and becomes 100,
    200 high is kept. *)
Example rect_drag_result :
  let st' := dragOn None (mkPoint 10 10) [mkPoint 20 30; mkPoint 40 210]
                    (blank "rect") in
  ToolsFacts.geomOf st'.2 0
  = Some (mkGeometry 10 10 100 (210 - 10) 0 0 1 1 0 "left" "top").
Proof. vm_compute. reflexivity. Qed.

(** A short drag with the text tool, and one with the arrow tool over
    three pointer positions. *)
Example text_drag_result :
  let st' := dragOn None (mkPoint 10 10) [mkPoint 30 40] (blank "text") in
  objects st'.2 = [0] /\ timeouts st'.2 = [editLater 0] /\
  (width <$> ToolsFacts.geomOf st'.2 0) = Some 150%Q /\
  (text <$> ToolsFacts.propsOf 0 st'.2) = Some placeholderText.
Proof. repeat split; vm_compute; reflexivity. Qed.

Example arrow_drag_result :
  let st' := dragOn None (mkPoint 10 10) [mkPoint 30 40; mkPoint 50 60; mkPoint 70 20]
                    (blank "arrow") in
  objects st'.2 = [3] /\ removedLog st'.2 = [0; 1; 2] /\ saveRequests st'.2 = 1.
Proof. repeat split; vm_compute; reflexivity. Qed.

Lemma bubble_outline_stays_in_box_witness :
  let outline := createBubblePath 0 0 150 80 10 15 in
  (forall cmd pt, cmd ∈ outline -> pt ∈ pathPoints cmd ->
     (0 <= x pt)%Q /\ (x pt <= 0 + 150)%Q /\
     (0 <= y pt)%Q /\ (y pt <= 0 + 80 + 15)%Q) /\
  head (penPositions outline) = last (penPositions outline).
Proof.
  destruct (bubble_outline_stays_in_box 0 0 150 80 10 15)
    as (H1 & _ & _ & _ & _ & _ & _ & H8); try (vm_compute; congruence).
  split; [exact H1 | exact H8].
Defined.

End DrawingFacts.

Module ToolSwitchFacts.
Import Scene Tools Editor SceneFacts.

Lemma setSelectable_twice a b o : setSelectable a (setSelectable b o) = setSelectable a o.
Proof. reflexivity. Qed.

(** [forEachObject] with a body that writes the same attributes on every
    object: each reference on the canvas is written once or more, the
    objects off the canvas are not touched. *)
Lemma forEach_lookup (f : Obj -> Obj) (l : list ObjId) : forall c id,
  (forall o, f (f o) = f o) ->
  heap (fold_left (fun c id => update id f c) l c) !! id =
    if bool_decide (id ∈ l) then f <$> heap c !! id else heap c !! id.
Proof.
  induction l as [|a l IH]; intros c id Hf; cbn [fold_left].
  - rewrite bool_decide_eq_false_2 by (intros H; inversion H). reflexivity.
  - rewrite IH by exact Hf. rewrite update_lookup.
    destruct (decide (a = id)) as [->|Hne].
    + rewrite (bool_decide_eq_true_2 (id ∈ id :: l)) by left.
      destruct (bool_decide (id ∈ l)); [|reflexivity].
      destruct (heap c !! id); cbn; [rewrite Hf|]; reflexivity.
    + destruct (bool_decide (id ∈ l)) eqn:E.
      * apply bool_decide_eq_true in E.
        rewrite bool_decide_eq_true_2 by (right; exact E). reflexivity.
      * apply bool_decide_eq_false in E.
        rewrite bool_decide_eq_false_2; [reflexivity|].
        intros H. apply elem_of_cons in H as [->|H]; [congruence | exact (E H)].
Qed.

Lemma forEach_frame (f : Obj -> Obj) (l : list ObjId) : forall c,
  let c' := fold_left (fun c id => update id f c) l c in
  objects c' = objects c /\ nextId c' = nextId c /\
  activeObject c' = activeObject c /\ removedLog c' = removedLog c /\
  saveRequests c' = saveRequests c /\ timeouts c' = timeouts c /\
  isDrawingMode c' = isDrawingMode c /\ selection c' = selection c /\
  defaultCursor c' = defaultCursor c /\ hoverCursor c' = hoverCursor c.
Proof.
  induction l as [|a l IH]; intros c; cbn [fold_left]; [cbv zeta; auto 12|].
  cbv zeta. destruct (IH (update a f c)) as (E1 & E2 & E3 & E4 & E5 & E6 & E7 & E8 & E9 & E10).
  rewrite E1, E2, E3, E4, E5, E6, E7, E8, E9, E10.
  unfold update. destruct (heap c !! a); cbn; auto 12.
Qed.

Section WithCollaborators.
Variable hasEraserBrush : bool.
Variable enableCropMode : Editor -> Editor.

Abbreviation setTool := (setTool hasEraserBrush enableCropMode).

(** The canvas after the reset every call of [setTool] starts with. *)
Definition resetCanvas (c : Canvas) : Canvas :=
  set_hoverCursor "move"
    (set_defaultCursor "default" (set_selection true (set_isDrawingMode false c))).

Lemma canvas_select e :
  canvas (setTool "select" e) = forEachSelectable true (resetCanvas (canvas e)).
Proof. reflexivity. Qed.

Lemma canvas_hand e :
  canvas (setTool "hand" e) =
    discardActiveObject
      (forEachSelectable false
         (set_defaultCursor "grab" (set_selection false (resetCanvas (canvas e))))).
Proof. reflexivity. Qed.

Lemma forEachSelectable_lookup b c id :
  heap (forEachSelectable b c) !! id =
    if bool_decide (id ∈ objects c) then setSelectable b <$> heap c !! id
    else heap c !! id.
Proof. unfold forEachSelectable. apply forEach_lookup. reflexivity. Qed.

Lemma forEachSelectable_frame b c :
  let c' := forEachSelectable b c in
  objects c' = objects c /\ nextId c' = nextId c /\
  activeObject c' = activeObject c /\ removedLog c' = removedLog c /\
  saveRequests c' = saveRequests c /\ timeouts c' = timeouts c /\
  isDrawingMode c' = isDrawingMode c /\ selection c' = selection c /\
  defaultCursor c' = defaultCursor c /\ hoverCursor c' = hoverCursor c.
Proof. unfold forEachSelectable. apply forEach_frame. Qed.

Lemma objects_forEachSelectable b c : objects (forEachSelectable b c) = objects c.
Proof. apply forEachSelectable_frame. Qed.
Lemma activeObject_forEachSelectable b c :
  activeObject (forEachSelectable b c) = activeObject c.
Proof. apply forEachSelectable_frame. Qed.
Lemma selection_forEachSelectable b c :
  selection (forEachSelectable b c) = selection c.
Proof. apply forEachSelectable_frame. Qed.
Lemma defaultCursor_forEachSelectable b c :
  defaultCursor (forEachSelectable b c) = defaultCursor c.
Proof. apply forEachSelectable_frame. Qed.
Lemma isDrawingMode_forEachSelectable b c :
  isDrawingMode (forEachSelectable b c) = isDrawingMode c.
Proof. apply forEachSelectable_frame. Qed.

#[local] Opaque forEachSelectable.

Lemma objects_resetCanvas c : objects (resetCanvas c) = objects c.
Proof. reflexivity. Qed.
Lemma heap_resetCanvas c : heap (resetCanvas c) = heap c.
Proof. reflexivity. Qed.
Lemma activeObject_resetCanvas c : activeObject (resetCanvas c) = activeObject c.
Proof. reflexivity. Qed.
Lemma objects_discardActiveObject c : objects (discardActiveObject c) = objects c.
Proof. reflexivity. Qed.
Lemma heap_discardActiveObject c : heap (discardActiveObject c) = heap c.
Proof. reflexivity. Qed.
Lemma activeObject_discardActiveObject c : activeObject (discardActiveObject c) = None.
Proof. reflexivity. Qed.
Lemma selection_discardActiveObject c :
  selection (discardActiveObject c) = selection c.
Proof. reflexivity. Qed.
Lemma defaultCursor_discardActiveObject c :
  defaultCursor (discardActiveObject c) = defaultCursor c.
Proof. reflexivity. Qed.

Lemma select_objects e : objects (canvas (setTool "select" e)) = objects (canvas e).
Proof.
  rewrite canvas_select, objects_forEachSelectable. apply objects_resetCanvas.
Qed.

Lemma select_activeObject e :
  activeObject (canvas (setTool "select" e)) = activeObject (canvas e).
Proof.
  rewrite canvas_select, activeObject_forEachSelectable. apply activeObject_resetCanvas.
Qed.

Lemma select_lookup e id :
  heap (canvas (setTool "select" e)) !! id =
    if bool_decide (id ∈ objects (canvas e))
    then setSelectable true <$> heap (canvas e) !! id
    else heap (canvas e) !! id.
Proof.
  rewrite canvas_select, forEachSelectable_lookup.
  rewrite objects_resetCanvas, heap_resetCanvas. reflexivity.
Qed.

Lemma hand_objects e : objects (canvas (setTool "hand" e)) = objects (canvas e).
Proof.
  rewrite canvas_hand, objects_discardActiveObject, objects_forEachSelectable.
  reflexivity.
Qed.

Lemma hand_lookup e id :
  heap (canvas (setTool "hand" e)) !! id =
    if bool_decide (id ∈ objects (canvas e))
    then setSelectable false <$> heap (canvas e) !! id
    else heap (canvas e) !! id.
Proof.
  rewrite canvas_hand, heap_discardActiveObject, forEachSelectable_lookup.
  reflexivity.
Qed.

(** X18: the select tool makes every object on the canvas selectable and
    responsive to events, whatever it was before, and changes nothing else
    about the objects; the hand tool makes every object on the canvas
    unselectable and unresponsive and drops the selection.  So a visit to
    the hand tool does not bring back what was locked before it: after
    hand and then select, everything on the canvas is selectable.  Objects
    that are not on the canvas are not touched. *)
Theorem select_and_hand_switch_all_objects e :
  let sel := setTool "select" e in
  let hand := setTool "hand" e in
  (currentTool (tools sel) = "select" /\
   objects (canvas sel) = objects (canvas e) /\
   activeObject (canvas sel) = activeObject (canvas e) /\
   selection (canvas sel) = true /\ defaultCursor (canvas sel) = "default") /\
  (currentTool (tools hand) = "hand" /\
   objects (canvas hand) = objects (canvas e) /\
   activeObject (canvas hand) = None /\
   selection (canvas hand) = false /\ defaultCursor (canvas hand) = "grab") /\
  (forall id,
     heap (canvas sel) !! id =
       (if bool_decide (id ∈ objects (canvas e))
        then setSelectable true <$> heap (canvas e) !! id
        else heap (canvas e) !! id) /\
     heap (canvas hand) !! id =
       (if bool_decide (id ∈ objects (canvas e))
        then setSelectable false <$> heap (canvas e) !! id
        else heap (canvas e) !! id) /\
     heap (canvas (setTool "select" hand)) !! id = heap (canvas sel) !! id).
Proof.
  intros sel hand. subst sel hand.
  split; [|split].
  - split; [reflexivity|]. split; [apply select_objects|].
    split; [apply select_activeObject|].
    rewrite canvas_select.
    rewrite selection_forEachSelectable, defaultCursor_forEachSelectable.
    split; reflexivity.
  - split; [reflexivity|]. split; [apply hand_objects|].
    rewrite canvas_hand, activeObject_discardActiveObject,
      selection_discardActiveObject, defaultCursor_discardActiveObject.
    rewrite selection_forEachSelectable, defaultCursor_forEachSelectable.
    split; [reflexivity|]. split; reflexivity.
  - intros id. split; [apply select_lookup|]. split; [apply hand_lookup|].
    rewrite !select_lookup, hand_objects, hand_lookup.
    destruct (bool_decide (id ∈ objects (canvas e))); [|reflexivity].
    destruct (heap (canvas e) !! id); reflexivity.
Qed.

(** The editor as every call of [setTool] prepares it before the case of
    the tool: the name stored, the canvas reset, both panels hidden. *)
Definition prepared (toolName : string) (e : Editor) : Editor :=
  hideAllPanels (onCanvas resetCanvas (set_currentTool toolName e)).

Lemma setTool_image e :
  setTool "image" e =
    onCanvas discardActiveObject
      (setTool "select"
         (set_imageInputClicks (S (imageInputClicks e)) (prepared "image" e))).
Proof. reflexivity. Qed.

Lemma setTool_crop e :
  setTool "crop" e =
    if activeIsImage e
    then enableCropMode (set_cropPanelHidden false (prepared "crop" e))
    else setTool "select"
           (set_toasts (toasts e ++ [("请先选择一张图片再进行裁剪", "error")])
              (prepared "crop" e)).
Proof. reflexivity. Qed.

Lemma setTool_select e :
  setTool "select" e = onCanvas (forEachSelectable true) (prepared "select" e).
Proof. reflexivity. Qed.

(** What [setTool('select')] reads of the editor it is called on is the
    canvas; the panels, the toasts and the clicks pass through. *)
Lemma select_passes e :
  currentTool (tools (setTool "select" e)) = "select" /\
  toasts (setTool "select" e) = toasts e /\
  imageInputClicks (setTool "select" e) = imageInputClicks e /\
  cropPanelHidden (setTool "select" e) = true /\
  brushSettingsHidden (setTool "select" e) = true.
Proof. rewrite setTool_select. repeat split. Qed.

Lemma canvas_onCanvas f e : canvas (onCanvas f e) = f (canvas e).
Proof. reflexivity. Qed.
Lemma tools_onCanvas f e : tools (onCanvas f e) = tools e.
Proof. reflexivity. Qed.
Lemma toasts_onCanvas f e : toasts (onCanvas f e) = toasts e.
Proof. reflexivity. Qed.
Lemma imageInputClicks_onCanvas f e :
  imageInputClicks (onCanvas f e) = imageInputClicks e.
Proof. reflexivity. Qed.
Lemma canvas_set_imageInputClicks n e : canvas (set_imageInputClicks n e) = canvas e.
Proof. reflexivity. Qed.
Lemma canvas_set_toasts l e : canvas (set_toasts l e) = canvas e.
Proof. reflexivity. Qed.
Lemma canvas_prepared n e : canvas (prepared n e) = resetCanvas (canvas e).
Proof. reflexivity. Qed.

(** X19: the image and the crop tool do not stay selected.  [setTool]
    with ['image'] clicks the file input once and ends with the select tool
    current, the selection dropped and every object selectable.  With
    ['crop'] and no image selected it shows one error toast and ends with
    the select tool current, the crop panel hidden and the selection still
    in place; with an image selected it shows the crop panel and hands
    over to [enableCropMode], with ['crop'] current and the selection in
    place. *)
Theorem image_and_crop_tools_hand_over e :
  let img := setTool "image" e in
  (currentTool (tools img) = "select" /\
   imageInputClicks img = S (imageInputClicks e) /\
   toasts img = toasts e /\
   activeObject (canvas img) = None /\
   objects (canvas img) = objects (canvas e) /\
   forall id, heap (canvas img) !! id = heap (canvas (setTool "select" e)) !! id) /\
  (activeIsImage e = false ->
   let crop := setTool "crop" e in
   currentTool (tools crop) = "select" /\
   toasts crop = toasts e ++ [("请先选择一张图片再进行裁剪", "error")] /\
   cropPanelHidden crop = true /\
   activeObject (canvas crop) = activeObject (canvas e) /\
   objects (canvas crop) = objects (canvas e) /\
   forall id, heap (canvas crop) !! id = heap (canvas (setTool "select" e)) !! id) /\
  (activeIsImage e = true ->
   exists e1, setTool "crop" e = enableCropMode e1 /\
     currentTool (tools e1) = "crop" /\ cropPanelHidden e1 = false /\
     brushSettingsHidden e1 = true /\ toasts e1 = toasts e /\
     canvas e1 = resetCanvas (canvas e)).
Proof.
  intros img. subst img.
  split; [|split].
  - rewrite setTool_image.
    set (e1 := set_imageInputClicks (S (imageInputClicks e)) (prepared "image" e)).
    destruct (select_passes e1) as (Ht & Hto & Hc & _ & _).
    rewrite tools_onCanvas, imageInputClicks_onCanvas, toasts_onCanvas, canvas_onCanvas.
    rewrite activeObject_discardActiveObject, objects_discardActiveObject.
    rewrite Ht, Hto, Hc, select_objects.
    split; [reflexivity|]. split; [reflexivity|]. split; [reflexivity|].
    split; [reflexivity|].
    unfold e1. rewrite canvas_set_imageInputClicks, canvas_prepared, objects_resetCanvas.
    split; [reflexivity|].
    intros id. rewrite heap_discardActiveObject, !select_lookup.
    rewrite canvas_set_imageInputClicks, canvas_prepared.
    rewrite objects_resetCanvas, heap_resetCanvas. reflexivity.
  - intros Hno crop. subst crop. rewrite setTool_crop, Hno.
    set (e1 := set_toasts _ (prepared "crop" e)).
    destruct (select_passes e1) as (Ht & Hto & _ & Hc & _).
    rewrite Ht, Hto, Hc, select_objects, select_activeObject.
    split; [reflexivity|]. split; [reflexivity|]. split; [reflexivity|].
    unfold e1. rewrite canvas_set_toasts, canvas_prepared.
    rewrite objects_resetCanvas, activeObject_resetCanvas.
    split; [reflexivity|]. split; [reflexivity|].
    intros id. rewrite !select_lookup.
    rewrite canvas_set_toasts, canvas_prepared.
    rewrite objects_resetCanvas, heap_resetCanvas. reflexivity.
  - intros Hyes. rewrite setTool_crop, Hyes. eexists. split; [reflexivity|].
    repeat split.
Qed.

End WithCollaborators.

End ToolSwitchFacts.

(** ** Cropping *)

Module CropFacts.
Import Scene Tools Editor Crop SceneFacts.
#[local] Open Scope Q_scope.

#[local] Arguments Qminus : simpl never.
#[local] Arguments Qplus : simpl never.
#[local] Arguments Qmult : simpl never.
#[local] Arguments Qdiv : simpl never.
#[local] Arguments Num.min : simpl never.
#[local] Arguments Num.max : simpl never.
#[local] Arguments Num.orDefault : simpl never.






(** *** Crop mode *)

Lemma spliceOut_absent o l : o ∉ l -> spliceOut o l = l.
Proof.
  induction l as [|a l IH]; intros Hnot; [reflexivity|]. simpl.
  destruct (Nat.eqb a o) eqn:E.
  - apply Nat.eqb_eq in E. subst a. exfalso. apply Hnot. left.
  - rewrite IH; [reflexivity|]. intros H. apply Hnot. right. exact H.
Qed.

Lemma spliceOut_app o l l' : o ∈ l -> spliceOut o (l ++ l') = spliceOut o l ++ l'.
Proof.
  induction l as [|a l IH]; intros Hin; [inversion Hin|]. simpl.
  destruct (Nat.eqb a o) eqn:E; [reflexivity|].
  apply Nat.eqb_neq in E. apply elem_of_cons in Hin as [->|Hin]; [congruence|].
  rewrite IH by exact Hin. reflexivity.
Qed.

Lemma spliceOut_middle o l rest : o ∉ l -> spliceOut o (l ++ o :: rest) = l ++ rest.
Proof.
  induction l as [|a l IH]; intros Hnot; simpl.
  - rewrite Nat.eqb_refl. reflexivity.
  - destruct (Nat.eqb a o) eqn:E.
    + apply Nat.eqb_eq in E. subst a. exfalso. apply Hnot. left.
    + rewrite IH; [reflexivity|]. intros H. apply Hnot. right. exact H.
Qed.

Lemma spliceOut_keeps o x l : x <> o -> x ∈ l -> x ∈ spliceOut o l.
Proof.
  intros Hne. induction l as [|a l IH]; simpl; [auto|].
  intros H. apply elem_of_cons in H as [->|H].
  - destruct (Nat.eqb a o) eqn:E; [apply Nat.eqb_eq in E; congruence | left].
  - destruct (Nat.eqb a o); [exact H | right; auto].
Qed.

Lemma remove_absent o c : o ∉ objects c -> remove o c = Some c.
Proof.
  intros H. unfold remove. rewrite CascadeFacts.removeFuel_unfold.
  rewrite (proj2 (CascadeFacts.contains_false c o)) by exact H. reflexivity.
Qed.

(** The canvas in crop mode, entered on [c] with image [target]: the
    image switched off, the overlay and the crop rectangle [rect] allocated
    and added, and the rectangle selected. *)
Definition cropCanvas (imgBounds : Bounds) (rect : Obj) (target : ObjId) (c : Canvas)
  : Canvas :=
  let c1 := update target (setInteractive false) c in
  let c2 := add (nextId c) (alloc (overlayRect imgBounds) c1).2 in
  setActiveObject (S (nextId c)) (add (S (nextId c)) (alloc rect c2).2).

Section CropCanvas.
Variables (imgBounds : Bounds) (rect : Obj) (target : ObjId) (c : Canvas).
Let n := nextId c.
Let cc := cropCanvas imgBounds rect target c.

Lemma heap_cropCanvas :
  heap cc = <[S n := rect]> (<[n := overlayRect imgBounds]>
              (heap (update target (setInteractive false) c))).
Proof.
  subst cc n. unfold cropCanvas, alloc, add, setActiveObject, update.
  destruct (heap c !! target); reflexivity.
Qed.

Lemma objects_cropCanvas : objects cc = objects c ++ [n; S n].
Proof.
  subst cc n. unfold cropCanvas, alloc, add, setActiveObject, update.
  destruct (heap c !! target); cbn; rewrite <- app_assoc; reflexivity.
Qed.

Lemma nextId_cropCanvas : nextId cc = S (S n).
Proof.
  subst cc n. unfold cropCanvas, alloc, add, setActiveObject, update.
  destruct (heap c !! target); reflexivity.
Qed.

Lemma activeObject_cropCanvas : activeObject cc = Some (single (S n)).
Proof.
  subst cc n. unfold cropCanvas, alloc, add, setActiveObject, update.
  destruct (heap c !! target); reflexivity.
Qed.

Lemma rest_cropCanvas :
  removedLog cc = removedLog c /\ saveRequests cc = saveRequests c /\
  timeouts cc = timeouts c /\ isDrawingMode cc = isDrawingMode c /\
  selection cc = selection c /\ defaultCursor cc = defaultCursor c /\
  hoverCursor cc = hoverCursor c.
Proof.
  subst cc n. unfold cropCanvas, alloc, add, setActiveObject, update.
  destruct (heap c !! target); cbn; auto 10.
Qed.

End CropCanvas.

Lemma canvas_ext (a b : Canvas) :
  heap a = heap b -> nextId a = nextId b -> objects a = objects b ->
  activeObject a = activeObject b -> isDrawingMode a = isDrawingMode b ->
  selection a = selection b -> defaultCursor a = defaultCursor b ->
  hoverCursor a = hoverCursor b -> removedLog a = removedLog b ->
  saveRequests a = saveRequests b -> timeouts a = timeouts b -> a = b.
Proof. destruct a, b. cbn. intros. subst. reflexivity. Qed.

Lemma rest_update o f c :
  isDrawingMode (update o f c) = isDrawingMode c /\
  selection (update o f c) = selection c /\
  defaultCursor (update o f c) = defaultCursor c /\
  hoverCursor (update o f c) = hoverCursor c.
Proof. unfold update. destruct (heap c !! o); cbn; auto. Qed.

(** Writing to the crop rectangle of a canvas in crop mode. *)
Lemma update_cropCanvas imgBounds rect target c f :
  update (S (nextId c)) f (cropCanvas imgBounds rect target c) =
    cropCanvas imgBounds (f rect) target c.
Proof.
  pose proof (update_frame (S (nextId c)) f (cropCanvas imgBounds rect target c))
    as (E1 & E2 & E3 & E4 & E5 & E6).
  pose proof (rest_update (S (nextId c)) f (cropCanvas imgBounds rect target c))
    as (E7 & E8 & E9 & E10).
  pose proof (rest_cropCanvas imgBounds rect target c) as (R1 & R2 & R3 & R4 & R5 & R6 & R7).
  pose proof (rest_cropCanvas imgBounds (f rect) target c)
    as (S1 & S2 & S3 & S4 & S5 & S6 & S7).
  apply canvas_ext.
  - unfold update at 1. rewrite heap_cropCanvas, lookup_insert_eq. cbn [heap set_heap].
    rewrite !heap_cropCanvas, insert_insert_eq. reflexivity.
  - rewrite E2, !nextId_cropCanvas. reflexivity.
  - rewrite E1, !objects_cropCanvas. reflexivity.
  - rewrite E3, !activeObject_cropCanvas. reflexivity.
  - congruence.
  - congruence.
  - congruence.
  - congruence.
  - congruence.
  - congruence.
  - congruence.
Qed.

#[local] Arguments cropCanvas : simpl never.
#[local] Arguments update : simpl never.

Section WithFabric.
Variable getBoundingRect : Obj -> Bounds.

(** The editor and the session in crop mode, entered on [s0] with the
    image [img] at [target]; [rect] is the crop rectangle as it is now. *)
Definition cropEditor (rect : Obj) (target : ObjId) (img : Obj) (s0 : Session)
  : Editor :=
  showToast adjustMessage "info"
    (set_canvas (cropCanvas (getBoundingRect (setInteractive false img)) rect target
                            (canvas (editor s0)))
                (editor s0)).

Definition cropping (rect : Obj) (target : ObjId) (img : Obj) (s0 : Session)
  : Session :=
  let n := nextId (canvas (editor s0)) in
  mkSession (cropEditor rect target img s0)
            (mkCropManager (Some (S n)) (Some target) true (Some n)
                           (Some (stateOf img)))
            (immediateSaves s0).

Lemma getActiveObject_some c target img :
  getActiveObject c = Some (target, img) ->
  activeObject c = Some (single target) /\ heap c !! target = Some img.
Proof.
  unfold getActiveObject. destruct (activeObject c) as [[o|]|]; try discriminate.
  destruct (heap c !! o) as [obj|] eqn:E; try discriminate.
  cbn. intros [= -> ->]. auto.
Qed.

Lemma addObject_add o c : isDrawingMode c = false -> addObject o c = add o c.
Proof.
  intros H. unfold addObject. cbv zeta.
  change (isDrawingMode (add o c)) with (isDrawingMode c). rewrite H. reflexivity.
Qed.

Lemma enableCropMode_enters s0 target img :
  getActiveObject (canvas (editor s0)) = Some (target, img) ->
  type img = "image" ->
  isDrawingMode (canvas (editor s0)) = false ->
  enableCropMode getBoundingRect s0 =
    cropping (newCropRect (getBoundingRect (setInteractive false img))) target img s0.
Proof.
  intros Hact Htype Hdraw.
  destruct s0 as [[[h n objs a dm sel dc hc rl sr tos] tl bs fb bh ch ts ic] m i].
  cbn [editor canvas isDrawingMode] in Hdraw. subst dm.
  unfold enableCropMode. rewrite Hact.
  apply getActiveObject_some in Hact as (_ & Hheap).
  cbn [isImageObject]. rewrite Htype.
  unfold cropping, cropEditor, cropCanvas, createOverlay, onCanvas, update, addObject.
  cbn [editor manager immediateSaves canvas set_canvas heap] in *.
  rewrite Hheap. reflexivity.
Qed.

(** One gesture on the crop rectangle, with the correction of
    [constrainCropRect()]. *)
Definition gestured (imgBounds : Bounds) (g : Gesture) (rect : Obj) : Obj :=
  match g with
  | released => rect
  | _ =>
      let r1 := onGeom (applyGesture g) rect in
      let '(l, t) := constrain imgBounds (getBoundingRect r1)
                               (left (geom r1)) (top (geom r1)) in
      onGeom (fun geo => Drawing.setLeft l (Drawing.setTop t geo)) r1
  end.

(** The saves that the gestures request land on the canvas crop mode was
    entered on. *)
Definition noted (g : Gesture) (s0 : Session) : Session :=
  match g with
  | released => onEditor (onCanvas requestSave) s0
  | _ => s0
  end.

Lemma gestured_listeners imgBounds g rect :
  listeners (gestured imgBounds g rect) = listeners rect.
Proof. unfold gestured. destruct g; [| |reflexivity]; destruct (constrain _ _ _ _); reflexivity. Qed.

Lemma canvas_cropEditor rect target img s0 :
  canvas (cropEditor rect target img s0) =
    cropCanvas (getBoundingRect (setInteractive false img)) rect target
               (canvas (editor s0)).
Proof. reflexivity. Qed.

Lemma write_cropEditor rect target img s0 f :
  onCanvas (update (S (nextId (canvas (editor s0)))) f) (cropEditor rect target img s0)
  = cropEditor (f rect) target img s0.
Proof.
  unfold onCanvas. rewrite canvas_cropEditor, update_cropCanvas. reflexivity.
Qed.

Lemma write_cropping rect target img s0 f :
  onEditor (onCanvas (update (S (nextId (canvas (editor s0)))) f))
           (cropping rect target img s0)
  = cropping (f rect) target img s0.
Proof.
  unfold onEditor, cropping. cbn [editor manager immediateSaves].
  rewrite write_cropEditor. reflexivity.
Qed.

Lemma lookup_rect imgBounds rect target c :
  heap (cropCanvas imgBounds rect target c) !! S (nextId c) = Some rect.
Proof. rewrite heap_cropCanvas. apply lookup_insert_eq. Qed.

Lemma lookup_overlay imgBounds rect target c :
  heap (cropCanvas imgBounds rect target c) !! nextId c = Some (overlayRect imgBounds).
Proof.
  rewrite heap_cropCanvas, lookup_insert_ne by lia. apply lookup_insert_eq.
Qed.

Lemma lookup_old imgBounds rect target c id :
  (id < nextId c)%nat ->
  heap (cropCanvas imgBounds rect target c) !! id =
    heap (update target (setInteractive false) c) !! id.
Proof.
  intros H. rewrite heap_cropCanvas, !lookup_insert_ne by lia. reflexivity.
Qed.

Lemma lookup_target imgBounds rect target c img :
  (target < nextId c)%nat -> heap c !! target = Some img ->
  heap (cropCanvas imgBounds rect target c) !! target
  = Some (setInteractive false img).
Proof.
  intros H Hh. rewrite lookup_old by exact H. apply update_lookup_eq, Hh.
Qed.

Lemma update_requestSave o f c :
  update o f (requestSave c) = requestSave (update o f c).
Proof. unfold update. cbn [heap requestSave set_saveRequests]. destruct (heap c !! o); reflexivity. Qed.

Lemma requestSave_cropCanvas imgBounds rect target c :
  requestSave (cropCanvas imgBounds rect target c) =
    cropCanvas imgBounds rect target (requestSave c).
Proof.
  unfold cropCanvas. cbv zeta. rewrite update_requestSave. reflexivity.
Qed.

Lemma nextId_requestSave c : nextId (requestSave c) = nextId c.
Proof. reflexivity. Qed.

Lemma save_cropping rect target img s0 :
  onEditor (onCanvas requestSave) (cropping rect target img s0) =
    cropping rect target img (onEditor (onCanvas requestSave) s0).
Proof.
  destruct s0 as [[c tl bs fb bh ch ts ic] m i].
  unfold onEditor, onCanvas, cropping, cropEditor, showToast, set_toasts, set_canvas.
  cbn [editor manager immediateSaves canvas tools brushSettings freeDrawingBrush
       brushSettingsHidden cropPanelHidden toasts imageInputClicks].
  rewrite requestSave_cropCanvas, nextId_requestSave. reflexivity.
Qed.

Lemma transform_cropping g rect target img s0 :
  (target < nextId (canvas (editor s0)))%nat ->
  heap (canvas (editor s0)) !! target = Some img ->
  transformCropRect getBoundingRect g (cropping rect target img s0) =
    cropping (gestured (getBoundingRect (setInteractive false img)) g rect)
             target img (noted g s0).
Proof.
  intros Hlt Hheap.
  assert (Hmove : forall g', g' <> released ->
            constrainCropRect getBoundingRect
              (onEditor (onCanvas (update (S (nextId (canvas (editor s0))))
                                          (onGeom (applyGesture g'))))
                        (cropping rect target img s0)) =
            cropping (let r1 := onGeom (applyGesture g') rect in
                      let '(l, t) := constrain (getBoundingRect (setInteractive false img))
                                               (getBoundingRect r1)
                                               (left (geom r1)) (top (geom r1)) in
                      onGeom (fun geo => Drawing.setLeft l (Drawing.setTop t geo)) r1)
                     target img s0).
  { intros g' _. rewrite write_cropping.
    unfold constrainCropRect. cbn [manager cropping cropRect targetImage editor].
    rewrite canvas_cropEditor, lookup_rect, (lookup_target _ _ _ _ img) by assumption.
    cbv zeta. destruct (constrain _ _ _ _) as [l t]. apply write_cropping. }
  destruct g as [l t | sx sy l t |].
  - apply (Hmove (moving l t)). discriminate.
  - apply (Hmove (scaling sx sy l t)). discriminate.
  - apply save_cropping.
Qed.

(** The crop rectangle after a series of gestures. *)
Definition rectAfter (img : Obj) (gs : list Gesture) : Obj :=
  let imgBounds := getBoundingRect (setInteractive false img) in
  fold_left (fun rect g => gestured imgBounds g rect) gs (newCropRect imgBounds).

Lemma fold_left_step {A B} (f : A -> B -> A) b l a :
  fold_left f (b :: l) a = fold_left f l (f a b).
Proof. reflexivity. Qed.

Lemma rectAfter_listeners img gs : listeners (rectAfter img gs) = noListeners.
Proof.
  unfold rectAfter.
  set (r0 := newCropRect _).
  assert (H : listeners r0 = noListeners) by reflexivity.
  revert H. generalize r0. clear r0.
  induction gs as [|g gs IH]; intros r H; cbn [fold_left]; [exact H|].
  apply IH. rewrite gestured_listeners. exact H.
Qed.

(** The number of completed drags among the gestures. *)
Definition drags (gs : list Gesture) : nat :=
  length (List.filter (fun g => match g with released => true | _ => false end) gs).

Lemma noted_keeps g s0 :
  let c := canvas (editor s0) in
  let c' := canvas (editor (noted g s0)) in
  heap c' = heap c /\ nextId c' = nextId c /\ objects c' = objects c /\
  activeObject c' = activeObject c /\ isDrawingMode c' = isDrawingMode c /\
  removedLog c' = removedLog c /\
  saveRequests c' = (saveRequests c + drags [g])%nat /\
  toasts (editor (noted g s0)) = toasts (editor s0) /\
  immediateSaves (noted g s0) = immediateSaves s0.
Proof.
  destruct g; cbn; rewrite ?Nat.add_0_r, ?Nat.add_1_r; auto 10.
Qed.

Lemma drags_cons g gs : drags (g :: gs) = (drags [g] + drags gs)%nat.
Proof. destruct g; reflexivity. Qed.

Lemma noted_all gs : forall s0,
  let c := canvas (editor s0) in
  let s' := fold_left (fun s g => noted g s) gs s0 in
  let c' := canvas (editor s') in
  heap c' = heap c /\ nextId c' = nextId c /\ objects c' = objects c /\
  activeObject c' = activeObject c /\ isDrawingMode c' = isDrawingMode c /\
  removedLog c' = removedLog c /\
  saveRequests c' = (saveRequests c + drags gs)%nat /\
  toasts (editor s') = toasts (editor s0) /\
  immediateSaves s' = immediateSaves s0.
Proof.
  induction gs as [|g gs IH]; intros s0; cbv zeta.
  - cbn [fold_left drags List.filter length]. rewrite Nat.add_0_r. auto 10.
  - rewrite fold_left_step, drags_cons.
    destruct (IH (noted g s0)) as (I1 & I2 & I3 & I4 & I5 & I6 & I7 & I8 & I9).
    destruct (noted_keeps g s0) as (K1 & K2 & K3 & K4 & K5 & K6 & K7 & K8 & K9).
    rewrite I1, I2, I3, I4, I5, I6, I7, I8, I9, K1, K2, K3, K4, K5, K6, K7, K8, K9.
    rewrite Nat.add_assoc. auto 10.
Qed.

Lemma gestures_cropping target img gs : forall rect s0,
  (target < nextId (canvas (editor s0)))%nat ->
  heap (canvas (editor s0)) !! target = Some img ->
  fold_left (fun s g => transformCropRect getBoundingRect g s) gs
            (cropping rect target img s0) =
    cropping (fold_left (fun r g =>
                gestured (getBoundingRect (setInteractive false img)) g r) gs rect)
             target img (fold_left (fun s g => noted g s) gs s0).
Proof.
  induction gs as [|g gs IH]; intros rect s0 Hlt Hheap; [reflexivity|].
  rewrite !fold_left_step, transform_cropping by assumption.
  destruct (noted_keeps g s0) as (K1 & K2 & _).
  apply IH; [rewrite K2 | rewrite K1]; assumption.
Qed.

End WithFabric.

Lemma isDrawingMode_detached o c :
  isDrawingMode (CascadeFacts.detached o c) = isDrawingMode c.
Proof. unfold CascadeFacts.detached. destruct (isActive o _); reflexivity. Qed.

Lemma activeObject_detached o c :
  activeObject (CascadeFacts.detached o c) =
    if isActive o c then None else activeObject c.
Proof.
  unfold CascadeFacts.detached.
  change (isActive o (set_objects (spliceOut o (objects c)) c)) with (isActive o c).
  destruct (isActive o c); reflexivity.
Qed.

(** The manager in crop mode on a canvas whose next reference was [n]. *)
Definition cropManager (n target : ObjId) (img : Obj) : CropManager :=
  mkCropManager (Some (S n)) (Some target) true (Some n) (Some (stateOf img)).

Lemma restore_own_state img :
  onGeom (restoreState (stateOf img)) (setInteractive true (setInteractive false img))
  = setInteractive true img.
Proof. destruct img as [? ? ? [] ? [] ? ? ?]. reflexivity. Qed.

Lemma setSelectable_setInteractive o :
  setSelectable true (setInteractive true o) = setInteractive true o.
Proof. reflexivity. Qed.

Section Leaving.
Variables (imgBounds : Bounds) (rect : Obj) (target : ObjId) (img : Obj) (c : Canvas).
Hypothesis Hheap : heap c !! target = Some img.
Hypothesis Hon : target ∈ objects c.
Hypothesis Hbound : Forall (fun id => id < nextId c)%nat (objects c).
Hypothesis Hrect : onRemoved (listeners rect) = [].

Let n := nextId c.
Let cc := cropCanvas imgBounds rect target c.

Lemma fresh_not_on_canvas k : (n <= k)%nat -> k ∉ objects c.
Proof.
  intros Hk Hin. rewrite Forall_forall in Hbound. apply Hbound in Hin. subst n. lia.
Qed.

Lemma target_old : (target < n)%nat.
Proof. rewrite Forall_forall in Hbound. apply Hbound, Hon. Qed.

(** The overlay and the crop rectangle come off the canvas again. *)
Definition cleared : Canvas := CascadeFacts.detached (S n) (CascadeFacts.detached n cc).

Lemma remove_overlay : remove n cc = Some (CascadeFacts.detached n cc).
Proof.
  apply (DrawingFacts.remove_plain _ _ (overlayRect imgBounds)).
  - subst cc. rewrite objects_cropCanvas. apply elem_of_app. right. left.
  - apply lookup_overlay.
  - reflexivity.
Qed.

Lemma objects_without_overlay :
  objects (CascadeFacts.detached n cc) = objects c ++ [S n].
Proof.
  rewrite CascadeFacts.detached_objects. subst cc. rewrite objects_cropCanvas.
  apply spliceOut_middle, fresh_not_on_canvas. lia.
Qed.

Lemma remove_rect : remove (S n) (CascadeFacts.detached n cc) = Some cleared.
Proof.
  apply (DrawingFacts.remove_plain _ _ rect).
  - rewrite objects_without_overlay. apply elem_of_app. right. left.
  - rewrite CascadeFacts.detached_heap. apply lookup_rect.
  - exact Hrect.
Qed.

Lemma cleared_facts :
  heap cleared = heap cc /\ objects cleared = objects c /\
  nextId cleared = S (S n) /\ activeObject cleared = None /\
  removedLog cleared = removedLog c ++ [n; S n] /\
  saveRequests cleared = saveRequests c.
Proof.
  unfold cleared.
  split; [rewrite !CascadeFacts.detached_heap; reflexivity|].
  split.
  { rewrite CascadeFacts.detached_objects, objects_without_overlay.
    apply DrawingFacts.spliceOut_last, fresh_not_on_canvas. lia. }
  split; [rewrite !DrawingFacts.detached_nextId; apply nextId_cropCanvas|].
  split.
  { rewrite activeObject_detached. unfold isActive at 1.
    rewrite activeObject_detached. unfold isActive at 1.
    subst cc. rewrite activeObject_cropCanvas.
    fold n. replace (Nat.eqb (S n) n) with false
      by (symmetry; apply Nat.eqb_neq; lia).
    rewrite Nat.eqb_refl. reflexivity. }
  split.
  { rewrite !CascadeFacts.detached_removedLog, <- app_assoc.
    subst cc. rewrite (proj1 (rest_cropCanvas _ _ _ _)). reflexivity. }
  rewrite !DrawingFacts.detached_saveRequests.
  subst cc. apply rest_cropCanvas.
Qed.

End Leaving.

Lemma canvas_showToast m t e : canvas (showToast m t e) = canvas e.
Proof. reflexivity. Qed.
Lemma tools_showToast m t e : tools (showToast m t e) = tools e.
Proof. reflexivity. Qed.
Lemma toasts_showToast m t e : toasts (showToast m t e) = toasts e ++ [(m, t)].
Proof. reflexivity. Qed.
Lemma cropPanelHidden_showToast m t e :
  cropPanelHidden (showToast m t e) = cropPanelHidden e.
Proof. reflexivity. Qed.
Lemma canvas_set_cropPanelHidden b e : canvas (set_cropPanelHidden b e) = canvas e.
Proof. reflexivity. Qed.
Lemma toasts_set_cropPanelHidden b e : toasts (set_cropPanelHidden b e) = toasts e.
Proof. reflexivity. Qed.
Lemma canvas_set_canvas c e : canvas (set_canvas c e) = c.
Proof. reflexivity. Qed.
Lemma toasts_set_canvas c e : toasts (set_canvas c e) = toasts e.
Proof. reflexivity. Qed.

(** [setTool('select')] as the crop manager calls it. *)
Lemma selectTool_facts e :
  let c' := canvas (selectTool e) in
  (currentTool (tools (selectTool e)) = "select" /\
   toasts (selectTool e) = toasts e /\
   cropPanelHidden (selectTool e) = true) /\
  (objects c' = objects (canvas e) /\
   activeObject c' = activeObject (canvas e) /\
   nextId c' = nextId (canvas e) /\
   removedLog c' = removedLog (canvas e) /\
   saveRequests c' = saveRequests (canvas e)) /\
  forall id,
    heap c' !! id =
      if bool_decide (id ∈ objects (canvas e))
      then setSelectable true <$> heap (canvas e) !! id
      else heap (canvas e) !! id.
Proof.
  intros c'. subst c'. unfold selectTool.
  destruct (ToolSwitchFacts.select_passes false (fun e' => e') e)
    as (H1 & H2 & _ & H3 & _).
  split; [auto|]. split.
  - rewrite ToolSwitchFacts.canvas_select.
    destruct (ToolSwitchFacts.forEachSelectable_frame true
                (ToolSwitchFacts.resetCanvas (canvas e)))
      as (E1 & E2 & E3 & E4 & E5 & _).
    rewrite E1, E2, E3, E4, E5. repeat split.
  - intros id. apply ToolSwitchFacts.select_lookup.
Qed.

Lemma removedLog_setActiveObject o c :
  removedLog (setActiveObject o c) = removedLog c.
Proof. reflexivity. Qed.
Lemma removedLog_add o c : removedLog (add o c) = removedLog c.
Proof. reflexivity. Qed.
Lemma activeObject_setActiveObject o c :
  activeObject (setActiveObject o c) = Some (single o).
Proof. reflexivity. Qed.

Section Cancel.
Variables (imgBounds : Bounds) (rect : Obj) (target : ObjId) (img : Obj).
Variables (c : Canvas) (s : Session).
Hypothesis Hheap : heap c !! target = Some img.
Hypothesis Hon : target ∈ objects c.
Hypothesis Hbound : Forall (fun id => id < nextId c)%nat (objects c).
Hypothesis Hrect : onRemoved (listeners rect) = [].
Hypothesis Hman : manager s = cropManager (nextId c) target img.
Hypothesis Hcan : canvas (editor s) = cropCanvas imgBounds rect target c.

(** The canvas [cancelCrop()] hands to [setTool('select')]. *)
Definition restored : Canvas :=
  setActiveObject target
    (update target
       (fun o => onGeom (restoreState (stateOf img)) (setInteractive true o))
       (cleared imgBounds rect target c)).

Definition cancelled : Session :=
  mkSession
    (showToast "已取消裁剪" "info"
       (selectTool (set_cropPanelHidden true (set_canvas restored (editor s)))))
    idle (immediateSaves s).

Lemma cancelCrop_cancelled : cancelCrop s = Some cancelled.
Proof.
  unfold cancelCrop. rewrite Hman, Hcan.
  cbn [cropManager overlay cropRect targetImage originalImageState removeIfSet].
  rewrite remove_overlay by assumption. cbn [mbind option_bind].
  rewrite remove_rect by assumption. reflexivity.
Qed.

Lemma restored_facts :
  objects restored = objects c /\
  activeObject restored = Some (single target) /\
  removedLog restored = removedLog c ++ [nextId c; S (nextId c)] /\
  saveRequests restored = saveRequests c /\
  heap restored !! target = Some (setInteractive true img) /\
  forall id, (id < nextId c)%nat -> id <> target ->
    heap restored !! id = heap c !! id.
Proof.
  destruct (cleared_facts imgBounds rect target c Hbound) as (C1 & C2 & _ & _ & C5 & C6).
  unfold restored.
  split; [rewrite objects_setActiveObject, update_objects; exact C2|].
  split; [apply activeObject_setActiveObject|].
  split.
  { rewrite removedLog_setActiveObject.
    rewrite (proj1 (proj2 (proj2 (proj2 (update_frame _ _ _))))). exact C5. }
  split.
  { rewrite DrawingFacts.saveRequests_setActiveObject.
    rewrite DrawingFacts.saveRequests_update. exact C6. }
  split.
  { rewrite heap_setActiveObject.
    rewrite (update_lookup_eq _ _ _ (setInteractive false img)).
    - rewrite restore_own_state. reflexivity.
    - rewrite C1. apply lookup_target; [|exact Hheap].
      apply (target_old target c); assumption. }
  intros id Hid Hne. rewrite heap_setActiveObject.
  rewrite update_lookup_ne by congruence.
  rewrite C1, lookup_old by exact Hid. apply update_lookup_ne. congruence.
Qed.

Lemma cancelled_facts :
  let e2 := editor cancelled in
  manager cancelled = idle /\
  immediateSaves cancelled = immediateSaves s /\
  saveRequests (canvas e2) = saveRequests c /\
  objects (canvas e2) = objects c /\
  activeObject (canvas e2) = Some (single target) /\
  heap (canvas e2) !! target = Some (setInteractive true img) /\
  (forall id, id ∈ objects c -> id <> target ->
     heap (canvas e2) !! id = setSelectable true <$> heap c !! id) /\
  currentTool (tools e2) = "select" /\
  cropPanelHidden e2 = true /\
  toasts e2 = toasts (editor s) ++ [("已取消裁剪", "info")].
Proof.
  destruct restored_facts as (R1 & R2 & R3 & R4 & R5 & R6).
  unfold cancelled. cbn [manager immediateSaves editor].
  set (e3 := set_cropPanelHidden true _).
  assert (Hc3 : canvas e3 = restored) by reflexivity.
  destruct (selectTool_facts e3) as ((T1 & T2 & T3) & (O1 & O2 & _ & _ & O5) & Hlook).
  rewrite canvas_showToast, tools_showToast, cropPanelHidden_showToast,
    toasts_showToast.
  rewrite O1, O2, O5, T1, T2, T3, !Hlook, !Hc3, R1, R2, R4, R5.
  rewrite (bool_decide_eq_true_2 _ Hon).
  split; [reflexivity|]. split; [reflexivity|]. split; [reflexivity|].
  split; [reflexivity|]. split; [reflexivity|]. split; [reflexivity|].
  split.
  { intros id Hid Hne. rewrite Hlook, Hc3, R1, (bool_decide_eq_true_2 _ Hid).
    rewrite R6; [reflexivity| |exact Hne].
    rewrite Forall_forall in Hbound. apply Hbound, Hid. }
  split; [reflexivity|]. split; [reflexivity|].
  subst e3. rewrite toasts_set_cropPanelHidden, toasts_set_canvas. reflexivity.
Qed.

End Cancel.

Lemma alloc_pair obj c : alloc obj c = (nextId c, (alloc obj c).2).
Proof. reflexivity. Qed.

(** [cropLoaded] step by step: the new image is allocated, the three
    objects of crop mode are removed, the image is added and selected. *)
Lemma cropLoaded_steps cropBounds img r s ov tg cr newId c0 c1 c2 c3 :
  overlay (manager s) = Some ov ->
  targetImage (manager s) = Some tg ->
  cropRect (manager s) = Some cr ->
  alloc (croppedImage cropBounds img r) (canvas (editor s)) = (newId, c0) ->
  remove ov c0 = Some c1 ->
  remove tg c1 = Some c2 ->
  remove cr c2 = Some c3 ->
  isDrawingMode c3 = false ->
  cropLoaded cropBounds img r s =
    Some (mkSession
            (selectTool
               (set_cropPanelHidden true
                  (showToast "裁剪成功" "success"
                     (set_canvas (setActiveObject newId (add newId c3))
                                 (editor s)))))
            idle (S (immediateSaves s))).
Proof.
  intros Ho Ht Hc Ha H1 H2 H3 Hd.
  unfold cropLoaded. cbv zeta. rewrite Ha, Ho, Ht, Hc.
  cbn [removeIfSet].
  rewrite H1. cbn [mbind option_bind].
  rewrite H2. cbn [mbind option_bind].
  rewrite H3. cbn [mbind option_bind].
  rewrite (addObject_add _ _ Hd). reflexivity.
Qed.

Section Apply.
Variables (imgBounds : Bounds) (rect : Obj) (target : ObjId) (img : Obj).
Variables (c : Canvas) (s : Session) (newImg : Obj).
Hypothesis Hheap : heap c !! target = Some img.
Hypothesis Hon : target ∈ objects c.
Hypothesis Hbound : Forall (fun id => id < nextId c)%nat (objects c).
Hypothesis Hrect : onRemoved (listeners rect) = [].
Hypothesis Himg : onRemoved (listeners img) = [].
Hypothesis Hdraw : isDrawingMode c = false.
Hypothesis Hman : manager s = cropManager (nextId c) target img.
Hypothesis Hcan : canvas (editor s) = cropCanvas imgBounds rect target c.

Let n := nextId c.
Let cc := cropCanvas imgBounds rect target c.

(** The canvas with the new image allocated and the overlay, the old
    image and the crop rectangle removed, in this order. *)
Definition loaded : Canvas := (alloc newImg cc).2.
Definition swapped : Canvas :=
  CascadeFacts.detached (S n)
    (CascadeFacts.detached target (CascadeFacts.detached n loaded)).

Lemma heap_loaded : heap loaded = <[S (S n) := newImg]> (heap cc).
Proof.
  unfold loaded. rewrite heap_alloc. subst cc. rewrite nextId_cropCanvas. reflexivity.
Qed.

Lemma objects_loaded : objects loaded = objects c ++ [n; S n].
Proof. unfold loaded. rewrite objects_alloc. apply objects_cropCanvas. Qed.

Lemma loaded_old id : (id < S (S n))%nat -> heap loaded !! id = heap cc !! id.
Proof. intros H. rewrite heap_loaded. apply lookup_insert_ne. lia. Qed.

Lemma remove_first : remove n loaded = Some (CascadeFacts.detached n loaded).
Proof.
  apply (DrawingFacts.remove_plain _ _ (overlayRect imgBounds)).
  - rewrite objects_loaded. apply elem_of_app. right. left.
  - rewrite loaded_old by lia. apply lookup_overlay.
  - reflexivity.
Qed.

Lemma objects_first :
  objects (CascadeFacts.detached n loaded) = objects c ++ [S n].
Proof.
  rewrite CascadeFacts.detached_objects, objects_loaded.
  apply spliceOut_middle, (fresh_not_on_canvas c Hbound). lia.
Qed.

Lemma remove_second :
  remove target (CascadeFacts.detached n loaded) =
    Some (CascadeFacts.detached target (CascadeFacts.detached n loaded)).
Proof.
  apply (DrawingFacts.remove_plain _ _ (setInteractive false img)).
  - rewrite objects_first. apply elem_of_app. left. exact Hon.
  - rewrite CascadeFacts.detached_heap.
    pose proof (target_old target c Hon Hbound) as Hlt.
    rewrite loaded_old by (subst n; lia). apply lookup_target; assumption.
  - exact Himg.
Qed.

Lemma objects_second :
  objects (CascadeFacts.detached target (CascadeFacts.detached n loaded)) =
    spliceOut target (objects c) ++ [S n].
Proof.
  rewrite CascadeFacts.detached_objects, objects_first.
  apply spliceOut_app, Hon.
Qed.

Lemma remove_third :
  remove (S n) (CascadeFacts.detached target (CascadeFacts.detached n loaded)) =
    Some swapped.
Proof.
  apply (DrawingFacts.remove_plain _ _ rect).
  - rewrite objects_second. apply elem_of_app. right. left.
  - rewrite !CascadeFacts.detached_heap, loaded_old by lia. apply lookup_rect.
  - exact Hrect.
Qed.

Lemma swapped_facts :
  heap swapped = <[S (S n) := newImg]> (heap cc) /\
  objects swapped = spliceOut target (objects c) /\
  activeObject swapped = None /\
  removedLog swapped = removedLog c ++ [n; target; S n] /\
  saveRequests swapped = saveRequests c.
Proof.
  unfold swapped.
  split; [rewrite !CascadeFacts.detached_heap; apply heap_loaded|].
  split.
  { rewrite CascadeFacts.detached_objects, objects_second.
    apply DrawingFacts.spliceOut_last. intros H. apply CascadeFacts.spliceOut_subset in H.
    revert H. apply (fresh_not_on_canvas c Hbound). lia. }
  split.
  { pose proof (target_old target c Hon Hbound) as Hlt.
    assert (A0 : activeObject loaded = Some (single (S n))).
    { unfold loaded. rewrite DrawingFacts.activeObject_alloc.
      apply activeObject_cropCanvas. }
    assert (A1 : activeObject (CascadeFacts.detached n loaded)
                 = Some (single (S n))).
    { rewrite activeObject_detached. unfold isActive. rewrite A0.
      replace (Nat.eqb (S n) n) with false by (symmetry; apply Nat.eqb_neq; lia).
      reflexivity. }
    assert (A2 : activeObject (CascadeFacts.detached target
                                 (CascadeFacts.detached n loaded))
                 = Some (single (S n))).
    { rewrite activeObject_detached. unfold isActive. rewrite A1.
      replace (Nat.eqb (S n) target) with false
        by (symmetry; apply Nat.eqb_neq; subst n; lia).
      reflexivity. }
    rewrite activeObject_detached. unfold isActive. rewrite A2, Nat.eqb_refl.
    reflexivity. }
  split.
  { rewrite !CascadeFacts.detached_removedLog, <- !app_assoc.
    unfold loaded. change (removedLog (alloc newImg cc).2) with (removedLog cc).
    subst cc. rewrite (proj1 (rest_cropCanvas _ _ _ _)). reflexivity. }
  rewrite !DrawingFacts.detached_saveRequests.
  unfold loaded. rewrite DrawingFacts.saveRequests_alloc.
  subst cc. apply rest_cropCanvas.
Qed.

Lemma isDrawingMode_swapped : isDrawingMode swapped = false.
Proof.
  unfold swapped, loaded. rewrite !isDrawingMode_detached.
  change (isDrawingMode (alloc newImg cc).2) with (isDrawingMode cc).
  unfold cc. rewrite (proj1 (proj2 (proj2 (proj2 (rest_cropCanvas _ _ _ _))))).
  exact Hdraw.
Qed.

Variables (cropBounds : Bounds) (source : Obj) (r : Region).
Hypothesis Hnew : newImg = croppedImage cropBounds source r.

(** The session the callback of the load leaves. *)
Definition applied : Session :=
  mkSession
    (selectTool
       (set_cropPanelHidden true
          (showToast "裁剪成功" "success"
             (set_canvas (setActiveObject (S (S n)) (add (S (S n)) swapped))
                         (editor s)))))
    idle (S (immediateSaves s)).

Lemma cropLoaded_applied : cropLoaded cropBounds source r s = Some applied.
Proof.
  unfold applied.
  apply (cropLoaded_steps cropBounds source r s n target (S n) (S (S n)) loaded
           (CascadeFacts.detached n loaded)
           (CascadeFacts.detached target (CascadeFacts.detached n loaded))
           swapped).
  - rewrite Hman. reflexivity.
  - rewrite Hman. reflexivity.
  - rewrite Hman. reflexivity.
  - rewrite Hcan, <- Hnew, alloc_pair, nextId_cropCanvas. reflexivity.
  - exact remove_first.
  - exact remove_second.
  - exact remove_third.
  - exact isDrawingMode_swapped.
Qed.

Lemma applied_facts :
  let e2 := editor applied in
  manager applied = idle /\
  immediateSaves applied = S (immediateSaves s) /\
  saveRequests (canvas e2) = saveRequests c /\
  objects (canvas e2) = spliceOut target (objects c) ++ [S (S n)] /\
  activeObject (canvas e2) = Some (single (S (S n))) /\
  heap (canvas e2) !! S (S n) = Some newImg /\
  removedLog (canvas e2) = removedLog c ++ [n; target; S n] /\
  (forall id, id ∈ objects c -> id <> target ->
     heap (canvas e2) !! id = setSelectable true <$> heap c !! id) /\
  currentTool (tools e2) = "select" /\
  cropPanelHidden e2 = true /\
  toasts e2 = toasts (editor s) ++ [("裁剪成功", "success")].
Proof.
  destruct swapped_facts as (W1 & W2 & W3 & W4 & W5).
  unfold applied. cbn [manager immediateSaves editor].
  set (e3 := set_cropPanelHidden true _).
  set (k := setActiveObject (S (S n)) (add (S (S n)) swapped)).
  assert (Hc3 : canvas e3 = k) by reflexivity.
  assert (K1 : objects k = spliceOut target (objects c) ++ [S (S n)]).
  { subst k. rewrite objects_setActiveObject, objects_add, W2. reflexivity. }
  assert (K2 : heap k = <[S (S n) := newImg]> (heap cc)).
  { subst k. rewrite heap_setActiveObject, heap_add. exact W1. }
  destruct (selectTool_facts e3) as ((T1 & T2 & T3) & (O1 & O2 & _ & O4 & O5) & Hlook).
  rewrite O1, O2, O4, O5, T1, T2, T3, !Hlook, !Hc3, K1, K2.
  split; [reflexivity|]. split; [reflexivity|].
  split.
  { subst k. rewrite DrawingFacts.saveRequests_setActiveObject,
      DrawingFacts.saveRequests_add. exact W5. }
  split; [reflexivity|].
  split; [subst k; apply activeObject_setActiveObject|].
  split.
  { rewrite bool_decide_eq_true_2 by (apply elem_of_app; right; left).
    rewrite lookup_insert_eq, Hnew. reflexivity. }
  split.
  { subst k. rewrite removedLog_setActiveObject, removedLog_add. exact W4. }
  split.
  { intros id Hid Hne. rewrite Hlook, Hc3, K1, K2.
    assert (Hlt : (id < n)%nat)
      by (rewrite Forall_forall in Hbound; apply Hbound, Hid).
    rewrite lookup_insert_ne by lia.
    unfold cc. rewrite lookup_old by exact Hlt.
    rewrite update_lookup_ne by congruence.
    rewrite bool_decide_eq_true_2; [reflexivity|].
    apply elem_of_app. left. apply spliceOut_keeps; [congruence | exact Hid]. }
  split; [reflexivity|]. split; [reflexivity|].
  subst e3. rewrite toasts_set_cropPanelHidden, toasts_showToast, toasts_set_canvas.
  reflexivity.
Qed.

End Apply.

(** What [cancelCrop()] leaves of a crop mode that was entered on canvas
    [c0] with image [img] at [target]: the stack as before, the image
    selected, with its position, scale and angle and with selection, events
    and controls switched on, every other object on the canvas as it was
    but selectable and evented, the manager idle, the select tool current,
    the crop panel hidden. *)
Definition backOnImage (c0 : Canvas) (target : ObjId) (img : Obj) (s2 : Session)
  : Prop :=
  manager s2 = idle /\
  objects (canvas (editor s2)) = objects c0 /\
  activeObject (canvas (editor s2)) = Some (single target) /\
  heap (canvas (editor s2)) !! target = Some (setInteractive true img) /\
  (forall id, id ∈ objects c0 -> id <> target ->
     heap (canvas (editor s2)) !! id = setSelectable true <$> heap c0 !! id) /\
  currentTool (tools (editor s2)) = "select" /\
  cropPanelHidden (editor s2) = true.

Lemma backOnImage_ext c c' target img s2 :
  heap c' = heap c -> objects c' = objects c ->
  backOnImage c' target img s2 -> backOnImage c target img s2.
Proof. unfold backOnImage. intros -> ->. auto. Qed.

Section CropMode.
Variable getBoundingRect : Obj -> Bounds.

Lemma crop_mode_reached s0 target img gs :
  getActiveObject (canvas (editor s0)) = Some (target, img) ->
  type img = "image" ->
  isDrawingMode (canvas (editor s0)) = false ->
  (target < nextId (canvas (editor s0)))%nat ->
  fold_left (fun s g => transformCropRect getBoundingRect g s) gs
            (enableCropMode getBoundingRect s0)
  = cropping getBoundingRect (rectAfter getBoundingRect img gs) target img
             (fold_left (fun s g => noted g s) gs s0).
Proof.
  intros Hact Htype Hdraw Hlt.
  rewrite (enableCropMode_enters _ _ _ _ Hact Htype Hdraw).
  apply getActiveObject_some in Hact as (_ & Hheap).
  apply gestures_cropping; assumption.
Qed.

Lemma immediateSaves_cropping rect target img s0 :
  immediateSaves (cropping getBoundingRect rect target img s0) = immediateSaves s0.
Proof. reflexivity. Qed.

Lemma toasts_cropping rect target img s0 :
  toasts (editor (cropping getBoundingRect rect target img s0)) =
    toasts (editor s0) ++ [(adjustMessage, "info")].
Proof. reflexivity. Qed.

(** Leaving crop mode by [cancelCrop()], with some more toasts shown
    first. *)
Lemma cancel_after_toast rect target img s0 m t :
  heap (canvas (editor s0)) !! target = Some img ->
  target ∈ objects (canvas (editor s0)) ->
  Forall (fun id => id < nextId (canvas (editor s0)))%nat
         (objects (canvas (editor s0))) ->
  onRemoved (listeners rect) = [] ->
  forall s1,
    s1 = cropping getBoundingRect rect target img s0 \/
    s1 = onEditor (showToast m t) (cropping getBoundingRect rect target img s0) ->
  exists s2, cancelCrop s1 = Some s2 /\
    backOnImage (canvas (editor s0)) target img s2 /\
    saveRequests (canvas (editor s2)) = saveRequests (canvas (editor s0)) /\
    immediateSaves s2 = immediateSaves s0 /\
    toasts (editor s2) = toasts (editor s1) ++ [("已取消裁剪", "info")].
Proof.
  intros Hheap Hon Hbound Hrect s1 Hs1.
  set (imgBounds := getBoundingRect (setInteractive false img)).
  assert (Hman : manager s1 = cropManager (nextId (canvas (editor s0))) target img)
    by (destruct Hs1 as [-> | ->]; reflexivity).
  assert (Hcan : canvas (editor s1)
                 = cropCanvas imgBounds rect target (canvas (editor s0)))
    by (destruct Hs1 as [-> | ->]; reflexivity).
  assert (Hsav : immediateSaves s1 = immediateSaves s0)
    by (destruct Hs1 as [-> | ->]; reflexivity).
  exists (cancelled imgBounds rect target img (canvas (editor s0)) s1).
  split; [apply cancelCrop_cancelled; assumption|].
  destruct (cancelled_facts imgBounds rect target img (canvas (editor s0)) s1
              Hheap Hon Hbound)
    as (F1 & F2 & F3 & F4 & F5 & F6 & F7 & F8 & F9 & F10).
  split; [unfold backOnImage; auto 10|].
  split; [exact F3|].
  split; [congruence | exact F10].
Qed.

(** X22: crop mode and the way back.  [enableCropMode()] on a selected
    image, with the canvas not in drawing mode (as [setTool('crop')] leaves
    it), locks the image (not selectable, no events, no controls), puts
    the overlay and the crop rectangle on top of the stack and selects the
    rectangle; moving and scaling the rectangle changes nothing but the
    rectangle, and every completed drag requests one history save, of the
    canvas as it is in crop mode.  [cancelCrop()] then takes both helpers
    off the canvas again: the stack is as before, the image is selected,
    at its position, scale and angle, selectable, evented and with
    controls (also if it had none before), every other object on the
    canvas is as it was but selectable and evented, the manager is idle,
    the select tool is current and the crop panel is hidden; entering and
    cancelling request no history save and write no history entry. *)
Theorem cancel_crop_restores_canvas s0 target img gs :
  getActiveObject (canvas (editor s0)) = Some (target, img) ->
  type img = "image" ->
  isDrawingMode (canvas (editor s0)) = false ->
  target ∈ objects (canvas (editor s0)) ->
  Forall (fun id => id < nextId (canvas (editor s0)))%nat (objects (canvas (editor s0))) ->
  let c0 := canvas (editor s0) in
  let n := nextId c0 in
  let imgBounds := getBoundingRect (setInteractive false img) in
  let s1 := fold_left (fun s g => transformCropRect getBoundingRect g s) gs
                      (enableCropMode getBoundingRect s0) in
  (manager s1 = mkCropManager (Some (S n)) (Some target) true (Some n)
                              (Some (stateOf img)) /\
   objects (canvas (editor s1)) = objects c0 ++ [n; S n] /\
   activeObject (canvas (editor s1)) = Some (single (S n)) /\
   heap (canvas (editor s1)) !! target = Some (setInteractive false img) /\
   heap (canvas (editor s1)) !! n = Some (overlayRect imgBounds) /\
   heap (canvas (editor s1)) !! S n = Some (rectAfter getBoundingRect img gs) /\
   (forall id, (id < n)%nat -> id <> target ->
      heap (canvas (editor s1)) !! id = heap c0 !! id) /\
   saveRequests (canvas (editor s1)) = (saveRequests c0 + drags gs)%nat) /\
  exists s2, cancelCrop s1 = Some s2 /\
    backOnImage c0 target img s2 /\
    saveRequests (canvas (editor s2)) = (saveRequests c0 + drags gs)%nat /\
    immediateSaves s2 = immediateSaves s0 /\
    toasts (editor s2) =
      toasts (editor s0) ++ [(adjustMessage, "info"); ("已取消裁剪", "info")].
Proof.
  intros Hact Htype Hdraw Hon Hbound c0 n imgBounds s1.
  assert (Hlt : (target < n)%nat) by (apply (target_old target c0); assumption).
  subst n. subst s1. rewrite (crop_mode_reached s0 target img gs Hact Htype Hdraw Hlt).
  apply getActiveObject_some in Hact as (_ & Hheap).
  destruct (noted_all gs s0) as (N1 & N2 & N3 & N4 & N5 & N6 & N7 & N8 & N9).
  set (s0' := fold_left (fun s g => noted g s) gs s0) in *.
  set (c0' := canvas (editor s0')) in *. fold c0 in N1, N2, N3, N4, N5, N6, N7.
  set (rect := rectAfter getBoundingRect img gs).
  assert (Hrect : onRemoved (listeners rect) = [])
    by (subst rect; rewrite rectAfter_listeners; reflexivity).
  set (s1 := cropping getBoundingRect rect target img s0').
  assert (Hcan : canvas (editor s1) = cropCanvas imgBounds rect target c0')
    by reflexivity.
  assert (Hheap' : heap c0' !! target = Some img) by (rewrite N1; exact Hheap).
  assert (Hon' : target ∈ objects c0') by (rewrite N3; exact Hon).
  assert (Hbound' : Forall (fun id => id < nextId c0')%nat (objects c0'))
    by (rewrite N2, N3; exact Hbound).
  split.
  - split.
    { unfold s1, cropping. cbn [manager]. fold c0'. rewrite N2. reflexivity. }
    rewrite Hcan.
    split; [rewrite objects_cropCanvas, N2, N3; reflexivity|].
    split; [rewrite activeObject_cropCanvas, N2; reflexivity|].
    split; [apply lookup_target; [rewrite N2|]; assumption|].
    split; [rewrite <- N2; apply lookup_overlay|].
    split; [rewrite <- N2; apply lookup_rect|].
    split.
    { intros id Hid Hne. rewrite lookup_old by (rewrite N2; exact Hid).
      rewrite update_lookup_ne by congruence. rewrite N1. reflexivity. }
    rewrite (proj1 (proj2 (rest_cropCanvas _ _ _ _))). exact N7.
  - destruct (cancel_after_toast rect target img s0' "" "" Hheap' Hon' Hbound' Hrect
                s1 (or_introl eq_refl)) as (s2 & E & Hback & Hreq & Hsav & Htoast).
    exists s2. split; [exact E|].
    split; [exact (backOnImage_ext c0 c0' target img s2 N1 N3 Hback)|].
    split; [rewrite Hreq; exact N7|].
    split; [rewrite Hsav; exact N9|].
    rewrite Htoast. subst s1. rewrite toasts_cropping, N8, <- app_assoc. reflexivity.
Qed.

Lemma applyCrop_cropping outcome rect target img s0 :
  (target < nextId (canvas (editor s0)))%nat ->
  heap (canvas (editor s0)) !! target = Some img ->
  let s1 := cropping getBoundingRect rect target img s0 in
  let locked := setInteractive false img in
  let r := cropRegion (getBoundingRect rect) (getBoundingRect locked) locked in
  applyCrop getBoundingRect outcome s1 =
    if Qle_bool (cropWidth r) 0 || Qle_bool (cropHeight r) 0
    then Some (onEditor (showToast "裁剪区域无效" "error") s1)
    else
      match outcome with
      | drawThrows message =>
          cancelCrop (onEditor (showToast ("裁剪失败: " ++ message) "error") s1)
      | loadRejects =>
          cancelCrop (onEditor (showToast "裁剪失败，请重试" "error") s1)
      | loadResolves => cropLoaded (getBoundingRect rect) locked r s1
      end.
Proof.
  intros Hlt Hheap s1 locked r. subst s1 locked r. unfold applyCrop.
  cbn [manager cropping cropRect targetImage editor].
  rewrite canvas_cropEditor, lookup_rect, (lookup_target _ _ _ _ img) by assumption.
  reflexivity.
Qed.

(** X23: [applyCrop()] in crop mode, entered by [enableCropMode()] on a
    selected image with the canvas not in drawing mode.  When the crop
    region is empty (width or height not positive) it only shows an error
    toast and crop mode goes on.  Otherwise, when the cropped image loads,
    it takes the place of the original: overlay, original and crop
    rectangle are removed (in this order), the new image is put on top of
    the stack at the position of the crop box, with the scale of the
    original, the rounded size of the region and no rotation, and is
    selected; one history entry is written at once, the manager is idle
    and the select tool current.  When drawing throws or the load fails,
    the error is shown and crop mode is left as by [cancelCrop()], with
    the original image back in place and no history entry written. *)
Theorem apply_crop_swaps_image s0 target img gs :
  getActiveObject (canvas (editor s0)) = Some (target, img) ->
  type img = "image" ->
  isDrawingMode (canvas (editor s0)) = false ->
  target ∈ objects (canvas (editor s0)) ->
  Forall (fun id => id < nextId (canvas (editor s0)))%nat (objects (canvas (editor s0))) ->
  onRemoved (listeners img) = [] ->
  let c0 := canvas (editor s0) in
  let n := nextId c0 in
  let locked := setInteractive false img in
  let s1 := fold_left (fun s g => transformCropRect getBoundingRect g s) gs
                      (enableCropMode getBoundingRect s0) in
  let cropBounds := getBoundingRect (rectAfter getBoundingRect img gs) in
  let r := cropRegion cropBounds (getBoundingRect locked) locked in
  (cropWidth r <= 0 \/ cropHeight r <= 0 ->
   forall outcome,
     applyCrop getBoundingRect outcome s1 =
       Some (onEditor (showToast "裁剪区域无效" "error") s1)) /\
  (0 < cropWidth r -> 0 < cropHeight r ->
   (exists s2, applyCrop getBoundingRect loadResolves s1 = Some s2 /\
      manager s2 = idle /\
      immediateSaves s2 = S (immediateSaves s0) /\
      saveRequests (canvas (editor s2)) = (saveRequests c0 + drags gs)%nat /\
      objects (canvas (editor s2)) = spliceOut target (objects c0) ++ [S (S n)] /\
      activeObject (canvas (editor s2)) = Some (single (S (S n))) /\
      heap (canvas (editor s2)) !! S (S n) = Some (croppedImage cropBounds locked r) /\
      removedLog (canvas (editor s2)) = removedLog c0 ++ [n; target; S n] /\
      (forall id, id ∈ objects c0 -> id <> target ->
         heap (canvas (editor s2)) !! id = setSelectable true <$> heap c0 !! id) /\
      currentTool (tools (editor s2)) = "select" /\
      cropPanelHidden (editor s2) = true /\
      toasts (editor s2) =
        toasts (editor s0) ++ [(adjustMessage, "info"); ("裁剪成功", "success")]) /\
   (forall outcome failure,
      outcome = loadRejects /\ failure = "裁剪失败，请重试" \/
      (exists message, outcome = drawThrows message /\
                       failure = ("裁剪失败: " ++ message)%string) ->
      exists s2, applyCrop getBoundingRect outcome s1 = Some s2 /\
        backOnImage c0 target img s2 /\
        immediateSaves s2 = immediateSaves s0 /\
        toasts (editor s2) =
          toasts (editor s0) ++
            [(adjustMessage, "info"); (failure, "error"); ("已取消裁剪", "info")])).
Proof.
  intros Hact Htype Hdraw Hon Hbound Himg c0 n locked s1 cropBounds r.
  assert (Hlt : (target < n)%nat) by (apply (target_old target c0); assumption).
  subst n. subst s1. rewrite (crop_mode_reached s0 target img gs Hact Htype Hdraw Hlt).
  apply getActiveObject_some in Hact as (_ & Hheap).
  destruct (noted_all gs s0) as (N1 & N2 & N3 & N4 & N5 & N6 & N7 & N8 & N9).
  set (s0' := fold_left (fun s g => noted g s) gs s0) in *.
  set (c0' := canvas (editor s0')) in *. fold c0 in N1, N2, N3, N4, N5, N6, N7.
  set (rect := rectAfter getBoundingRect img gs) in *.
  assert (Hrect : onRemoved (listeners rect) = [])
    by (subst rect; rewrite rectAfter_listeners; reflexivity).
  set (s1 := cropping getBoundingRect rect target img s0').
  assert (Hheap' : heap c0' !! target = Some img) by (rewrite N1; exact Hheap).
  assert (Hon' : target ∈ objects c0') by (rewrite N3; exact Hon).
  assert (Hbound' : Forall (fun id => id < nextId c0')%nat (objects c0'))
    by (rewrite N2, N3; exact Hbound).
  assert (Hlt' : (target < nextId c0')%nat) by (rewrite N2; exact Hlt).
  assert (Hdraw' : isDrawingMode c0' = false) by (rewrite N5; exact Hdraw).
  pose proof (fun outcome => applyCrop_cropping outcome rect target img s0' Hlt' Hheap')
    as Happly.
  cbv zeta in Happly. fold s1 locked cropBounds in Happly. fold r in Happly.
  split.
  - intros Hbad outcome. rewrite Happly.
    replace (Qle_bool (cropWidth r) 0 || Qle_bool (cropHeight r) 0) with true;
      [reflexivity|].
    symmetry. apply orb_true_iff.
    destruct Hbad as [H | H]; [left | right]; apply Qle_bool_iff, H.
  - intros Hw Hh.
    assert (Hok : Qle_bool (cropWidth r) 0 || Qle_bool (cropHeight r) 0 = false).
    { apply orb_false_iff. split; apply DrawingFacts.Qle_bool_false; assumption. }
    split.
    + rewrite Happly, Hok.
      set (imgBounds := getBoundingRect locked).
      set (newImg := croppedImage cropBounds locked r).
      exists (applied imgBounds rect target c0' s1 newImg).
      split.
      { apply (cropLoaded_applied imgBounds rect target img c0' s1 newImg);
          try assumption; reflexivity. }
      destruct (applied_facts imgBounds rect target c0' s1 newImg
                  Hon' Hbound' cropBounds locked r eq_refl)
        as (F1 & F2 & F3 & F4 & F5 & F6 & F7 & F8 & F9 & F10 & F11).
      rewrite N1, N2, N3, N6, N7 in *.
      split; [exact F1|].
      split; [rewrite F2; unfold s1; rewrite immediateSaves_cropping, N9; reflexivity|].
      repeat (split; [assumption|]).
      rewrite F11. subst s1. rewrite toasts_cropping, N8, <- app_assoc. reflexivity.
    + intros outcome failure Hout.
      assert (E : applyCrop getBoundingRect outcome s1
                  = cancelCrop (onEditor (showToast failure "error") s1)).
      { rewrite Happly, Hok.
        destruct Hout as [[-> ->] | (message & -> & ->)]; reflexivity. }
      rewrite E.
      destruct (cancel_after_toast rect target img s0' failure "error"
                  Hheap' Hon' Hbound' Hrect _ (or_intror eq_refl))
        as (s2 & E2 & Hback & _ & Hsav & Htoast).
      exists s2. split; [exact E2|].
      split; [exact (backOnImage_ext c0 c0' target img s2 N1 N3 Hback)|].
      split; [rewrite Hsav; exact N9|].
      rewrite Htoast. unfold onEditor. cbn [editor].
      rewrite toasts_showToast. subst s1. rewrite toasts_cropping, N8, <- !app_assoc.
      reflexivity.
Qed.

(** X24: switching to the select tool does not end crop mode.  After
    [setTool('select')] in crop mode (the key V of the keyboard shortcuts
    calls it, and [setTool] never consults the crop manager) the manager is
    still cropping, overlay and crop rectangle are still on the canvas and the
    rectangle is still selected, but the crop panel with its two buttons
    is hidden; the overlay has become selectable and evented like any other
    object, and the image is selectable and evented again while it still
    has no controls. *)
Theorem select_tool_leaves_crop_mode_on s0 target img gs :
  getActiveObject (canvas (editor s0)) = Some (target, img) ->
  type img = "image" ->
  isDrawingMode (canvas (editor s0)) = false ->
  target ∈ objects (canvas (editor s0)) ->
  Forall (fun id => id < nextId (canvas (editor s0)))%nat (objects (canvas (editor s0))) ->
  let c0 := canvas (editor s0) in
  let n := nextId c0 in
  let imgBounds := getBoundingRect (setInteractive false img) in
  let s1 := fold_left (fun s g => transformCropRect getBoundingRect g s) gs
                      (enableCropMode getBoundingRect s0) in
  let s2 := onEditor selectTool s1 in
  manager s2 = mkCropManager (Some (S n)) (Some target) true (Some n)
                             (Some (stateOf img)) /\
  currentTool (tools (editor s2)) = "select" /\
  cropPanelHidden (editor s2) = true /\
  objects (canvas (editor s2)) = objects c0 ++ [n; S n] /\
  activeObject (canvas (editor s2)) = Some (single (S n)) /\
  heap (canvas (editor s2)) !! n = Some (setSelectable true (overlayRect imgBounds)) /\
  selectable (controls (setSelectable true (overlayRect imgBounds))) = true /\
  heap (canvas (editor s2)) !! target
    = Some (setSelectable true (setInteractive false img)) /\
  hasControls (controls (setSelectable true (setInteractive false img))) = false.
Proof.
  intros Hact Htype Hdraw Hon Hbound c0 n imgBounds s1 s2.
  assert (Hlt : (target < n)%nat) by (apply (target_old target c0); assumption).
  subst n. subst s2 s1.
  rewrite (crop_mode_reached s0 target img gs Hact Htype Hdraw Hlt).
  apply getActiveObject_some in Hact as (_ & Hheap).
  destruct (noted_all gs s0) as (N1 & N2 & N3 & _).
  set (s0' := fold_left (fun s g => noted g s) gs s0) in *.
  set (c0' := canvas (editor s0')) in *. fold c0 in N1, N2, N3.
  set (rect := rectAfter getBoundingRect img gs).
  set (s1 := cropping getBoundingRect rect target img s0').
  assert (Hcan : canvas (editor s1) = cropCanvas imgBounds rect target c0')
    by reflexivity.
  destruct (selectTool_facts (editor s1)) as ((T1 & _ & T3) & (O1 & O2 & _) & Hlook).
  unfold onEditor. cbn [manager editor].
  rewrite T1, T3, O1, O2, !Hlook, !Hcan.
  rewrite objects_cropCanvas, activeObject_cropCanvas, N2, N3.
  split; [unfold s1, cropping; cbn [manager]; fold c0'; rewrite N2; reflexivity|].
  split; [reflexivity|]. split; [reflexivity|]. split; [reflexivity|].
  split; [reflexivity|].
  split.
  { rewrite bool_decide_eq_true_2 by (apply elem_of_app; right; left).
    rewrite <- N2, lookup_overlay. reflexivity. }
  split; [reflexivity|].
  split; [|reflexivity].
  rewrite bool_decide_eq_true_2 by (apply elem_of_app; left; exact Hon).
  rewrite (lookup_target _ _ _ _ img); [reflexivity | rewrite N2; exact Hlt |].
  rewrite N1. exact Hheap.
Qed.

End CropMode.

(** An example: a rectangle and a photo of 200 by 100 pixels shown at
    half size, the photo selected; the bounding box of an unrotated object
    is its scaled size at its position. *)
Definition boxOf (o : Obj) : Bounds :=
  mkBounds (left (geom o)) (top (geom o))
           (width (geom o) * scaleX (geom o)) (height (geom o) * scaleY (geom o)).

Definition snapshot : Obj :=
  mkObj "image" None None
        (mkGeometry 50 40 200 100 0 0 (1 # 2) (1 # 2) 0 "left" "top")
        (mkTextProps "" "rgb(0,0,0)" "normal" None 0 false)
        (mkControls false true false false true true)
        noBubble noLinks noListeners.

Definition studio : Session :=
  mkSession
    (mkEditor
       (mkCanvas (<[1%nat := snapshot]> (<[0%nat := Drawing.newShape "rect" "rect" (mkPoint 0 0)]> ∅))
                 2 [0%nat; 1%nat] (Some (single 1)) false true "default" "move" [] 0 [])
       (mkTools "crop" false None None) ("#000000", 5) None true false [] 0)
    idle 0.

Definition nudges : list Gesture :=
  [moving (-20) 45; released; scaling (1 # 2) (1 # 2) 60 45; released].

Lemma cancel_crop_restores_canvas_witness :
  exists s2,
    cancelCrop (fold_left (fun s g => transformCropRect boxOf g s) nudges
                          (enableCropMode boxOf studio)) = Some s2 /\
    backOnImage (canvas (editor studio)) 1 snapshot s2.
Proof.
  destruct (cancel_crop_restores_canvas boxOf studio 1%nat snapshot nudges)
    as (_ & s2 & E & Hback & _).
  - reflexivity.
  - reflexivity.
  - reflexivity.
  - right. left.
  - repeat constructor.
  - exists s2. split; assumption.
Defined.

Lemma apply_crop_swaps_image_witness :
  exists s2,
    applyCrop boxOf loadResolves
      (fold_left (fun s g => transformCropRect boxOf g s) nudges
                 (enableCropMode boxOf studio)) = Some s2 /\
    objects (canvas (editor s2)) = [0%nat; 4%nat] /\
    immediateSaves s2 = 1%nat.
Proof.
  destruct (apply_crop_swaps_image boxOf studio 1%nat snapshot nudges)
    as (_ & Hgood).
  - reflexivity.
  - reflexivity.
  - reflexivity.
  - right. left.
  - repeat constructor.
  - reflexivity.
  - destruct Hgood as ((s2 & E & _ & Hsav & _ & Hobj & _) & _).
    + reflexivity.
    + reflexivity.
    + exists s2. split; [exact E|]. split; [exact Hobj | exact Hsav].
Defined.

Lemma select_tool_leaves_crop_mode_on_witness :
  let s2 := onEditor selectTool
              (fold_left (fun s g => transformCropRect boxOf g s) nudges
                         (enableCropMode boxOf studio)) in
  isCropping (manager s2) = true /\ cropPanelHidden (editor s2) = true /\
  objects (canvas (editor s2)) = [0%nat; 1%nat; 2%nat; 3%nat].
Proof.
  destruct (select_tool_leaves_crop_mode_on boxOf studio 1%nat snapshot nudges)
    as (H1 & _ & H3 & H4 & _).
  - reflexivity.
  - reflexivity.
  - reflexivity.
  - right. left.
  - repeat constructor.
  - cbv zeta. rewrite H1, H3, H4. repeat split.
Defined.

(** The example, computed: the rectangle dragged out to the left comes
    back to the image's left edge; scaled to half size at (60, 45) it
    covers 50 by 25 on the canvas, which is the pixel region 100 by 50 at
    (20, 10) of the photo. *)
Example nudged_crop_region :
  let rect := rectAfter boxOf snapshot nudges in
  let locked := setInteractive false snapshot in
  (bLeft (boxOf rect) == 60 /\ bTop (boxOf rect) == 45 /\
   bWidth (boxOf rect) == 50 /\ bHeight (boxOf rect) == 25) /\
  sourceRect (cropRegion (boxOf rect) (boxOf locked) locked)
  = (20, 10, 100, 50)%Z.
Proof. split; [repeat split|]; reflexivity. Qed.

End CropFacts.

(** ** The workspace *)

Module WorkspaceFacts.
Import Scene Tools Editor Workspace SceneFacts.
#[local] Open Scope Q_scope.

#[local] Arguments Qminus : simpl never.
#[local] Arguments Qplus : simpl never.
#[local] Arguments Qmult : simpl never.
#[local] Arguments Qdiv : simpl never.
#[local] Arguments Num.min : simpl never.
#[local] Arguments Num.max : simpl never.

Lemma min_le a b c : c <= a -> c <= b -> c <= Num.min a b.
Proof. intros. destruct (DrawingFacts.min_spec a b) as (_ & _ & [-> | ->]); assumption. Qed.

Lemma max_le a b c : a <= c -> b <= c -> Num.max a b <= c.
Proof. intros. destruct (DrawingFacts.max_spec a b) as (_ & _ & [-> | ->]); assumption. Qed.

Lemma clampZoom_range z : 1 # 10 <= clampZoom z /\ clampZoom z <= 5.
Proof.
  unfold clampZoom.
  destruct (DrawingFacts.max_spec (1 # 10) z) as (H1 & _ & _).
  destruct (DrawingFacts.min_spec (Num.max (1 # 10) z) 5) as (_ & H2 & _).
  split; [apply min_le; [exact H1 | lra] | exact H2].
Qed.

Lemma clampZoom_inside z : 1 # 10 <= z -> z <= 5 -> clampZoom z == z.
Proof.
  intros H1 H2. unfold clampZoom, Num.min, Num.max.
  destruct (Qle_bool (1 # 10) z) eqn:E1.
  - destruct (Qle_bool z 5) eqn:E2; [reflexivity|].
    apply DrawingFacts.Qle_bool_false in E2. lra.
  - apply DrawingFacts.Qle_bool_false in E1. lra.
Qed.

Lemma clampSize_range x :
  100 <= Num.max 100 (Num.min 4000 x) /\ Num.max 100 (Num.min 4000 x) <= 4000.
Proof.
  destruct (DrawingFacts.max_spec 100 (Num.min 4000 x)) as (H1 & _ & _).
  destruct (DrawingFacts.min_spec 4000 x) as (H2 & _ & _).
  split; [exact H1 | apply max_le; [lra | exact H2]].
Qed.

Lemma round_mono a b : a <= b -> (Crop.round a <= Crop.round b)%Z.
Proof. intros H. unfold Crop.round. apply Qfloor_resp_le. lra. Qed.

(** The number of size changes among the events. *)
Definition resizes (events : list ViewEvent) : nat :=
  length (List.filter (fun e => match e with applySizeClicked _ _ => true | _ => false end)
                      events).

Section WithFabric.
Variable zoomToPoint : Point -> Q -> list Q -> list Q.
Variable show : Q -> string.

Abbreviation handle := (handle zoomToPoint show).
Abbreviation run := (run zoomToPoint show).

(** What every event keeps. *)
Definition inRange (w : Workspace) : Prop :=
  (1 # 10 <= zoom w /\ zoom w <= 5) /\
  (100 <= canvasWidth w /\ canvasWidth w <= 4000) /\
  (100 <= canvasHeight w /\ canvasHeight w <= 4000).

Lemma setZoom_zoom z center w :
  zoom (setZoom zoomToPoint z center w) = clampZoom z /\
  canvasWidth (setZoom zoomToPoint z center w) = canvasWidth w /\
  canvasHeight (setZoom zoomToPoint z center w) = canvasHeight w /\
  editor (setZoom zoomToPoint z center w) = editor w.
Proof. repeat split. Qed.

Lemma handle_inRange w e : inRange w -> inRange (handle w e).
Proof.
  intros (Hz & Hw & Hh). destruct e; unfold inRange;
    cbn [Workspace.handle setZoom fitToScreen resizeCanvas set_viewportTransform
         zoom canvasWidth canvasHeight];
    try (split; [apply clampZoom_range | split; assumption]).
  split; [exact Hz|]. split; apply clampSize_range.
Qed.

Lemma handle_quiet w e :
  let w' := handle w e in
  let c := canvas (editor w) in
  let c' := canvas (editor w') in
  heap c' = heap c /\ objects c' = objects c /\
  activeObject c' = activeObject c /\ nextId c' = nextId c /\
  tools (editor w') = tools (editor w) /\
  saveRequests c' = (saveRequests c + resizes [e])%nat /\
  length (toasts (editor w')) = (length (toasts (editor w)) + resizes [e])%nat.
Proof.
  destruct e; cbn; rewrite ?Nat.add_0_r, ?Nat.add_1_r, ?length_app; cbn;
    rewrite ?Nat.add_1_r; auto 10.
Qed.

Lemma resizes_cons e events : resizes (e :: events) = (resizes [e] + resizes events)%nat.
Proof. destruct e; reflexivity. Qed.

Lemma run_keeps events : forall w,
  inRange w ->
  let w' := run events w in
  let c := canvas (editor w) in
  let c' := canvas (editor w') in
  inRange w' /\
  heap c' = heap c /\ objects c' = objects c /\
  activeObject c' = activeObject c /\ nextId c' = nextId c /\
  tools (editor w') = tools (editor w) /\
  saveRequests c' = (saveRequests c + resizes events)%nat /\
  length (toasts (editor w')) = (length (toasts (editor w)) + resizes events)%nat.
Proof.
  unfold Workspace.run.
  induction events as [|e events IH]; intros w Hin; cbv zeta.
  - cbn [fold_left resizes List.filter length]. rewrite !Nat.add_0_r. auto 10.
  - rewrite CropFacts.fold_left_step, resizes_cons.
    destruct (IH (handle w e) (handle_inRange w e Hin))
      as (I0 & I1 & I2 & I3 & I4 & I5 & I6 & I7).
    destruct (handle_quiet w e) as (K1 & K2 & K3 & K4 & K5 & K6 & K7).
    rewrite I1, I2, I3, I4, I5, I6, I7, K1, K2, K3, K4, K5, K6, K7, !Nat.add_assoc.
    auto 10.
Qed.

(** X25: whatever the user does with the wheel, the zoom buttons and
    the size inputs, the zoom stays between 0.1 and 5 (shown as 10% to
    500%) and the canvas between 100 and 4000 on each side.  None of it
    touches the objects, the selection or the tool; every size change
    requests one history save and shows one toast, zooming requests
    none. *)
Theorem viewport_stays_in_range e events :
  let w' := run events (opened e) in
  let c := canvas e in
  let c' := canvas (editor w') in
  (1 # 10 <= zoom w' /\ zoom w' <= 5) /\
  (10 <= zoomPercent w' /\ zoomPercent w' <= 500)%Z /\
  (100 <= canvasWidth w' /\ canvasWidth w' <= 4000) /\
  (100 <= canvasHeight w' /\ canvasHeight w' <= 4000) /\
  heap c' = heap c /\ objects c' = objects c /\
  activeObject c' = activeObject c /\ tools (editor w') = tools e /\
  saveRequests c' = (saveRequests c + resizes events)%nat /\
  length (toasts (editor w')) = (length (toasts e) + resizes events)%nat.
Proof.
  assert (H0 : inRange (opened e)).
  { unfold inRange, opened. cbn [zoom canvasWidth canvasHeight].
    repeat split; discriminate. }
  destruct (run_keeps events (opened e) H0)
    as (((Hz1 & Hz2) & Hw & Hh) & I1 & I2 & I3 & _ & I5 & I6 & I7).
  cbv zeta. split; [split; assumption|].
  split.
  { unfold zoomPercent. split.
    - change 10%Z with (Crop.round ((1 # 10) * 100)). apply round_mono. lra.
    - change 500%Z with (Crop.round (5 * 100)). apply round_mono. lra. }
  auto 10.
Qed.

Lemma quotient_ge_one a b : 0 < b -> b <= a -> 1 <= a / b.
Proof. intros Hb H. apply Qle_shift_div_l; [exact Hb | lra]. Qed.

Lemma quotient_lt_one a b : 0 < b -> a < b -> a / b < 1.
Proof. intros Hb H. apply Qlt_shift_div_r; [exact Hb | lra]. Qed.

Lemma quotient_pos a b : 0 < a -> 0 < b -> 0 < a / b.
Proof. intros Ha Hb. apply Qlt_shift_div_l; [exact Hb | lra]. Qed.

(** The smallest of two ratios and 1, as [Math.min(a, b, 1)] gives it. *)
Lemma min3_spec sx sy :
  let m := Num.min (Num.min sx sy) 1 in
  m <= 1 /\ m <= sx /\ m <= sy /\ (m = 1 \/ m = sx \/ m = sy).
Proof.
  intros m. subst m.
  destruct (DrawingFacts.min_spec (Num.min sx sy) 1) as (H1 & H2 & H3).
  destruct (DrawingFacts.min_spec sx sy) as (H4 & H5 & H6).
  split; [exact H2|]. split; [lra|]. split; [lra|].
  destruct H3 as [-> | ->]; [|left; reflexivity].
  destruct H6 as [-> | ->]; auto.
Qed.

(** X26: [fitToScreen()] never magnifies: the zoom it sets is at most 1
    (and at least 0.1), and the viewport is reset and zoomed about the
    centre of the canvas.  A canvas that is not larger than the wrapper
    less 40 pixels is shown at 100%, any larger one at less; the zoom is
    the smaller of the two ratios of free space to canvas size when both
    are 0.1 or more, and 0.1 when one of them is below 0.1. *)
Theorem fit_to_screen_fits clientWidth clientHeight w :
  0 < canvasWidth w -> 0 < canvasHeight w ->
  let w' := fitToScreen zoomToPoint clientWidth clientHeight w in
  let scaleX := (clientWidth - 40) / canvasWidth w in
  let scaleY := (clientHeight - 40) / canvasHeight w in
  (1 # 10 <= zoom w' /\ zoom w' <= 1) /\
  viewportTransform w' = zoomToPoint (getCenter w) (zoom w') identity /\
  (canvasWidth w <= clientWidth - 40 -> canvasHeight w <= clientHeight - 40 ->
   zoom w' == 1) /\
  (clientWidth - 40 < canvasWidth w \/ clientHeight - 40 < canvasHeight w ->
   zoom w' < 1) /\
  (1 # 10 <= scaleX -> 1 # 10 <= scaleY ->
   zoom w' == Num.min (Num.min scaleX scaleY) 1) /\
  (scaleX < 1 # 10 \/ scaleY < 1 # 10 -> zoom w' == 1 # 10).
Proof.
  intros HW HH w' sx sy. subst w'. unfold fitToScreen.
  cbn [setZoom zoom viewportTransform set_viewportTransform canvasWidth canvasHeight].
  fold sx sy.
  destruct (min3_spec sx sy) as (Hm1 & Hmx & Hmy & Hcase).
  set (m := Num.min (Num.min sx sy) 1) in *.
  destruct (clampZoom_range m) as (Hc1 & Hc2).
  assert (Hin : 1 # 10 <= m -> clampZoom m == m)
    by (intros Hlow; apply clampZoom_inside; lra).
  assert (Hlow : m < 1 # 10 -> clampZoom m == 1 # 10).
  { intros Hlt. unfold clampZoom, Num.max, Num.min.
    destruct (Qle_bool (1 # 10) m) eqn:E1; [apply Qle_bool_iff in E1; lra|].
    reflexivity. }
  assert (Hup : m < 1 -> clampZoom m < 1).
  { intros Hlt. destruct (Qlt_le_dec m (1 # 10)) as [Hs | Hs].
    - rewrite (Hlow Hs). reflexivity.
    - rewrite (Hin Hs). exact Hlt. }
  split.
  { split; [exact Hc1|].
    destruct (Qlt_le_dec m 1) as [Hs | Hs]; [apply Qlt_le_weak, Hup, Hs|].
    rewrite Hin by lra. exact Hm1. }
  split; [reflexivity|].
  split.
  { intros Hfx Hfy.
    pose proof (quotient_ge_one _ _ HW Hfx) as Hsx. fold sx in Hsx.
    pose proof (quotient_ge_one _ _ HH Hfy) as Hsy. fold sy in Hsy.
    rewrite Hin; destruct Hcase as [E | [E | E]]; rewrite E in *; lra. }
  split.
  { intros Hbig. apply Hup. destruct Hbig as [Hb | Hb].
    - pose proof (quotient_lt_one _ _ HW Hb) as Hsx. fold sx in Hsx. lra.
    - pose proof (quotient_lt_one _ _ HH Hb) as Hsy. fold sy in Hsy. lra. }
  split.
  { intros Hsx Hsy. apply Hin.
    destruct Hcase as [E | [E | E]]; rewrite E; lra. }
  intros Hsmall. apply Hlow. destruct Hsmall; lra.
Qed.

(** The size inputs.  An input that does not parse, or that parses to
    0, counts as 1200 for the width and as 800 for the height, so that
    entering 0 gives the default and not the minimum; any other number is
    limited to the range from 100 to 4000.  The zoom and the viewport stay
    as they are, the objects are not touched (also those that are now
    outside the canvas), one history save is requested and a toast tells
    the new size. *)
Lemma size_input_defaults_and_clamps width height w :
  let w' := handle w (applySizeClicked width height) in
  let sized (value : option Z) (d : Z) (result : Q) :=
    match value with
    | None => result = inject_Z d
    | Some z =>
        if Z.eqb z 0 then result = inject_Z d
        else if Z.ltb z 100 then result = 100
        else if Z.ltb 4000 z then result = 4000
        else result = inject_Z z
    end in
  sized width 1200%Z (canvasWidth w') /\
  sized height 800%Z (canvasHeight w') /\
  zoom w' = zoom w /\ viewportTransform w' = viewportTransform w /\
  heap (canvas (editor w')) = heap (canvas (editor w)) /\
  objects (canvas (editor w')) = objects (canvas (editor w)) /\
  saveRequests (canvas (editor w')) = S (saveRequests (canvas (editor w))) /\
  toasts (editor w') =
    toasts (editor w) ++
      [(("画布尺寸已调整为 " ++ show (canvasWidth w') ++ " × "
         ++ show (canvasHeight w'))%string, "success")].
Proof.
  intros w' sized. subst w'.
  assert (Hclamp : forall z : Z, z <> 0%Z ->
            (if Z.ltb z 100 then Num.max 100 (Num.min 4000 (inject_Z z)) = 100
             else if Z.ltb 4000 z
                  then Num.max 100 (Num.min 4000 (inject_Z z)) = 4000
                  else Num.max 100 (Num.min 4000 (inject_Z z)) = inject_Z z)).
  { intros z _. unfold Num.max, Num.min.
    destruct (Z.ltb z 100) eqn:E1.
    - apply Z.ltb_lt in E1.
      assert (Hq : inject_Z z < 100) by (rewrite Zlt_Qlt in E1; exact E1).
      destruct (Qle_bool 4000 (inject_Z z)) eqn:E2;
        [apply Qle_bool_iff in E2; lra|].
      destruct (Qle_bool 100 (inject_Z z)) eqn:E3;
        [apply Qle_bool_iff in E3; lra | reflexivity].
    - apply Z.ltb_ge in E1.
      assert (Hq : 100 <= inject_Z z) by (rewrite Zle_Qle in E1; exact E1).
      destruct (Z.ltb 4000 z) eqn:E4.
      + apply Z.ltb_lt in E4.
        assert (Hq' : 4000 < inject_Z z) by (rewrite Zlt_Qlt in E4; exact E4).
        destruct (Qle_bool 4000 (inject_Z z)) eqn:E2;
          [|apply DrawingFacts.Qle_bool_false in E2; lra].
        reflexivity.
      + apply Z.ltb_ge in E4.
        assert (Hq' : inject_Z z <= 4000) by (rewrite Zle_Qle in E4; exact E4).
        destruct (Qle_bool 4000 (inject_Z z)) eqn:E2.
        * apply Qle_bool_iff in E2.
          assert (Hz : z = 4000%Z).
          { apply Z.le_antisymm; [exact E4|]. rewrite Zle_Qle. exact E2. }
          subst z. reflexivity.
        * destruct (Qle_bool 100 (inject_Z z)) eqn:E3;
            [reflexivity | apply DrawingFacts.Qle_bool_false in E3; lra]. }
  assert (Hsized : forall value d, (100 <= d <= 4000)%Z ->
            sized value d (Num.max 100 (Num.min 4000 (parsedOr value d)))).
  { intros value d Hd. subst sized. cbv beta.
    assert (Hdef : Num.max 100 (Num.min 4000 (inject_Z d)) = inject_Z d).
    { assert (Hd0 : d <> 0%Z) by lia. pose proof (Hclamp d Hd0) as Hc.
      destruct (Z.ltb d 100) eqn:E1; [apply Z.ltb_lt in E1; lia|].
      destruct (Z.ltb 4000 d) eqn:E2; [apply Z.ltb_lt in E2; lia|]. exact Hc. }
    destruct value as [z|]; cbn [parsedOr]; [|exact Hdef].
    destruct (Z.eqb z 0) eqn:E0; [exact Hdef|].
    apply Z.eqb_neq in E0. exact (Hclamp z E0). }
  split; [apply (Hsized width 1200%Z); lia|].
  split; [apply (Hsized height 800%Z); lia|].
  repeat split.
Qed.

End WithFabric.

(** *** Importing an image *)

Lemma imageLoaded_adds width height w :
  let c := canvas (editor w) in
  let w' := imageLoaded width height w in
  let c' := canvas (editor w') in
  objects c' = objects c ++ [nextId c] /\
  nextId c' = S (nextId c) /\
  activeObject c' = Some (single (nextId c)) /\
  heap c' = <[nextId c := importedImage w width height]> (heap c) /\
  saveRequests c' = (saveRequests c + if isDrawingMode c then 2 else 1)%nat /\
  toasts (editor w') = toasts (editor w) ++ [("图片已添加", "success")] /\
  canvasWidth w' = canvasWidth w /\ canvasHeight w' = canvasHeight w /\
  zoom w' = zoom w.
Proof.
  destruct w as [[c tl bs fb bh ch ts ic] W H z vt].
  destruct c as [h n objs a dm sel dc hc rl sr tos].
  destruct dm; cbn; rewrite ?Nat.add_1_r; repeat split; f_equal; lia.
Qed.

Lemma loadImageFile_image fileType width height w :
  String.prefix "image/" fileType = true ->
  loadImageFile fileType (Some (width, height)) w = imageLoaded width height w.
Proof. intros H. unfold loadImageFile. rewrite H. reflexivity. Qed.

(** X27: an imported picture is never magnified and keeps its
    proportions.  For a picture and a canvas of positive size, the scale
    [loadImageFile] chooses is above 0, at most 1 and the same in both
    directions; a picture that fits into 80% of the canvas in width and
    height is not scaled and is put in the middle of the canvas; a picture
    wider or higher than that is scaled down.  The picture is added on top
    of the stack and selected, a toast is shown and a history save is
    requested (twice when the canvas is in drawing mode).  A file whose
    type does not start with [image/] only gets an error toast. *)
Theorem imported_image_fits_canvas w fileType width height :
  String.prefix "image/" fileType = true ->
  0 < width -> 0 < height -> 0 < canvasWidth w -> 0 < canvasHeight w ->
  let p := place (canvasWidth w) (canvasHeight w) width height in
  let c := canvas (editor w) in
  let w' := loadImageFile fileType (Some (width, height)) w in
  let c' := canvas (editor w') in
  (0 < scale p /\ scale p <= 1) /\
  (width <= canvasWidth w * (8 # 10) -> height <= canvasHeight w * (8 # 10) ->
   scale p == 1 /\
   pLeft p == (canvasWidth w - width) / 2 /\
   pTop p == (canvasHeight w - height) / 2) /\
  (canvasWidth w * (8 # 10) < width \/ canvasHeight w * (8 # 10) < height ->
   scale p < 1) /\
  (objects c' = objects c ++ [nextId c] /\
   activeObject c' = Some (single (nextId c)) /\
   heap c' !! nextId c = Some (importedImage w width height) /\
   geom (importedImage w width height) =
     mkGeometry (pLeft p) (pTop p) width height 0 0 (scale p) (scale p) 0
                "left" "top" /\
   saveRequests c' = (saveRequests c + if isDrawingMode c then 2 else 1)%nat /\
   toasts (editor w') = toasts (editor w) ++ [("图片已添加", "success")]) /\
  (forall otherType loaded, String.prefix "image/" otherType = false ->
     loadImageFile otherType loaded w
     = onEditor (Crop.showToast "请选择图片文件" "error") w).
Proof.
  intros Htype Hw Hh HW HH p c w' c'.
  set (W := canvasWidth w) in *. set (H := canvasHeight w) in *.
  set (sx := W * (8 # 10) / width). set (sy := H * (8 # 10) / height).
  assert (Hsx : 0 < sx) by (apply quotient_pos; [lra | exact Hw]).
  assert (Hsy : 0 < sy) by (apply quotient_pos; [lra | exact Hh]).
  assert (Hp : scale p = Num.min (Num.min sx sy) 1) by reflexivity.
  destruct (min3_spec sx sy) as (Hm1 & Hmx & Hmy & Hcase).
  rewrite <- Hp in Hm1, Hmx, Hmy, Hcase.
  set (m := scale p) in *.
  assert (HpL : pLeft p = (W - width * m) / 2) by reflexivity.
  assert (HpT : pTop p = (H - height * m) / 2) by reflexivity.
  split.
  { split; [|exact Hm1]. destruct Hcase as [-> | [-> | ->]]; [lra | assumption | assumption]. }
  split.
  { intros Hsmallx Hsmally.
    pose proof (quotient_ge_one _ _ Hw Hsmallx) as H1x. fold sx in H1x.
    pose proof (quotient_ge_one _ _ Hh Hsmally) as H1y. fold sy in H1y.
    assert (E1 : m == 1) by (destruct Hcase as [E | [E | E]]; rewrite E in *; lra).
    split; [exact E1|]. rewrite HpL, HpT, E1. split; field. }
  split.
  { intros Hbig. destruct Hbig as [Hb | Hb].
    - pose proof (quotient_lt_one _ _ Hw Hb) as H1x. fold sx in H1x. lra.
    - pose proof (quotient_lt_one _ _ Hh Hb) as H1y. fold sy in H1y. lra. }
  split.
  { subst w' c'. rewrite (loadImageFile_image _ _ _ _ Htype).
    destruct (imageLoaded_adds width height w)
      as (A1 & _ & A3 & A4 & A5 & A6 & _).
    split; [exact A1|]. split; [exact A3|].
    split; [rewrite A4; apply lookup_insert_eq|].
    split; [reflexivity|]. split; [exact A5 | exact A6]. }
  intros otherType loaded Hno. unfold loadImageFile. rewrite Hno. reflexivity.
Qed.

(** A phone photo of 4000 by 3000 is scaled down on the canvas of 1200 by
    800, and a wrapper of 1000 by 1000 shows that canvas at less than
    100%. *)
Definition desk : Workspace :=
  opened (mkEditor Examples.emptyCanvas (mkTools "select" false None None)
                   ("#000000", 5) None true true [] 0).

Lemma imported_image_fits_canvas_witness :
  let p := place (canvasWidth desk) (canvasHeight desk) 4000 3000 in
  (0 < scale p /\ scale p <= 1) /\ scale p < 1.
Proof.
  destruct (imported_image_fits_canvas desk "image/jpeg" 4000 3000)
    as (H1 & _ & H3 & _).
  - reflexivity.
  - reflexivity.
  - reflexivity.
  - reflexivity.
  - reflexivity.
  - split; [exact H1 | apply H3; left; reflexivity].
Defined.

Lemma fit_to_screen_fits_witness :
  let w' := fitToScreen (fun _ z t => t) 1000 1000 desk in
  (1 # 10 <= zoom w' /\ zoom w' <= 1) /\ zoom w' < 1.
Proof.
  destruct (fit_to_screen_fits (fun _ z t => t) 1000 1000 desk)
    as (H1 & _ & _ & H4 & _).
  - reflexivity.
  - reflexivity.
  - split; [exact H1 | apply H4; left; reflexivity].
Defined.

End WorkspaceFacts.

(** ** Aligning and distributing *)

Module ArrangeFacts.
Import Scene Tools Arrange SceneFacts.
#[local] Open Scope Q_scope.

#[local] Arguments Qminus : simpl never.
#[local] Arguments Qplus : simpl never.
#[local] Arguments Qmult : simpl never.
#[local] Arguments Qdiv : simpl never.
#[local] Arguments Num.min : simpl never.
#[local] Arguments Num.max : simpl never.
#[local] Arguments update : simpl never.

(** *** The members of a selection *)

Lemma getObjects_elem c members id o :
  (id, o) ∈ getObjects c members <-> id ∈ members /\ heap c !! id = Some o.
Proof.
  unfold getObjects. rewrite list_elem_of_omap. split.
  - intros (x & Hx & E). destruct (heap c !! x) as [ox|] eqn:Ex; [|discriminate].
    cbn in E. injection E as <- <-. auto.
  - intros (Hin & E). exists id. split; [exact Hin|]. rewrite E. reflexivity.
Qed.

Lemma getObjects_ids c members :
  NoDup members -> NoDup (map fst (getObjects c members)).
Proof.
  unfold getObjects. induction members as [|a l IH]; intros Hnd; [constructor|].
  apply NoDup_cons in Hnd as (Ha & Hl). cbn [omap list_omap].
  destruct (heap c !! a) as [o|] eqn:E; cbn; [|apply IH, Hl].
  constructor; [|apply IH, Hl].
  intros Hin. apply list_elem_of_fmap in Hin as ([id o'] & Hid & Hin').
  cbn in Hid. subst id. apply (getObjects_elem c l a o') in Hin' as (Hin' & _).
  exact (Ha Hin').
Qed.

(** *** Writing to each object of a list once *)

Section Each.
Variable G : Obj -> Obj -> Obj.

Definition each (objs : list (ObjId * Obj)) (c : Canvas) : Canvas :=
  fold_left (fun c obj => update obj.1 (G obj.2) c) objs c.

Lemma each_frame objs : forall c,
  objects (each objs c) = objects c /\
  nextId (each objs c) = nextId c /\
  activeObject (each objs c) = activeObject c /\
  saveRequests (each objs c) = saveRequests c.
Proof.
  unfold each. induction objs as [|x l IH]; intros c; cbn [fold_left]; [auto|].
  destruct (IH (update x.1 (G x.2) c)) as (I1 & I2 & I3 & I4).
  destruct (update_frame x.1 (G x.2) c) as (F1 & F2 & F3 & _ & F5 & _).
  rewrite I1, I2, I3, I4, F1, F2, F3, F5. auto.
Qed.

Lemma each_other objs : forall c id,
  id ∉ map fst objs -> heap (each objs c) !! id = heap c !! id.
Proof.
  unfold each. induction objs as [|x l IH]; intros c id Hnot; cbn [fold_left];
    [reflexivity|].
  rewrite IH by (intros H; apply Hnot; right; exact H).
  apply update_lookup_ne. intros E. apply Hnot. rewrite <- E. left.
Qed.

Lemma each_member objs : forall c id o,
  NoDup (map fst objs) -> (id, o) ∈ objs ->
  heap c !! id = Some o ->
  heap (each objs c) !! id = Some (G o o).
Proof.
  unfold each. induction objs as [|x l IH]; intros c id o Hnd Hin Hsome;
    [inversion Hin|].
  cbn [fold_left]. cbn [map] in Hnd. apply NoDup_cons in Hnd as (Hx & Hl).
  apply elem_of_cons in Hin as [E | Hin].
  - subst x. cbn [fst snd].
    fold (each l (update id (G o) c)).
    rewrite each_other by exact Hx.
    apply update_lookup_eq, Hsome.
  - apply IH; [exact Hl | exact Hin |].
    rewrite update_lookup_ne; [exact Hsome|].
    intros E. apply Hx. rewrite E.
    apply list_elem_of_fmap. exists (id, o). split; [reflexivity | exact Hin].
Qed.

End Each.

(** *** Aligning *)

Definition names : list string :=
  ["left"; "right"; "center-h"; "top"; "bottom"; "center-v"].

(** The coordinate of an object that an alignment lines up: its left or
    right edge or the middle between them, its top or bottom edge or the
    middle between them. *)
Definition edge (alignment : string) (o : Obj) : Q :=
  if String.eqb alignment "left" then left (geom o)
  else if String.eqb alignment "right" then left (geom o) + spanX o
  else if String.eqb alignment "center-h" then left (geom o) + spanX o / 2
  else if String.eqb alignment "top" then top (geom o)
  else if String.eqb alignment "bottom" then top (geom o) + spanY o
  else top (geom o) + spanY o / 2.

(** The line a single object is aligned to on the canvas. *)
Definition canvasLine (alignment : string) (canvasWidth canvasHeight : Q) : Q :=
  if String.eqb alignment "left" then 0
  else if String.eqb alignment "right" then canvasWidth
  else if String.eqb alignment "center-h" then canvasWidth / 2
  else if String.eqb alignment "top" then 0
  else if String.eqb alignment "bottom" then canvasHeight
  else canvasHeight / 2.

(** An object moved along one axis only. *)
Definition movedAlong (alignment : string) (o o' : Obj) : Prop :=
  if bool_decide (alignment ∈ ["left"; "right"; "center-h"])
  then o' = onGeom (setLeft (left (geom o'))) o
  else o' = onGeom (setTop (top (geom o'))) o.

Lemma spanX_setLeft x o : spanX (onGeom (setLeft x) o) = spanX o.
Proof. reflexivity. Qed.
Lemma spanY_setTop x o : spanY (onGeom (setTop x) o) = spanY o.
Proof. reflexivity. Qed.
Lemma left_setLeft x o : left (geom (onGeom (setLeft x) o)) = x.
Proof. reflexivity. Qed.
Lemma top_setTop x o : top (geom (onGeom (setTop x) o)) = x.
Proof. reflexivity. Qed.

(** X28: aligning a selection of two or more objects moves each member
    along one axis only and leaves its size alone.  Aligned left (top),
    all members end with one and the same [left] ([top]); aligned right or
    centred (bottom or centred), members of the same width (height) end
    with the same [left] ([top]).  The objects outside the selection, the
    stack and the selection stay as they are, and one history save is
    requested. *)
Theorem align_selection_lines_up alignment groupLeft groupTop canvasWidth
    canvasHeight c members :
  activeObject c = Some (activeselection members) ->
  NoDup members ->
  (2 <= length (getObjects c members))%nat ->
  alignment ∈ names ->
  let objs := getObjects c members in
  let c' := alignObjects alignment groupLeft groupTop canvasWidth canvasHeight c in
  (forall id o, (id, o) ∈ objs ->
     exists o', heap c' !! id = Some o' /\ movedAlong alignment o o') /\
  (forall id1 o1 o1' id2 o2 o2',
     (id1, o1) ∈ objs -> (id2, o2) ∈ objs ->
     heap c' !! id1 = Some o1' -> heap c' !! id2 = Some o2' ->
     (alignment = "left" -> left (geom o1') = left (geom o2')) /\
     (alignment = "top" -> top (geom o1') = top (geom o2')) /\
     (alignment ∈ ["right"; "center-h"] -> spanX o1 = spanX o2 ->
      left (geom o1') = left (geom o2')) /\
     (alignment ∈ ["bottom"; "center-v"] -> spanY o1 = spanY o2 ->
      top (geom o1') = top (geom o2'))) /\
  (forall id, id ∉ map fst objs -> heap c' !! id = heap c !! id) /\
  objects c' = objects c /\ activeObject c' = activeObject c /\
  saveRequests c' = S (saveRequests c).
Proof.
  intros Hact Hnd Hlen Hname objs c'. subst c'. unfold alignObjects. rewrite Hact.
  fold objs in Hlen |- *. replace (Nat.ltb (length objs) 2) with false
    by (symmetry; apply Nat.ltb_ge; exact Hlen).
  set (bl := minOf (map (fun o : ObjId * Obj => groupLeft + left (geom o.2)) objs)).
  set (br := maxOf (map (fun o : ObjId * Obj => groupLeft + left (geom o.2) + spanX o.2) objs)).
  set (bt := minOf (map (fun o : ObjId * Obj => groupTop + top (geom o.2)) objs)).
  set (bb := maxOf (map (fun o : ObjId * Obj => groupTop + top (geom o.2) + spanY o.2) objs)).
  cbv zeta.
  set (change := fun obj : Obj => _).
  change (forEachSet objs change c) with (each (fun s => onGeom (change s)) objs c).
  destruct (each_frame (fun s => onGeom (change s)) objs c) as (F1 & _ & F3 & F4).
  assert (Hmember : forall id o, (id, o) ∈ objs ->
            heap (requestSave (each (fun s => onGeom (change s)) objs c)) !! id
            = Some (onGeom (change o) o)).
  { intros id o Hin.
    assert (Hh : heap c !! id = Some o) by (apply (getObjects_elem c members), Hin).
    change (heap (requestSave ?x)) with (heap x).
    apply (each_member (fun s => onGeom (change s)));
      [apply getObjects_ids, Hnd | exact Hin | exact Hh]. }
  split.
  - intros id o Hin. exists (onGeom (change o) o). split; [apply Hmember, Hin|].
    unfold names in Hname. apply list_elem_of_In in Hname. cbn [In] in Hname.
    destruct Hname as [<- | [<- | [<- | [<- | [<- | [<- | []]]]]]]; reflexivity.
  - split.
    { intros id1 o1 o1' id2 o2 o2' Hin1 Hin2 H1 H2.
      rewrite (Hmember id1 o1 Hin1) in H1. injection H1 as <-.
      rewrite (Hmember id2 o2 Hin2) in H2. injection H2 as <-.
      split; [intros ->; reflexivity|]. split; [intros ->; reflexivity|].
      split.
      - intros Hal Hspan. apply list_elem_of_In in Hal. cbn [In] in Hal.
        destruct Hal as [<- | [<- | []]]; subst change;
          cbn [String.eqb Ascii.eqb Bool.eqb];
          rewrite !left_setLeft, Hspan; reflexivity.
      - intros Hal Hspan. apply list_elem_of_In in Hal. cbn [In] in Hal.
        destruct Hal as [<- | [<- | []]]; subst change;
          cbn [String.eqb Ascii.eqb Bool.eqb];
          rewrite !top_setTop, Hspan; reflexivity. }
    split.
    { intros id Hnot. change (heap (requestSave ?x)) with (heap x).
      apply each_other, Hnot. }
    split; [exact F1|].
    split; [change (activeObject (requestSave ?x)) with (activeObject x);
            rewrite F3; exact Hact|].
    change (saveRequests (requestSave ?x)) with (S (saveRequests x)). rewrite F4.
    reflexivity.
Qed.

(** *** Sorting *)

Section Sorting.
Variable key : Obj -> Q.

Lemma insertBy_perm x l : insertBy key x l ≡ₚ x :: l.
Proof.
  induction l as [|y l IH]; cbn [insertBy]; [reflexivity|].
  destruct (Qle_bool (key x.2) (key y.2)); [reflexivity|].
  rewrite IH. apply Permutation_swap.
Qed.

Lemma sortBy_perm l : sortBy key l ≡ₚ l.
Proof.
  unfold sortBy. induction l as [|x l IH]; cbn [foldr]; [reflexivity|].
  rewrite insertBy_perm, IH. reflexivity.
Qed.

(** In ascending order of the key. *)
Definition ascending (l : list (ObjId * Obj)) : Prop :=
  forall i j x y, (i < j)%nat -> l !! i = Some x -> l !! j = Some y ->
    key x.2 <= key y.2.

Lemma ascending_cons x l :
  ascending (x :: l) <-> (forall y, y ∈ l -> key x.2 <= key y.2) /\ ascending l.
Proof.
  unfold ascending. split.
  - intros H. split.
    + intros y Hy. apply list_elem_of_lookup in Hy as (j & Hj).
      apply (H 0%nat (S j) x y); [lia | reflexivity | exact Hj].
    + intros i j a b Hij Ha Hb. apply (H (S i) (S j) a b); [lia | exact Ha | exact Hb].
  - intros (Hx & Hl) i j a b Hij Ha Hb.
    destruct j as [|j]; [lia|]. cbn in Hb.
    destruct i as [|i].
    + cbn in Ha. injection Ha as <-. apply Hx. eapply list_elem_of_lookup_2, Hb.
    + cbn in Ha. apply (Hl i j a b); [lia | exact Ha | exact Hb].
Qed.

Lemma insertBy_ascending x l : ascending l -> ascending (insertBy key x l).
Proof.
  induction l as [|y l IH]; intros Hl; cbn [insertBy].
  - apply ascending_cons. split; [intros y Hy; inversion Hy | exact Hl].
  - apply ascending_cons in Hl as (Hy & Hl').
    destruct (Qle_bool (key x.2) (key y.2)) eqn:E.
    + apply Qle_bool_iff in E. apply ascending_cons. split.
      * intros z Hz. apply elem_of_cons in Hz as [-> | Hz]; [exact E|].
        apply Qle_trans with (key y.2); [exact E | apply Hy, Hz].
      * apply ascending_cons. split; assumption.
    + apply DrawingFacts.Qle_bool_false in E. apply ascending_cons. split.
      * intros z Hz. rewrite insertBy_perm in Hz.
        apply elem_of_cons in Hz as [-> | Hz]; [lra | apply Hy, Hz].
      * apply IH, Hl'.
Qed.

Lemma sortBy_ascending l : ascending (sortBy key l).
Proof.
  unfold sortBy. induction l as [|x l IH]; cbn [foldr].
  - intros i j a b _ Ha. rewrite lookup_nil in Ha. discriminate.
  - apply insertBy_ascending, IH.
Qed.

End Sorting.

(** *** Distributing *)

Section Spread.
Variables key span : Obj -> Q.
Variable put : Q -> Geometry -> Geometry.
Hypothesis key_put : forall x o, key (onGeom (put x) o) = x.
Hypothesis span_put : forall x o, span (onGeom (put x) o) = span o.
Variable gap : Q.

(** The objects between the first and the last as the loop leaves them,
    and the position the loop ends on. *)
Fixpoint placed (middle : list (ObjId * Obj)) (start : Q) : list Obj :=
  match middle with
  | [] => []
  | m :: rest => onGeom (put start) m.2 :: placed rest (start + (span m.2 + gap))
  end.
Fixpoint finalPos (middle : list (ObjId * Obj)) (start : Q) : Q :=
  match middle with
  | [] => start
  | m :: rest => finalPos rest (start + (span m.2 + gap))
  end.

(** The distances between neighbours: from the end of one object to the
    start of the next. *)
Fixpoint gapsOf (l : list Obj) : list Q :=
  match l with
  | [] => []
  | a :: rest =>
      match rest with
      | [] => []
      | b :: _ => (key b - (key a + span a)) :: gapsOf rest
      end
  end.

Lemma spread_step m rest start c :
  spread span put gap (m :: rest) start c =
    spread span put gap rest (start + (span m.2 + gap))
           (update m.1 (onGeom (put start)) c).
Proof. reflexivity. Qed.

Lemma spread_spec middle : forall c start,
  NoDup (map fst middle) ->
  (forall id o, (id, o) ∈ middle -> heap c !! id = Some o) ->
  let r := spread span put gap middle start c in
  r.2 = finalPos middle start /\
  Forall2 (fun m o' => heap r.1 !! m.1 = Some o') middle (placed middle start) /\
  (forall id, id ∉ map fst middle -> heap r.1 !! id = heap c !! id) /\
  objects r.1 = objects c /\ activeObject r.1 = activeObject c /\
  saveRequests r.1 = saveRequests c.
Proof.
  induction middle as [|m rest IH]; intros c start Hnd Hin; cbv zeta.
  - cbn. auto 10.
  - rewrite spread_step. cbn [map] in Hnd. apply NoDup_cons in Hnd as (Hm & Hrest).
    destruct (IH (update m.1 (onGeom (put start)) c) (start + (span m.2 + gap)) Hrest)
      as (I1 & I2 & I3 & I4 & I5 & I6).
    { intros id o Ho. rewrite update_lookup_ne; [apply Hin; right; exact Ho|].
      intros E. apply Hm. rewrite E. apply list_elem_of_fmap.
      exists (id, o). split; [reflexivity | exact Ho]. }
    destruct (update_frame m.1 (onGeom (put start)) c) as (F1 & _ & F3 & _ & F5 & _).
    split; [exact I1|]. split.
    { cbn [placed]. constructor; [|exact I2].
      rewrite I3 by exact Hm. apply update_lookup_eq, Hin. destruct m. left. }
    split.
    { intros id Hnot. rewrite I3 by (intros H; apply Hnot; right; exact H).
      apply update_lookup_ne. intros E. apply Hnot. rewrite <- E. left. }
    rewrite I4, I5, I6, F1, F3, F5. auto.
Qed.

Lemma placed_moved middle : forall start,
  Forall2 (fun m o' => o' = onGeom (put (key o')) m.2) middle (placed middle start).
Proof.
  induction middle as [|m rest IH]; intros start; cbn [placed]; constructor.
  - rewrite key_put. reflexivity.
  - apply IH.
Qed.

(** With a gap that is not negative, no object the loop places begins
    before the one before it ends. *)
Lemma gaps_nonneg middle : forall a start,
  key a + span a <= start -> 0 <= gap ->
  Forall (fun g => 0 <= g) (gapsOf (a :: placed middle start)).
Proof.
  induction middle as [|m rest IH]; intros a start Ha Hgap.
  - cbn [placed gapsOf]. constructor.
  - cbn [placed].
    change (gapsOf (a :: onGeom (put start) m.2
                      :: placed rest (start + (span m.2 + gap))))
      with ((key (onGeom (put start) m.2) - (key a + span a))
              :: gapsOf (onGeom (put start) m.2
                           :: placed rest (start + (span m.2 + gap)))).
    constructor; [rewrite key_put; lra|].
    apply IH; [rewrite key_put, span_put; lra | exact Hgap].
Qed.

Hypothesis put_key : forall o, onGeom (put (key o)) o = o.

(** The gap [distributeAlong] computes for a sorted list. *)
Definition gapFor (sorted : list (ObjId * Obj)) : Q :=
  match sorted with
  | [] => 0
  | first :: rest =>
      let last := List.last rest first in
      let total := fold_left (fun sum obj => sum + span obj.2) sorted 0 in
      ((key last.2 + span last.2) - key first.2 - total)
      / (inject_Z (Z.of_nat (length sorted)) - 1)
  end.

End Spread.

Arguments gapsOf key span l : clear implicits.

Section Along.
Variables key span : Obj -> Q.
Variable put : Q -> Geometry -> Geometry.
Hypothesis key_put : forall x o, key (onGeom (put x) o) = x.
Hypothesis span_put : forall x o, span (onGeom (put x) o) = span o.
Hypothesis put_key : forall o, onGeom (put (key o)) o = o.

Lemma distributeAlong_spec objs c :
  NoDup (map fst objs) ->
  (forall id o, (id, o) ∈ objs -> heap c !! id = Some o) ->
  (3 <= length objs)%nat ->
  let sorted := sortBy key objs in
  let c1 := distributeAlong key span put objs c in
  exists moved,
    Forall2 (fun x o' => heap c1 !! x.1 = Some o') sorted moved /\
    Forall2 (fun x o' => o' = onGeom (put (key o')) x.2) sorted moved /\
    head moved = head (map snd sorted) /\
    last moved = last (map snd sorted) /\
    (0 <= gapFor key span sorted ->
     Forall (fun g => 0 <= g) (gapsOf key span (removelast moved))) /\
    (forall id, id ∉ map fst objs -> heap c1 !! id = heap c !! id) /\
    objects c1 = objects c /\ activeObject c1 = activeObject c /\
    saveRequests c1 = saveRequests c.
Proof.
  intros Hnd Hin Hlen sorted c1.
  assert (Hperm : sorted ≡ₚ objs) by apply sortBy_perm.
  assert (Hlen' : length sorted = length objs) by (rewrite Hperm; reflexivity).
  assert (Hnd' : NoDup (map fst sorted)) by (rewrite Hperm; exact Hnd).
  assert (Hin' : forall id o, (id, o) ∈ sorted -> heap c !! id = Some o)
    by (intros id o Ho; apply Hin; rewrite <- Hperm; exact Ho).
  assert (Hids : forall id, id ∉ map fst objs -> id ∉ map fst sorted)
    by (intros id Hnot; rewrite Hperm; exact Hnot).
  subst c1. unfold distributeAlong. fold sorted.
  destruct sorted as [|first rest] eqn:Es; [cbn in Hlen'; lia|].
  assert (Hne : rest <> []) by (intros E; rewrite E in Hlen'; cbn in Hlen'; lia).
  destruct (exists_last Hne) as (middle & last & Er). subst rest.
  cbv zeta. rewrite removelast_last, last_last.
  set (gap := _ / _).
  assert (Egap : gapFor key span (first :: middle ++ [last]) = gap).
  { unfold gapFor. rewrite last_last. reflexivity. }
  rewrite Egap.
  set (start := key first.2 + span first.2 + gap).
  cbn [map] in Hnd'. rewrite map_app in Hnd'. cbn [map] in Hnd'.
  apply NoDup_cons in Hnd' as (Hfirst & Hnd').
  apply NoDup_app in Hnd' as (Hmid & Hlast & _).
  assert (Hfm : first.1 ∉ map fst middle)
    by (intros H; apply Hfirst, elem_of_app; left; exact H).
  assert (Hlm : last.1 ∉ map fst middle)
    by (intros H; apply (Hlast _ H); left).
  destruct (spread_spec span put gap middle c start Hmid)
    as (S1 & S2 & S3 & S4 & S5 & S6).
  { intros id o Ho. apply Hin'. right. apply elem_of_app. left. exact Ho. }
  exists (first.2 :: placed span put gap middle start ++ [last.2]).
  split.
  { constructor.
    - rewrite S3 by exact Hfm. apply Hin'. destruct first. left.
    - apply Forall2_app; [exact S2|]. constructor; [|constructor].
      rewrite S3 by exact Hlm. apply Hin'. right. apply elem_of_app. right.
      destruct last. left. }
  split.
  { constructor; [rewrite put_key; reflexivity|].
    apply Forall2_app; [apply placed_moved, key_put|].
    constructor; [rewrite put_key; reflexivity | constructor]. }
  split; [reflexivity|].
  split.
  { cbn [map]. rewrite map_app. cbn [map].
    change (first.2 :: placed span put gap middle start ++ [last.2])
      with ((first.2 :: placed span put gap middle start) ++ [last.2]).
    change (first.2 :: map snd middle ++ [last.2])
      with ((first.2 :: map snd middle) ++ [last.2]).
    rewrite !last_snoc. reflexivity. }
  split.
  { intros Hgap.
    change (first.2 :: placed span put gap middle start ++ [last.2])
      with ((first.2 :: placed span put gap middle start) ++ [last.2]).
    rewrite removelast_last.
    apply gaps_nonneg; [exact key_put | exact span_put | subst start; lra | exact Hgap]. }
  split.
  { intros id Hnot. apply S3. apply Hids in Hnot.
    intros H. apply Hnot. cbn [map]. rewrite map_app. right.
    apply elem_of_app. left. exact H. }
  auto.
Qed.

End Along.

Lemma put_left_left o : onGeom (setLeft (left (geom o))) o = o.
Proof. destruct o as [? ? ? [] ? ? ? ? ?]. reflexivity. Qed.

Lemma put_top_top o : onGeom (setTop (top (geom o))) o = o.
Proof. destruct o as [? ? ? [] ? ? ? ? ?]. reflexivity. Qed.

(** X29: distributing a selection of three or more objects keeps its two
    ends and its order.  Sorted by their left edge (by their top edge for
    the vertical direction; the selection is sorted in place), the first
    and the last object stay exactly where they are, and the objects
    between them are moved along the axis only.  When the gap the code
    computes (the space between the outer objects that the members do not
    fill, divided by the number of gaps) is not negative, none of the
    objects it moves begins before the one before it ends.  The objects
    outside the selection, the stack and the selection stay as they are,
    and one history save is requested. *)
Theorem distribute_keeps_ends_and_order direction c members :
  activeObject c = Some (activeselection members) ->
  NoDup members ->
  (3 <= length (getObjects c members))%nat ->
  let objs := getObjects c members in
  let horizontal := String.eqb direction "horizontal" in
  let key o := if horizontal then left (geom o) else top (geom o) in
  let span o := if horizontal then spanX o else spanY o in
  let put := if horizontal then setLeft else setTop in
  let sorted := sortBy key objs in
  let c' := distributeObjects direction c in
  sorted ≡ₚ objs /\ ascending key sorted /\
  (exists moved,
     Forall2 (fun x o' => heap c' !! x.1 = Some o') sorted moved /\
     Forall2 (fun x o' => o' = onGeom (put (key o')) x.2) sorted moved /\
     head moved = head (map snd sorted) /\
     last moved = last (map snd sorted) /\
     (0 <= gapFor key span sorted ->
      Forall (fun g => 0 <= g) (gapsOf key span (removelast moved)))) /\
  (forall id, id ∉ map fst objs -> heap c' !! id = heap c !! id) /\
  objects c' = objects c /\ activeObject c' = activeObject c /\
  saveRequests c' = S (saveRequests c).
Proof.
  intros Hact Hnd Hlen objs horizontal key span put sorted c'.
  split; [apply sortBy_perm|]. split; [apply sortBy_ascending|].
  assert (Hids : NoDup (map fst objs)) by (apply getObjects_ids, Hnd).
  assert (Hin : forall id o, (id, o) ∈ objs -> heap c !! id = Some o)
    by (intros id o Ho; apply (getObjects_elem c members), Ho).
  subst c'. unfold distributeObjects. rewrite Hact. fold objs.
  replace (Nat.ltb (length objs) 3) with false
    by (symmetry; apply Nat.ltb_ge; exact Hlen).
  change (heap (requestSave ?x)) with (heap x).
  change (objects (requestSave ?x)) with (objects x).
  change (activeObject (requestSave ?x)) with (activeObject x).
  change (saveRequests (requestSave ?x)) with (S (saveRequests x)).
  subst sorted key span put. fold horizontal.
  destruct horizontal.
  - destruct (distributeAlong_spec (fun o => left (geom o)) spanX setLeft
                (fun _ _ => eq_refl) (fun _ _ => eq_refl) put_left_left
                objs c Hids Hin Hlen)
      as (moved & H1 & H2 & H3 & H4 & H5 & H6 & H7 & H8 & H9).
    split; [exists moved; auto 10|].
    split; [exact H6|]. split; [exact H7|].
    split; [rewrite H8; exact Hact | rewrite H9; reflexivity].
  - destruct (distributeAlong_spec (fun o => top (geom o)) spanY setTop
                (fun _ _ => eq_refl) (fun _ _ => eq_refl) put_top_top
                objs c Hids Hin Hlen)
      as (moved & H1 & H2 & H3 & H4 & H5 & H6 & H7 & H8 & H9).
    split; [exists moved; auto 10|].
    split; [exact H6|]. split; [exact H7|].
    split; [rewrite H8; exact Hact | rewrite H9; reflexivity].
Qed.


(** X30: a single selected object is aligned to the canvas: its left or
    top edge goes to 0, its right or bottom edge to the width or height of
    the canvas, its middle to the middle of the canvas; it moves along one
    axis only, nothing else changes and one history save is requested.
    With nothing selected, or with a selection of fewer than two objects,
    aligning does nothing and requests no save; distributing does nothing
    and requests no save unless the selection has three objects or
    more. *)
Theorem align_single_and_guards alignment direction groupLeft groupTop
    canvasWidth canvasHeight c :
  let c' := alignObjects alignment groupLeft groupTop canvasWidth canvasHeight c in
  (activeObject c = None -> c' = c /\ distributeObjects direction c = c) /\
  (forall id o, activeObject c = Some (single id) -> heap c !! id = Some o ->
     distributeObjects direction c = c /\
     (alignment ∈ names ->
      exists o', heap c' !! id = Some o' /\
        edge alignment o' == canvasLine alignment canvasWidth canvasHeight /\
        movedAlong alignment o o' /\
        (forall other, other <> id -> heap c' !! other = heap c !! other) /\
        objects c' = objects c /\ activeObject c' = activeObject c /\
        saveRequests c' = S (saveRequests c))) /\
  (forall members, activeObject c = Some (activeselection members) ->
     ((length (getObjects c members) < 2)%nat -> c' = c) /\
     ((length (getObjects c members) < 3)%nat -> distributeObjects direction c = c)).
Proof.
  intros c'. subst c'. unfold alignObjects, distributeObjects.
  split; [intros ->; auto|]. split.
  - intros id o Hact Hh. rewrite Hact. split; [reflexivity|].
    intros Hname. cbv zeta.
    match goal with |- context [update id ?f c] => set (F := f) end.
    exists (F o).
    destruct (update_frame id F c) as (F1 & _ & F3 & _ & F5 & _).
    split.
    { change (heap (requestSave ?x)) with (heap x).
      apply (update_lookup_eq id F c o Hh). }
    split; [|split].
    + unfold names in Hname. apply list_elem_of_In in Hname. cbn [In] in Hname.
      destruct Hname as [<- | [<- | [<- | [<- | [<- | [<- | []]]]]]];
        subst F; cbv beta; unfold edge, canvasLine;
        cbn [String.eqb Ascii.eqb Bool.eqb];
        rewrite ?spanX_setLeft, ?spanY_setTop, ?left_setLeft, ?top_setTop; field.
    + unfold names in Hname. apply list_elem_of_In in Hname. cbn [In] in Hname.
      destruct Hname as [<- | [<- | [<- | [<- | [<- | [<- | []]]]]]]; reflexivity.
    + split.
      { intros other Hne. change (heap (requestSave ?x)) with (heap x).
        apply update_lookup_ne. congruence. }
      split; [exact F1|].
      split; [change (activeObject (requestSave ?x)) with (activeObject x);
              rewrite F3; exact Hact|].
      change (saveRequests (requestSave ?x)) with (S (saveRequests x)).
      rewrite F5. reflexivity.
  - intros members Hact. rewrite Hact. split; intros Hlen.
    + apply Nat.ltb_lt in Hlen. rewrite Hlen. reflexivity.
    + apply Nat.ltb_lt in Hlen. rewrite Hlen. reflexivity.
Qed.

(** An example: three boxes 40, 20 and 30 wide at 100, 0 and 10, all
    selected.  Distributed horizontally, the one at 10 goes to 40: the
    boxes span 0 to 140, fill 90 of it, and share the rest in two gaps of
    25. *)
Definition box (l t w h : Q) : Obj :=
  mkObj "rect" (Some "rect") None (mkGeometry l t w h 0 0 1 1 0 "left" "top")
        Drawing.commonStyle Drawing.fabricControls noBubble noLinks noListeners.

Definition shelf : Canvas :=
  mkCanvas (<[2%nat := box 10 5 30 10]>
              (<[1%nat := box 0 0 20 10]> (<[0%nat := box 100 30 40 10]> ∅)))
           3 [0%nat; 1%nat; 2%nat] (Some (activeselection [0%nat; 1%nat; 2%nat]))
           false true "default" "move" [] 0 [].

Lemma align_selection_lines_up_witness :
  exists o1' o2', heap (alignObjects "left" 50 50 1200 800 shelf) !! 0%nat = Some o1' /\
    heap (alignObjects "left" 50 50 1200 800 shelf) !! 1%nat = Some o2' /\
    left (geom o1') = left (geom o2').
Proof.
  destruct (align_selection_lines_up "left" 50 50 1200 800 shelf
              [0%nat; 1%nat; 2%nat]) as (H & Hsame & _).
  - reflexivity.
  - apply (bool_decide_unpack _). vm_compute. exact I.
  - vm_compute. lia.
  - left.
  - destruct (H 0%nat (box 100 30 40 10)) as (o1' & Ho1 & _); [left|].
    destruct (H 1%nat (box 0 0 20 10)) as (o2' & Ho2 & _); [right; left|].
    exists o1', o2'. split; [exact Ho1|]. split; [exact Ho2|].
    destruct (Hsame 0%nat (box 100 30 40 10) o1' 1%nat (box 0 0 20 10) o2')
      as (Hleft & _); [left | right; left | exact Ho1 | exact Ho2|].
    apply Hleft. reflexivity.
Defined.

Lemma distribute_keeps_ends_and_order_witness :
  sortBy (fun o => left (geom o)) (getObjects shelf [0%nat; 1%nat; 2%nat])
  ≡ₚ getObjects shelf [0%nat; 1%nat; 2%nat] /\
  heap (distributeObjects "horizontal" shelf) !! 1%nat = Some (box 0 0 20 10) /\
  heap (distributeObjects "horizontal" shelf) !! 0%nat = Some (box 100 30 40 10) /\
  saveRequests (distributeObjects "horizontal" shelf) = 1%nat.
Proof.
  destruct (distribute_keeps_ends_and_order "horizontal" shelf [0%nat; 1%nat; 2%nat])
    as (H1 & _ & _ & _ & _ & _ & H7).
  - reflexivity.
  - apply (bool_decide_unpack _). vm_compute. exact I.
  - vm_compute. lia.
  - split; [exact H1|]. split; [reflexivity|]. split; [reflexivity | exact H7].
Defined.

Example shelf_distributed :
  ToolsFacts.geomOf (distributeObjects "horizontal" shelf) 2
  = Some (mkGeometry (0 + 20 * 1 + (100 + 40 * 1 - 0 - (0 + 20 * 1 + 30 * 1 + 40 * 1))
                                   / (inject_Z 3 - 1))
                     5 30 10 0 0 1 1 0 "left" "top").
Proof. reflexivity. Qed.

End ArrangeFacts.
